(** * RefStats: the card-forecast core and the rule miner

    A shallow embedding of the numerical core of
    [probabilidade_cartoes_v2.py] (distributions, percentiles, the
    per-market calibrator, the lambda pipeline with shrinkage) and of the
    rule miner of [aprendizado_avancado.py], followed by the properties
    that the design document states about them.

    Conventions of the embedding.
    - A Python [float] is an exact rational ([Q]); rounding is not
      modelled.  A Python [int] is a [Z].
    - A Python call that may raise is a value of [Py.res]: either
      [Py.Ret v] or [Py.Raise e].
    - The functions of the [math] module and the string builtins that
      have no rational or byte-level definition are fields of the
      classes [MathModule] and [StrModule].
    - A [dict] whose iteration order is observable is an association
      list in insertion order; a [dict] used only as a map is a [gmap]. *)

From Stdlib Require Import ZArith QArith Qround Lqa Lia List String Ascii Bool.
From Stdlib Require Import Permutation Sorted.
From stdpp Require Import gmap strings pretty.
Import ListNotations.

(** ** Python builtins used by the sources *)

Module Py.

Inductive exc : Type :=
| ValueError
| OverflowError
| ZeroDivisionError
| IndexError
| KeyError.

Inductive res (A : Type) : Type :=
| Ret (a : A)
| Raise (e : exc).

Arguments Ret {A} a.
Arguments Raise {A} e.

Definition bind {A B : Type} (m : res A) (k : A -> res B) : res B :=
  match m with
  | Ret a => k a
  | Raise e => Raise e
  end.

(** [try: body / except (caught...): handler]. *)
Definition try_except {A : Type} (body : res A) (caught : exc -> bool)
    (handler : res A) : res A :=
  match body with
  | Ret a => Ret a
  | Raise e => if caught e then handler else Raise e
  end.

Fixpoint mapM {A B : Type} (f : A -> res B) (l : list A) : res (list B) :=
  match l with
  | [] => Ret []
  | x :: t =>
      bind (f x) (fun y => bind (mapM f t) (fun ys => Ret (y :: ys)))
  end.

(** Comparisons of floats. *)
Definition Qlt_bool (a b : Q) : bool := negb (Qle_bool b a).

(** [max(a, b)] and [min(a, b)] keep the first argument unless the second
    is strictly better. *)
Definition max (a b : Q) : Q := if Qlt_bool a b then b else a.
Definition min (a b : Q) : Q := if Qlt_bool b a then b else a.

(** [int(x)] truncates toward zero. *)
Definition int (x : Q) : Z := Z.quot (Qnum x) (Zpos (Qden x)).

(** [a / b] where [b] is not known to be non-zero. *)
Definition truediv (a b : Q) : res Q :=
  if Qeq_bool b 0 then Raise ZeroDivisionError else Ret (a / b)%Q.

(** The conversion of an [int] operand of a float operation: it raises
    [OverflowError] ("int too large to convert to float") when the integer
    rounds to a magnitude above the largest double, that is from
    [2^1024 - 2^970] on. *)
Definition float_of_int (n : Z) : res Q :=
  if (2 ^ 1024 - 2 ^ 970 <=? Z.abs n)%Z then Raise OverflowError
  else Ret (inject_Z n).

Definition len {A : Type} (l : list A) : Z := Z.of_nat (length l).

(** [range(n)] and [range(a, b)]. *)
Definition range (n : Z) : list Z := map Z.of_nat (seq 0 (Z.to_nat n)).
Definition range2 (a b : Z) : list Z :=
  map (fun i => (a + Z.of_nat i)%Z) (seq 0 (Z.to_nat (b - a))).

(** [sum(l)] of floats. *)
Definition sum (l : list Q) : Q := fold_left Qplus l 0%Q.

(** [sorted(l)] / [l.sort()]: the sort is stable, so its result is the one
    of the insertion sort that puts an element before the first element
    that is not smaller.  [leb a b] is [not (b < a)]. *)
Fixpoint insert_sorted {A : Type} (leb : A -> A -> bool) (x : A) (l : list A)
    : list A :=
  match l with
  | [] => [x]
  | y :: t => if leb x y then x :: y :: t else y :: insert_sorted leb x t
  end.

Definition sorted {A : Type} (leb : A -> A -> bool) (l : list A) : list A :=
  fold_right (insert_sorted leb) [] l.

(** [needle in hay] for strings. *)
Fixpoint str_in (needle hay : string) : bool :=
  String.prefix needle hay
  || match hay with
     | EmptyString => false
     | String _ t => str_in needle t
     end.

(** [sep.join(parts)]. *)
Fixpoint join (sep : string) (parts : list string) : string :=
  match parts with
  | [] => EmptyString
  | [p] => p
  | p :: t => String.append p (String.append sep (join sep t))
  end.

(** An insertion-ordered [dict]: lookup, [d[k] = v], and
    [defaultdict(list)]'s [d[k].append(x)]. *)
Section Dict.
Context {K V : Type} `{EqDecision K}.

Fixpoint dict_get (d : list (K * V)) (k : K) : option V :=
  match d with
  | [] => None
  | (k', v) :: t => if decide (k = k') then Some v else dict_get t k
  end.

Fixpoint dict_set (d : list (K * V)) (k : K) (v : V) : list (K * V) :=
  match d with
  | [] => [(k, v)]
  | (k', v') :: t =>
      if decide (k = k') then (k', v) :: t else (k', v') :: dict_set t k v
  end.

(** [dict(pairs)]. *)
Definition dict (pairs : list (K * V)) : list (K * V) :=
  fold_left (fun d kv => dict_set d (fst kv) (snd kv)) pairs [].

End Dict.

Section DefaultDict.
Context {K A : Type} `{EqDecision K}.

Fixpoint dd_append (d : list (K * list A)) (k : K) (x : A)
    : list (K * list A) :=
  match d with
  | [] => [(k, [x])]
  | (k', l) :: t =>
      if decide (k = k') then (k', l ++ [x]) :: t
      else (k', l) :: dd_append t k x
  end.

End DefaultDict.

End Py.

Notation "'do' x <- e ; k" := (Py.bind e (fun x => k))
  (at level 10, x name, e at level 100, k at level 200).
Notation "'do' ' pat <- e ; k" :=
  (Py.bind e (fun x => match x with pat => k end))
  (at level 10, pat pattern, e at level 100, k at level 200).

(** The [math] functions and the float power operator: they have no
    rational definition, and each may raise. *)
Class MathModule : Type := {
  math_exp : Q -> Py.res Q;
  math_lgamma : Q -> Py.res Q;
  float_pow : Q -> Q -> Py.res Q
}.

(** The string builtins without a byte-level definition: [str.lower]
    (Unicode case mapping) and the two conversions used in f-strings,
    [f"{x:.0f}"] and [f"{n}"]. *)
Class StrModule : Type := {
  str_lower : string -> string;
  format_0f : Q -> string;
  format_int : Z -> string
}.

(** ** probabilidade_cartoes_v2.py *)

Module Probabilidade.

Local Open Scope Q_scope.

(** *** Data classes *)

Module IntervaloConfianca.
Record t : Type := make {
  p10 : Z;
  p25 : Z;
  p50 : Z;
  p75 : Z;
  p90 : Z;
  variancia_alta : bool
}.
End IntervaloConfianca.

Module DadosArbitro.
Record t : Type := make {
  nome : string;
  pais : string;
  media_amarelos_10j : Q;
  media_amarelos_5j : Q;
  media_amarelos_1t : Q;
  media_amarelos_2t : Q;
  media_faltas_10j : Q;
  media_faltas_5j : Q;
  media_vermelhos : Q;
  perfil : string;
  n_jogos_disponiveis : Z
}.
End DadosArbitro.

Module DadosTime.
Record t : Type := make {
  nome : string;
  posicao : string;
  faltas_pro : Q;
  faltas_contra : Q;
  amarelos_pro : Q;
  amarelos_contra : Q;
  n_jogos_disponiveis : Z
}.
End DadosTime.

Module DadosBaseline.
Record t : Type := make {
  competicao : string;
  media_amarelos : Q;
  media_faltas : Q;
  eh_copa : bool
}.
End DadosBaseline.

Module DadosPartida.
Record t : Type := make {
  liga : string;
  data : string;
  horario : string;
  estadio : string;
  local : string;
  fase : string;
  time_mandante : DadosTime.t;
  time_visitante : DadosTime.t;
  arbitro : DadosArbitro.t;
  baseline : DadosBaseline.t;
  perfil_card : string
}.
End DadosPartida.

Module QualidadeDados.
Record t : Type := make {
  score_total : Q;
  completude_arbitro : Q;
  completude_times : Q;
  amostra_arbitro : Q;
  amostra_times : Q;
  recencia : Q;
  competicao_mapeada : Q;
  campos_faltantes : list string;
  avisos : list string
}.
End QualidadeDados.

Module CalculoLambda.
Record t : Type := make {
  lambda_base : Q;
  delta_arbitro : Q;
  delta_times : Q;
  ajuste_recencia : Q;
  lambda_final_raw : Q;
  peso_shrinkage : Q;
  lambda_shrunk : Q;
  razao_shrinkage : string;
  media_5j_arbitro : Q;
  media_10j_arbitro : Q;
  media_arbitro_ponderada : Q;
  amarelos_mandante : Q;
  amarelos_visitante : Q;
  soma_amarelos_times : Q;
  fator_recencia_raw : Q;
  fator_recencia_capado : Q;
  modelo_utilizado : string;
  dispersao_r : Q;
  motivo_modelo : string;
  qualidade_dados : QualidadeDados.t
}.
End CalculoLambda.

(** *** Global configuration *)

Definition DISPERSAO_POR_LIGA : list (string * Q) :=
  [ ("Brasileirão Série A", 3.0);
    ("Brasileirão Série B", 2.8);
    ("Copa do Brasil", 2.5);
    ("Série C Brasil", 2.6);
    ("Série D Brasil", 2.4);
    ("Premier League", 4.0);
    ("La Liga", 3.5);
    ("LaLiga", 3.5);
    ("Bundesliga", 4.5);
    ("Serie A", 3.2);
    ("Ligue 1", 3.8);
    ("Champions League", 3.0);
    ("Europa League", 3.0);
    ("Conference League", 2.8);
    ("Copa Libertadores", 2.3);
    ("Copa Sudamericana", 2.5);
    ("Primera División Argentina", 2.8);
    ("Primeira Liga Argentina", 2.8);
    ("Championship", 3.5);
    ("Liga Portugal", 3.2) ]%string.

Definition DISPERSAO_GLOBAL : Q := 3.0.

Definition PESOS_QUALIDADE : list (string * Q) :=
  [ ("completude_arbitro", 25);
    ("completude_times", 20);
    ("amostra_arbitro", 20);
    ("amostra_times", 15);
    ("recencia", 10);
    ("competicao_mapeada", 10) ]%string.

(** [PESOS_QUALIDADE[nome]] for one of the six names above. *)
Definition peso_qualidade (nome : string) : Q :=
  default 0 (Py.dict_get PESOS_QUALIDADE nome).

(** *** Distributions *)

Definition calcular_fatorial (n : Z) : Z :=
  if (n <=? 1)%Z then 1%Z
  else fold_left (fun resultado i => (resultado * i)%Z) (Py.range2 2 (n + 1)) 1%Z.

Section Distribuicoes.
Context {M : MathModule}.

Definition poisson_pmf (k : Z) (lambda_ : Q) : Py.res Q :=
  if Qle_bool lambda_ 0 then Py.Ret (if (k =? 0)%Z then 1.0 else 0.0)
  else if (k <? 0)%Z then Py.Ret 0.0
  else
    do e <- math_exp (- lambda_) ;
    do pw <- float_pow lambda_ (inject_Z k) ;
    do fatorial <- Py.float_of_int (calcular_fatorial k) ;
    Py.Ret ((e * pw) / fatorial).

(** [math.lgamma(k + r) - math.lgamma(r) - math.lgamma(k + 1)], the calls
    evaluated from left to right. *)
Definition log_coef_binomial (k : Z) (r : Q) : Py.res Q :=
  do lg_kr <- math_lgamma (inject_Z k + r) ;
  do lg_r <- math_lgamma r ;
  do lg_k1 <- math_lgamma (inject_Z (k + 1)) ;
  Py.Ret (lg_kr - lg_r - lg_k1).

Definition negative_binomial_pmf (k : Z) (r p : Q) : Py.res Q :=
  if Qle_bool r 0 || Qle_bool p 0 || Qle_bool 1 p || (k <? 0)%Z
  then Py.Ret 0.0
  else
    Py.try_except
      (do log_coef <- log_coef_binomial k r ;
       do coef <- math_exp log_coef ;
       do p_r <- float_pow p r ;
       do q_k <- float_pow (1 - p) (inject_Z k) ;
       let prob := coef * p_r * q_k in
       Py.Ret (Py.max 0.0 (Py.min 1.0 prob)))
      (fun e =>
         match e with
         | Py.ValueError | Py.OverflowError => true
         | _ => false
         end)
      (Py.Ret 0.0).

Definition converter_lambda_para_negbin (lambda_ r : Q) : Py.res (Q * Q) :=
  if Qle_bool lambda_ 0 then Py.Ret (r, 0.999)
  else
    do p <- Py.truediv r (r + lambda_) ;
    Py.Ret (r, Py.max 0.001 (Py.min 0.999 p)).

(** [for i in l: prob_acum += pmf(i)]. *)
Fixpoint acumular (pmf : Z -> Py.res Q) (l : list Z) (prob_acum : Q)
    : Py.res Q :=
  match l with
  | [] => Py.Ret prob_acum
  | i :: t => do x <- pmf i ; acumular pmf t (prob_acum + x)
  end.

Definition calcular_cdf (k_max : Z) (lambda_ r : Q) (usar_negbin : bool)
    : Py.res Q :=
  do prob_acum <-
    (if usar_negbin && Py.Qlt_bool 0 r then
       do '(_, p) <- converter_lambda_para_negbin lambda_ r ;
       acumular (fun i => negative_binomial_pmf i r p)
                (Py.range (k_max + 1)) 0.0
     else
       acumular (fun i => poisson_pmf i lambda_) (Py.range (k_max + 1)) 0.0) ;
  Py.Ret (Py.min 1.0 prob_acum).

(** The first [k] whose cdf reaches [p_alvo]. *)
Fixpoint primeiro_k (cdf_values : list (Z * Q)) (p_alvo : Q) : option Z :=
  match cdf_values with
  | [] => None
  | (k, cdf) :: t => if Qle_bool p_alvo cdf then Some k else primeiro_k t p_alvo
  end.

(** [cdf_values[-1][0]] raises [IndexError] on the empty list. *)
Definition encontrar_percentil (cdf_values : list (Z * Q)) (p_alvo : Q)
    : Py.res Z :=
  match primeiro_k cdf_values p_alvo with
  | Some k => Py.Ret k
  | None =>
      match List.rev cdf_values with
      | [] => Py.Raise Py.IndexError
      | (k, _) :: _ => Py.Ret k
      end
  end.

Definition calcular_percentis (lambda_ r : Q) (usar_negbin : bool)
    : Py.res IntervaloConfianca.t :=
  let max_k := (Py.int (lambda_ * 3) + 10)%Z in
  do cdf_values <-
    Py.mapM (fun k => do cdf <- calcular_cdf k lambda_ r usar_negbin ;
                      Py.Ret (k, cdf))
            (Py.range (max_k + 1)) ;
  do p10 <- encontrar_percentil cdf_values 0.10 ;
  do p25 <- encontrar_percentil cdf_values 0.25 ;
  do p50 <- encontrar_percentil cdf_values 0.50 ;
  do p75 <- encontrar_percentil cdf_values 0.75 ;
  do p90 <- encontrar_percentil cdf_values 0.90 ;
  let amplitude := (p90 - p10)%Z in
  let variancia_alta := (amplitude >? 6)%Z in
  Py.Ret (IntervaloConfianca.make p10 p25 p50 p75 p90 variancia_alta).

End Distribuicoes.

(** What CPython documents for [math.exp], [math.lgamma] and the power of
    a positive float: the call returns, or raises [OverflowError] (result
    out of range) or [ValueError] (argument out of the domain). *)
Definition erros_numericos (M : MathModule) : Prop :=
  forall e : Py.exc,
    (exists x, math_exp x = Py.Raise e)
    \/ (exists x, math_lgamma x = Py.Raise e)
    \/ (exists b x, 0 < b /\ float_pow b x = Py.Raise e) ->
    e = Py.ValueError \/ e = Py.OverflowError.

(** *** Per-market calibration *)

(** [class CalibradorIsotonico]: the fields set by [__init__]. *)
Module CalibradorIsotonico.
Record t : Type := make {
  mercado : string;
  pontos_x : list Q;
  pontos_y : list Q;
  treinado : bool;
  _mapa_calibracao : option (gmap Z Q)
}.
End CalibradorIsotonico.

Import CalibradorIsotonico (pontos_x, pontos_y, treinado, _mapa_calibracao).

(** [CalibradorIsotonico(mercado)]. *)
Definition novo_calibrador (mercado : string) : CalibradorIsotonico.t :=
  CalibradorIsotonico.make mercado [] [] false None.

Definition adicionar_ponto (self : CalibradorIsotonico.t) (p_raw : Q)
    (acertou : bool) : CalibradorIsotonico.t :=
  CalibradorIsotonico.make
    (CalibradorIsotonico.mercado self)
    (pontos_x self ++ [p_raw])
    (pontos_y self ++ [if acertou then 1.0 else 0.0])
    false
    (_mapa_calibracao self).

(** Order of the [(x, y)] tuples: [leb a b] is [not (b < a)]. *)
Definition par_leb (a b : Q * Q) : bool :=
  if Qeq_bool (fst a) (fst b) then Qle_bool (snd a) (snd b)
  else Qle_bool (fst a) (fst b).

(** [bin_idx = int(x / 5) * 5]. *)
Definition bin_de (x : Q) : Z := (Py.int (x / 5) * 5)%Z.

(** [for x, y in pares: bins[int(x / 5) * 5].append(y)] on a
    [defaultdict(list)]. *)
Definition agrupar_bins (pares : list (Q * Q)) : gmap Z (list Q) :=
  fold_left
    (fun bins xy =>
       let bin_idx := bin_de (fst xy) in
       <[bin_idx := default [] (bins !! bin_idx) ++ [snd xy]]> bins)
    pares ∅.

(** [mapa[k]] for a key that the caller took from [mapa.keys()]. *)
Definition item (mapa : gmap Z Q) (k : Z) : Q := default 0 (mapa !! k).

Definition chaves_ordenadas (mapa : gmap Z Q) : list Z :=
  Py.sorted Z.leb (map fst (map_to_list mapa)).

(** The single smoothing pass: [for i in range(1, len(chaves))], with
    [chaves] the list from [chaves[i-1]] on. *)
Fixpoint aplicar_monotonicidade (chaves : list Z) (mapa : gmap Z Q)
    : gmap Z Q :=
  match chaves with
  | k_anterior :: ((k_atual :: _) as resto) =>
      let mapa' :=
        if Py.Qlt_bool (item mapa k_atual) (item mapa k_anterior) then
          let media := (item mapa k_atual + item mapa k_anterior) / 2 in
          <[k_anterior := media]> (<[k_atual := media]> mapa)
        else mapa in
      aplicar_monotonicidade resto mapa'
  | _ => mapa
  end.

Definition treinar (self : CalibradorIsotonico.t) : CalibradorIsotonico.t :=
  if (Py.len (pontos_x self) <? 10)%Z then
    CalibradorIsotonico.make (CalibradorIsotonico.mercado self)
      (pontos_x self) (pontos_y self) true None
  else
    let pares := Py.sorted par_leb (combine (pontos_x self) (pontos_y self)) in
    let bins := agrupar_bins pares in
    let mapa : gmap Z Q :=
      (fun valores => Py.sum valores / inject_Z (Py.len valores) * 100)
        <$> bins in
    let mapa := aplicar_monotonicidade (chaves_ordenadas mapa) mapa in
    CalibradorIsotonico.make (CalibradorIsotonico.mercado self)
      (pontos_x self) (pontos_y self) true (Some mapa).

(** [for i, k in enumerate(chaves[:-1])]: linear interpolation between the
    neighbouring trained bins; [p_raw] when no pair brackets [bin_idx]. *)
Fixpoint interpolar (chaves : list Z) (mapa : gmap Z Q) (bin_idx : Z)
    (p_raw : Q) : Q :=
  match chaves with
  | k :: ((k_prox :: _) as resto) =>
      if (k <=? bin_idx)%Z && (bin_idx <? k_prox)%Z then
        let t := inject_Z (bin_idx - k) / inject_Z (k_prox - k) in
        (1 - t) * item mapa k + t * item mapa k_prox
      else interpolar resto mapa bin_idx p_raw
  | _ => p_raw
  end.

(** [calibrar] trains lazily, so it returns the calibrator with its
    result.  [chaves[0]] raises [IndexError] on an empty map. *)
Definition calibrar (self : CalibradorIsotonico.t) (p_raw : Q)
    : CalibradorIsotonico.t * Py.res Q :=
  let self := if treinado self then self else treinar self in
  match _mapa_calibracao self with
  | None => (self, Py.Ret p_raw)
  | Some mapa =>
      let bin_idx := bin_de p_raw in
      match mapa !! bin_idx with
      | Some v => (self, Py.Ret v)
      | None =>
          let chaves := chaves_ordenadas mapa in
          match chaves with
          | [] => (self, Py.Raise Py.IndexError)
          | primeira :: _ =>
              if (bin_idx <? primeira)%Z then
                (self, Py.Ret (item mapa primeira))
              else
                let ultima := List.last chaves primeira in
                if (ultima <? bin_idx)%Z then (self, Py.Ret (item mapa ultima))
                else (self, Py.Ret (interpolar chaves mapa bin_idx p_raw))
          end
      end
  end.

(** [salvar] pickles the market, the points and the map; [carregar]
    rebuilds a calibrator from them and marks it trained. *)
Definition salvar (self : CalibradorIsotonico.t)
    : string * list Q * list Q * option (gmap Z Q) :=
  (CalibradorIsotonico.mercado self, pontos_x self, pontos_y self,
   _mapa_calibracao self).

Definition carregar (dados : string * list Q * list Q * option (gmap Z Q))
    : CalibradorIsotonico.t :=
  let '(mercado, px, py, mapa) := dados in
  CalibradorIsotonico.make mercado px py true mapa.

(** [validar_probabilidades_v2.alimentar_calibradores] rewrites a pickle
    in place: it appends the new observations and, only when the list
    then holds at least 10 points, replaces the map by a recomputed one
    ([mapa_novo], left arbitrary here). *)
Definition alimentar (dados_existentes : string * list Q * list Q * option (gmap Z Q))
    (dados : list (Q * bool)) (mapa_novo : gmap Z Q)
    : string * list Q * list Q * option (gmap Z Q) :=
  let '(mercado, px, py, mapa) := dados_existentes in
  let px := px ++ map fst dados in
  let py := py ++ map (fun d : Q * bool => if snd d then 1.0 else 0.0) dados in
  let mapa := if (10 <=? Py.len px)%Z then Some mapa_novo else mapa in
  (mercado, px, py, mapa).

(** The calibrators that the class interface and the pickle files can
    produce. *)
Inductive alcancavel : CalibradorIsotonico.t -> Prop :=
| alc_novo mercado : alcancavel (novo_calibrador mercado)
| alc_adicionar self p_raw acertou :
    alcancavel self -> alcancavel (adicionar_ponto self p_raw acertou)
| alc_treinar self : alcancavel self -> alcancavel (treinar self)
| alc_calibrar self p_raw :
    alcancavel self -> alcancavel (fst (calibrar self p_raw))
| alc_carregar self : alcancavel self -> alcancavel (carregar (salvar self))
| alc_alimentar self dados mapa_novo :
    alcancavel self ->
    alcancavel (carregar (alimentar (salvar self) dados mapa_novo)).

(** *** Data quality, shrinkage and the lambda pipeline *)

Section Lambda.
Context {S : StrModule}.

Definition obter_dispersao_liga (liga : string) : Q :=
  match Py.dict_get DISPERSAO_POR_LIGA liga with
  | Some r => r
  | None =>
      let liga_lower := str_lower liga in
      match
        List.find
          (fun nome_r =>
             Py.str_in (str_lower (fst nome_r)) liga_lower
             || Py.str_in liga_lower (str_lower (fst nome_r)))
          DISPERSAO_POR_LIGA
      with
      | Some (_, r) => r
      | None => DISPERSAO_GLOBAL
      end
  end.

Definition eh_competicao_copa (liga : string) : bool :=
  let termos_copa :=
    [ "copa"; "cup"; "taça"; "taca"; "libertadores"; "sudamericana";
      "champions"; "europa league"; "conference" ]%string in
  let liga_lower := str_lower liga in
  existsb (fun termo => Py.str_in termo liga_lower) termos_copa.

Definition avaliar_qualidade_dados (partida : DadosPartida.t)
    : QualidadeDados.t :=
  let campos_faltantes : list string := [] in
  let avisos : list string := [] in
  (* 1) referee completeness *)
  let arbitro := DadosPartida.arbitro partida in
  let campos_arbitro :=
    [ (DadosArbitro.media_amarelos_10j arbitro, "Árbitro: média 10j");
      (DadosArbitro.media_amarelos_5j arbitro, "Árbitro: média 5j");
      (DadosArbitro.media_faltas_10j arbitro, "Árbitro: faltas 10j") ]%string in
  let '(pontos_arbitro, campos_faltantes) :=
    fold_left
      (fun st vc =>
         if Py.Qlt_bool 0 (fst vc) then (fst st + 33.33, snd st)
         else (fst st, snd st ++ [snd vc]))
      campos_arbitro (0, campos_faltantes) in
  let completude_arbitro := Py.min 100 pontos_arbitro in
  (* 2) team completeness *)
  let mandante := DadosPartida.time_mandante partida in
  let visitante := DadosPartida.time_visitante partida in
  let pontos_times := 0 in
  let '(pontos_times, campos_faltantes) :=
    if Py.Qlt_bool 0 (DadosTime.amarelos_pro mandante)
    then (pontos_times + 25, campos_faltantes)
    else (pontos_times,
          campos_faltantes ++ [(DadosTime.nome mandante +:+ ": amarelos")%string]) in
  let '(pontos_times, campos_faltantes) :=
    if Py.Qlt_bool 0 (DadosTime.faltas_pro mandante)
    then (pontos_times + 25, campos_faltantes)
    else (pontos_times,
          campos_faltantes ++ [(DadosTime.nome mandante +:+ ": faltas")%string]) in
  let '(pontos_times, campos_faltantes) :=
    if Py.Qlt_bool 0 (DadosTime.amarelos_pro visitante)
    then (pontos_times + 25, campos_faltantes)
    else (pontos_times,
          campos_faltantes ++ [(DadosTime.nome visitante +:+ ": amarelos")%string]) in
  let '(pontos_times, campos_faltantes) :=
    if Py.Qlt_bool 0 (DadosTime.faltas_pro visitante)
    then (pontos_times + 25, campos_faltantes)
    else (pontos_times,
          campos_faltantes ++ [(DadosTime.nome visitante +:+ ": faltas")%string]) in
  let completude_times := pontos_times in
  (* 3) referee sample *)
  let n_jogos_arb := DadosArbitro.n_jogos_disponiveis arbitro in
  let '(amostra_arbitro, avisos) :=
    if (10 <=? n_jogos_arb)%Z then (100, avisos)
    else if (5 <=? n_jogos_arb)%Z then (70, avisos)
    else if (3 <=? n_jogos_arb)%Z
    then (40, avisos ++ ["Amostra pequena do árbitro (<5 jogos)"%string])
    else (20, avisos ++ ["Amostra muito pequena do árbitro (<3 jogos)"%string]) in
  (* 4) team sample *)
  let n_jogos_times :=
    Z.min (DadosTime.n_jogos_disponiveis mandante)
          (DadosTime.n_jogos_disponiveis visitante) in
  let '(amostra_times, avisos) :=
    if (5 <=? n_jogos_times)%Z then (100, avisos)
    else if (3 <=? n_jogos_times)%Z
    then (60, avisos ++ ["Amostra pequena dos times (<5 jogos)"%string])
    else (30, avisos ++ ["Amostra muito pequena dos times (<3 jogos)"%string]) in
  (* 5) recency *)
  let '(recencia, avisos) :=
    if Py.Qlt_bool 0 (DadosArbitro.media_amarelos_5j arbitro)
       && negb (Qeq_bool (DadosArbitro.media_amarelos_5j arbitro)
                         (DadosArbitro.media_amarelos_10j arbitro))
    then (100, avisos)
    else if Py.Qlt_bool 0 (DadosArbitro.media_amarelos_5j arbitro)
    then (70, avisos)
    else (30, avisos ++ ["Dados de recência limitados"%string]) in
  (* 6) mapped competition *)
  let liga := DadosBaseline.competicao (DadosPartida.baseline partida) in
  let '(competicao_mapeada, avisos) :=
    if bool_decide (is_Some (Py.dict_get DISPERSAO_POR_LIGA liga))
    then (100, avisos)
    else if existsb
              (fun nome => Py.str_in (str_lower nome) (str_lower liga))
              (map fst DISPERSAO_POR_LIGA)
    then (70, avisos)
    else (40, avisos ++ [("Competição não mapeada: " +:+ liga)%string]) in
  let score_total :=
    completude_arbitro * peso_qualidade "completude_arbitro" / 100 +
    completude_times * peso_qualidade "completude_times" / 100 +
    amostra_arbitro * peso_qualidade "amostra_arbitro" / 100 +
    amostra_times * peso_qualidade "amostra_times" / 100 +
    recencia * peso_qualidade "recencia" / 100 +
    competicao_mapeada * peso_qualidade "competicao_mapeada" / 100 in
  QualidadeDados.make score_total completude_arbitro completude_times
    amostra_arbitro amostra_times recencia competicao_mapeada
    campos_faltantes avisos.

Definition calcular_peso_shrinkage (qualidade : QualidadeDados.t)
    (n_jogos_arbitro : Z) : Q * string :=
  let w_base := QualidadeDados.score_total qualidade / 100 in
  let fator_amostra :=
    if (10 <=? n_jogos_arbitro)%Z then 1.0
    else if (7 <=? n_jogos_arbitro)%Z then 0.9
    else if (5 <=? n_jogos_arbitro)%Z then 0.75
    else if (3 <=? n_jogos_arbitro)%Z then 0.5
    else 0.3 in
  let fator_completude :=
    (QualidadeDados.completude_arbitro qualidade
     + QualidadeDados.completude_times qualidade) / 200 in
  let w := w_base * fator_amostra * (0.5 + 0.5 * fator_completude) in
  let w := Py.max 0.3 (Py.min 0.95 w) in
  let razoes : list string := [] in
  let razoes :=
    if Py.Qlt_bool (QualidadeDados.score_total qualidade) 60
    then razoes ++ [("Qualidade baixa ("
                     +:+ format_0f (QualidadeDados.score_total qualidade)
                     +:+ "/100)")%string]
    else razoes in
  let razoes :=
    if (n_jogos_arbitro <? 5)%Z
    then razoes ++ [("Poucos jogos do árbitro ("
                     +:+ format_int n_jogos_arbitro +:+ ")")%string]
    else razoes in
  let razoes :=
    if Py.Qlt_bool (QualidadeDados.completude_arbitro qualidade) 70
    then razoes ++ ["Dados do árbitro incompletos"%string]
    else razoes in
  let razoes :=
    if Py.Qlt_bool (QualidadeDados.completude_times qualidade) 70
    then razoes ++ ["Dados dos times incompletos"%string]
    else razoes in
  let razao :=
    match razoes with
    | [] =>
        if Qle_bool 0.8 w then "Alta confiança nos dados"%string
        else "Confiança moderada nos dados"%string
    | _ => Py.join " | " razoes
    end in
  (w, razao).

(** Step 6 of [calcular_lambda]:
    [lambda_shrunk = peso_w * lambda_raw + (1 - peso_w) * lambda_base]
    followed by [max(2.0, min(10.0, lambda_shrunk))]. *)
Definition aplicar_shrinkage (peso_w lambda_raw lambda_base : Q) : Q :=
  let lambda_shrunk := peso_w * lambda_raw + (1 - peso_w) * lambda_base in
  Py.max 2.0 (Py.min 10.0 lambda_shrunk).

Definition calcular_lambda (partida : DadosPartida.t) : CalculoLambda.t :=
  let qualidade := avaliar_qualidade_dados partida in
  (* 1) league base *)
  let lambda_base :=
    DadosBaseline.media_amarelos (DadosPartida.baseline partida) in
  let lambda_base := if Qle_bool lambda_base 0 then 5.0 else lambda_base in
  (* 2) referee adjustment *)
  let media_5j := DadosArbitro.media_amarelos_5j (DadosPartida.arbitro partida) in
  let media_10j := DadosArbitro.media_amarelos_10j (DadosPartida.arbitro partida) in
  let media_5j := if Qle_bool media_5j 0 then media_10j else media_5j in
  let media_10j := if Qle_bool media_10j 0 then media_5j else media_10j in
  let '(media_5j, media_10j) :=
    if Qle_bool media_5j 0 && Qle_bool media_10j 0
    then (lambda_base, lambda_base)
    else (media_5j, media_10j) in
  let media_arbitro_ponderada := (0.6 * media_5j) + (0.4 * media_10j) in
  let delta_arbitro := 0.8 * (media_arbitro_ponderada - lambda_base) in
  (* 3) team adjustment *)
  let amarelos_mandante :=
    DadosTime.amarelos_pro (DadosPartida.time_mandante partida) in
  let amarelos_visitante :=
    DadosTime.amarelos_pro (DadosPartida.time_visitante partida) in
  let amarelos_mandante :=
    if Qle_bool amarelos_mandante 0 then lambda_base / 2
    else amarelos_mandante in
  let amarelos_visitante :=
    if Qle_bool amarelos_visitante 0 then lambda_base / 2
    else amarelos_visitante in
  let soma_amarelos_times := amarelos_mandante + amarelos_visitante in
  let delta_times := 0.6 * (soma_amarelos_times - lambda_base) in
  (* 4) capped recency; the division is guarded by [media_10j > 0] *)
  let fator_recencia_raw :=
    if Py.Qlt_bool 0 media_10j
    then 1.0 + ((media_5j - media_10j) / media_10j)
    else 1.0 in
  let fator_recencia_capado := Py.max 0.95 (Py.min 1.05 fator_recencia_raw) in
  let ajuste_recencia := lambda_base * (fator_recencia_capado - 1.0) in
  (* 5) additive raw lambda *)
  let lambda_raw := lambda_base + delta_arbitro + delta_times + ajuste_recencia in
  let lambda_raw := Py.max 2.0 (Py.min 10.0 lambda_raw) in
  (* 6) shrinkage *)
  let n_jogos := DadosArbitro.n_jogos_disponiveis (DadosPartida.arbitro partida) in
  let '(peso_w, razao_shrinkage) := calcular_peso_shrinkage qualidade n_jogos in
  let lambda_shrunk := aplicar_shrinkage peso_w lambda_raw lambda_base in
  (* 7) model and dispersion *)
  let dispersao_r :=
    obter_dispersao_liga
      (DadosBaseline.competicao (DadosPartida.baseline partida)) in
  let perfil := str_lower (DadosArbitro.perfil (DadosPartida.arbitro partida)) in
  let dispersao_r :=
    if Py.str_in "rigoroso" perfil then dispersao_r * 0.85
    else if Py.str_in "permissivo" perfil then dispersao_r * 1.1
    else dispersao_r in
  let motivos :=
    ["Negative Binomial captura melhor a sobredispersão de cartões"%string] in
  let '(dispersao_r, motivos) :=
    if eh_competicao_copa (DadosPartida.liga partida)
    then (dispersao_r * 0.9,
          motivos ++ ["Copa/Mata-mata: maior variabilidade"%string])
    else (dispersao_r, motivos) in
  let motivos :=
    if Py.Qlt_bool (QualidadeDados.score_total qualidade) 50
    then motivos ++ ["Dados limitados: incerteza aumentada"%string]
    else motivos in
  CalculoLambda.make lambda_base delta_arbitro delta_times ajuste_recencia
    lambda_raw peso_w lambda_shrunk razao_shrinkage media_5j media_10j
    media_arbitro_ponderada amarelos_mandante amarelos_visitante
    soma_amarelos_times fator_recencia_raw fator_recencia_capado
    "Negative Binomial" dispersao_r (Py.join " | " motivos) qualidade.

End Lambda.

(** *** The calibration manager *)

(** [class GerenciadorCalibracao]: one calibrator per supported market. *)
Module GerenciadorCalibracao.
Record t : Type := make {
  calibradores : gmap string CalibradorIsotonico.t;
  pasta : option string;
  mercados : list string
}.
End GerenciadorCalibracao.

Definition MERCADOS_SUPORTADOS : list string :=
  [ "Over 2.5 Cartões";
    "Over 3.5 Cartões";
    "Over 4.5 Cartões";
    "Over 5.5 Cartões";
    "Under 3.5 Cartões";
    "Under 4.5 Cartões";
    "Under 5.5 Cartões" ]%string.

(** [GerenciadorCalibracao()] without a calibration folder: nothing is
    loaded. *)
Definition novo_gerenciador : GerenciadorCalibracao.t :=
  GerenciadorCalibracao.make
    (fold_left (fun d mercado => <[mercado := novo_calibrador mercado]> d)
       MERCADOS_SUPORTADOS ∅)
    None MERCADOS_SUPORTADOS.

(** [GerenciadorCalibracao.calibrar]: the calibrator of the market may
    train lazily, so the manager is returned with the result. *)
Definition gerenciador_calibrar (self : GerenciadorCalibracao.t)
    (mercado : string) (p_raw : Q) : GerenciadorCalibracao.t * Py.res Q :=
  match GerenciadorCalibracao.calibradores self !! mercado with
  | Some calibrador =>
      let '(calibrador, resultado) := calibrar calibrador p_raw in
      (GerenciadorCalibracao.make
         (<[mercado := calibrador]> (GerenciadorCalibracao.calibradores self))
         (GerenciadorCalibracao.pasta self)
         (GerenciadorCalibracao.mercados self),
       resultado)
  | None => (self, Py.Ret p_raw)
  end.

Definition adicionar_resultado (self : GerenciadorCalibracao.t)
    (mercado : string) (p_raw : Q) (acertou : bool)
    : GerenciadorCalibracao.t :=
  match GerenciadorCalibracao.calibradores self !! mercado with
  | Some calibrador =>
      GerenciadorCalibracao.make
        (<[mercado := adicionar_ponto calibrador p_raw acertou]>
           (GerenciadorCalibracao.calibradores self))
        (GerenciadorCalibracao.pasta self)
        (GerenciadorCalibracao.mercados self)
  | None => self
  end.

Definition retreinar_todos (self : GerenciadorCalibracao.t)
    : GerenciadorCalibracao.t :=
  GerenciadorCalibracao.make
    (treinar <$> GerenciadorCalibracao.calibradores self)
    (GerenciadorCalibracao.pasta self)
    (GerenciadorCalibracao.mercados self).

(** The files of the calibration folder [self.pasta], by file name, each
    holding what [salvar] pickles; a folder that does not exist holds
    none. *)
Definition Pasta : Type :=
  gmap string (string * list Q * list Q * option (gmap Z Q)).

(** The truth value of [self.pasta]: [None] and the empty string are
    false. *)
Definition pasta_definida (self : GerenciadorCalibracao.t) : bool :=
  match GerenciadorCalibracao.pasta self with
  | Some (String _ _) => true
  | _ => false
  end.

(** [s.replace(de, "")] and [s.replace(de, para)] for one character. *)
Fixpoint remover_char (de : ascii) (s : string) : string :=
  match s with
  | EmptyString => EmptyString
  | String c t =>
      if Ascii.eqb c de then remover_char de t
      else String c (remover_char de t)
  end.

Fixpoint trocar_char (de para : ascii) (s : string) : string :=
  match s with
  | EmptyString => EmptyString
  | String c t =>
      String (if Ascii.eqb c de then para else c) (trocar_char de para t)
  end.

(** [mercado.replace(" ", "_").replace(".", "") + ".pkl"]. *)
Definition nome_arquivo (mercado : string) : string :=
  (remover_char "."%char (trocar_char " "%char "_"%char mercado) +:+ ".pkl")%string.

(** [salvar_todos]: nothing is written without a folder name; otherwise
    one pickle per calibrator of the manager.  The keys of
    [self.calibradores] are supported markets, whose file names differ, so
    the order of the writes does not show. *)
Definition salvar_todos (self : GerenciadorCalibracao.t) (arquivos : Pasta)
    : Pasta :=
  if pasta_definida self then
    map_fold
      (fun mercado calibrador arquivos =>
         <[nome_arquivo mercado := salvar calibrador]> arquivos)
      arquivos (GerenciadorCalibracao.calibradores self)
  else arquivos.

(** [carregar_todos]: each market of [self.mercados] whose pickle exists
    gets the loaded calibrator. *)
Definition carregar_todos (self : GerenciadorCalibracao.t) (arquivos : Pasta)
    : GerenciadorCalibracao.t :=
  if pasta_definida self then
    GerenciadorCalibracao.make
      (fold_left
         (fun d mercado =>
            match arquivos !! nome_arquivo mercado with
            | Some dados => <[mercado := carregar dados]> d
            | None => d
            end)
         (GerenciadorCalibracao.mercados self)
         (GerenciadorCalibracao.calibradores self))
      (GerenciadorCalibracao.pasta self)
      (GerenciadorCalibracao.mercados self)
  else self.

(** [GerenciadorCalibracao(pasta)]: [carregar_todos] makes the test
    [if pasta_calibracao] of the constructor again. *)
Definition gerenciador_da_pasta (pasta : string) (arquivos : Pasta)
    : GerenciadorCalibracao.t :=
  carregar_todos
    (GerenciadorCalibracao.make
       (GerenciadorCalibracao.calibradores novo_gerenciador)
       (Some pasta) MERCADOS_SUPORTADOS)
    arquivos.

(** The calibrators that the class alone produces: the constructor,
    [adicionar_ponto], [treinar], [calibrar] and a [salvar]/[carregar]
    round trip. *)
Inductive construido : CalibradorIsotonico.t -> Prop :=
| con_novo mercado : construido (novo_calibrador mercado)
| con_adicionar self p_raw acertou :
    construido self -> construido (adicionar_ponto self p_raw acertou)
| con_treinar self : construido self -> construido (treinar self)
| con_calibrar self p_raw :
    construido self -> construido (fst (calibrar self p_raw))
| con_carregar self : construido self -> construido (carregar (salvar self)).

(** A trained map as [treinar] builds it: not empty, the keys multiples
    of 5, the values percentages. *)
Definition mapa_valido (mapa : gmap Z Q) : Prop :=
  mapa <> ∅
  /\ forall k v, mapa !! k = Some v -> (5 | k)%Z /\ 0 <= v /\ v <= 100.

(** An outcome as [adicionar_ponto] stores it: 1.0 or 0.0. *)
Definition resultado_01 (y : Q) : Prop := 0 <= y /\ y <= 1.

(** What the grouping loop of [treinar] keeps true of [bins]: the keys are
    multiples of 5 and no list is empty. *)
Definition bins_validos (bins : gmap Z (list Q)) : Prop :=
  forall k l, bins !! k = Some l ->
              (5 | k)%Z /\ l <> [] /\ Forall resultado_01 l.

(** A manager all of whose calibrators were built through the class. *)
Definition calibradores_construidos (self : GerenciadorCalibracao.t) : Prop :=
  forall mercado calibrador,
    GerenciadorCalibracao.calibradores self !! mercado = Some calibrador ->
    construido calibrador.

(** A run of [adicionar_resultado] calls. *)
Definition adicionar_resultados (self : GerenciadorCalibracao.t)
    (resultados : list (string * Q * bool)) : GerenciadorCalibracao.t :=
  fold_left
    (fun g '(mercado, p_raw, acertou) =>
       adicionar_resultado g mercado p_raw acertou)
    resultados self.

(** *** Market probabilities and the full analysis *)

Definition THRESHOLDS_DESTAQUE : list (string * Q) :=
  [ ("Over 2.5 Cartões", 55);
    ("Over 3.5 Cartões", 55);
    ("Over 4.5 Cartões", 58);
    ("Over 5.5 Cartões", 60);
    ("Under 3.5 Cartões", 55);
    ("Under 4.5 Cartões", 55);
    ("Under 5.5 Cartões", 55) ]%string.

Module ProbabilidadeMercado.
Record t : Type := make {
  mercado : string;
  tipo : string;
  linha : Q;
  p_raw : Q;
  p_calibrado : Q;
  threshold_destaque : Q;
  eh_destaque : bool;
  bloqueio_variancia : bool;
  bloqueio_qualidade : bool
}.
End ProbabilidadeMercado.

Module ResultadoAnalise.
Record t : Type := make {
  partida : DadosPartida.t;
  calculo : CalculoLambda.t;
  intervalo : IntervaloConfianca.t;
  probabilidades : list ProbabilidadeMercado.t;
  mercados_destaque : list string;
  tendencia : string;
  cor_tendencia : string
}.
End ResultadoAnalise.

(** The [mercados] list of [calcular_probabilidades_mercados]. *)
Definition MERCADOS_LINHAS : list (string * string * Q) :=
  [ ("Over 2.5 Cartões", "over", 2.5);
    ("Over 3.5 Cartões", "over", 3.5);
    ("Over 4.5 Cartões", "over", 4.5);
    ("Over 5.5 Cartões", "over", 5.5);
    ("Under 3.5 Cartões", "under", 3.5);
    ("Under 4.5 Cartões", "under", 4.5);
    ("Under 5.5 Cartões", "under", 5.5) ]%string.

Section Mercados.
Context {M : MathModule}.

(** The body of [for mercado, tipo, linha in mercados], given the cdf and
    the calibrated probability. *)
Definition probabilidade_mercado (mercado tipo : string) (linha : Q)
    (p_raw p_calibrado : Q) (qualidade : QualidadeDados.t)
    (intervalo : IntervaloConfianca.t) : ProbabilidadeMercado.t :=
  let threshold := default 55 (Py.dict_get THRESHOLDS_DESTAQUE mercado) in
  let bloqueio_variancia :=
    Qle_bool 5.5 linha && IntervaloConfianca.variancia_alta intervalo in
  let bloqueio_qualidade :=
    Qle_bool 5.5 linha
    && Py.Qlt_bool (QualidadeDados.score_total qualidade) 60 in
  let eh_destaque :=
    Qle_bool threshold p_calibrado
    && negb bloqueio_variancia && negb bloqueio_qualidade in
  ProbabilidadeMercado.make mercado tipo linha p_raw p_calibrado threshold
    eh_destaque bloqueio_variancia bloqueio_qualidade.

(** The loop over the markets.  The manager is threaded through, since
    [gerenciador.calibrar] may train; an exception ends the loop. *)
Fixpoint probabilidades_loop (mercados : list (string * string * Q))
    (lambda_shrunk dispersao_r : Q) (qualidade : QualidadeDados.t)
    (intervalo : IntervaloConfianca.t)
    (gerenciador : option GerenciadorCalibracao.t)
    (probabilidades : list ProbabilidadeMercado.t)
    : option GerenciadorCalibracao.t * Py.res (list ProbabilidadeMercado.t) :=
  match mercados with
  | [] => (gerenciador, Py.Ret probabilidades)
  | (mercado, tipo, linha) :: resto =>
      let k_max := Py.int linha in
      match calcular_cdf k_max lambda_shrunk dispersao_r true with
      | Py.Raise e => (gerenciador, Py.Raise e)
      | Py.Ret cdf =>
          let p_raw :=
            if bool_decide (tipo = "over"%string) then (1 - cdf) * 100
            else cdf * 100 in
          let '(gerenciador, calibrado) :=
            match gerenciador with
            | Some g =>
                let '(g, v) := gerenciador_calibrar g mercado p_raw in
                (Some g, v)
            | None => (None, Py.Ret p_raw)
            end in
          match calibrado with
          | Py.Raise e => (gerenciador, Py.Raise e)
          | Py.Ret p_calibrado =>
              probabilidades_loop resto lambda_shrunk dispersao_r qualidade
                intervalo gerenciador
                (probabilidades
                 ++ [probabilidade_mercado mercado tipo linha p_raw
                       p_calibrado qualidade intervalo])
          end
      end
  end.

Definition calcular_probabilidades_mercados (lambda_shrunk dispersao_r : Q)
    (qualidade : QualidadeDados.t) (intervalo : IntervaloConfianca.t)
    (gerenciador : option GerenciadorCalibracao.t)
    : option GerenciadorCalibracao.t * Py.res (list ProbabilidadeMercado.t) :=
  probabilidades_loop MERCADOS_LINHAS lambda_shrunk dispersao_r qualidade
    intervalo gerenciador [].

Context {S : StrModule}.

Definition analisar_partida (partida : DadosPartida.t)
    (gerenciador : option GerenciadorCalibracao.t)
    : option GerenciadorCalibracao.t * Py.res ResultadoAnalise.t :=
  let calculo := calcular_lambda partida in
  match calcular_percentis (CalculoLambda.lambda_shrunk calculo)
          (CalculoLambda.dispersao_r calculo) true with
  | Py.Raise e => (gerenciador, Py.Raise e)
  | Py.Ret intervalo =>
      let '(gerenciador, probabilidades) :=
        calcular_probabilidades_mercados (CalculoLambda.lambda_shrunk calculo)
          (CalculoLambda.dispersao_r calculo)
          (CalculoLambda.qualidade_dados calculo) intervalo gerenciador in
      match probabilidades with
      | Py.Raise e => (gerenciador, Py.Raise e)
      | Py.Ret probabilidades =>
          let mercados_destaque :=
            map ProbabilidadeMercado.mercado
              (List.filter ProbabilidadeMercado.eh_destaque probabilidades) in
          let lambda_s := CalculoLambda.lambda_shrunk calculo in
          let '(tendencia, cor_tendencia) :=
            if Qle_bool 5.5 lambda_s then ("ELEVADA", "#e94560")%string
            else if Qle_bool lambda_s 3.5 then ("BAIXA", "#2ecc71")%string
            else ("MODERADA", "#f6e05e")%string in
          (gerenciador,
           Py.Ret (ResultadoAnalise.make partida calculo intervalo
                     probabilidades mercados_destaque tendencia cor_tendencia))
      end
  end.

End Mercados.

End Probabilidade.

(** ** aprendizado_avancado.py *)

Module Aprendizado.

Local Open Scope Q_scope.

(** *** Configuration *)

Definition MIN_AMOSTRAS_REGRA : Z := 8.

Definition THRESHOLD_OURO : Q := 75.0.
Definition THRESHOLD_PLATINA : Q := 85.0.
Definition THRESHOLD_DIAMANTE : Q := 90.0.

Definition MERCADOS_EXCLUIDOS_REGRAS : list string :=
  [ "Under 5.5 Cartões" ]%string.

Definition FATORES_ANALISE : list string :=
  [ "faixa_lambda";
    "perfil_arbitro";
    "tipo_competicao";
    "faixa_qualidade";
    "variancia";
    "faixa_prob";
    "tendencia_recente";
    "regiao_competicao";
    "faixa_delta_arbitro";
    "faixa_delta_times";
    "faixa_peso_shrinkage";
    "faixa_media_arb_5j";
    "faixa_amplitude";
    "completude_dados";
    "faixa_soma_times" ]%string.

(** *** Data classes *)

Module DadosPartidaAprendizado.
Record t : Type := make {
  data : string;
  time_mandante : string;
  time_visitante : string;
  competicao : string;
  lambda_shrunk : Q;
  qualidade_score : Q;
  media_arbitro_5j : Q;
  media_arbitro_10j : Q;
  intervalo_amplitude : Z;
  perfil_arbitro : string;
  modelo : string;
  delta_arbitro : Q;
  delta_times : Q;
  peso_shrinkage : Q;
  soma_cartoes_times : Q;
  completude_arbitro : Q;
  lambda_raw : Q;
  faixa_lambda : string;
  tipo_competicao : string;
  faixa_qualidade : string;
  variancia : string;
  tendencia_recente : string;
  regiao_competicao : string;
  faixa_delta_arbitro : string;
  faixa_delta_times : string;
  faixa_peso_shrinkage : string;
  faixa_media_arb_5j : string;
  faixa_amplitude : string;
  completude_dados : string;
  faixa_soma_times : string
}.
End DadosPartidaAprendizado.

Module ResultadoMercadoAprendizado.
Record t : Type := make {
  mercado : string;
  tipo : string;
  linha : Q;
  p_raw : Q;
  p_calibrado : Q;
  eh_destaque : bool;
  acertou : bool;
  cartoes_reais : Z;
  faixa_prob : string
}.
End ResultadoMercadoAprendizado.

Module RegistroAprendizado.
Record t : Type := make {
  partida : DadosPartidaAprendizado.t;
  resultado : ResultadoMercadoAprendizado.t;
  timestamp : string
}.
End RegistroAprendizado.

Module RegraDeOuro.
Record t : Type := make {
  id : Z;
  mercado : string;
  condicoes : list (string * string);
  total_amostras : Z;
  acertos : Z;
  taxa_acerto : Q;
  nivel : string;
  cor : string;
  descricao : string
}.
End RegraDeOuro.

Module BancoAprendizado.
Record t : Type := make {
  caminho : string;
  registros : list RegistroAprendizado.t;
  regras : list RegraDeOuro.t
}.
End BancoAprendizado.

(** [getattr(partida, nome, None)] for the attributes of type [str].
    [FATORES_ANALISE] names no numeric attribute, and the class has no
    attribute [faixa_prob] (it belongs to [ResultadoMercadoAprendizado]),
    so that name falls to the default [None]. *)
Definition getattr (partida : DadosPartidaAprendizado.t) (nome : string)
    : option string :=
  let campos :=
    [ ("data", DadosPartidaAprendizado.data partida);
      ("time_mandante", DadosPartidaAprendizado.time_mandante partida);
      ("time_visitante", DadosPartidaAprendizado.time_visitante partida);
      ("competicao", DadosPartidaAprendizado.competicao partida);
      ("perfil_arbitro", DadosPartidaAprendizado.perfil_arbitro partida);
      ("modelo", DadosPartidaAprendizado.modelo partida);
      ("faixa_lambda", DadosPartidaAprendizado.faixa_lambda partida);
      ("tipo_competicao", DadosPartidaAprendizado.tipo_competicao partida);
      ("faixa_qualidade", DadosPartidaAprendizado.faixa_qualidade partida);
      ("variancia", DadosPartidaAprendizado.variancia partida);
      ("tendencia_recente", DadosPartidaAprendizado.tendencia_recente partida);
      ("regiao_competicao", DadosPartidaAprendizado.regiao_competicao partida);
      ("faixa_delta_arbitro", DadosPartidaAprendizado.faixa_delta_arbitro partida);
      ("faixa_delta_times", DadosPartidaAprendizado.faixa_delta_times partida);
      ("faixa_peso_shrinkage", DadosPartidaAprendizado.faixa_peso_shrinkage partida);
      ("faixa_media_arb_5j", DadosPartidaAprendizado.faixa_media_arb_5j partida);
      ("faixa_amplitude", DadosPartidaAprendizado.faixa_amplitude partida);
      ("completude_dados", DadosPartidaAprendizado.completude_dados partida);
      ("faixa_soma_times", DadosPartidaAprendizado.faixa_soma_times partida)
    ]%string in
  Py.dict_get campos nome.

(** [RegraDeOuro.gerar_descricao]. *)
Definition mapa_nomes : list (string * string) :=
  [ ("faixa_lambda", "λ");
    ("perfil_arbitro", "Árbitro");
    ("tipo_competicao", "Tipo");
    ("faixa_qualidade", "Qualidade");
    ("variancia", "Variância");
    ("faixa_prob", "Prob");
    ("tendencia_recente", "Tendência");
    ("regiao_competicao", "Região") ]%string.

Definition gerar_descricao (self : RegraDeOuro.t) : RegraDeOuro.t :=
  let partes :=
    map (fun fv =>
           let nome := default (fst fv) (Py.dict_get mapa_nomes (fst fv)) in
           (nome +:+ "=" +:+ snd fv)%string)
        (RegraDeOuro.condicoes self) in
  RegraDeOuro.make (RegraDeOuro.id self) (RegraDeOuro.mercado self)
    (RegraDeOuro.condicoes self) (RegraDeOuro.total_amostras self)
    (RegraDeOuro.acertos self) (RegraDeOuro.taxa_acerto self)
    (RegraDeOuro.nivel self) (RegraDeOuro.cor self)
    (Py.join " + " partes).

(** *** Rule discovery *)

(** [itertools.combinations(l, n)], in its lexicographic order. *)
Fixpoint combinations {A : Type} (l : list A) (n : nat) : list (list A) :=
  match n with
  | O => [[]]
  | S n' =>
      match l with
      | [] => []
      | x :: t => map (cons x) (combinations t n') ++ combinations t n
      end
  end.

(** The inner loop of [_testar_combinacoes]: the values read so far when
    the loop ends or breaks. *)
Fixpoint extrair_valores (partida : DadosPartidaAprendizado.t)
    (fatores : list string) : list (string * string) :=
  match fatores with
  | [] => []
  | fator :: resto =>
      match getattr partida fator with
      | None => []
      | Some valor =>
          if bool_decide (valor = EmptyString)
             || bool_decide (valor = "Desconhecido"%string)
          then []
          else (fator, valor) :: extrair_valores partida resto
      end
  end.

(** [grupos]: a [defaultdict(list)] keyed by the tuple of pairs. *)
Definition agrupar (registros : list RegistroAprendizado.t)
    (fatores : list string) (n_fatores : Z)
    : list (list (string * string) * list RegistroAprendizado.t) :=
  fold_left
    (fun grupos r =>
       let valores := extrair_valores (RegistroAprendizado.partida r) fatores in
       if (Py.len valores =? n_fatores)%Z
       then Py.dd_append grupos valores r
       else grupos)
    registros [].

(** The body of [for chave, grupo in grupos.items()]: the rules appended
    for one group (none or one). *)
Definition analisar_grupo (mercado : string) (chave : list (string * string))
    (grupo : list RegistroAprendizado.t) : list RegraDeOuro.t :=
  if (Py.len grupo <? MIN_AMOSTRAS_REGRA)%Z then []
  else
    let acertos :=
      Py.len
        (List.filter
           (fun r => ResultadoMercadoAprendizado.acertou
                       (RegistroAprendizado.resultado r))
           grupo) in
    let taxa := inject_Z acertos / inject_Z (Py.len grupo) * 100 in
    if Qle_bool THRESHOLD_OURO taxa then
      let '(nivel, cor) :=
        if Qle_bool THRESHOLD_DIAMANTE taxa then ("Diamante", "#b9f2ff")%string
        else if Qle_bool THRESHOLD_PLATINA taxa then ("Platina", "#e5e4e2")%string
        else ("Ouro", "#ffd700")%string in
      [ RegraDeOuro.make 0 mercado (Py.dict chave) (Py.len grupo) acertos
          taxa nivel cor EmptyString ]
    else [].

Definition _testar_combinacoes (mercado : string)
    (registros : list RegistroAprendizado.t) (n_fatores : Z)
    : list RegraDeOuro.t :=
  flat_map
    (fun fatores =>
       flat_map (fun cg => analisar_grupo mercado (fst cg) (snd cg))
                (agrupar registros fatores n_fatores))
    (combinations FATORES_ANALISE (Z.to_nat n_fatores)).

Definition _eh_subconjunto (menor maior : list (string * string)) : bool :=
  forallb
    (fun kv =>
       match Py.dict_get maior (fst kv) with
       | None => false
       | Some v' => bool_decide (v' = snd kv)
       end)
    menor.

(** [key=lambda r: -len(r.condicoes)]. *)
Definition chave_especificidade (r : RegraDeOuro.t) : Z :=
  (- Py.len (RegraDeOuro.condicoes r))%Z.

Definition eh_redundante (regra : RegraDeOuro.t) (filtradas : list RegraDeOuro.t)
    : bool :=
  existsb
    (fun aceita =>
       _eh_subconjunto (RegraDeOuro.condicoes regra) (RegraDeOuro.condicoes aceita))
    filtradas.

(** [for regra in regras: ...] with the accumulator [filtradas]. *)
Fixpoint filtrar_loop (regras filtradas : list RegraDeOuro.t)
    : list RegraDeOuro.t :=
  match regras with
  | [] => filtradas
  | regra :: resto =>
      filtrar_loop resto
        (if eh_redundante regra filtradas then filtradas
         else filtradas ++ [regra])
  end.

Definition _filtrar_redundantes (regras : list RegraDeOuro.t)
    : list RegraDeOuro.t :=
  match regras with
  | [] => []
  | _ =>
      let regras :=
        Py.sorted
          (fun a b => (chave_especificidade a <=? chave_especificidade b)%Z)
          regras in
      filtrar_loop regras []
  end.

(** [key=lambda r: (-r.taxa_acerto, -r.total_amostras)], compared as
    tuples. *)
Definition ordem_final_leb (a b : RegraDeOuro.t) : bool :=
  if Qeq_bool (- RegraDeOuro.taxa_acerto a) (- RegraDeOuro.taxa_acerto b)
  then (- RegraDeOuro.total_amostras a <=? - RegraDeOuro.total_amostras b)%Z
  else Qle_bool (- RegraDeOuro.taxa_acerto a) (- RegraDeOuro.taxa_acerto b).

(** [for i, regra in enumerate(todas_regras, i0): regra.id = i;
    regra.gerar_descricao()]. *)
Fixpoint atribuir_ids (i : Z) (regras : list RegraDeOuro.t)
    : list RegraDeOuro.t :=
  match regras with
  | [] => []
  | regra :: resto =>
      gerar_descricao
        (RegraDeOuro.make i (RegraDeOuro.mercado regra)
           (RegraDeOuro.condicoes regra) (RegraDeOuro.total_amostras regra)
           (RegraDeOuro.acertos regra) (RegraDeOuro.taxa_acerto regra)
           (RegraDeOuro.nivel regra) (RegraDeOuro.cor regra)
           (RegraDeOuro.descricao regra))
      :: atribuir_ids (i + 1) resto
  end.

(** The rules mined for one market of [por_mercado]. *)
Definition regras_do_mercado (mercado : string)
    (registros : list RegistroAprendizado.t) : list RegraDeOuro.t :=
  if bool_decide (mercado ∈ MERCADOS_EXCLUIDOS_REGRAS) then []
  else if (Py.len registros <? MIN_AMOSTRAS_REGRA)%Z then []
  else
    let regras_mercado :=
      flat_map (fun n_fatores => _testar_combinacoes mercado registros n_fatores)
               [1; 2; 3]%Z in
    _filtrar_redundantes regras_mercado.

Definition descobrir_regras (banco : BancoAprendizado.t) : list RegraDeOuro.t :=
  let por_mercado :=
    fold_left
      (fun d r =>
         Py.dd_append d
           (ResultadoMercadoAprendizado.mercado (RegistroAprendizado.resultado r))
           r)
      (BancoAprendizado.registros banco) [] in
  let todas_regras :=
    flat_map (fun mr => regras_do_mercado (fst mr) (snd mr)) por_mercado in
  let todas_regras := Py.sorted ordem_final_leb todas_regras in
  atribuir_ids 1 todas_regras.

(** *** Derived factors, rule activation and the store *)

(** [ResultadoMercadoAprendizado.calcular_faixa_prob]. *)
Definition calcular_faixa_prob (self : ResultadoMercadoAprendizado.t)
    : ResultadoMercadoAprendizado.t :=
  let p := ResultadoMercadoAprendizado.p_calibrado self in
  let faixa_prob :=
    if Py.Qlt_bool p 55 then "<55"
    else if Py.Qlt_bool p 60 then "55-60"
    else if Py.Qlt_bool p 65 then "60-65"
    else if Py.Qlt_bool p 70 then "65-70"
    else if Py.Qlt_bool p 75 then "70-75"
    else if Py.Qlt_bool p 80 then "75-80"
    else "80+" in
  ResultadoMercadoAprendizado.make
    (ResultadoMercadoAprendizado.mercado self)
    (ResultadoMercadoAprendizado.tipo self)
    (ResultadoMercadoAprendizado.linha self)
    (ResultadoMercadoAprendizado.p_raw self)
    (ResultadoMercadoAprendizado.p_calibrado self)
    (ResultadoMercadoAprendizado.eh_destaque self)
    (ResultadoMercadoAprendizado.acertou self)
    (ResultadoMercadoAprendizado.cartoes_reais self)
    faixa_prob.

Definition criar_resultado_mercado_aprendizado (mercado tipo : string)
    (linha p_raw p_calibrado : Q) (eh_destaque acertou : bool)
    (cartoes_reais : Z) : ResultadoMercadoAprendizado.t :=
  calcular_faixa_prob
    (ResultadoMercadoAprendizado.make mercado tipo linha p_raw p_calibrado
       eh_destaque acertou cartoes_reais EmptyString).

Section FatoresDerivados.
Context {S : StrModule}.

(** [DadosPartidaAprendizado.calcular_fatores_derivados]: the raw fields
    are kept, the thirteen derived ones are recomputed. *)
Definition calcular_fatores_derivados (self : DadosPartidaAprendizado.t)
    : DadosPartidaAprendizado.t :=
  let faixa_lambda :=
    if Py.Qlt_bool (DadosPartidaAprendizado.lambda_shrunk self) 4.0
    then "Baixo"
    else if Qle_bool (DadosPartidaAprendizado.lambda_shrunk self) 5.5
    then "Médio"
    else "Alto" in
  let termos_copa :=
    [ "copa"; "cup"; "taça"; "libertadores"; "sudamericana";
      "champions"; "europa league"; "conference" ]%string in
  let comp_lower := str_lower (DadosPartidaAprendizado.competicao self) in
  let tipo_competicao :=
    if existsb (fun t => Py.str_in t comp_lower) termos_copa
    then "Copa" else "Liga" in
  let faixa_qualidade :=
    if Py.Qlt_bool (DadosPartidaAprendizado.qualidade_score self) 50
    then "Baixa"
    else if Qle_bool (DadosPartidaAprendizado.qualidade_score self) 70
    then "Média"
    else "Alta" in
  let variancia :=
    if (DadosPartidaAprendizado.intervalo_amplitude self >? 5)%Z
    then "Alta" else "Baixa" in
  let tendencia_recente :=
    if Py.Qlt_bool 0 (DadosPartidaAprendizado.media_arbitro_5j self)
       && Py.Qlt_bool 0 (DadosPartidaAprendizado.media_arbitro_10j self)
    then
      let diff := DadosPartidaAprendizado.media_arbitro_5j self
                  - DadosPartidaAprendizado.media_arbitro_10j self in
      if Py.Qlt_bool 0.5 diff then "Subindo"
      else if Py.Qlt_bool diff (-0.5) then "Descendo"
      else "Estável"
    else "Desconhecido" in
  let brasil :=
    [ "brasileirão"; "série"; "copa do brasil"; "paulista"; "carioca";
      "mineiro"; "gaúcho"; "paranaense"; "betano" ]%string in
  let europa :=
    [ "premier"; "la liga"; "laliga"; "bundesliga"; "serie a"; "ligue 1";
      "champions"; "europa league"; "eredivisie"; "primeira liga" ]%string in
  let america :=
    [ "libertadores"; "sudamericana"; "mls"; "liga mx"; "argentina";
      "copa america" ]%string in
  let regiao_competicao :=
    if existsb (fun t => Py.str_in t comp_lower) brasil then "Brasil"
    else if existsb (fun t => Py.str_in t comp_lower) europa then "Europa"
    else if existsb (fun t => Py.str_in t comp_lower) america then "América"
    else "Outro" in
  let faixa_delta_arbitro :=
    if Py.Qlt_bool (DadosPartidaAprendizado.delta_arbitro self) (-0.5)
    then "Negativo"
    else if Qle_bool (DadosPartidaAprendizado.delta_arbitro self) 0.5
    then "Neutro"
    else if Qle_bool (DadosPartidaAprendizado.delta_arbitro self) 1.0
    then "Positivo"
    else "Muito Positivo" in
  let faixa_delta_times :=
    if Py.Qlt_bool (DadosPartidaAprendizado.delta_times self) (-0.5)
    then "Negativo"
    else if Qle_bool (DadosPartidaAprendizado.delta_times self) 0.5
    then "Neutro"
    else if Qle_bool (DadosPartidaAprendizado.delta_times self) 1.0
    then "Positivo"
    else "Muito Positivo" in
  let faixa_peso_shrinkage :=
    if Py.Qlt_bool (DadosPartidaAprendizado.peso_shrinkage self) 0.5
    then "Baixo"
    else if Qle_bool (DadosPartidaAprendizado.peso_shrinkage self) 0.7
    then "Médio"
    else "Alto" in
  let faixa_media_arb_5j :=
    if Py.Qlt_bool (DadosPartidaAprendizado.media_arbitro_5j self) 4.0
    then "Baixa"
    else if Qle_bool (DadosPartidaAprendizado.media_arbitro_5j self) 5.0
    then "Média"
    else if Qle_bool (DadosPartidaAprendizado.media_arbitro_5j self) 6.0
    then "Alta"
    else "Muito Alta" in
  let faixa_amplitude :=
    if (DadosPartidaAprendizado.intervalo_amplitude self <=? 4)%Z
    then "Estreita"
    else if (DadosPartidaAprendizado.intervalo_amplitude self <=? 6)%Z
    then "Média"
    else "Larga" in
  let completude_dados :=
    if Py.Qlt_bool (DadosPartidaAprendizado.completude_arbitro self) 50
    then "Incompleto"
    else if Py.Qlt_bool (DadosPartidaAprendizado.completude_arbitro self) 80
    then "Parcial"
    else "Completo" in
  let faixa_soma_times :=
    if Py.Qlt_bool (DadosPartidaAprendizado.soma_cartoes_times self) 4.0
    then "Baixa"
    else if Qle_bool (DadosPartidaAprendizado.soma_cartoes_times self) 5.5
    then "Média"
    else "Alta" in
  DadosPartidaAprendizado.make
    (DadosPartidaAprendizado.data self)
    (DadosPartidaAprendizado.time_mandante self)
    (DadosPartidaAprendizado.time_visitante self)
    (DadosPartidaAprendizado.competicao self)
    (DadosPartidaAprendizado.lambda_shrunk self)
    (DadosPartidaAprendizado.qualidade_score self)
    (DadosPartidaAprendizado.media_arbitro_5j self)
    (DadosPartidaAprendizado.media_arbitro_10j self)
    (DadosPartidaAprendizado.intervalo_amplitude self)
    (DadosPartidaAprendizado.perfil_arbitro self)
    (DadosPartidaAprendizado.modelo self)
    (DadosPartidaAprendizado.delta_arbitro self)
    (DadosPartidaAprendizado.delta_times self)
    (DadosPartidaAprendizado.peso_shrinkage self)
    (DadosPartidaAprendizado.soma_cartoes_times self)
    (DadosPartidaAprendizado.completude_arbitro self)
    (DadosPartidaAprendizado.lambda_raw self)
    faixa_lambda tipo_competicao faixa_qualidade variancia tendencia_recente
    regiao_competicao faixa_delta_arbitro faixa_delta_times
    faixa_peso_shrinkage faixa_media_arb_5j faixa_amplitude completude_dados
    faixa_soma_times.

Definition criar_dados_partida_aprendizado (data time_mandante time_visitante
    competicao : string)
    (lambda_shrunk qualidade_score media_arbitro_5j media_arbitro_10j : Q)
    (intervalo_p10 intervalo_p90 : Z) (perfil_arbitro modelo : string)
    (delta_arbitro delta_times peso_shrinkage soma_cartoes_times
     completude_arbitro lambda_raw : Q) : DadosPartidaAprendizado.t :=
  calcular_fatores_derivados
    (DadosPartidaAprendizado.make data time_mandante time_visitante competicao
       lambda_shrunk qualidade_score media_arbitro_5j media_arbitro_10j
       (intervalo_p90 - intervalo_p10)%Z perfil_arbitro modelo
       delta_arbitro delta_times peso_shrinkage soma_cartoes_times
       completude_arbitro lambda_raw
       EmptyString EmptyString EmptyString EmptyString EmptyString
       EmptyString EmptyString EmptyString EmptyString EmptyString
       EmptyString EmptyString EmptyString).

End FatoresDerivados.

(** The condition test of [verificar_regras] for one rule: every
    [(fator, valor_esperado)] equals the live value, [faixa_prob] being
    the bucket of the live calibrated probability. *)
Definition condicoes_satisfeitas (partida : DadosPartidaAprendizado.t)
    (faixa_prob : string) (condicoes : list (string * string)) : bool :=
  forallb
    (fun fv =>
       let valor_real :=
         if bool_decide (fst fv = "faixa_prob"%string) then Some faixa_prob
         else getattr partida (fst fv) in
       bool_decide (valor_real = Some (snd fv)))
    condicoes.

(** [MotorAprendizado.verificar_regras], on the rules of the store. *)
Definition verificar_regras (banco : BancoAprendizado.t)
    (partida : DadosPartidaAprendizado.t) (mercado : string) (p_calibrado : Q)
    : list RegraDeOuro.t :=
  let faixa_prob :=
    if Py.Qlt_bool p_calibrado 55 then "<55"
    else if Py.Qlt_bool p_calibrado 60 then "55-60"
    else if Py.Qlt_bool p_calibrado 65 then "60-65"
    else if Py.Qlt_bool p_calibrado 70 then "65-70"
    else if Py.Qlt_bool p_calibrado 75 then "70-75"
    else if Py.Qlt_bool p_calibrado 80 then "75-80"
    else "80+" in
  let regras_ativadas :=
    List.filter
      (fun regra =>
         bool_decide (RegraDeOuro.mercado regra = mercado)
         && condicoes_satisfeitas partida faixa_prob
              (RegraDeOuro.condicoes regra))
      (BancoAprendizado.regras banco) in
  Py.sorted
    (fun a b => Qle_bool (- RegraDeOuro.taxa_acerto a)
                         (- RegraDeOuro.taxa_acerto b))
    regras_ativadas.

(** [BancoAprendizado]: the in-memory operations. *)
Definition adicionar_registro (self : BancoAprendizado.t)
    (registro : RegistroAprendizado.t) : BancoAprendizado.t :=
  BancoAprendizado.make (BancoAprendizado.caminho self)
    (BancoAprendizado.registros self ++ [registro])
    (BancoAprendizado.regras self).

Definition total_registros (self : BancoAprendizado.t) : Z :=
  Py.len (BancoAprendizado.registros self).

(** [contagem[k] += 1] on a [defaultdict(int)]. *)
Fixpoint dd_incrementar (d : list (string * Z)) (k : string)
    : list (string * Z) :=
  match d with
  | [] => [(k, 1%Z)]
  | (k', n) :: t =>
      if decide (k = k') then (k', (n + 1)%Z) :: t
      else (k', n) :: dd_incrementar t k
  end.

Definition total_por_mercado (self : BancoAprendizado.t)
    : list (string * Z) :=
  fold_left
    (fun contagem r =>
       dd_incrementar contagem
         (ResultadoMercadoAprendizado.mercado (RegistroAprendizado.resultado r)))
    (BancoAprendizado.registros self) [].

(** [retreinar_regras] on a loaded store: the rule list is replaced by the
    newly discovered one (the store is then saved). *)
Definition retreinar_regras (banco : BancoAprendizado.t)
    : list RegraDeOuro.t * BancoAprendizado.t :=
  let regras := descobrir_regras banco in
  (regras,
   BancoAprendizado.make (BancoAprendizado.caminho banco)
     (BancoAprendizado.registros banco) regras).

(** What [_eh_subconjunto menor maior] decides: every pair of [menor] is
    a pair of [maior]. *)
Definition contido (menor maior : list (string * string)) : Prop :=
  forall k v, In (k, v) menor -> Py.dict_get maior k = Some v.

(** The fields of a rule that [descobrir_regras] leaves as mined: all but
    [id] and [descricao]. *)
Definition mesma_regra (r r0 : RegraDeOuro.t) : Prop :=
  RegraDeOuro.mercado r = RegraDeOuro.mercado r0
  /\ RegraDeOuro.condicoes r = RegraDeOuro.condicoes r0
  /\ RegraDeOuro.total_amostras r = RegraDeOuro.total_amostras r0
  /\ RegraDeOuro.acertos r = RegraDeOuro.acertos r0
  /\ RegraDeOuro.taxa_acerto r = RegraDeOuro.taxa_acerto r0
  /\ RegraDeOuro.nivel r = RegraDeOuro.nivel r0
  /\ RegraDeOuro.cor r = RegraDeOuro.cor r0.

(** The classification of a hit rate. *)
Definition nivel_da_taxa (taxa : Q) : string :=
  if Qle_bool THRESHOLD_DIAMANTE taxa then "Diamante"
  else if Qle_bool THRESHOLD_PLATINA taxa then "Platina"
  else "Ouro".

(** The records whose snapshot stores [valor] for [fator]. *)
Definition registros_com (registros : list RegistroAprendizado.t)
    (fator valor : string) : list RegistroAprendizado.t :=
  List.filter
    (fun reg =>
       bool_decide
         (getattr (RegistroAprendizado.partida reg) fator = Some valor))
    registros.

(** Some analysed factor other than [X] has a value, neither empty nor
    ["Desconhecido"], that [MIN_AMOSTRAS_REGRA] records or more store. *)
Definition outro_fator_partilhado (registros : list RegistroAprendizado.t)
    (X : string) : Prop :=
  exists Y B,
    In Y FATORES_ANALISE /\ Y <> X
    /\ B <> EmptyString /\ B <> "Desconhecido"%string
    /\ (MIN_AMOSTRAS_REGRA <= Py.len (registros_com registros Y B))%Z.

End Aprendizado.

(** ** Concrete inputs used by the examples below *)

Module Exemplos.

Import Probabilidade.
Local Open Scope Q_scope.

(** Twelve observations in three 5-point bins: bin 0 always hits, bin 5
    hits half of the time, bin 10 never hits. *)
Definition observacoes_tres_bins : list (Q * bool) :=
  [ (2.0, true); (2.0, true); (2.0, true); (2.0, true);
    (7.0, true); (7.0, true); (7.0, false); (7.0, false);
    (12.0, false); (12.0, false); (12.0, false); (12.0, false) ].

Definition registrar (obs : list (Q * bool)) (c : CalibradorIsotonico.t)
    : CalibradorIsotonico.t :=
  fold_left (fun c xb => adicionar_ponto c (fst xb) (snd xb)) obs c.

Definition calibrador_tres_bins : CalibradorIsotonico.t :=
  registrar observacoes_tres_bins (novo_calibrador "Over 3.5 Cartões").

(** A calibrator with three observations only. *)
Definition calibrador_tres_pontos : CalibradorIsotonico.t :=
  registrar [ (62.0, true); (48.5, false); (71.0, true) ]
    (novo_calibrador "Over 4.5 Cartões").

(** A stand-in for the [math] module, to instantiate the statements that
    are generic in it: [exp] by its Taylor polynomial of degree 12, a
    power defined for integer exponents of positive bases, and an
    [lgamma] of which only the exceptions are meaningful (a pole at the
    non-positive arguments, overflow above 10^305). *)
Definition exp_taylor (x : Q) : Q :=
  fold_right (fun i acc => 1 + x * acc / inject_Z i) 1
    (Py.range2 1 13).

Definition math_exemplo : MathModule := {|
  math_exp := fun x =>
    if Py.Qlt_bool 709 x then Py.Raise Py.OverflowError
    else Py.Ret (exp_taylor x);
  math_lgamma := fun x =>
    if Qle_bool x 0 then Py.Raise Py.ValueError
    else if Py.Qlt_bool (10 ^ 305) x then Py.Raise Py.OverflowError
    else Py.Ret 0;
  float_pow := fun b x =>
    if Qle_bool b 0 then Py.Raise Py.ValueError
    else Py.Ret (b ^ Py.int x)
|}.

(** A stand-in for the string builtins: [lower] on the ASCII letters,
    [f"{n}"] in decimal, and [f"{x:.0f}"] rounding half to even. *)
Definition ascii_lower (c : ascii) : ascii :=
  let n := N_of_ascii c in
  if (65 <=? n)%N && (n <=? 90)%N then ascii_of_N (n + 32) else c.

Fixpoint lower_ascii (s : string) : string :=
  match s with
  | EmptyString => EmptyString
  | String c t => String (ascii_lower c) (lower_ascii t)
  end.

Definition arredondar_par (x : Q) : Z :=
  let f := Qfloor x in
  let d := x - inject_Z f in
  if Py.Qlt_bool d 0.5 then f
  else if Py.Qlt_bool 0.5 d then (f + 1)%Z
  else if Z.even f then f else (f + 1)%Z.

Definition str_exemplo : StrModule := {|
  str_lower := lower_ascii;
  format_0f := fun x => pretty (arredondar_par x);
  format_int := fun n => pretty n
|}.

(** The match of the end-to-end example: league baseline 5.4, referee
    averages 6.2 (5 games) and 5.0 (10 games), team averages 2.5 and 2.0. *)
Definition partida_exemplo : DadosPartida.t :=
  DadosPartida.make "Premier League" "2025-03-01" "16:00" "Anfield"
    "Liverpool" "Rodada 28"
    (DadosTime.make "Liverpool" "2" 10.5 11.0 2.5 1.9 5)
    (DadosTime.make "Everton" "14" 12.0 10.0 2.0 2.2 5)
    (DadosArbitro.make "M. Oliver" "Inglaterra" 5.0 6.2 2.4 2.6 22.0 23.5
       0.1 "Rigoroso" 10)
    (DadosBaseline.make "Premier League" 5.4 21.5 false)
    "Alto".

(** The same inputs for a referee with eight games, a home side without
    a fouls average and sides with four games: the code gives this match
    the shrinkage weight 0.7003. *)
Definition partida_peso_070 : DadosPartida.t :=
  DadosPartida.make "Premier League" "2025-03-01" "16:00" "Anfield"
    "Liverpool" "Rodada 28"
    (DadosTime.make "Liverpool" "2" 0 11.0 2.5 1.9 4)
    (DadosTime.make "Everton" "14" 12.0 10.0 2.0 2.2 5)
    (DadosArbitro.make "M. Oliver" "Inglaterra" 5.0 6.2 2.4 2.6 22.0 23.5
       0.1 "Rigoroso" 8)
    (DadosBaseline.make "Premier League" 5.4 21.5 false)
    "Alto".

(** The quality record of that match, and a narrow interval. *)
Definition qualidade_exemplo : QualidadeDados.t :=
  CalculoLambda.qualidade_dados (calcular_lambda (S := str_exemplo) partida_exemplo).

Definition intervalo_exemplo : IntervaloConfianca.t :=
  IntervaloConfianca.make 3 4 5 7 9 false.

(** The two rules of the redundancy example.  The example gives no hit
    count for the second rule (85% of 10); the filter does not read it. *)
Import Aprendizado.

Definition regra_A : RegraDeOuro.t :=
  RegraDeOuro.make 0 "Over 3.5 Cartões" [("f1", "v1")]%string
    20 16 80.0 "Ouro" "#ffd700" EmptyString.

Definition regra_B : RegraDeOuro.t :=
  RegraDeOuro.make 0 "Over 3.5 Cartões" [("f1", "v1"); ("f2", "v2")]%string
    10 8 85.0 "Platina" "#e5e4e2" EmptyString.

(** Synthetic corpora: every record has the single factor
    [perfil_arbitro = "Rigoroso"], the other factors being empty. *)
Definition partida_sintetica : DadosPartidaAprendizado.t :=
  DadosPartidaAprendizado.make "2025-03-01" "Liverpool" "Everton"
    "Premier League" 5.4 80.0 6.2 5.0 4 "Rigoroso" "Negative Binomial"
    0.0 0.0 0.5 0.0 0.0 0.0
    EmptyString EmptyString EmptyString EmptyString EmptyString
    EmptyString EmptyString EmptyString EmptyString EmptyString
    EmptyString EmptyString EmptyString.

Definition registro_sintetico (acertou : bool) : RegistroAprendizado.t :=
  RegistroAprendizado.make partida_sintetica
    (ResultadoMercadoAprendizado.make "Over 3.5 Cartões" "over" 3.5
       62.0 61.0 true acertou (if acertou then 5 else 2)%Z "60-65")
    "2025-03-02T10:00:00".

(** Ten records, eight hits. *)
Definition banco_dez : BancoAprendizado.t :=
  BancoAprendizado.make "aprendizado.pkl"
    (repeat (registro_sintetico true) 8 ++ repeat (registro_sintetico false) 2)
    [].

(** The rule that the ten-record corpus yields. *)
Definition regra_dez : RegraDeOuro.t :=
  RegraDeOuro.make 1 "Over 3.5 Cartões" [("perfil_arbitro", "Rigoroso")]%string
    10 8 (inject_Z 8 / inject_Z 10 * 100) "Ouro" "#ffd700" "Árbitro=Rigoroso".

(** Ten records, eight hits, that share two factors:
    [faixa_lambda = "Médio"] besides [perfil_arbitro = "Rigoroso"]. *)
Definition partida_dois_fatores : DadosPartidaAprendizado.t :=
  DadosPartidaAprendizado.make "2025-03-01" "Liverpool" "Everton"
    "Premier League" 5.4 80.0 6.2 5.0 4 "Rigoroso" "Negative Binomial"
    0.0 0.0 0.5 0.0 0.0 0.0
    "Médio" EmptyString EmptyString EmptyString EmptyString
    EmptyString EmptyString EmptyString EmptyString EmptyString
    EmptyString EmptyString EmptyString.

Definition registro_dois_fatores (acertou : bool) : RegistroAprendizado.t :=
  RegistroAprendizado.make partida_dois_fatores
    (ResultadoMercadoAprendizado.make "Over 3.5 Cartões" "over" 3.5
       62.0 61.0 true acertou (if acertou then 5 else 2)%Z "60-65")
    "2025-03-02T10:00:00".

Definition banco_dois_fatores : BancoAprendizado.t :=
  BancoAprendizado.make "aprendizado.pkl"
    (repeat (registro_dois_fatores true) 8
     ++ repeat (registro_dois_fatores false) 2)
    [].

(** A record of a given snapshot and market. *)
Definition registro_de (partida : DadosPartidaAprendizado.t)
    (mercado : string) (acertou : bool) : RegistroAprendizado.t :=
  RegistroAprendizado.make partida
    (ResultadoMercadoAprendizado.make mercado "over" 3.5
       62.0 61.0 true acertou (if acertou then 5 else 2)%Z "60-65")
    "2025-03-02T10:00:00".

(** Ten records, eight hits, sharing [perfil_arbitro = "Rigoroso"] alone,
    for the market that is excluded from rule mining. *)
Definition banco_mercado_excluido : BancoAprendizado.t :=
  BancoAprendizado.make "aprendizado.pkl"
    (repeat (registro_de partida_sintetica "Under 5.5 Cartões" true) 8
     ++ repeat (registro_de partida_sintetica "Under 5.5 Cartões" false) 2)
    [].

(** The same ten records, spread over two markets. *)
Definition banco_dois_mercados : BancoAprendizado.t :=
  BancoAprendizado.make "aprendizado.pkl"
    (repeat (registro_de partida_sintetica "Over 3.5 Cartões" true) 4
     ++ repeat (registro_de partida_sintetica "Over 4.5 Cartões" true) 4
     ++ [ registro_de partida_sintetica "Over 3.5 Cartões" false;
          registro_de partida_sintetica "Over 4.5 Cartões" false ])
    [].

(** Ten records, eight hits, of one market, whose only factor has the
    value ["Desconhecido"]. *)
Definition partida_arbitro_desconhecido : DadosPartidaAprendizado.t :=
  DadosPartidaAprendizado.make "2025-03-01" "Liverpool" "Everton"
    "Premier League" 5.4 80.0 6.2 5.0 4 "Desconhecido" "Negative Binomial"
    0.0 0.0 0.5 0.0 0.0 0.0
    EmptyString EmptyString EmptyString EmptyString EmptyString
    EmptyString EmptyString EmptyString EmptyString EmptyString
    EmptyString EmptyString EmptyString.

Definition banco_valor_desconhecido : BancoAprendizado.t :=
  BancoAprendizado.make "aprendizado.pkl"
    (repeat (registro_de partida_arbitro_desconhecido "Over 3.5 Cartões" true) 8
     ++ repeat (registro_de partida_arbitro_desconhecido "Over 3.5 Cartões"
                  false) 2)
    [].

(** Seven records, all hits. *)
Definition banco_sete : BancoAprendizado.t :=
  BancoAprendizado.make "aprendizado.pkl"
    (repeat (registro_sintetico true) 7) [].

(** A match for which nothing was scraped: every average is 0. *)
Definition partida_sem_dados : DadosPartida.t :=
  DadosPartida.make "Liga Desconhecida" "2025-03-01" "16:00" EmptyString
    EmptyString EmptyString
    (DadosTime.make "Mandante" EmptyString 0 0 0 0 0)
    (DadosTime.make "Visitante" EmptyString 0 0 0 0 0)
    (DadosArbitro.make "Não informado" EmptyString 0 0 0 0 0 0 0 "Médio" 10)
    (DadosBaseline.make "Liga Desconhecida" 0 0 false)
    EmptyString.

End Exemplos.

(** * Properties *)

(** ** Facts about the Python builtins *)

Section PyFacts.
Local Open Scope Q_scope.

Lemma Qlt_bool_iff (a b : Q) : Py.Qlt_bool a b = true <-> a < b.
Proof.
  unfold Py.Qlt_bool. rewrite negb_true_iff. split.
  - intros H. apply Qnot_le_lt. intros Hle.
    apply Qle_bool_iff in Hle. congruence.
  - intros H. destruct (Qle_bool b a) eqn:E; [|reflexivity].
    apply Qle_bool_iff in E. exfalso. exact (Qlt_not_le _ _ H E).
Qed.

Lemma Qlt_bool_false_iff (a b : Q) : Py.Qlt_bool a b = false <-> b <= a.
Proof.
  unfold Py.Qlt_bool. rewrite negb_false_iff. apply Qle_bool_iff.
Qed.

Lemma Qle_bool_false_iff (a b : Q) : Qle_bool a b = false <-> b < a.
Proof.
  split.
  - intros H. apply Qnot_le_lt. intros Hle.
    apply Qle_bool_iff in Hle. congruence.
  - intros H. destruct (Qle_bool a b) eqn:E; [|reflexivity].
    apply Qle_bool_iff in E. exfalso. exact (Qlt_not_le _ _ H E).
Qed.

Lemma py_min_le (hi x : Q) : Py.min hi x <= hi.
Proof.
  unfold Py.min. destruct (Py.Qlt_bool x hi) eqn:E.
  - apply Qlt_bool_iff in E. apply Qlt_le_weak. exact E.
  - apply Qle_refl.
Qed.

Lemma py_max_ge (lo x : Q) : lo <= Py.max lo x.
Proof.
  unfold Py.max. destruct (Py.Qlt_bool lo x) eqn:E.
  - apply Qlt_bool_iff in E. apply Qlt_le_weak. exact E.
  - apply Qle_refl.
Qed.

Lemma py_max_le (lo x hi : Q) : lo <= hi -> x <= hi -> Py.max lo x <= hi.
Proof.
  intros Hlo Hx. unfold Py.max. destruct (Py.Qlt_bool lo x); assumption.
Qed.

(** [max(lo, min(hi, x))] lands in [[lo, hi]] whatever [x] is. *)
Lemma py_clamp (lo hi x : Q) :
  lo <= hi -> lo <= Py.max lo (Py.min hi x) /\ Py.max lo (Py.min hi x) <= hi.
Proof.
  intros H. split.
  - apply py_max_ge.
  - apply py_max_le; [exact H | apply py_min_le].
Qed.

Lemma py_len_nonneg {A : Type} (l : list A) : (0 <= Py.len l)%Z.
Proof. unfold Py.len. lia. Qed.

End PyFacts.

(** ** The calibrator *)

Section Calibrador.
Import Probabilidade.
Import CalibradorIsotonico (pontos_x, pontos_y, treinado, _mapa_calibracao).

Lemma treinar_pontos (self : CalibradorIsotonico.t) :
  pontos_x (treinar self) = pontos_x self.
Proof.
  unfold treinar. destruct (Py.len (pontos_x self) <? 10)%Z; reflexivity.
Qed.

Lemma treinar_poucos_pontos (self : CalibradorIsotonico.t) :
  (length (pontos_x self) < 10)%nat ->
  _mapa_calibracao (treinar self) = None.
Proof.
  intros H. unfold treinar.
  destruct (Py.len (pontos_x self) <? 10)%Z eqn:E; [reflexivity|].
  apply Z.ltb_ge in E. unfold Py.len in E. lia.
Qed.

Lemma treinar_mapa_pontos (self : CalibradorIsotonico.t) (m : gmap Z Q) :
  _mapa_calibracao (treinar self) = Some m ->
  (10 <= length (pontos_x self))%nat.
Proof.
  intros H.
  destruct (Nat.lt_ge_cases (length (pontos_x self)) 10) as [Hlt|Hge];
    [|exact Hge].
  rewrite (treinar_poucos_pontos self Hlt) in H. discriminate.
Qed.

Lemma calibrar_fst (self : CalibradorIsotonico.t) (p_raw : Q) :
  fst (calibrar self p_raw) = if treinado self then self else treinar self.
Proof.
  unfold calibrar.
  destruct (_mapa_calibracao (if treinado self then self else treinar self));
    [|reflexivity].
  destruct (g !! bin_de p_raw); [reflexivity|].
  destruct (chaves_ordenadas g); [reflexivity|].
  destruct (bin_de p_raw <? z)%Z; [reflexivity|].
  destruct (List.last (z :: l) z <? bin_de p_raw)%Z; reflexivity.
Qed.

(** A map is only ever installed by a training run that saw at least ten
    observations, and observations are never removed. *)
Lemma alcancavel_mapa (self : CalibradorIsotonico.t) :
  alcancavel self ->
  forall m, _mapa_calibracao self = Some m ->
            (10 <= length (pontos_x self))%nat.
Proof.
  induction 1 as [mercado | self p_raw acertou _ IH | self _ IH
                 | self p_raw _ IH | self _ IH
                 | self dados mapa_novo _ IH]; intros m Hm.
  - discriminate.
  - simpl in *. rewrite length_app. specialize (IH m Hm). lia.
  - rewrite treinar_pontos. exact (treinar_mapa_pontos self m Hm).
  - rewrite calibrar_fst in *. destruct (treinado self).
    + exact (IH m Hm).
    + rewrite treinar_pontos. exact (treinar_mapa_pontos self m Hm).
  - simpl in *. exact (IH m Hm).
  - unfold alimentar, salvar, carregar in *. cbn [pontos_x _mapa_calibracao] in *.
    destruct (10 <=? Py.len (pontos_x self ++ map fst dados))%Z eqn:E.
    + apply Z.leb_le in E. unfold Py.len in E. lia.
    + specialize (IH m Hm). rewrite length_app. lia.
Qed.

(** C5.  A calibrator that holds fewer than ten observations returns every
    raw probability unchanged: a lazy or explicit training run below ten
    observations installs no map, and no map can be left over from an
    earlier state. *)
Theorem calibrar_identidade_abaixo_de_dez
    (self : CalibradorIsotonico.t) (p_raw : Q) :
  alcancavel self ->
  (length (pontos_x self) < 10)%nat ->
  snd (calibrar self p_raw) = Py.Ret p_raw
  /\ _mapa_calibracao (fst (calibrar self p_raw)) = None
  /\ _mapa_calibracao (treinar self) = None.
Proof.
  intros Halc Hlt.
  assert (Hnone : _mapa_calibracao
                    (if treinado self then self else treinar self) = None).
  { destruct (treinado self).
    - destruct (_mapa_calibracao self) as [m|] eqn:Em; [|reflexivity].
      pose proof (alcancavel_mapa self Halc m Em). lia.
    - apply treinar_poucos_pontos. exact Hlt. }
  split; [|split].
  - unfold calibrar. rewrite Hnone. reflexivity.
  - rewrite calibrar_fst. exact Hnone.
  - apply treinar_poucos_pontos. exact Hlt.
Qed.

Lemma alcancavel_registrar (obs : list (Q * bool)) (c : CalibradorIsotonico.t) :
  alcancavel c -> alcancavel (Exemplos.registrar obs c).
Proof.
  revert c. induction obs as [|xb obs IH]; intros c Hc; [exact Hc|].
  apply IH. apply alc_adicionar. exact Hc.
Qed.

Lemma calibrar_identidade_abaixo_de_dez_witness :
  snd (calibrar Exemplos.calibrador_tres_pontos (62.0)%Q) = Py.Ret (62.0)%Q
  /\ _mapa_calibracao (fst (calibrar Exemplos.calibrador_tres_pontos (62.0)%Q))
     = None
  /\ _mapa_calibracao (treinar Exemplos.calibrador_tres_pontos) = None.
Proof.
  apply calibrar_identidade_abaixo_de_dez.
  - apply alcancavel_registrar. apply alc_novo.
  - simpl. lia.
Defined.

(** C1.  The smoothing pass is a single left-to-right sweep, so a
    violation that it creates behind itself stays: trained on
    [Exemplos.observacoes_tres_bins] (twelve observations; raw bin means
    100, 50 and 0) the calibrator ends with 75 for bin 0 and 37.5 for
    bins 5 and 10, and bin 0 is above bin 5. *)
Theorem treinar_nao_monotono :
  exists mapa : gmap Z Q,
    _mapa_calibracao (treinar Exemplos.calibrador_tres_bins) = Some mapa
    /\ (10 <= length (pontos_x Exemplos.calibrador_tres_bins))%nat
    /\ chaves_ordenadas mapa = [0; 5; 10]%Z
    /\ (item mapa 0 == 75)%Q
    /\ (item mapa 5 == 37.5)%Q
    /\ (item mapa 10 == 37.5)%Q
    /\ (0 < 5)%Z /\ (item mapa 5 < item mapa 0)%Q.
Proof.
  eexists. split; [reflexivity|].
  split; [simpl; lia|].
  split; [vm_compute; reflexivity|].
  repeat split; vm_compute; reflexivity.
Qed.

End Calibrador.

(** ** Distributions and percentiles *)

Section Distribuicoes.
Import Probabilidade.
Local Open Scope Q_scope.

Lemma bind_ret_inv {A B : Type} (m : Py.res A) (k : A -> Py.res B) (b : B) :
  Py.bind m k = Py.Ret b -> exists a, m = Py.Ret a /\ k a = Py.Ret b.
Proof.
  destruct m as [a|e]; simpl; intros H; [|discriminate].
  exists a. split; [reflexivity | exact H].
Qed.

Lemma try_except_raise_inv {A : Type} (body handler : Py.res A)
    (caught : Py.exc -> bool) (e : Py.exc) :
  Py.try_except body caught handler = Py.Raise e ->
  (body = Py.Raise e /\ caught e = false)
  \/ (exists e', body = Py.Raise e' /\ caught e' = true
                 /\ handler = Py.Raise e).
Proof.
  destruct body as [a|e0]; simpl; [discriminate|].
  destruct (caught e0) eqn:Ec; intros H.
  - right. exists e0. repeat split; assumption.
  - left. inversion H; subst. split; [reflexivity | exact Ec].
Qed.

Lemma math_exemplo_erros : erros_numericos Exemplos.math_exemplo.
Proof.
  intros e [[x H] | [[x H] | (b & x & _ & H)]];
    cbv beta iota delta
      [math_exp math_lgamma float_pow Exemplos.math_exemplo] in H.
  - destruct (Py.Qlt_bool 709 x); inversion H; auto.
  - destruct (Qle_bool x 0); [inversion H; auto|].
    destruct (Py.Qlt_bool (10 ^ 305) x); inversion H; auto.
  - destruct (Qle_bool b 0); inversion H; auto.
Qed.

Context {M : MathModule}.

(** The guard of [negative_binomial_pmf], as a proposition. *)
Lemma guarda_negbin_iff (k : Z) (r p : Q) :
  Qle_bool r 0 || Qle_bool p 0 || Qle_bool 1 p || (k <? 0)%Z = true
  <-> r <= 0 \/ p <= 0 \/ 1 <= p \/ (k < 0)%Z.
Proof.
  rewrite !orb_true_iff, !Qle_bool_iff, Z.ltb_lt. tauto.
Qed.

Lemma negbin_so_erros_nao_numericos (k : Z) (r p : Q) (e : Py.exc) :
  negative_binomial_pmf k r p = Py.Raise e ->
  e <> Py.OverflowError /\ e <> Py.ValueError.
Proof.
  unfold negative_binomial_pmf.
  destruct (Qle_bool r 0 || Qle_bool p 0 || Qle_bool 1 p || (k <? 0)%Z);
    [discriminate|].
  intros H. apply try_except_raise_inv in H.
  destruct H as [[_ Hc] | (e' & _ & _ & Hh)]; [|discriminate].
  destruct e; try discriminate; split; discriminate.
Qed.

(** Under [erros_numericos] the function always returns, and the value is
    a probability. *)
Lemma negbin_retorna (k : Z) (r p : Q) :
  erros_numericos M ->
  exists v, negative_binomial_pmf k r p = Py.Ret v /\ 0 <= v <= 1.
Proof.
  intros HM. unfold negative_binomial_pmf.
  destruct (Qle_bool r 0 || Qle_bool p 0 || Qle_bool 1 p || (k <? 0)%Z) eqn:G.
  { exists 0.0. split; [reflexivity|]. split; unfold Qle; simpl; lia. }
  apply not_true_iff_false in G. rewrite guarda_negbin_iff in G.
  assert (Hp : 0 < p) by (apply Qnot_le_lt; tauto).
  assert (Hq : 0 < 1 - p).
  { assert (p < 1) by (apply Qnot_le_lt; tauto). lra. }
  assert (Hnum : forall e, e = Py.ValueError \/ e = Py.OverflowError ->
            exists v, Py.try_except (Py.Raise e)
              (fun e => match e with
                        | Py.ValueError | Py.OverflowError => true
                        | _ => false
                        end) (Py.Ret 0.0) = Py.Ret v /\ 0 <= v <= 1).
  { intros e [-> | ->]; exists 0.0; (split; [reflexivity|]);
      split; unfold Qle; simpl; lia. }
  unfold log_coef_binomial.
  destruct (math_lgamma (inject_Z k + r)) as [a|e] eqn:E1; simpl;
    [|apply Hnum, HM; right; left; eauto].
  destruct (math_lgamma r) as [b|e] eqn:E2; simpl;
    [|apply Hnum, HM; right; left; eauto].
  destruct (math_lgamma (inject_Z (k + 1))) as [c|e] eqn:E3; simpl;
    [|apply Hnum, HM; right; left; eauto].
  destruct (math_exp (a - b - c)) as [coef|e] eqn:E4; simpl;
    [|apply Hnum, HM; left; eauto].
  destruct (float_pow p r) as [p_r|e] eqn:E5; simpl;
    [|apply Hnum, HM; right; right; eauto].
  destruct (float_pow (1 - p) (inject_Z k)) as [q_k|e] eqn:E6; simpl;
    [|apply Hnum, HM; right; right; eauto].
  eexists. split; [reflexivity|].
  destruct (py_clamp 0.0 1.0 (coef * p_r * q_k)) as [Hlo Hhi];
    [unfold Qle; simpl; lia|].
  split.
  - apply Qle_trans with (y := 0.0); [unfold Qle; simpl; lia | exact Hlo].
  - apply Qle_trans with (y := 1.0); [exact Hhi | unfold Qle; simpl; lia].
Qed.

(** C7.  The degenerate cases of the two mass functions: Poisson with
    [lambda <= 0] is the point mass at 0; the negative binomial returns 0
    on [r <= 0], on [p] outside (0,1) and on [k < 0]; an overflow (or a
    domain error) in the log-gamma computation yields 0, and no
    [OverflowError] or [ValueError] ever leaves the function. *)
Theorem pmf_casos_degenerados :
  (forall k lambda_, lambda_ <= 0 -> k = 0%Z ->
     poisson_pmf k lambda_ = Py.Ret 1.0)
  /\ (forall k lambda_, lambda_ <= 0 -> (0 < k)%Z ->
        poisson_pmf k lambda_ = Py.Ret 0.0)
  /\ (forall k r p, r <= 0 \/ p <= 0 \/ 1 <= p \/ (k < 0)%Z ->
        negative_binomial_pmf k r p = Py.Ret 0.0)
  /\ (forall k r p e, log_coef_binomial k r = Py.Raise e ->
        e = Py.OverflowError \/ e = Py.ValueError ->
        negative_binomial_pmf k r p = Py.Ret 0.0)
  /\ (forall k r p e, negative_binomial_pmf k r p = Py.Raise e ->
        e <> Py.OverflowError /\ e <> Py.ValueError).
Proof.
  split; [|split; [|split; [|split]]].
  - intros k lambda_ Hl ->. unfold poisson_pmf.
    apply Qle_bool_iff in Hl. rewrite Hl. reflexivity.
  - intros k lambda_ Hl Hk. unfold poisson_pmf.
    apply Qle_bool_iff in Hl. rewrite Hl.
    destruct (k =? 0)%Z eqn:E; [apply Z.eqb_eq in E; lia | reflexivity].
  - intros k r p H. unfold negative_binomial_pmf.
    apply guarda_negbin_iff in H. rewrite H. reflexivity.
  - intros k r p e He Hnum. unfold negative_binomial_pmf.
    destruct (Qle_bool r 0 || Qle_bool p 0 || Qle_bool 1 p || (k <? 0)%Z);
      [reflexivity|].
    rewrite He. simpl. destruct Hnum as [-> | ->]; reflexivity.
  - intros k r p e H. exact (negbin_so_erros_nao_numericos k r p e H).
Qed.

End Distribuicoes.

Lemma pmf_casos_degenerados_witness :
  Probabilidade.poisson_pmf (M := Exemplos.math_exemplo) 0 (-1) = Py.Ret 1.0%Q
  /\ Probabilidade.poisson_pmf (M := Exemplos.math_exemplo) 3 0 = Py.Ret 0.0%Q
  /\ Probabilidade.negative_binomial_pmf (M := Exemplos.math_exemplo)
       2 3.0 1.5 = Py.Ret 0.0%Q
  /\ Probabilidade.negative_binomial_pmf (M := Exemplos.math_exemplo)
       2 (10 ^ 306) 0.5 = Py.Ret 0.0%Q.
Proof.
  destruct (pmf_casos_degenerados (M := Exemplos.math_exemplo))
    as (H1 & H2 & H3 & H4 & _).
  split; [|split; [|split]].
  - apply H1; [unfold Qle; simpl; lia | reflexivity].
  - apply H2; [unfold Qle; simpl; lia | lia].
  - apply H3. right. right. left. unfold Qle; simpl; lia.
  - apply (H4 _ _ _ Py.OverflowError); [vm_compute; reflexivity | left; reflexivity].
Defined.

Section Percentis.
Import Probabilidade.
Local Open Scope Q_scope.
Context {M : MathModule}.

Lemma range_crescente (s n : nat) :
  StronglySorted Z.le (map Z.of_nat (seq s n)).
Proof.
  revert s. induction n as [|n IH]; intros s; simpl.
  - constructor.
  - constructor; [apply IH|].
    apply List.Forall_forall. intros z Hz.
    apply in_map_iff in Hz. destruct Hz as (i & <- & Hi).
    apply in_seq in Hi. lia.
Qed.

(** The scan keeps the [k] of every entry, in order. *)
Lemma mapM_chaves (f : Z -> Py.res Q) (l : list Z) (vs : list (Z * Q)) :
  Py.mapM (fun k => do cdf <- f k ; Py.Ret (k, cdf)) l = Py.Ret vs ->
  map fst vs = l.
Proof.
  revert vs. induction l as [|k l IH]; intros vs H; simpl in H.
  - inversion H. reflexivity.
  - destruct (f k) as [c|e]; simpl in H; [|discriminate].
    destruct (Py.mapM (fun k => do cdf <- f k ; Py.Ret (k, cdf)) l)
      as [ys|e]; simpl in H; [|discriminate].
    inversion H; subst. simpl. f_equal. apply IH. reflexivity.
Qed.

Lemma mapM_retorna (f : Z -> Py.res Q) (l : list Z) :
  (forall k, exists c, f k = Py.Ret c) ->
  exists vs, Py.mapM (fun k => do cdf <- f k ; Py.Ret (k, cdf)) l = Py.Ret vs.
Proof.
  intros Hf. induction l as [|k l [ys IH]]; simpl.
  - eexists. reflexivity.
  - destruct (Hf k) as [c ->]. simpl. rewrite IH. simpl.
    eexists. reflexivity.
Qed.

Lemma primeiro_k_chave (l : list (Z * Q)) (p : Q) (a : Z) :
  primeiro_k l p = Some a -> In a (map fst l).
Proof.
  induction l as [|[k c] l IH]; simpl; [discriminate|].
  destruct (Qle_bool p c).
  - intros H. inversion H. left. reflexivity.
  - intros H. right. apply IH. exact H.
Qed.

(** A lower target is reached no later than a higher one. *)
Lemma primeiro_k_mono (l : list (Z * Q)) (p q : Q) (b : Z) :
  StronglySorted Z.le (map fst l) -> p <= q ->
  primeiro_k l q = Some b ->
  exists a, primeiro_k l p = Some a /\ (a <= b)%Z.
Proof.
  intros Hs Hpq. induction l as [|[k c] l IH]; simpl; [discriminate|].
  simpl in Hs. inversion Hs as [|? ? Hs' Hall]; subst.
  destruct (Qle_bool q c) eqn:Eq.
  - intros H. inversion H; subst.
    apply Qle_bool_iff in Eq.
    assert (Ep : Qle_bool p c = true)
      by (apply Qle_bool_iff; apply Qle_trans with (y := q); assumption).
    rewrite Ep. exists b. split; [reflexivity | lia].
  - intros H. destruct (Qle_bool p c).
    + exists k. split; [reflexivity|].
      apply primeiro_k_chave in H.
      rewrite List.Forall_forall in Hall. apply Hall. exact H.
    + apply IH; assumption.
Qed.

Lemma ultima_chave_maxima (l : list (Z * Q)) (k : Z) (c : Q)
    (t : list (Z * Q)) (a : Z) :
  StronglySorted Z.le (map fst l) -> List.rev l = (k, c) :: t ->
  In a (map fst l) -> (a <= k)%Z.
Proof.
  intros Hs Hrev Ha.
  assert (Hl : l = List.rev t ++ [(k, c)]).
  { rewrite <- (rev_involutive l), Hrev. reflexivity. }
  subst l. rewrite map_app in Hs, Ha. simpl in Hs, Ha.
  apply in_app_or in Ha. destruct Ha as [Ha | [<- | []]]; [|lia].
  clear Hrev. induction (map fst (List.rev t)) as [|x xs IH]; [destruct Ha|].
  simpl in Hs. inversion Hs as [|? ? Hs' Hall]; subst.
  destruct Ha as [<- | Ha].
  - rewrite List.Forall_forall in Hall. apply Hall.
    apply in_or_app. right. left. reflexivity.
  - apply IH; assumption.
Qed.

Lemma encontrar_percentil_mono (l : list (Z * Q)) (p q : Q) (a b : Z) :
  StronglySorted Z.le (map fst l) -> p <= q ->
  encontrar_percentil l p = Py.Ret a ->
  encontrar_percentil l q = Py.Ret b ->
  (a <= b)%Z.
Proof.
  intros Hs Hpq Ha Hb. unfold encontrar_percentil in *.
  destruct (primeiro_k l q) as [b'|] eqn:Eq.
  - inversion Hb; subst b'.
    destruct (primeiro_k_mono l p q b Hs Hpq Eq) as (a' & Ea & Hle).
    rewrite Ea in Ha. inversion Ha; subst. exact Hle.
  - destruct (List.rev l) as [|[k c] t] eqn:Er; [discriminate|].
    inversion Hb; subst k.
    destruct (primeiro_k l p) as [a'|] eqn:Ep.
    + inversion Ha; subst a'.
      apply (ultima_chave_maxima l b c t a Hs Er).
      apply (primeiro_k_chave l p a Ep).
    + inversion Ha. lia.
Qed.

Lemma encontrar_percentil_retorna (l : list (Z * Q)) (p : Q) :
  l <> [] -> exists a, encontrar_percentil l p = Py.Ret a.
Proof.
  intros Hl. unfold encontrar_percentil.
  destruct (primeiro_k l p); [eexists; reflexivity|].
  destruct (List.rev l) as [|[k c] t] eqn:Er; [|eexists; reflexivity].
  exfalso. apply Hl. rewrite <- (rev_involutive l), Er. reflexivity.
Qed.

Lemma acumular_retorna (pmf : Z -> Py.res Q) (l : list Z) (acc : Q) :
  (forall i, exists v, pmf i = Py.Ret v) ->
  exists v, acumular pmf l acc = Py.Ret v.
Proof.
  intros Hf. revert acc. induction l as [|i l IH]; intros acc; simpl.
  - eexists. reflexivity.
  - destruct (Hf i) as [v ->]. simpl. apply IH.
Qed.

(** On the production path ([usar_negbin] set, [r > 0]) the cdf always
    returns. *)
Lemma calcular_cdf_retorna (k_max : Z) (lambda_ r : Q) :
  erros_numericos M -> 0 < r ->
  exists v, calcular_cdf k_max lambda_ r true = Py.Ret v.
Proof.
  intros HM Hr. unfold calcular_cdf.
  assert (Er : Py.Qlt_bool 0 r = true) by (apply Qlt_bool_iff; exact Hr).
  rewrite Er. simpl.
  assert (Hconv : exists p, converter_lambda_para_negbin lambda_ r
                            = Py.Ret (r, p)).
  { unfold converter_lambda_para_negbin.
    destruct (Qle_bool lambda_ 0) eqn:El; [eexists; reflexivity|].
    apply Qle_bool_false_iff in El.
    unfold Py.truediv.
    destruct (Qeq_bool (r + lambda_) 0) eqn:E0.
    - apply Qeq_bool_iff in E0. lra.
    - simpl. eexists. reflexivity. }
  destruct Hconv as [p ->]. simpl.
  destruct (acumular_retorna (fun i => negative_binomial_pmf i r p)
              (Py.range (k_max + 1)) 0.0) as [v ->].
  - intros i. destruct (negbin_retorna i r p HM) as (v & Hv & _).
    exists v. exact Hv.
  - simpl. eexists. reflexivity.
Qed.

(** C6.  Whenever [calcular_percentis] returns an interval, its
    percentiles are ordered and the flag says exactly whether
    [p90 - p10 > 6]; and on the production path with a scan bound that is
    not negative it does return one. *)
Theorem percentis_ordenados :
  (forall lambda_ r usar_negbin ic,
     calcular_percentis lambda_ r usar_negbin = Py.Ret ic ->
     (IntervaloConfianca.p10 ic <= IntervaloConfianca.p25 ic)%Z
     /\ (IntervaloConfianca.p25 ic <= IntervaloConfianca.p50 ic)%Z
     /\ (IntervaloConfianca.p50 ic <= IntervaloConfianca.p75 ic)%Z
     /\ (IntervaloConfianca.p75 ic <= IntervaloConfianca.p90 ic)%Z
     /\ (IntervaloConfianca.variancia_alta ic = true
         <-> (IntervaloConfianca.p90 ic - IntervaloConfianca.p10 ic > 6)%Z))
  /\ (erros_numericos M ->
      forall lambda_ r,
        0 < r -> (0 <= Py.int (lambda_ * 3) + 10)%Z ->
        exists ic, calcular_percentis lambda_ r true = Py.Ret ic).
Proof.
  split.
  - intros lambda_ r usar_negbin ic H. unfold calcular_percentis in H.
    apply bind_ret_inv in H. destruct H as (vs & Hvs & H).
    apply bind_ret_inv in H. destruct H as (a10 & H10 & H).
    apply bind_ret_inv in H. destruct H as (a25 & H25 & H).
    apply bind_ret_inv in H. destruct H as (a50 & H50 & H).
    apply bind_ret_inv in H. destruct H as (a75 & H75 & H).
    apply bind_ret_inv in H. destruct H as (a90 & H90 & H).
    inversion H; subst ic; clear H. simpl.
    assert (Hs : StronglySorted Z.le (map fst vs)).
    { rewrite (mapM_chaves _ _ _ Hvs). apply range_crescente. }
    split; [|split; [|split; [|split]]].
    + apply (encontrar_percentil_mono vs 0.10 0.25); auto.
      unfold Qle; simpl; lia.
    + apply (encontrar_percentil_mono vs 0.25 0.50); auto.
      unfold Qle; simpl; lia.
    + apply (encontrar_percentil_mono vs 0.50 0.75); auto.
      unfold Qle; simpl; lia.
    + apply (encontrar_percentil_mono vs 0.75 0.90); auto.
      unfold Qle; simpl; lia.
    + rewrite Z.gtb_gt. lia.
  - intros HM lambda_ r Hr Hk. unfold calcular_percentis.
    destruct (mapM_retorna (fun k => calcular_cdf k lambda_ r true)
                (Py.range (Py.int (lambda_ * 3) + 10 + 1))) as [vs Hvs].
    { intros k. apply calcular_cdf_retorna; assumption. }
    rewrite Hvs. simpl.
    assert (Hne : vs <> []).
    { intros ->. apply mapM_chaves in Hvs. simpl in Hvs.
      unfold Py.range in Hvs.
      assert (Hlen : length (map Z.of_nat
                (seq 0 (Z.to_nat (Py.int (lambda_ * 3) + 10 + 1)))) = 0%nat)
        by (rewrite <- Hvs; reflexivity).
      rewrite length_map, length_seq in Hlen. lia. }
    destruct (encontrar_percentil_retorna vs 0.10 Hne) as [a10 ->].
    destruct (encontrar_percentil_retorna vs 0.25 Hne) as [a25 ->].
    destruct (encontrar_percentil_retorna vs 0.50 Hne) as [a50 ->].
    destruct (encontrar_percentil_retorna vs 0.75 Hne) as [a75 ->].
    destruct (encontrar_percentil_retorna vs 0.90 Hne) as [a90 ->].
    simpl. eexists. reflexivity.
Qed.

(** Below [lambda = -11/3] the scan list is empty and the percentile
    lookup raises. *)
Lemma calcular_percentis_lambda_negativo :
  calcular_percentis (-4) 3.0 true = Py.Raise Py.IndexError.
Proof. reflexivity. Qed.

End Percentis.

Lemma percentis_ordenados_witness :
  exists ic,
    Probabilidade.calcular_percentis (M := Exemplos.math_exemplo) 5.4 3.0 true
    = Py.Ret ic
    /\ (Probabilidade.IntervaloConfianca.p10 ic
        <= Probabilidade.IntervaloConfianca.p50 ic)%Z
    /\ (Probabilidade.IntervaloConfianca.p50 ic
        <= Probabilidade.IntervaloConfianca.p90 ic)%Z.
Proof.
  destruct (percentis_ordenados (M := Exemplos.math_exemplo)) as [Hord Hret].
  destruct (Hret math_exemplo_erros 5.4%Q 3.0%Q) as [ic Hic].
  - unfold Qlt; simpl; lia.
  - vm_compute. discriminate.
  - exists ic. split; [exact Hic|].
    destruct (Hord _ _ _ _ Hic) as (H1 & H2 & H3 & H4 & _). lia.
Defined.

(** ** Shrinkage and the lambda pipeline *)

Section Lambda.
Import Probabilidade.
Local Open Scope Q_scope.
Context {S : StrModule}.

Lemma py_min_segundo (hi x : Q) : x < hi -> Py.min hi x = x.
Proof.
  intros H. unfold Py.min. apply Qlt_bool_iff in H. rewrite H. reflexivity.
Qed.

Lemma py_min_primeiro (hi x : Q) : hi <= x -> Py.min hi x = hi.
Proof.
  intros H. unfold Py.min. apply Qlt_bool_false_iff in H. rewrite H.
  reflexivity.
Qed.

Lemma py_max_segundo (lo x : Q) : lo < x -> Py.max lo x = x.
Proof.
  intros H. unfold Py.max. apply Qlt_bool_iff in H. rewrite H. reflexivity.
Qed.

Lemma calcular_peso_shrinkage_limites (qualidade : QualidadeDados.t) (n : Z) :
  0.3 <= fst (calcular_peso_shrinkage qualidade n)
  /\ fst (calcular_peso_shrinkage qualidade n) <= 0.95.
Proof.
  cbv beta zeta iota delta [calcular_peso_shrinkage fst].
  apply py_clamp. unfold Qle; simpl; lia.
Qed.

Lemma aplicar_shrinkage_limites (w lambda_raw lambda_base : Q) :
  2 <= aplicar_shrinkage w lambda_raw lambda_base
  /\ aplicar_shrinkage w lambda_raw lambda_base <= 10.
Proof.
  unfold aplicar_shrinkage.
  destruct (py_clamp 2.0 10.0
              (w * lambda_raw + (1 - w) * lambda_base)) as [Hlo Hhi];
    [unfold Qle; simpl; lia|].
  split.
  - apply Qle_trans with (y := 2.0); [unfold Qle; simpl; lia | exact Hlo].
  - apply Qle_trans with (y := 10.0); [exact Hhi | unfold Qle; simpl; lia].
Qed.

(** Opens the tuple assignments of [calcular_lambda]. *)
Ltac abrir_tuplas :=
  repeat match goal with
    | |- context [match (if ?c then _ else _) with pair _ _ => _ end] =>
        destruct c
    | |- context [match ?x with pair _ _ => _ end] => destruct x eqn:?
    end.

(** The weight and the shrunk lambda stored in the result are the ones of
    steps 6 of the pipeline. *)
Lemma calcular_lambda_shrinkage (partida : DadosPartida.t) :
  let c := calcular_lambda partida in
  CalculoLambda.peso_shrinkage c
  = fst (calcular_peso_shrinkage (CalculoLambda.qualidade_dados c)
           (DadosArbitro.n_jogos_disponiveis (DadosPartida.arbitro partida)))
  /\ CalculoLambda.lambda_shrunk c
     = aplicar_shrinkage (CalculoLambda.peso_shrinkage c)
         (CalculoLambda.lambda_final_raw c) (CalculoLambda.lambda_base c).
Proof.
  cbv zeta. unfold calcular_lambda. cbv zeta.
  abrir_tuplas;
    cbn [CalculoLambda.peso_shrinkage CalculoLambda.lambda_shrunk
         CalculoLambda.qualidade_dados CalculoLambda.lambda_base
         CalculoLambda.lambda_final_raw];
    repeat match goal with
      | H : calcular_peso_shrinkage _ _ = (_, _) |- _ => rewrite H; clear H
      end;
    split; reflexivity.
Qed.

(** C4.  The shrinkage weight lies in [[0.3, 0.95]] and the shrunk lambda
    in [[2, 10]], for every quality record and every match. *)
Theorem shrinkage_limites :
  (forall qualidade n_jogos_arbitro,
     0.3 <= fst (calcular_peso_shrinkage qualidade n_jogos_arbitro)
     /\ fst (calcular_peso_shrinkage qualidade n_jogos_arbitro) <= 0.95)
  /\ (forall partida,
        0.3 <= CalculoLambda.peso_shrinkage (calcular_lambda partida)
        /\ CalculoLambda.peso_shrinkage (calcular_lambda partida) <= 0.95
        /\ 2 <= CalculoLambda.lambda_shrunk (calcular_lambda partida)
        /\ CalculoLambda.lambda_shrunk (calcular_lambda partida) <= 10).
Proof.
  split.
  - apply calcular_peso_shrinkage_limites.
  - intros partida.
    destruct (calcular_lambda_shrinkage partida) as [Hw Hl].
    rewrite Hl, Hw.
    destruct (calcular_peso_shrinkage_limites
                (CalculoLambda.qualidade_dados (calcular_lambda partida))
                (DadosArbitro.n_jogos_disponiveis
                   (DadosPartida.arbitro partida))) as [H1 H2].
    destruct (aplicar_shrinkage_limites
                (fst (calcular_peso_shrinkage
                        (CalculoLambda.qualidade_dados (calcular_lambda partida))
                        (DadosArbitro.n_jogos_disponiveis
                           (DadosPartida.arbitro partida))))
                (CalculoLambda.lambda_final_raw (calcular_lambda partida))
                (CalculoLambda.lambda_base (calcular_lambda partida)))
      as [H3 H4].
    repeat split; assumption.
Qed.

(** With the league baseline and both referee averages present
    (positive), the stored fields are the formulas of steps 1 to 5 on the
    inputs themselves. *)
Lemma calcular_lambda_campos (partida : DadosPartida.t) :
  let base := DadosBaseline.media_amarelos (DadosPartida.baseline partida) in
  let m5 := DadosArbitro.media_amarelos_5j (DadosPartida.arbitro partida) in
  let m10 := DadosArbitro.media_amarelos_10j (DadosPartida.arbitro partida) in
  let c := calcular_lambda partida in
  let soma := CalculoLambda.soma_amarelos_times c in
  0 < base -> 0 < m5 -> 0 < m10 ->
  CalculoLambda.lambda_base c = base
  /\ CalculoLambda.media_arbitro_ponderada c = 0.6 * m5 + 0.4 * m10
  /\ CalculoLambda.delta_arbitro c = 0.8 * (0.6 * m5 + 0.4 * m10 - base)
  /\ CalculoLambda.delta_times c = 0.6 * (soma - base)
  /\ CalculoLambda.fator_recencia_raw c = 1.0 + (m5 - m10) / m10
  /\ CalculoLambda.fator_recencia_capado c
     = Py.max 0.95 (Py.min 1.05 (1.0 + (m5 - m10) / m10))
  /\ CalculoLambda.ajuste_recencia c
     = base * (Py.max 0.95 (Py.min 1.05 (1.0 + (m5 - m10) / m10)) - 1.0)
  /\ CalculoLambda.lambda_final_raw c
     = Py.max 2.0
         (Py.min 10.0
            (base + 0.8 * (0.6 * m5 + 0.4 * m10 - base)
             + 0.6 * (soma - base)
             + base * (Py.max 0.95 (Py.min 1.05 (1.0 + (m5 - m10) / m10))
                       - 1.0))).
Proof.
  intros base m5 m10 c soma Hb H5 H10.
  assert (Hq : Py.Qlt_bool 0 m10 = true) by (apply Qlt_bool_iff; exact H10).
  apply Qle_bool_false_iff in Hb, H5, H10.
  subst soma c base m5 m10. unfold calcular_lambda. cbv zeta.
  rewrite ?Hb, ?H5, ?H10. cbn [andb].
  rewrite ?Hq.
  abrir_tuplas; repeat split; reflexivity.
Qed.

(** C9.  On the inputs of the end-to-end example the pipeline stores
    5.72, 0.256, -0.54, 1.24 capped to 1.05, 0.27 and
    [lambda_raw = 5.386]; the shrunk lambda is the blend of 5.386 and 5.4
    by the weight of the match, so a weight that prints as 0.70 gives 5.39
    to two decimals; and step 6 with the weight 0.7 itself gives
    [0.7 * 5.386 + 0.3 * 5.4], which is 5.39 to two decimals. *)
Theorem lambda_ponta_a_ponta (partida : DadosPartida.t) :
  let c := calcular_lambda partida in
  let w := CalculoLambda.peso_shrinkage c in
  DadosBaseline.media_amarelos (DadosPartida.baseline partida) == 5.4 ->
  DadosArbitro.media_amarelos_5j (DadosPartida.arbitro partida) == 6.2 ->
  DadosArbitro.media_amarelos_10j (DadosPartida.arbitro partida) == 5.0 ->
  CalculoLambda.soma_amarelos_times c == 4.5 ->
  CalculoLambda.lambda_base c == 5.4
  /\ CalculoLambda.media_arbitro_ponderada c == 5.72
  /\ CalculoLambda.delta_arbitro c == 0.256
  /\ CalculoLambda.delta_times c == 0.6 * (4.5 - 5.4)
  /\ CalculoLambda.delta_times c == -0.54
  /\ CalculoLambda.fator_recencia_raw c == 1.24
  /\ CalculoLambda.fator_recencia_capado c == 1.05
  /\ CalculoLambda.ajuste_recencia c == 0.27
  /\ CalculoLambda.lambda_final_raw c == 5.386
  /\ CalculoLambda.lambda_shrunk c == w * 5.386 + (1 - w) * 5.4
  /\ (0.695 <= w -> w < 0.705 ->
      5.385 <= CalculoLambda.lambda_shrunk c
      /\ CalculoLambda.lambda_shrunk c < 5.395)
  /\ aplicar_shrinkage 0.7 (CalculoLambda.lambda_final_raw c)
       (CalculoLambda.lambda_base c)
     == 0.7 * 5.386 + 0.3 * 5.4
  /\ 5.385 <= aplicar_shrinkage 0.7 (CalculoLambda.lambda_final_raw c)
                (CalculoLambda.lambda_base c)
  /\ aplicar_shrinkage 0.7 (CalculoLambda.lambda_final_raw c)
       (CalculoLambda.lambda_base c) < 5.395.
Proof.
  intros c w Hb H5 H10 Hsoma.
  destruct (calcular_lambda_campos partida)
    as (E1 & E2 & E3 & E4 & E5 & E6 & E7 & E8); try lra.
  fold c in E1, E2, E3, E4, E5, E6, E7, E8.
  destruct (calcular_lambda_shrinkage partida) as [Ew Es].
  fold c in Ew, Es. fold w in Ew, Es.
  assert (Hw : 0.3 <= w /\ w <= 0.95)
    by (rewrite Ew; apply calcular_peso_shrinkage_limites).
  clearbody w. clear Ew.
  set (base := DadosBaseline.media_amarelos (DadosPartida.baseline partida)) in *.
  set (m5 := DadosArbitro.media_amarelos_5j (DadosPartida.arbitro partida)) in *.
  set (m10 := DadosArbitro.media_amarelos_10j (DadosPartida.arbitro partida)) in *.
  set (soma := CalculoLambda.soma_amarelos_times c) in *.
  assert (Hraw : 1.0 + (m5 - m10) / m10 == 1.24).
  { rewrite H5, H10. vm_compute. reflexivity. }
  set (fraw := 1.0 + (m5 - m10) / m10) in *.
  assert (Hcap : Py.max 0.95 (Py.min 1.05 fraw) = 1.05).
  { rewrite py_min_primeiro by lra. reflexivity. }
  rewrite Hcap in E6, E7, E8.
  set (total := base + 0.8 * (0.6 * m5 + 0.4 * m10 - base)
                + 0.6 * (soma - base) + base * (1.05 - 1.0)) in *.
  assert (Htotal : total == 5.386) by (subst total; lra).
  assert (Hraw_final : CalculoLambda.lambda_final_raw c = total).
  { rewrite E8. rewrite py_min_segundo by lra. apply py_max_segundo. lra. }
  assert (Hshrunk : aplicar_shrinkage 0.7 (CalculoLambda.lambda_final_raw c)
                      (CalculoLambda.lambda_base c)
                    = 0.7 * total + (1 - 0.7) * base).
  { unfold aplicar_shrinkage. cbv zeta. rewrite Hraw_final, E1.
    rewrite py_min_segundo by lra. apply py_max_segundo. lra. }
  assert (Hblend : w * total + (1 - w) * base == w * 5.386 + (1 - w) * 5.4).
  { rewrite Htotal, Hb. reflexivity. }
  assert (Hcode : CalculoLambda.lambda_shrunk c
                  = w * total + (1 - w) * base).
  { rewrite Es. unfold aplicar_shrinkage. cbv zeta. rewrite Hraw_final, E1.
    destruct Hw as [Hw1 Hw2].
    rewrite py_min_segundo by (rewrite Hblend; lra).
    apply py_max_segundo. rewrite Hblend. lra. }
  rewrite Hshrunk, Hcode, Hraw_final, E1, E2, E3, E4, E5, E6, E7.
  split; [lra|]. split; [lra|]. split; [lra|]. split; [lra|].
  split; [lra|]. split; [lra|]. split; [lra|]. split; [lra|].
  split; [lra|]. split; [exact Hblend|].
  split; [intros H1 H2; rewrite Hblend; split; lra|].
  repeat split; lra.
Qed.

End Lambda.

Lemma lambda_ponta_a_ponta_witness :
  let c := Probabilidade.calcular_lambda (S := Exemplos.str_exemplo)
             Exemplos.partida_peso_070 in
  (Probabilidade.CalculoLambda.lambda_final_raw c == 5.386)%Q
  /\ (0.695 <= Probabilidade.CalculoLambda.peso_shrinkage c)%Q
  /\ (Probabilidade.CalculoLambda.peso_shrinkage c < 0.705)%Q
  /\ (5.385 <= Probabilidade.CalculoLambda.lambda_shrunk c)%Q
  /\ (Probabilidade.CalculoLambda.lambda_shrunk c < 5.395)%Q.
Proof.
  intros c.
  assert (H := lambda_ponta_a_ponta (S := Exemplos.str_exemplo)
                 Exemplos.partida_peso_070).
  cbv zeta in H. fold c in H.
  assert (H1 : (0.695 <= Probabilidade.CalculoLambda.peso_shrinkage c)%Q)
    by (vm_compute; discriminate).
  assert (H2 : (Probabilidade.CalculoLambda.peso_shrinkage c < 0.705)%Q)
    by (vm_compute; reflexivity).
  destruct H as (_ & _ & _ & _ & _ & _ & _ & _ & Hraw & _ & Hs & _);
    try (vm_compute; reflexivity).
  destruct (Hs H1 H2) as [H3 H4].
  repeat split; assumption.
Defined.

(** ** The stable sort *)

Section Ordenacao.
Context {A : Type} (leb : A -> A -> bool).

Lemma insert_sorted_perm (x : A) (l : list A) :
  Permutation (x :: l) (Py.insert_sorted leb x l).
Proof.
  induction l as [|y t IH]; simpl.
  - apply Permutation_refl.
  - destruct (leb x y).
    + apply Permutation_refl.
    + apply perm_trans with (l' := y :: x :: t).
      * apply perm_swap.
      * apply perm_skip. exact IH.
Qed.

Lemma sorted_perm (l : list A) : Permutation l (Py.sorted leb l).
Proof.
  induction l as [|x t IH]; simpl.
  - apply perm_nil.
  - apply perm_trans with (l' := x :: Py.sorted leb t).
    + apply perm_skip. exact IH.
    + apply insert_sorted_perm.
Qed.

Lemma sorted_In (x : A) (l : list A) : In x (Py.sorted leb l) <-> In x l.
Proof.
  split; apply Permutation_in.
  - apply Permutation_sym. apply sorted_perm.
  - apply sorted_perm.
Qed.

Hypothesis leb_total : forall a b, leb a b = true \/ leb b a = true.

Lemma insert_sorted_ordenada (x : A) (l : list A) :
  Sorted (fun a b => leb a b = true) l ->
  Sorted (fun a b => leb a b = true) (Py.insert_sorted leb x l).
Proof.
  induction l as [|y t IH]; intros Hs; simpl.
  - constructor; constructor.
  - destruct (leb x y) eqn:E.
    + constructor; [exact Hs|]. constructor. exact E.
    + inversion Hs as [|? ? Hs' Hhd]; subst.
      constructor; [apply IH; exact Hs'|].
      destruct t as [|z t']; simpl.
      * constructor. destruct (leb_total x y); congruence.
      * destruct (leb x z).
        -- constructor. destruct (leb_total x y); congruence.
        -- inversion Hhd; subst. constructor. assumption.
Qed.

Lemma sorted_ordenada (l : list A) :
  Sorted (fun a b => leb a b = true) (Py.sorted leb l).
Proof using leb_total.
  induction l as [|x t IH]; simpl.
  - constructor.
  - apply insert_sorted_ordenada. exact IH.
Qed.

End Ordenacao.

(** ** Redundancy elimination *)

Section Redundancia.
Import Aprendizado.

Lemma _eh_subconjunto_contido (menor maior : list (string * string)) :
  _eh_subconjunto menor maior = true <-> contido menor maior.
Proof.
  unfold _eh_subconjunto, contido. rewrite forallb_forall. split.
  - intros H k v Hin. specialize (H (k, v) Hin). simpl in H.
    destruct (Py.dict_get maior k) as [v'|]; [|discriminate].
    apply bool_decide_eq_true_1 in H. congruence.
  - intros H [k v] Hin. simpl. rewrite (H k v Hin).
    apply bool_decide_eq_true_2. reflexivity.
Qed.

Lemma eh_redundante_iff (regra : RegraDeOuro.t) (filtradas : list RegraDeOuro.t) :
  eh_redundante regra filtradas = true
  <-> exists aceita, In aceita filtradas
                     /\ contido (RegraDeOuro.condicoes regra)
                                (RegraDeOuro.condicoes aceita).
Proof.
  unfold eh_redundante. rewrite existsb_exists.
  split; intros (aceita & Hin & H); exists aceita; split; try assumption;
    apply _eh_subconjunto_contido; exact H.
Qed.

Lemma filtrar_loop_app (l1 l2 acc : list RegraDeOuro.t) :
  filtrar_loop (l1 ++ l2) acc = filtrar_loop l2 (filtrar_loop l1 acc).
Proof.
  revert acc. induction l1 as [|r l1 IH]; intros acc; simpl.
  - reflexivity.
  - apply IH.
Qed.

(** Accepted rules are never removed. *)
Lemma filtrar_loop_prefixo (l acc : list RegraDeOuro.t) :
  exists resto, filtrar_loop l acc = acc ++ resto.
Proof.
  revert acc. induction l as [|r l IH]; intros acc; simpl.
  - exists []. rewrite app_nil_r. reflexivity.
  - destruct (eh_redundante r acc).
    + apply IH.
    + destruct (IH (acc ++ [r])) as [resto ->].
      exists (r :: resto). rewrite <- app_assoc. reflexivity.
Qed.

Lemma filtrar_loop_In (r : RegraDeOuro.t) (l acc : list RegraDeOuro.t) :
  In r (filtrar_loop l acc) -> In r acc \/ In r l.
Proof.
  revert acc. induction l as [|x l IH]; intros acc H; simpl in H.
  - left. exact H.
  - apply IH in H. destruct H as [H | H]; [|right; right; exact H].
    destruct (eh_redundante x acc); [left; exact H|].
    apply in_app_or in H. destruct H as [H | [<- | []]].
    + left. exact H.
    + right. left. reflexivity.
Qed.

Lemma _filtrar_redundantes_ordenadas (regras : list RegraDeOuro.t) :
  _filtrar_redundantes regras
  = filtrar_loop
      (Py.sorted
         (fun a b => (chave_especificidade a <=? chave_especificidade b)%Z)
         regras) [].
Proof. destruct regras; reflexivity. Qed.

Lemma _filtrar_redundantes_In (r : RegraDeOuro.t) (regras : list RegraDeOuro.t) :
  In r (_filtrar_redundantes regras) -> In r regras.
Proof.
  rewrite _filtrar_redundantes_ordenadas. intros H.
  apply filtrar_loop_In in H. destruct H as [[] | H].
  apply sorted_In in H. exact H.
Qed.

Lemma ordenadas_por_especificidade (regras : list RegraDeOuro.t) :
  Sorted
    (fun a b => (Py.len (RegraDeOuro.condicoes b)
                 <= Py.len (RegraDeOuro.condicoes a))%Z)
    (Py.sorted
       (fun a b => (chave_especificidade a <=? chave_especificidade b)%Z)
       regras).
Proof.
  assert (Hs := sorted_ordenada
                  (fun a b => (chave_especificidade a
                               <=? chave_especificidade b)%Z)
                  (fun a b => ltac:(
                     destruct (Z.le_ge_cases (chave_especificidade a)
                                 (chave_especificidade b));
                     [left | right]; apply Z.leb_le; lia))
                  regras).
  induction Hs as [|x l Hs IH Hhd]; constructor.
  - exact IH.
  - destruct Hhd as [|y l' Hxy]; constructor.
    apply Z.leb_le in Hxy. unfold chave_especificidade in Hxy. lia.
Qed.

Lemma filtrar_loop_sublista (l acc : list RegraDeOuro.t) :
  exists resto, filtrar_loop l acc = acc ++ resto /\ sublist resto l.
Proof.
  revert acc. induction l as [|r l IH]; intros acc; simpl.
  - exists []. rewrite app_nil_r. split; [reflexivity | constructor].
  - destruct (eh_redundante r acc).
    + destruct (IH acc) as (resto & -> & Hs).
      exists resto. split; [reflexivity|]. apply sublist_cons. exact Hs.
    + destruct (IH (acc ++ [r])) as (resto & -> & Hs).
      exists (r :: resto). rewrite <- app_assoc.
      split; [reflexivity|]. apply sublist_skip. exact Hs.
Qed.

Lemma sublist_In (l1 l2 : list RegraDeOuro.t) (r : RegraDeOuro.t) :
  sublist l1 l2 -> In r l1 -> In r l2.
Proof.
  induction 1 as [|x l1 l2 _ IH|x l1 l2 _ IH]; intros Hin.
  - destruct Hin.
  - destruct Hin as [<-|Hin]; [left; reflexivity | right; apply IH; exact Hin].
  - right. apply IH. exact Hin.
Qed.

(** C2 as amended.  The rules are processed by descending condition
    count, and the rule at any position of that order is discarded exactly
    when its own condition set is contained in the condition set of a rule
    accepted before it: the result is the rules accepted before that
    position, then the rule itself unless it is discarded, then rules from
    the later positions only. *)
Theorem filtrar_redundantes_caracterizacao
    (regras antes depois : list RegraDeOuro.t) (regra : RegraDeOuro.t) :
  let ordenadas :=
    Py.sorted (fun a b => (chave_especificidade a <=? chave_especificidade b)%Z)
      regras in
  ordenadas = antes ++ regra :: depois ->
  let aceitas := filtrar_loop antes [] in
  let descartada :=
    exists aceita, In aceita aceitas
                   /\ contido (RegraDeOuro.condicoes regra)
                              (RegraDeOuro.condicoes aceita) in
  Permutation regras ordenadas
  /\ Sorted
       (fun a b => (Py.len (RegraDeOuro.condicoes b)
                    <= Py.len (RegraDeOuro.condicoes a))%Z)
       ordenadas
  /\ (descartada -> filtrar_loop (antes ++ [regra]) [] = aceitas)
  /\ (~ descartada -> filtrar_loop (antes ++ [regra]) [] = aceitas ++ [regra])
  /\ sublist aceitas antes
  /\ (exists resto,
        sublist resto depois
        /\ (descartada -> _filtrar_redundantes regras = aceitas ++ resto)
        /\ (~ descartada ->
            _filtrar_redundantes regras = aceitas ++ regra :: resto))
  /\ (~ In regra antes -> ~ In regra depois ->
      (In regra (_filtrar_redundantes regras) <-> ~ descartada)).
Proof.
  intros ordenadas Hsplit aceitas descartada.
  assert (Hdesc : descartada <-> eh_redundante regra aceitas = true).
  { unfold descartada. symmetry. apply eh_redundante_iff. }
  assert (Hacc : sublist aceitas antes).
  { destruct (filtrar_loop_sublista antes []) as (resto & E & Hs).
    fold aceitas in E. rewrite app_nil_l in E. rewrite E. exact Hs. }
  assert (Hfim : exists resto,
            sublist resto depois
            /\ _filtrar_redundantes regras
               = (if eh_redundante regra aceitas then aceitas
                  else aceitas ++ [regra]) ++ resto).
  { rewrite _filtrar_redundantes_ordenadas. fold ordenadas. rewrite Hsplit.
    rewrite filtrar_loop_app. fold aceitas. cbn [filtrar_loop].
    destruct (filtrar_loop_sublista depois
                (if eh_redundante regra aceitas then aceitas
                 else aceitas ++ [regra])) as (resto & E & Hs).
    exists resto. split; [exact Hs | exact E]. }
  split; [apply sorted_perm|].
  split; [apply ordenadas_por_especificidade|].
  split; [|split; [|split; [exact Hacc|split]]].
  - intros H. rewrite filtrar_loop_app. simpl.
    apply Hdesc in H. fold aceitas. rewrite H. reflexivity.
  - intros H. rewrite filtrar_loop_app. simpl. fold aceitas.
    destruct (eh_redundante regra aceitas) eqn:E; [|reflexivity].
    exfalso. apply H. apply Hdesc. reflexivity.
  - destruct Hfim as (resto & Hs & E). exists resto.
    split; [exact Hs|]. split.
    + intros H. apply Hdesc in H. rewrite H in E. exact E.
    + intros H. destruct (eh_redundante regra aceitas) eqn:Er.
      * exfalso. apply H. apply Hdesc. reflexivity.
      * rewrite E, <- app_assoc. reflexivity.
  - intros Hantes Hdepois. destruct Hfim as (resto & Hs & E).
    assert (Hn1 : ~ In regra aceitas)
      by (intros H; apply Hantes; apply (sublist_In _ _ _ Hacc H)).
    assert (Hn2 : ~ In regra resto)
      by (intros H; apply Hdepois; apply (sublist_In _ _ _ Hs H)).
    rewrite E. destruct (eh_redundante regra aceitas) eqn:Er.
    + split.
      * intros H. apply in_app_or in H. tauto.
      * intros H. exfalso. apply H. apply Hdesc. reflexivity.
    + split.
      * intros _ H. apply Hdesc in H. discriminate.
      * intros _. apply in_or_app. left. apply in_or_app. right.
        left. reflexivity.
Qed.

(** C3.  Of a rule with the single condition [f1 = v1] and a rule with
    the conditions [f1 = v1] and [f2 = v2], given in this order, the
    filter returns exactly one: the two-condition rule. *)
Theorem filtrar_redundantes_A_B (A B : RegraDeOuro.t) (f1 v1 f2 v2 : string) :
  f1 <> f2 ->
  RegraDeOuro.condicoes A = [(f1, v1)] ->
  RegraDeOuro.condicoes B = [(f1, v1); (f2, v2)]
  \/ RegraDeOuro.condicoes B = [(f2, v2); (f1, v1)] ->
  _filtrar_redundantes [A; B] = [B]
  /\ length (_filtrar_redundantes [A; B]) = 1%nat.
Proof.
  intros Hne HA HB.
  assert (Hres : _filtrar_redundantes [A; B] = [B]); [|rewrite Hres; auto].
  assert (HlenB : Py.len (RegraDeOuro.condicoes B) = 2%Z)
    by (destruct HB as [-> | ->]; reflexivity).
  assert (Hsub : _eh_subconjunto (RegraDeOuro.condicoes A)
                   (RegraDeOuro.condicoes B) = true).
  { apply _eh_subconjunto_contido. rewrite HA. intros k v [Heq | []].
    inversion Heq; subst k v.
    destruct HB as [-> | ->]; simpl.
    - rewrite decide_True by reflexivity. reflexivity.
    - rewrite decide_False by exact Hne.
      rewrite decide_True by reflexivity. reflexivity. }
  unfold _filtrar_redundantes. simpl Py.sorted.
  unfold chave_especificidade. rewrite HlenB, HA. simpl.
  unfold eh_redundante. simpl. rewrite Hsub. reflexivity.
Qed.

End Redundancia.

Lemma filtrar_redundantes_caracterizacao_witness :
  ~ In Exemplos.regra_A
       (Aprendizado._filtrar_redundantes [Exemplos.regra_A; Exemplos.regra_B]).
Proof.
  destruct (filtrar_redundantes_caracterizacao
              [Exemplos.regra_A; Exemplos.regra_B] [Exemplos.regra_B] []
              Exemplos.regra_A eq_refl)
    as (_ & _ & _ & _ & _ & _ & Hiff).
  assert (Hantes : ~ In Exemplos.regra_A [Exemplos.regra_B])
    by (intros [E | []]; discriminate E).
  assert (Hdepois : ~ In Exemplos.regra_A []) by (intros []).
  destruct (Hiff Hantes Hdepois) as [Hfwd _].
  intros Hin. apply (Hfwd Hin).
  exists Exemplos.regra_B. split; [left; reflexivity|].
  intros k v [Heq | []]. inversion Heq. reflexivity.
Defined.

(** C2 as stated does not hold: in the order [B, A] the rule [A] is
    discarded, and is absent from the result, although no accepted rule's
    condition set is contained in the condition set of [A]. *)
Lemma filtrar_redundantes_sentido_contrario :
  Py.sorted
    (fun a b => (Aprendizado.chave_especificidade a
                 <=? Aprendizado.chave_especificidade b)%Z)
    [Exemplos.regra_A; Exemplos.regra_B]
  = [Exemplos.regra_B] ++ Exemplos.regra_A :: []
  /\ Aprendizado.filtrar_loop ([Exemplos.regra_B] ++ [Exemplos.regra_A]) []
     = Aprendizado.filtrar_loop [Exemplos.regra_B] []
  /\ Aprendizado._filtrar_redundantes [Exemplos.regra_A; Exemplos.regra_B]
     = [Exemplos.regra_B]
  /\ ~ In Exemplos.regra_A
          (Aprendizado._filtrar_redundantes
             [Exemplos.regra_A; Exemplos.regra_B])
  /\ ~ (exists aceita,
          In aceita (Aprendizado.filtrar_loop [Exemplos.regra_B] [])
          /\ Aprendizado.contido
               (Aprendizado.RegraDeOuro.condicoes aceita)
               (Aprendizado.RegraDeOuro.condicoes Exemplos.regra_A)).
Proof.
  split; [reflexivity|]. split; [reflexivity|]. split; [reflexivity|].
  split.
  - intros [H | []]. discriminate H.
  - intros (aceita & Hin & Hsub).
    destruct Hin as [<- | []].
    specialize (Hsub "f2"%string "v2"%string (or_intror (or_introl eq_refl))).
    vm_compute in Hsub. discriminate.
Qed.

Lemma filtrar_redundantes_A_B_witness :
  Aprendizado._filtrar_redundantes [Exemplos.regra_A; Exemplos.regra_B]
  = [Exemplos.regra_B]
  /\ length (Aprendizado._filtrar_redundantes
               [Exemplos.regra_A; Exemplos.regra_B]) = 1%nat.
Proof.
  apply (filtrar_redundantes_A_B Exemplos.regra_A Exemplos.regra_B
           "f1" "v1" "f2" "v2").
  - discriminate.
  - reflexivity.
  - left. reflexivity.
Defined.

(** ** Rule discovery *)

Section Descoberta.
Import Aprendizado.
Local Open Scope Q_scope.

(** *** Dictionaries *)

Lemma dict_set_In {K V : Type} `{EqDecision K} (d : list (K * V)) (k : K)
    (v : V) (kv : K * V) :
  In kv (Py.dict_set d k v) -> In kv d \/ kv = (k, v).
Proof.
  induction d as [|[k' v'] t IH]; simpl.
  - intros [<- | []]. right. reflexivity.
  - destruct (decide (k = k')) as [->|Hne].
    + intros [<- | H]; [right; reflexivity | left; right; exact H].
    + intros [<- | H]; [left; left; reflexivity|].
      destruct (IH H) as [H' | H']; [left; right; exact H' | right; exact H'].
Qed.

Lemma dict_In {K V : Type} `{EqDecision K} (pairs : list (K * V)) (kv : K * V) :
  In kv (Py.dict pairs) -> In kv pairs.
Proof.
  unfold Py.dict.
  assert (Hgen : forall d,
            In kv (fold_left (fun d kv => Py.dict_set d (fst kv) (snd kv))
                     pairs d) -> In kv d \/ In kv pairs).
  { induction pairs as [|[k v] t IH]; intros d H; simpl in H.
    - left. exact H.
    - apply IH in H. destruct H as [H | H]; [|right; right; exact H].
      apply dict_set_In in H. destruct H as [H | ->].
      + left. exact H.
      + right. left. reflexivity. }
  intros H. destruct (Hgen [] H) as [[] | H']. exact H'.
Qed.

Lemma dd_append_chaves {K A : Type} `{EqDecision K} (P : K -> Prop)
    (d : list (K * list A)) (k : K) (x : A) :
  Forall (fun kl => P (fst kl)) d -> P k ->
  Forall (fun kl => P (fst kl)) (Py.dd_append d k x).
Proof.
  intros Hd Hk. induction d as [|[k' l] t IH]; simpl.
  - constructor; [exact Hk | constructor].
  - inversion Hd as [|? ? Hhd Htl]; subst.
    destruct (decide (k = k')); constructor; auto.
Qed.

(** The number of entries stored in a [defaultdict(list)]. *)
Lemma dd_append_tamanho {K A : Type} `{EqDecision K}
    (d : list (K * list A)) (k : K) (x : A) :
  list_sum (map (fun kl => length (snd kl)) (Py.dd_append d k x))
  = Datatypes.S (list_sum (map (fun kl => length (snd kl)) d)).
Proof.
  induction d as [|[k' l] t IH]; simpl.
  - reflexivity.
  - destruct (decide (k = k')); simpl.
    + rewrite length_app. simpl. lia.
    + rewrite IH. lia.
Qed.

Lemma grupo_tamanho {K A : Type} (d : list (K * list A)) (k : K)
    (g : list A) :
  In (k, g) d ->
  (length g <= list_sum (map (fun kl => length (snd kl)) d))%nat.
Proof.
  induction d as [|[k' l] t IH]; simpl; [intros []|].
  intros [Heq | H].
  - inversion Heq; subst. lia.
  - specialize (IH H). lia.
Qed.

(** *** The factor values of a record *)

Lemma getattr_faixa_prob (partida : DadosPartidaAprendizado.t) :
  getattr partida "faixa_prob" = None.
Proof. reflexivity. Qed.

Lemma extrair_valores_In (partida : DadosPartidaAprendizado.t)
    (fatores : list string) (f v : string) :
  In (f, v) (extrair_valores partida fatores) ->
  In f fatores /\ getattr partida f = Some v
  /\ v <> EmptyString /\ v <> "Desconhecido"%string.
Proof.
  induction fatores as [|fator resto IH]; simpl; [intros []|].
  destruct (getattr partida fator) as [valor|] eqn:Eg; [|intros []].
  destruct (bool_decide (valor = EmptyString)) eqn:E1; [intros []|].
  destruct (bool_decide (valor = "Desconhecido"%string)) eqn:E2; [intros []|].
  simpl. intros [Heq | H].
  - inversion Heq; subst.
    apply bool_decide_eq_false_1 in E1, E2. auto.
  - destruct (IH H) as (H1 & H2). split; [right; exact H1 | exact H2].
Qed.

(** A combination that names [faixa_prob] never yields a complete tuple. *)
Lemma extrair_valores_incompleto (partida : DadosPartidaAprendizado.t)
    (fatores : list string) :
  In "faixa_prob"%string fatores ->
  (length (extrair_valores partida fatores) < length fatores)%nat.
Proof.
  assert (Hle : forall fs, (length (extrair_valores partida fs)
                            <= length fs)%nat).
  { induction fs as [|f fs IH]; simpl; [lia|].
    destruct (getattr partida f); [|simpl; lia].
    destruct (bool_decide _ || bool_decide _); simpl; lia. }
  induction fatores as [|fator resto IH]; simpl; [intros []|].
  intros [-> | H].
  - rewrite getattr_faixa_prob. simpl. lia.
  - destruct (getattr partida fator); [|simpl; lia].
    destruct (bool_decide _ || bool_decide _); simpl; [lia|].
    specialize (IH H). lia.
Qed.

Lemma agrupar_chaves (registros : list RegistroAprendizado.t)
    (fatores : list string) (n_fatores : Z) (chave : list (string * string))
    (grupo : list RegistroAprendizado.t) :
  In (chave, grupo) (agrupar registros fatores n_fatores) ->
  exists r, In r registros
            /\ chave = extrair_valores (RegistroAprendizado.partida r) fatores.
Proof.
  unfold agrupar.
  set (P := fun chave => exists r, In r registros
              /\ chave = extrair_valores (RegistroAprendizado.partida r) fatores).
  assert (Hgen : forall regs d,
            (forall r, In r regs -> In r registros) ->
            Forall (fun kl => P (fst kl)) d ->
            Forall (fun kl => P (fst kl))
              (fold_left
                 (fun grupos r =>
                    let valores :=
                      extrair_valores (RegistroAprendizado.partida r) fatores in
                    if (Py.len valores =? n_fatores)%Z
                    then Py.dd_append grupos valores r
                    else grupos) regs d)).
  { induction regs as [|r regs IH]; intros d Hsub Hd; simpl; [exact Hd|].
    apply IH; [intros r' Hr'; apply Hsub; right; exact Hr'|].
    destruct (Py.len _ =? n_fatores)%Z; [|exact Hd].
    apply dd_append_chaves; [exact Hd|].
    exists r. split; [apply Hsub; left; reflexivity | reflexivity]. }
  intros Hin.
  specialize (Hgen registros [] (fun r H => H) (List.Forall_nil _)).
  rewrite List.Forall_forall in Hgen. exact (Hgen (chave, grupo) Hin).
Qed.

Lemma agrupar_faixa_prob (registros : list RegistroAprendizado.t)
    (fatores : list string) :
  In "faixa_prob"%string fatores ->
  agrupar registros fatores (Py.len fatores) = [].
Proof.
  intros Hin. unfold agrupar.
  induction registros as [|r regs IH]; simpl; [reflexivity|].
  pose proof (extrair_valores_incompleto
                (RegistroAprendizado.partida r) fatores Hin) as Hlt.
  destruct (Py.len _ =? Py.len fatores)%Z eqn:E; [|exact IH].
  apply Z.eqb_eq in E. unfold Py.len in E. lia.
Qed.

(** *** What a mined rule records *)

(** The statistics that [analisar_grupo] stores in a rule. *)
Lemma analisar_grupo_In (mercado : string) (chave : list (string * string))
    (grupo : list RegistroAprendizado.t) (r : RegraDeOuro.t) :
  In r (analisar_grupo mercado chave grupo) ->
  RegraDeOuro.condicoes r = Py.dict chave
  /\ RegraDeOuro.total_amostras r = Py.len grupo
  /\ (MIN_AMOSTRAS_REGRA <= RegraDeOuro.total_amostras r)%Z
  /\ RegraDeOuro.taxa_acerto r
     = inject_Z (RegraDeOuro.acertos r)
       / inject_Z (RegraDeOuro.total_amostras r) * 100
  /\ THRESHOLD_OURO <= RegraDeOuro.taxa_acerto r
  /\ RegraDeOuro.nivel r = nivel_da_taxa (RegraDeOuro.taxa_acerto r).
Proof.
  unfold analisar_grupo.
  destruct (Py.len grupo <? MIN_AMOSTRAS_REGRA)%Z eqn:Emin; [intros []|].
  apply Z.ltb_ge in Emin.
  set (taxa := inject_Z _ / inject_Z (Py.len grupo) * 100).
  destruct (Qle_bool THRESHOLD_OURO taxa) eqn:Eo; [|intros []].
  apply Qle_bool_iff in Eo. unfold nivel_da_taxa.
  destruct (Qle_bool THRESHOLD_DIAMANTE taxa) eqn:Ed;
    [|destruct (Qle_bool THRESHOLD_PLATINA taxa) eqn:Ep];
    intros [<- | []]; cbn [RegraDeOuro.condicoes RegraDeOuro.total_amostras
                          RegraDeOuro.taxa_acerto RegraDeOuro.nivel
                          RegraDeOuro.acertos];
    fold taxa; rewrite ?Ed, ?Ep; repeat split; auto.
Qed.

Lemma atribuir_ids_In (i : Z) (regras : list RegraDeOuro.t) (r : RegraDeOuro.t) :
  In r (atribuir_ids i regras) ->
  exists r0, In r0 regras /\ mesma_regra r r0.
Proof.
  revert i. induction regras as [|x t IH]; intros i; simpl; [intros []|].
  intros [<- | H].
  - exists x. split; [left; reflexivity|]. repeat split.
  - destruct (IH _ H) as (r0 & Hin & Hsame).
    exists r0. split; [right; exact Hin | exact Hsame].
Qed.

(** Every rule returned by [descobrir_regras] was produced by
    [analisar_grupo] for a group keyed by the factor values of one of the
    records. *)
Lemma descobrir_regras_origem (banco : BancoAprendizado.t) (r : RegraDeOuro.t) :
  In r (descobrir_regras banco) ->
  exists r0 mercado fatores chave grupo partida,
    mesma_regra r r0
    /\ In r0 (analisar_grupo mercado chave grupo)
    /\ chave = extrair_valores partida fatores.
Proof.
  unfold descobrir_regras. intros H.
  apply atribuir_ids_In in H. destruct H as (r0 & H & Hsame).
  apply sorted_In in H. apply in_flat_map in H.
  destruct H as ([mercado regs] & _ & H). unfold regras_do_mercado in H.
  cbn [fst snd] in H.
  destruct (bool_decide (mercado ∈ MERCADOS_EXCLUIDOS_REGRAS)); [destruct H|].
  destruct (Py.len regs <? MIN_AMOSTRAS_REGRA)%Z; [destruct H|].
  apply _filtrar_redundantes_In in H. apply in_flat_map in H.
  destruct H as (n & _ & H). unfold _testar_combinacoes in H.
  apply in_flat_map in H. destruct H as (fatores & _ & H).
  apply in_flat_map in H. destruct H as ([chave grupo] & Hg & H).
  apply agrupar_chaves in Hg. destruct Hg as (reg & _ & Hchave).
  exists r0, mercado, fatores, chave, grupo, (RegistroAprendizado.partida reg).
  split; [exact Hsame|]. split; [exact H | exact Hchave].
Qed.

Lemma dict_get_In {K V : Type} `{EqDecision K} (d : list (K * V)) (k : K)
    (v : V) :
  Py.dict_get d k = Some v -> In (k, v) d.
Proof.
  induction d as [|[k' v'] t IH]; simpl; [discriminate|].
  destruct (decide (k = k')) as [->|Hne].
  - intros H. inversion H. left. reflexivity.
  - intros H. right. apply IH. exact H.
Qed.

Lemma combinations_length {A : Type} (l : list A) (n : nat) (c : list A) :
  In c (combinations l n) -> length c = n.
Proof.
  revert n c. induction l as [|x t IH]; intros [|n] c; simpl.
  - intros [<- | []]. reflexivity.
  - intros [].
  - intros [<- | []]. reflexivity.
  - intros H. apply in_app_or in H. destruct H as [H | H].
    + apply in_map_iff in H. destruct H as (c' & <- & H).
      simpl. f_equal. apply IH. exact H.
    + apply IH in H. exact H.
Qed.

Lemma por_mercado_tamanho (registros : list RegistroAprendizado.t)
    (d : list (string * list RegistroAprendizado.t)) :
  list_sum
    (map (fun kl => length (snd kl))
       (fold_left
          (fun d r =>
             Py.dd_append d
               (ResultadoMercadoAprendizado.mercado
                  (RegistroAprendizado.resultado r)) r)
          registros d))
  = (length registros + list_sum (map (fun kl => length (snd kl)) d))%nat.
Proof.
  revert d. induction registros as [|r regs IH]; intros d; simpl.
  - reflexivity.
  - rewrite IH, dd_append_tamanho. lia.
Qed.

Lemma flat_map_vazio {A B : Type} (f : A -> list B) (l : list A) :
  (forall x, In x l -> f x = []) -> flat_map f l = [].
Proof.
  induction l as [|x t IH]; intros H; simpl; [reflexivity|].
  rewrite (H x (or_introl eq_refl)). simpl.
  apply IH. intros y Hy. apply H. right. exact Hy.
Qed.

(** Below the minimum sample no market is mined at all. *)
Lemma descobrir_regras_poucos_registros (banco : BancoAprendizado.t) :
  (length (BancoAprendizado.registros banco) < 8)%nat ->
  descobrir_regras banco = [].
Proof.
  intros Hlt. unfold descobrir_regras.
  rewrite flat_map_vazio; [reflexivity|].
  intros [mercado regs] Hin. unfold regras_do_mercado. cbn [fst snd].
  destruct (bool_decide (mercado ∈ MERCADOS_EXCLUIDOS_REGRAS)); [reflexivity|].
  apply grupo_tamanho in Hin. rewrite por_mercado_tamanho in Hin.
  simpl in Hin.
  destruct (Py.len regs <? MIN_AMOSTRAS_REGRA)%Z eqn:E; [reflexivity|].
  apply Z.ltb_ge in E. unfold Py.len, MIN_AMOSTRAS_REGRA in E. lia.
Qed.

(** C10.  No discovered rule has a condition on [faixa_prob]: the match
    snapshot has no such attribute, so a factor combination that names it
    never yields a complete tuple and forms no group. *)
Theorem faixa_prob_nunca_em_regra :
  (forall banco r,
     In r (descobrir_regras banco) ->
     Py.dict_get (RegraDeOuro.condicoes r) "faixa_prob"%string = None
     /\ forall v, ~ In ("faixa_prob"%string, v) (RegraDeOuro.condicoes r))
  /\ In "faixa_prob"%string FATORES_ANALISE
  /\ length FATORES_ANALISE = 15%nat
  /\ (forall partida, getattr partida "faixa_prob" = None)
  /\ (forall registros fatores,
        In "faixa_prob"%string fatores ->
        agrupar registros fatores (Py.len fatores) = []).
Proof.
  split; [|split; [|split; [|split]]].
  - intros banco r Hin.
    assert (Hnot : forall v,
              ~ In ("faixa_prob"%string, v) (RegraDeOuro.condicoes r)).
    { intros v Hv.
      apply descobrir_regras_origem in Hin.
      destruct Hin as (r0 & mercado & fatores & chave & grupo & partida
                       & Hsame & Hin & Hchave).
      destruct Hsame as (_ & Hc & _).
      apply analisar_grupo_In in Hin. destruct Hin as (Hcond & _).
      rewrite Hc, Hcond, Hchave in Hv.
      apply dict_In, extrair_valores_In in Hv.
      destruct Hv as (_ & Hget & _).
      rewrite getattr_faixa_prob in Hget. discriminate. }
    split; [|exact Hnot].
    destruct (Py.dict_get (RegraDeOuro.condicoes r) "faixa_prob"%string)
      as [v|] eqn:E; [|reflexivity].
    exfalso. apply (Hnot v). apply dict_get_In. exact E.
  - unfold FATORES_ANALISE. simpl. tauto.
  - reflexivity.
  - apply getattr_faixa_prob.
  - apply agrupar_faixa_prob.
Qed.

End Descoberta.

Lemma banco_dez_regra :
  Aprendizado.descobrir_regras Exemplos.banco_dez = [Exemplos.regra_dez].
Proof. vm_compute. reflexivity. Qed.

Lemma faixa_prob_nunca_em_regra_witness :
  Py.dict_get (Aprendizado.RegraDeOuro.condicoes Exemplos.regra_dez)
    "faixa_prob"%string = None.
Proof.
  destruct faixa_prob_nunca_em_regra as (H & _).
  apply (H Exemplos.banco_dez Exemplos.regra_dez).
  rewrite banco_dez_regra. left. reflexivity.
Defined.

(** * Further properties of the two modules *)

(** ** Factorial, the negative-binomial parameters and the cdf *)

Section MaisDistribuicoes.
Import Probabilidade.
Local Open Scope Q_scope.

Lemma produto_ate (m : nat) :
  fold_left (fun resultado i => (resultado * i)%Z)
    (map (fun i => (2 + Z.of_nat i)%Z) (seq 0 m)) 1%Z
  = Z.of_nat (fact (Datatypes.S m)).
Proof.
  induction m as [|m IH].
  - reflexivity.
  - rewrite seq_S, map_app, fold_left_app, IH. cbn [map fold_left].
    change (fact (Datatypes.S (Datatypes.S m)))
      with ((Datatypes.S (Datatypes.S m)) * fact (Datatypes.S m))%nat.
    rewrite Nat2Z.inj_mul. generalize (fact (Datatypes.S m)). intros f. nia.
Qed.

(** X1.  [calcular_fatorial] is the factorial on the non-negative
    integers and 1 below zero; in particular it is never zero, so
    [poisson_pmf] never divides by zero. *)
Theorem calcular_fatorial_fatorial (n : Z) :
  calcular_fatorial n = Z.of_nat (fact (Z.to_nat n))
  /\ (1 <= calcular_fatorial n)%Z
  /\ ((1 <= n)%Z ->
      calcular_fatorial (n + 1) = ((n + 1) * calcular_fatorial n)%Z).
Proof.
  assert (Heq : forall n, calcular_fatorial n = Z.of_nat (fact (Z.to_nat n))).
  { intros k. unfold calcular_fatorial.
    destruct (k <=? 1)%Z eqn:E.
    - apply Z.leb_le in E.
      destruct (Z.to_nat k) as [|[|j]] eqn:Ek; try reflexivity. lia.
    - apply Z.leb_gt in E. unfold Py.range2.
      replace (Z.to_nat (k + 1 - 2)) with (Z.to_nat k - 1)%nat by lia.
      rewrite produto_ate.
      replace (Datatypes.S (Z.to_nat k - 1)) with (Z.to_nat k) by lia.
      reflexivity. }
  split; [apply Heq|]. split.
  - rewrite Heq. pose proof (lt_O_fact (Z.to_nat n)). lia.
  - intros Hn. rewrite !Heq.
    replace (Z.to_nat (n + 1)) with (Datatypes.S (Z.to_nat n)) by lia.
    change (fact (Datatypes.S (Z.to_nat n)))
      with ((Datatypes.S (Z.to_nat n)) * fact (Z.to_nat n))%nat.
    rewrite Nat2Z.inj_mul. generalize (fact (Z.to_nat n)). intros f. nia.
Qed.

Context {M : MathModule}.

Lemma converter_mesmo_r (lambda_ r r' p : Q) :
  converter_lambda_para_negbin lambda_ r = Py.Ret (r', p) -> r' = r.
Proof.
  unfold converter_lambda_para_negbin, Py.truediv.
  destruct (Qle_bool lambda_ 0); [intros H; inversion H; reflexivity|].
  destruct (Qeq_bool (r + lambda_) 0); simpl; [discriminate|].
  intros H. inversion H. reflexivity.
Qed.

Lemma converter_retorna (lambda_ r : Q) :
  0 < r -> exists p, converter_lambda_para_negbin lambda_ r = Py.Ret (r, p).
Proof.
  unfold converter_lambda_para_negbin, Py.truediv. intros Hr.
  destruct (Qle_bool lambda_ 0) eqn:El; [eexists; reflexivity|].
  apply Qle_bool_false_iff in El.
  destruct (Qeq_bool (r + lambda_) 0) eqn:E0.
  - apply Qeq_bool_iff in E0. lra.
  - simpl. eexists. reflexivity.
Qed.

(** X2.  [converter_lambda_para_negbin] hands back [r] itself with a
    probability clamped to [[0.001, 0.999]]; for [lambda <= 0] the
    probability is 0.999; the only exception it can raise is the division
    by zero at [r = -lambda], which a positive [r] excludes. *)
Theorem converter_lambda_para_negbin_limites (lambda_ r : Q) :
  (forall r' p, converter_lambda_para_negbin lambda_ r = Py.Ret (r', p) ->
                r' = r /\ 0.001 <= p /\ p <= 0.999)
  /\ (forall e, converter_lambda_para_negbin lambda_ r = Py.Raise e ->
                e = Py.ZeroDivisionError /\ 0 < lambda_ /\ r + lambda_ == 0)
  /\ (lambda_ <= 0 -> converter_lambda_para_negbin lambda_ r = Py.Ret (r, 0.999))
  /\ (0 < r -> exists p, converter_lambda_para_negbin lambda_ r = Py.Ret (r, p)).
Proof.
  unfold converter_lambda_para_negbin, Py.truediv.
  split; [|split; [|split]].
  - intros r' p H. destruct (Qle_bool lambda_ 0).
    + inversion H; subst. split; [reflexivity|].
      split; unfold Qle; simpl; lia.
    + destruct (Qeq_bool (r + lambda_) 0); simpl in H; [discriminate|].
      inversion H; subst. split; [reflexivity|].
      apply py_clamp. unfold Qle; simpl; lia.
  - intros e H. destruct (Qle_bool lambda_ 0) eqn:El; [discriminate|].
    apply Qle_bool_false_iff in El.
    destruct (Qeq_bool (r + lambda_) 0) eqn:E0; simpl in H; [|discriminate].
    inversion H. apply Qeq_bool_iff in E0. auto.
  - intros H. apply Qle_bool_iff in H. rewrite H. reflexivity.
  - intros Hr. destruct (Qle_bool lambda_ 0) eqn:El; [eexists; reflexivity|].
    apply Qle_bool_false_iff in El.
    destruct (Qeq_bool (r + lambda_) 0) eqn:E0.
    + apply Qeq_bool_iff in E0. lra.
    + simpl. eexists. reflexivity.
Qed.

Lemma negbin_valor (k : Z) (r p v : Q) :
  negative_binomial_pmf k r p = Py.Ret v -> 0 <= v /\ v <= 1.
Proof.
  unfold negative_binomial_pmf.
  assert (Hzero : 0 <= 0.0 /\ 0.0 <= 1) by (split; unfold Qle; simpl; lia).
  destruct (Qle_bool r 0 || Qle_bool p 0 || Qle_bool 1 p || (k <? 0)%Z).
  { intros H. inversion H. exact Hzero. }
  destruct (log_coef_binomial k r) as [lc|e]; simpl.
  2: { destruct e; intros H; inversion H; exact Hzero. }
  destruct (math_exp lc) as [coef|e]; simpl.
  2: { destruct e; intros H; inversion H; exact Hzero. }
  destruct (float_pow p r) as [p_r|e]; simpl.
  2: { destruct e; intros H; inversion H; exact Hzero. }
  destruct (float_pow (1 - p) (inject_Z k)) as [q_k|e]; simpl.
  2: { destruct e; intros H; inversion H; exact Hzero. }
  intros H. inversion H.
  destruct (py_clamp 0.0 1.0 (coef * p_r * q_k)) as [Hlo Hhi];
    [unfold Qle; simpl; lia|].
  split.
  - apply Qle_trans with (y := 0.0); [unfold Qle; simpl; lia | exact Hlo].
  - apply Qle_trans with (y := 1.0); [exact Hhi | unfold Qle; simpl; lia].
Qed.

(** X3.  Whatever the [math] functions return or raise, a value returned
    by [negative_binomial_pmf] is a probability; and when they raise
    nothing but their documented errors the function always returns. *)
Theorem negative_binomial_pmf_probabilidade (k : Z) (r p : Q) :
  (forall v, negative_binomial_pmf k r p = Py.Ret v -> 0 <= v /\ v <= 1)
  /\ (erros_numericos M ->
      exists v, negative_binomial_pmf k r p = Py.Ret v).
Proof.
  split.
  - intros v. apply negbin_valor.
  - intros HM. destruct (negbin_retorna k r p HM) as (v & Hv & _).
    exists v. exact Hv.
Qed.

Lemma acumular_app (pmf : Z -> Py.res Q) (l1 l2 : list Z) (acc : Q) :
  acumular pmf (l1 ++ l2) acc
  = Py.bind (acumular pmf l1 acc) (acumular pmf l2).
Proof.
  revert acc. induction l1 as [|i l1 IH]; intros acc; simpl.
  - reflexivity.
  - destruct (pmf i) as [x|e]; simpl; [apply IH | reflexivity].
Qed.

Lemma acumular_cresce (pmf : Z -> Py.res Q) (l : list Z) (acc v : Q) :
  (forall i x, pmf i = Py.Ret x -> 0 <= x) ->
  acumular pmf l acc = Py.Ret v -> acc <= v.
Proof.
  intros Hpos. revert acc. induction l as [|i l IH]; intros acc; simpl.
  - intros H. inversion H. apply Qle_refl.
  - destruct (pmf i) as [x|e] eqn:Ei; simpl; [|discriminate].
    intros H. apply IH in H. pose proof (Hpos i x Ei). lra.
Qed.

Lemma range_prefixo (n n' : Z) :
  (n <= n')%Z -> exists resto, Py.range n' = Py.range n ++ resto.
Proof.
  intros H. unfold Py.range.
  exists (map Z.of_nat (seq (Z.to_nat n) (Z.to_nat n' - Z.to_nat n))).
  rewrite <- map_app, <- seq_app. do 2 f_equal. lia.
Qed.

Lemma py_min_mono (hi a b : Q) : a <= b -> Py.min hi a <= Py.min hi b.
Proof.
  intros H. unfold Py.min.
  destruct (Py.Qlt_bool a hi) eqn:Ea; destruct (Py.Qlt_bool b hi) eqn:Eb.
  - exact H.
  - apply Qlt_bool_iff in Ea. apply Qlt_le_weak. exact Ea.
  - apply Qlt_bool_false_iff in Ea. apply Qlt_bool_iff in Eb. lra.
  - apply Qle_refl.
Qed.

(** The sum accumulated on the negative-binomial path. *)
Lemma calcular_cdf_negbin_inv (k_max : Z) (lambda_ r v : Q) :
  0 < r ->
  calcular_cdf k_max lambda_ r true = Py.Ret v ->
  exists p acc,
    converter_lambda_para_negbin lambda_ r = Py.Ret (r, p)
    /\ acumular (fun i => negative_binomial_pmf i r p)
         (Py.range (k_max + 1)) 0.0 = Py.Ret acc
    /\ v = Py.min 1.0 acc.
Proof.
  intros Hr H. unfold calcular_cdf in H.
  assert (Er : Py.Qlt_bool 0 r = true) by (apply Qlt_bool_iff; exact Hr).
  rewrite Er in H. simpl in H.
  destruct (converter_lambda_para_negbin lambda_ r) as [[r' p]|e] eqn:Ec;
    simpl in H; [|discriminate].
  assert (r' = r).
  { apply (converter_mesmo_r lambda_ r r' p Ec). }
  subst r'.
  destruct (acumular _ _ _) as [acc|e] eqn:Ea; simpl in H; [|discriminate].
  inversion H. exists p, acc. auto.
Qed.

Lemma calcular_cdf_limites (k_max : Z) (lambda_ r v : Q) :
  0 < r -> calcular_cdf k_max lambda_ r true = Py.Ret v -> 0 <= v /\ v <= 1.
Proof.
  intros Hr H.
  apply calcular_cdf_negbin_inv in H; [|exact Hr].
  destruct H as (p & acc & _ & Hacc & ->).
  apply acumular_cresce in Hacc;
    [|intros i x Hx; apply (negbin_valor i r p x Hx)].
  split.
  - unfold Py.min. destruct (Py.Qlt_bool acc 1.0); [lra|].
    unfold Qle; simpl; lia.
  - apply Qle_trans with (y := 1.0); [apply py_min_le|].
    unfold Qle; simpl; lia.
Qed.

Lemma calcular_cdf_cresce (k_max k_max' : Z) (lambda_ r a b : Q) :
  0 < r -> (k_max <= k_max')%Z ->
  calcular_cdf k_max lambda_ r true = Py.Ret a ->
  calcular_cdf k_max' lambda_ r true = Py.Ret b ->
  a <= b.
Proof.
  intros Hr Hle Ha Hb.
  apply calcular_cdf_negbin_inv in Ha; [|exact Hr].
  apply calcular_cdf_negbin_inv in Hb; [|exact Hr].
  destruct Ha as (p & acc & Hc & Hacc & ->).
  destruct Hb as (p' & acc' & Hc' & Hacc' & ->).
  rewrite Hc in Hc'. inversion Hc'; subst p'.
  destruct (range_prefixo (k_max + 1) (k_max' + 1)) as [resto Hresto];
    [lia|].
  rewrite Hresto, acumular_app, Hacc in Hacc'. simpl in Hacc'.
  apply acumular_cresce in Hacc';
    [|intros i x Hx; apply (negbin_valor i r p x Hx)].
  apply py_min_mono. exact Hacc'.
Qed.

(** X4.  On the negative-binomial path ([r > 0]) a returned cdf lies in
    [[0, 1]], it does not decrease when [k_max] grows, and it is 0 for a
    negative [k_max]. *)
Theorem calcular_cdf_monotona (lambda_ r : Q) :
  0 < r ->
  (forall k_max v, calcular_cdf k_max lambda_ r true = Py.Ret v ->
                   0 <= v /\ v <= 1)
  /\ (forall k_max k_max' a b,
        (k_max <= k_max')%Z ->
        calcular_cdf k_max lambda_ r true = Py.Ret a ->
        calcular_cdf k_max' lambda_ r true = Py.Ret b ->
        a <= b)
  /\ (forall k_max, (k_max < 0)%Z ->
        calcular_cdf k_max lambda_ r true = Py.Ret 0.0).
Proof.
  intros Hr.
  split; [|split].
  - intros k_max v H. apply (calcular_cdf_limites k_max lambda_ r v Hr H).
  - intros k_max k_max' a b Hle Ha Hb.
    apply (calcular_cdf_cresce k_max k_max' lambda_ r a b Hr Hle Ha Hb).
  - intros k_max Hneg. unfold calcular_cdf.
    assert (Er : Py.Qlt_bool 0 r = true) by (apply Qlt_bool_iff; exact Hr).
    rewrite Er. simpl.
    destruct (converter_retorna lambda_ r Hr) as [p ->]. simpl.
    unfold Py.range. replace (Z.to_nat (k_max + 1)) with 0%nat by lia.
    reflexivity.
Qed.

Lemma encontrar_percentil_chave (l : list (Z * Q)) (p : Q) (a : Z) :
  encontrar_percentil l p = Py.Ret a -> In a (map fst l).
Proof.
  unfold encontrar_percentil.
  destruct (primeiro_k l p) as [k|] eqn:Ek.
  - intros H. inversion H; subst. apply (primeiro_k_chave l p a Ek).
  - destruct (List.rev l) as [|[k c] t] eqn:Er; [discriminate|].
    intros H. inversion H; subst.
    assert (Hin : In (a, c) (List.rev l)) by (rewrite Er; left; reflexivity).
    apply in_rev in Hin. apply in_map_iff. exists (a, c). auto.
Qed.

Lemma range_In (n a : Z) : In a (Py.range n) -> (0 <= a < n)%Z.
Proof.
  unfold Py.range. intros H. apply in_map_iff in H.
  destruct H as (i & <- & Hi). apply in_seq in Hi. lia.
Qed.

(** X5.  Every percentile is one of the scanned counts: it lies between 0
    and the scan bound [int(3 * lambda) + 10]. *)
Theorem percentis_dentro_da_varredura (lambda_ r : Q) (usar_negbin : bool)
    (ic : IntervaloConfianca.t) :
  calcular_percentis lambda_ r usar_negbin = Py.Ret ic ->
  let max_k := (Py.int (lambda_ * 3) + 10)%Z in
  (0 <= IntervaloConfianca.p10 ic <= max_k)%Z
  /\ (0 <= IntervaloConfianca.p25 ic <= max_k)%Z
  /\ (0 <= IntervaloConfianca.p50 ic <= max_k)%Z
  /\ (0 <= IntervaloConfianca.p75 ic <= max_k)%Z
  /\ (0 <= IntervaloConfianca.p90 ic <= max_k)%Z
  /\ (IntervaloConfianca.p90 ic - IntervaloConfianca.p10 ic <= max_k)%Z.
Proof.
  intros H max_k. unfold calcular_percentis in H.
  apply bind_ret_inv in H. destruct H as (vs & Hvs & H).
  apply bind_ret_inv in H. destruct H as (a10 & H10 & H).
  apply bind_ret_inv in H. destruct H as (a25 & H25 & H).
  apply bind_ret_inv in H. destruct H as (a50 & H50 & H).
  apply bind_ret_inv in H. destruct H as (a75 & H75 & H).
  apply bind_ret_inv in H. destruct H as (a90 & H90 & H).
  inversion H; subst ic; clear H. simpl.
  apply mapM_chaves in Hvs.
  apply encontrar_percentil_chave in H10, H25, H50, H75, H90.
  rewrite Hvs in H10, H25, H50, H75, H90.
  apply range_In in H10, H25, H50, H75, H90.
  fold max_k in H10, H25, H50, H75, H90. lia.
Qed.

End MaisDistribuicoes.

Lemma calcular_fatorial_fatorial_witness :
  Probabilidade.calcular_fatorial 5 = 120%Z
  /\ Probabilidade.calcular_fatorial (5 + 1)
     = ((5 + 1) * Probabilidade.calcular_fatorial 5)%Z.
Proof.
  destruct (calcular_fatorial_fatorial 5) as (H1 & _ & H3).
  split.
  - rewrite H1. reflexivity.
  - apply H3. lia.
Defined.

Lemma converter_lambda_para_negbin_limites_witness :
  Probabilidade.converter_lambda_para_negbin (-1) 3.0 = Py.Ret (3.0, 0.999)%Q
  /\ exists p,
       Probabilidade.converter_lambda_para_negbin 5.4 3.0 = Py.Ret (3.0%Q, p)
       /\ (0.001 <= p)%Q /\ (p <= 0.999)%Q.
Proof.
  destruct (converter_lambda_para_negbin_limites (-1) 3.0) as (_ & _ & H3 & _).
  destruct (converter_lambda_para_negbin_limites 5.4 3.0) as (H1 & _ & _ & H4).
  split.
  - apply H3. unfold Qle; simpl; lia.
  - destruct H4 as [p Hp]; [unfold Qlt; simpl; lia|].
    exists p. split; [exact Hp|]. apply (H1 _ _ Hp).
Defined.

Lemma negative_binomial_pmf_probabilidade_witness :
  exists v,
    Probabilidade.negative_binomial_pmf (M := Exemplos.math_exemplo) 2 3.0 0.5
    = Py.Ret v
    /\ (0 <= v)%Q /\ (v <= 1)%Q.
Proof.
  destruct (negative_binomial_pmf_probabilidade (M := Exemplos.math_exemplo)
              2 3.0 0.5) as [Hv Hret].
  destruct (Hret math_exemplo_erros) as [v Hr].
  exists v. split; [exact Hr|]. apply Hv. exact Hr.
Defined.

Lemma calcular_cdf_monotona_witness :
  exists a b,
    Probabilidade.calcular_cdf (M := Exemplos.math_exemplo) 2 5.4 3.0 true
    = Py.Ret a
    /\ Probabilidade.calcular_cdf (M := Exemplos.math_exemplo) 4 5.4 3.0 true
       = Py.Ret b
    /\ (a <= b)%Q /\ (b <= 1)%Q.
Proof.
  destruct (calcular_cdf_monotona (M := Exemplos.math_exemplo) 5.4 3.0)
    as (Hlim & Hmono & _); [unfold Qlt; simpl; lia|].
  eexists. eexists.
  split; [vm_compute; reflexivity|].
  split; [vm_compute; reflexivity|].
  split.
  - apply (Hmono 2%Z 4%Z); [lia | vm_compute; reflexivity
                                | vm_compute; reflexivity].
  - apply (Hlim 4%Z). vm_compute. reflexivity.
Defined.

Lemma percentis_dentro_da_varredura_witness :
  let ic := Probabilidade.IntervaloConfianca.make 0 1 1 2 3 false in
  (0 <= Probabilidade.IntervaloConfianca.p10 ic <= 14)%Z
  /\ (0 <= Probabilidade.IntervaloConfianca.p90 ic <= 14)%Z.
Proof.
  intros ic.
  destruct (percentis_dentro_da_varredura (M := Exemplos.math_exemplo)
              1.5 3.0 false ic) as (H1 & _ & _ & _ & H5 & _).
  - vm_compute. reflexivity.
  - split; [exact H1 | exact H5].
Defined.

(** ** Data quality and the pipeline's fallbacks *)

Section MaisLambda.
Import Probabilidade.
Local Open Scope Q_scope.
Context {S : StrModule}.

Lemma py_min_ge (lo hi x : Q) : lo <= hi -> lo <= x -> lo <= Py.min hi x.
Proof.
  intros H1 H2. unfold Py.min. destruct (Py.Qlt_bool x hi); assumption.
Qed.

(** Names each tuple assignment without branching on its condition. *)
Ltac nomear_tuplas :=
  repeat match goal with
    | |- context [match ?x with pair _ _ => _ end] =>
        let a := fresh "v" in
        let b := fresh "l" in
        let E := fresh "E" in
        destruct x as [a b] eqn:E
    end.

Ltac resolver_ramos E :=
  repeat match type of E with
    | context [if ?c then _ else _] => destruct c
    end;
  inversion E; subst; split; lra.

(** X6.  The data-quality record: each of the six sub-scores lies in
    [[0, 100]] (the sample and recency scores never fall below 20 and 30,
    the competition score never below 40) and the weighted total lies
    between 15.5 and 100. *)
Theorem avaliar_qualidade_dados_limites (partida : DadosPartida.t) :
  let q := avaliar_qualidade_dados partida in
  (0 <= QualidadeDados.completude_arbitro q
   /\ QualidadeDados.completude_arbitro q <= 100)
  /\ (0 <= QualidadeDados.completude_times q
      /\ QualidadeDados.completude_times q <= 100)
  /\ (20 <= QualidadeDados.amostra_arbitro q
      /\ QualidadeDados.amostra_arbitro q <= 100)
  /\ (30 <= QualidadeDados.amostra_times q
      /\ QualidadeDados.amostra_times q <= 100)
  /\ (30 <= QualidadeDados.recencia q /\ QualidadeDados.recencia q <= 100)
  /\ (40 <= QualidadeDados.competicao_mapeada q
      /\ QualidadeDados.competicao_mapeada q <= 100)
  /\ (15.5 <= QualidadeDados.score_total q
      /\ QualidadeDados.score_total q <= 100).
Proof.
  cbv zeta. unfold avaliar_qualidade_dados. cbv zeta.
  nomear_tuplas.
  cbn [QualidadeDados.completude_arbitro QualidadeDados.completude_times
       QualidadeDados.amostra_arbitro QualidadeDados.amostra_times
       QualidadeDados.recencia QualidadeDados.competicao_mapeada
       QualidadeDados.score_total].
  assert (H0 : 0 <= v /\ v <= 99.99).
  { clear -E. cbn [fold_left fst snd] in E. resolver_ramos E. }
  assert (H1 : 0 <= v0 /\ v0 <= 25) by (clear -E0; resolver_ramos E0).
  assert (H2 : v0 <= v1 /\ v1 <= v0 + 25) by (clear -E1; resolver_ramos E1).
  assert (H3 : v1 <= v2 /\ v2 <= v1 + 25) by (clear -E2; resolver_ramos E2).
  assert (H4 : v2 <= v3 /\ v3 <= v2 + 25) by (clear -E3; resolver_ramos E3).
  assert (H5 : 20 <= v4 /\ v4 <= 100) by (clear -E4; resolver_ramos E4).
  assert (H6 : 30 <= v5 /\ v5 <= 100) by (clear -E5; resolver_ramos E5).
  assert (H7 : 30 <= v6 /\ v6 <= 100) by (clear -E6; resolver_ramos E6).
  assert (H8 : 40 <= v7 /\ v7 <= 100) by (clear -E7; resolver_ramos E7).
  clear E E0 E1 E2 E3 E4 E5 E6 E7.
  assert (Hmin : Py.min 100 v = v)
    by (apply py_min_segundo; lra).
  rewrite Hmin.
  change (peso_qualidade "completude_arbitro") with 25.
  change (peso_qualidade "completude_times") with 20.
  change (peso_qualidade "amostra_arbitro") with 20.
  change (peso_qualidade "amostra_times") with 15.
  change (peso_qualidade "recencia") with 10.
  change (peso_qualidade "competicao_mapeada") with 10.
  unfold Qdiv. change (/ 100) with (1 # 100).
  repeat split; lra.
Qed.

Ltac abrir_tuplas_lambda :=
  repeat match goal with
    | |- context [match (if ?c then _ else _) with pair _ _ => _ end] =>
        destruct c
    | |- context [match ?x with pair _ _ => _ end] => destruct x eqn:?
    end.

(** How the stored fields of [calcular_lambda] depend on one another. *)
Lemma calcular_lambda_estrutura (partida : DadosPartida.t) :
  let c := calcular_lambda partida in
  let base := DadosBaseline.media_amarelos (DadosPartida.baseline partida) in
  let am := DadosTime.amarelos_pro (DadosPartida.time_mandante partida) in
  let av := DadosTime.amarelos_pro (DadosPartida.time_visitante partida) in
  CalculoLambda.lambda_base c = (if Qle_bool base 0 then 5.0 else base)
  /\ CalculoLambda.media_arbitro_ponderada c
     = 0.6 * CalculoLambda.media_5j_arbitro c
       + 0.4 * CalculoLambda.media_10j_arbitro c
  /\ CalculoLambda.delta_arbitro c
     = 0.8 * (CalculoLambda.media_arbitro_ponderada c
              - CalculoLambda.lambda_base c)
  /\ CalculoLambda.amarelos_mandante c
     = (if Qle_bool am 0 then CalculoLambda.lambda_base c / 2 else am)
  /\ CalculoLambda.amarelos_visitante c
     = (if Qle_bool av 0 then CalculoLambda.lambda_base c / 2 else av)
  /\ CalculoLambda.soma_amarelos_times c
     = CalculoLambda.amarelos_mandante c + CalculoLambda.amarelos_visitante c
  /\ CalculoLambda.delta_times c
     = 0.6 * (CalculoLambda.soma_amarelos_times c
              - CalculoLambda.lambda_base c)
  /\ CalculoLambda.fator_recencia_raw c
     = (if Py.Qlt_bool 0 (CalculoLambda.media_10j_arbitro c)
        then 1.0 + (CalculoLambda.media_5j_arbitro c
                    - CalculoLambda.media_10j_arbitro c)
                   / CalculoLambda.media_10j_arbitro c
        else 1.0)
  /\ CalculoLambda.fator_recencia_capado c
     = Py.max 0.95 (Py.min 1.05 (CalculoLambda.fator_recencia_raw c))
  /\ CalculoLambda.ajuste_recencia c
     = CalculoLambda.lambda_base c
       * (CalculoLambda.fator_recencia_capado c - 1.0)
  /\ CalculoLambda.lambda_final_raw c
     = Py.max 2.0
         (Py.min 10.0
            (CalculoLambda.lambda_base c + CalculoLambda.delta_arbitro c
             + CalculoLambda.delta_times c + CalculoLambda.ajuste_recencia c)).
Proof.
  cbv zeta. unfold calcular_lambda. cbv zeta.
  abrir_tuplas_lambda; repeat split; reflexivity.
Qed.

(** The referee averages after the fallbacks of step 2. *)
Lemma calcular_lambda_medias (partida : DadosPartida.t) :
  let c := calcular_lambda partida in
  let m5 := DadosArbitro.media_amarelos_5j (DadosPartida.arbitro partida) in
  let m10 := DadosArbitro.media_amarelos_10j (DadosPartida.arbitro partida) in
  (0 < m5 -> 0 < m10 ->
   CalculoLambda.media_5j_arbitro c = m5
   /\ CalculoLambda.media_10j_arbitro c = m10)
  /\ (m5 <= 0 -> 0 < m10 ->
      CalculoLambda.media_5j_arbitro c = m10
      /\ CalculoLambda.media_10j_arbitro c = m10)
  /\ (0 < m5 -> m10 <= 0 ->
      CalculoLambda.media_5j_arbitro c = m5
      /\ CalculoLambda.media_10j_arbitro c = m5)
  /\ (m5 <= 0 -> m10 <= 0 ->
      CalculoLambda.media_5j_arbitro c = CalculoLambda.lambda_base c
      /\ CalculoLambda.media_10j_arbitro c = CalculoLambda.lambda_base c).
Proof.
  cbv zeta. unfold calcular_lambda. cbv zeta.
  split; [|split; [|split]]; intros H5 H10.
  - apply Qle_bool_false_iff in H5, H10.
    repeat (rewrite ?H5, ?H10; cbv beta iota; cbn [andb]).
    abrir_tuplas_lambda; split; reflexivity.
  - apply Qle_bool_iff in H5. apply Qle_bool_false_iff in H10.
    repeat (rewrite ?H5, ?H10; cbv beta iota; cbn [andb]).
    abrir_tuplas_lambda; split; reflexivity.
  - apply Qle_bool_false_iff in H5. apply Qle_bool_iff in H10.
    repeat (rewrite ?H5, ?H10; cbv beta iota; cbn [andb]).
    abrir_tuplas_lambda; split; reflexivity.
  - apply Qle_bool_iff in H5, H10.
    repeat (rewrite ?H5, ?H10; cbv beta iota; cbn [andb]).
    abrir_tuplas_lambda; split; reflexivity.
Qed.

Lemma lambda_base_positivo (partida : DadosPartida.t) :
  0 < CalculoLambda.lambda_base (calcular_lambda partida).
Proof.
  destruct (calcular_lambda_estrutura partida) as (E & _). rewrite E.
  destruct (Qle_bool _ 0) eqn:Eb.
  - reflexivity.
  - apply Qle_bool_false_iff in Eb. exact Eb.
Qed.

(** X7.  Whatever the inputs, the league base stored in the result is
    positive, the recency factor is capped to [[0.95, 1.05]], so the
    recency adjustment is at most 5% of the base in either direction, and
    the raw lambda lies in [[2, 10]]. *)
Theorem calcular_lambda_limites (partida : DadosPartida.t) :
  let c := calcular_lambda partida in
  0 < CalculoLambda.lambda_base c
  /\ (0.95 <= CalculoLambda.fator_recencia_capado c
      /\ CalculoLambda.fator_recencia_capado c <= 1.05)
  /\ (- (0.05 * CalculoLambda.lambda_base c) <= CalculoLambda.ajuste_recencia c
      /\ CalculoLambda.ajuste_recencia c <= 0.05 * CalculoLambda.lambda_base c)
  /\ (2 <= CalculoLambda.lambda_final_raw c
      /\ CalculoLambda.lambda_final_raw c <= 10).
Proof.
  cbv zeta.
  destruct (calcular_lambda_estrutura partida)
    as (_ & _ & _ & _ & _ & _ & _ & _ & Ecap & Eaj & Eraw).
  cbv zeta in Ecap, Eaj, Eraw.
  pose proof (lambda_base_positivo partida) as Hb.
  assert (Hcap : 0.95 <= CalculoLambda.fator_recencia_capado
                           (calcular_lambda partida)
                 /\ CalculoLambda.fator_recencia_capado
                      (calcular_lambda partida) <= 1.05).
  { rewrite Ecap. apply py_clamp. unfold Qle; simpl; lia. }
  split; [exact Hb|]. split; [exact Hcap|]. split.
  - rewrite Eaj. destruct Hcap as [H1 H2]. split; nra.
  - rewrite Eraw.
    destruct (py_clamp 2.0 10.0
                (CalculoLambda.lambda_base (calcular_lambda partida)
                 + CalculoLambda.delta_arbitro (calcular_lambda partida)
                 + CalculoLambda.delta_times (calcular_lambda partida)
                 + CalculoLambda.ajuste_recencia (calcular_lambda partida)))
      as [H1 H2]; [unfold Qle; simpl; lia|].
    split; lra.
Qed.

Lemma DISPERSAO_POR_LIGA_positiva :
  Forall (fun nome_r : string * Q => 0 < snd nome_r) DISPERSAO_POR_LIGA.
Proof. unfold DISPERSAO_POR_LIGA. repeat constructor. Qed.

Lemma obter_dispersao_liga_positiva (liga : string) :
  0 < obter_dispersao_liga liga.
Proof.
  pose proof DISPERSAO_POR_LIGA_positiva as Hall.
  rewrite List.Forall_forall in Hall.
  unfold obter_dispersao_liga.
  destruct (Py.dict_get DISPERSAO_POR_LIGA liga) as [r|] eqn:Eg.
  - apply dict_get_In in Eg. exact (Hall _ Eg).
  - destruct (List.find _ DISPERSAO_POR_LIGA) as [[nome r]|] eqn:Ef.
    + apply find_some in Ef. exact (Hall _ (proj1 Ef)).
    + reflexivity.
Qed.

Lemma calcular_lambda_dispersao_positiva (partida : DadosPartida.t) :
  0 < CalculoLambda.dispersao_r (calcular_lambda partida).
Proof.
  pose proof (obter_dispersao_liga_positiva
                (DadosBaseline.competicao (DadosPartida.baseline partida)))
    as Hd.
  unfold calcular_lambda. cbv zeta.
  set (d := obter_dispersao_liga _) in *.
  abrir_tuplas_lambda; cbn [CalculoLambda.dispersao_r];
    repeat match goal with
      | |- context [if ?c then _ else _] => destruct c
      end; lra.
Qed.

(** X8.  The dispersion parameter handed to the negative binomial is
    always positive: it is a table value (or the global default) scaled by
    positive factors. *)
Theorem dispersao_r_positiva (partida : DadosPartida.t) :
  0 < CalculoLambda.dispersao_r (calcular_lambda partida)
  /\ forall liga, 0 < obter_dispersao_liga liga.
Proof.
  split; [apply calcular_lambda_dispersao_positiva
         | apply obter_dispersao_liga_positiva].
Qed.

(** X9.  The fallbacks for missing data: a missing referee window takes
    the value of the other one, so the recency adjustment vanishes; with
    both windows missing the referee average is the league base and the
    referee delta vanishes too; with both team averages missing the team
    sum is the league base and the team delta vanishes. *)
Theorem calcular_lambda_dados_faltantes (partida : DadosPartida.t) :
  let c := calcular_lambda partida in
  let m5 := DadosArbitro.media_amarelos_5j (DadosPartida.arbitro partida) in
  let m10 := DadosArbitro.media_amarelos_10j (DadosPartida.arbitro partida) in
  let am := DadosTime.amarelos_pro (DadosPartida.time_mandante partida) in
  let av := DadosTime.amarelos_pro (DadosPartida.time_visitante partida) in
  (m5 <= 0 -> 0 < m10 ->
   CalculoLambda.media_arbitro_ponderada c == m10
   /\ CalculoLambda.ajuste_recencia c == 0)
  /\ (0 < m5 -> m10 <= 0 ->
      CalculoLambda.media_arbitro_ponderada c == m5
      /\ CalculoLambda.ajuste_recencia c == 0)
  /\ (m5 <= 0 -> m10 <= 0 ->
      CalculoLambda.media_arbitro_ponderada c == CalculoLambda.lambda_base c
      /\ CalculoLambda.delta_arbitro c == 0
      /\ CalculoLambda.ajuste_recencia c == 0)
  /\ (am <= 0 -> av <= 0 ->
      CalculoLambda.soma_amarelos_times c == CalculoLambda.lambda_base c
      /\ CalculoLambda.delta_times c == 0).
Proof.
  cbv zeta.
  destruct (calcular_lambda_estrutura partida)
    as (_ & Epond & Eda & Eam & Eav & Esoma & Edt & Eraw & Ecap & Eaj & _).
  destruct (calcular_lambda_medias partida) as (_ & M1 & M2 & M3).
  cbv zeta in *.
  pose proof (lambda_base_positivo partida) as Hb.
  set (c := calcular_lambda partida) in *.
  (* equal windows: the recency factor is 1 *)
  assert (Hrec : forall x,
            0 < x -> CalculoLambda.media_5j_arbitro c = x ->
            CalculoLambda.media_10j_arbitro c = x ->
            CalculoLambda.ajuste_recencia c == 0).
  { intros x Hx E5 E10. rewrite Eaj, Ecap, Eraw, E5, E10.
    assert (Eq : Py.Qlt_bool 0 x = true) by (apply Qlt_bool_iff; exact Hx).
    rewrite Eq.
    assert (Hone : 1.0 + (x - x) / x == 1) by (field; lra).
    rewrite py_min_segundo by lra. rewrite py_max_segundo by lra.
    rewrite Hone. lra. }
  split; [|split; [|split]].
  - intros H5 H10. destruct (M1 H5 H10) as [E5 E10].
    split; [rewrite Epond, E5, E10; lra | apply (Hrec _ H10 E5 E10)].
  - intros H5 H10. destruct (M2 H5 H10) as [E5 E10].
    split; [rewrite Epond, E5, E10; lra | apply (Hrec _ H5 E5 E10)].
  - intros H5 H10. destruct (M3 H5 H10) as [E5 E10].
    assert (Hp : CalculoLambda.media_arbitro_ponderada c
                 == CalculoLambda.lambda_base c)
      by (rewrite Epond, E5, E10; lra).
    split; [exact Hp|]. split.
    + rewrite Eda. lra.
    + apply (Hrec _ Hb E5 E10).
  - intros Hm Hv. apply Qle_bool_iff in Hm, Hv.
    rewrite Hm in Eam. rewrite Hv in Eav.
    assert (Hs : CalculoLambda.soma_amarelos_times c
                 == CalculoLambda.lambda_base c).
    { rewrite Esoma, Eam, Eav. field. }
    split; [exact Hs|]. rewrite Edt. lra.
Qed.

Lemma py_clamp_id (lo hi x : Q) :
  lo <= x -> x <= hi -> Py.max lo (Py.min hi x) == x.
Proof.
  intros H1 H2. unfold Py.max, Py.min.
  destruct (Py.Qlt_bool x hi) eqn:E1.
  - destruct (Py.Qlt_bool lo x) eqn:E2; [reflexivity|].
    apply Qlt_bool_false_iff in E2. lra.
  - apply Qlt_bool_false_iff in E1.
    destruct (Py.Qlt_bool lo hi) eqn:E2; [lra|].
    apply Qlt_bool_false_iff in E2. lra.
Qed.

(** X10.  Shrinkage pulls toward the league base: when the base itself
    lies in [[2, 10]] the shrunk lambda is the plain blend
    [w * raw + (1 - w) * base] and lies between the base and the raw
    lambda; and for any base, a weight of 1 keeps a raw lambda of
    [[2, 10]] unchanged. *)
Theorem lambda_shrunk_entre_base_e_raw (partida : DadosPartida.t) :
  let c := calcular_lambda partida in
  (2 <= CalculoLambda.lambda_base c -> CalculoLambda.lambda_base c <= 10 ->
   CalculoLambda.lambda_shrunk c
   == CalculoLambda.peso_shrinkage c * CalculoLambda.lambda_final_raw c
      + (1 - CalculoLambda.peso_shrinkage c) * CalculoLambda.lambda_base c
   /\ (CalculoLambda.lambda_final_raw c <= CalculoLambda.lambda_base c ->
       CalculoLambda.lambda_final_raw c <= CalculoLambda.lambda_shrunk c
       /\ CalculoLambda.lambda_shrunk c <= CalculoLambda.lambda_base c)
   /\ (CalculoLambda.lambda_base c <= CalculoLambda.lambda_final_raw c ->
       CalculoLambda.lambda_base c <= CalculoLambda.lambda_shrunk c
       /\ CalculoLambda.lambda_shrunk c <= CalculoLambda.lambda_final_raw c))
  /\ (forall lambda_raw lambda_base,
        2 <= lambda_raw -> lambda_raw <= 10 ->
        aplicar_shrinkage 1 lambda_raw lambda_base == lambda_raw).
Proof.
  cbv zeta. split.
  - intros Hb1 Hb2.
    destruct (calcular_lambda_shrinkage partida) as [Ew Es].
    cbv zeta in Ew, Es.
    destruct (calcular_peso_shrinkage_limites
                (CalculoLambda.qualidade_dados (calcular_lambda partida))
                (DadosArbitro.n_jogos_disponiveis
                   (DadosPartida.arbitro partida))) as [Hw1 Hw2].
    rewrite <- Ew in Hw1, Hw2.
    destruct (calcular_lambda_estrutura partida)
      as (_ & _ & _ & _ & _ & _ & _ & _ & _ & _ & Eraw).
    cbv zeta in Eraw.
    assert (Hraw : 2 <= CalculoLambda.lambda_final_raw (calcular_lambda partida)
                   /\ CalculoLambda.lambda_final_raw (calcular_lambda partida)
                      <= 10).
    { rewrite Eraw.
      destruct (py_clamp 2.0 10.0
                  (CalculoLambda.lambda_base (calcular_lambda partida)
                   + CalculoLambda.delta_arbitro (calcular_lambda partida)
                   + CalculoLambda.delta_times (calcular_lambda partida)
                   + CalculoLambda.ajuste_recencia (calcular_lambda partida)))
        as [H1 H2]; [unfold Qle; simpl; lia|].
      split; lra. }
    destruct Hraw as [Hr1 Hr2].
    set (w := CalculoLambda.peso_shrinkage (calcular_lambda partida)) in *.
    set (raw := CalculoLambda.lambda_final_raw (calcular_lambda partida)) in *.
    set (base := CalculoLambda.lambda_base (calcular_lambda partida)) in *.
    assert (Hs : CalculoLambda.lambda_shrunk (calcular_lambda partida)
                 == w * raw + (1 - w) * base).
    { rewrite Es. unfold aplicar_shrinkage. cbv zeta.
      apply py_clamp_id; nra. }
    set (shrunk := CalculoLambda.lambda_shrunk (calcular_lambda partida)) in *.
    split; [exact Hs|]. split; intros Hord; split; nra.
  - intros lambda_raw lambda_base H1 H2. unfold aplicar_shrinkage. cbv zeta.
    rewrite py_clamp_id by lra. lra.
Qed.

End MaisLambda.

Lemma calcular_lambda_dados_faltantes_witness :
  let c := Probabilidade.calcular_lambda (S := Exemplos.str_exemplo)
             Exemplos.partida_sem_dados in
  (Probabilidade.CalculoLambda.delta_arbitro c == 0)%Q
  /\ (Probabilidade.CalculoLambda.ajuste_recencia c == 0)%Q
  /\ (Probabilidade.CalculoLambda.delta_times c == 0)%Q.
Proof.
  intros c.
  destruct (calcular_lambda_dados_faltantes (S := Exemplos.str_exemplo)
              Exemplos.partida_sem_dados) as (_ & _ & H3 & H4).
  cbv zeta in H3, H4. fold c in H3, H4.
  destruct H3 as (_ & Hda & Haj); [vm_compute; discriminate ..|].
  destruct H4 as (_ & Hdt); [vm_compute; discriminate ..|].
  repeat split; assumption.
Defined.

Lemma lambda_shrunk_entre_base_e_raw_witness :
  let c := Probabilidade.calcular_lambda (S := Exemplos.str_exemplo)
             Exemplos.partida_exemplo in
  (Probabilidade.CalculoLambda.lambda_final_raw c
   <= Probabilidade.CalculoLambda.lambda_shrunk c)%Q
  /\ (Probabilidade.CalculoLambda.lambda_shrunk c
      <= Probabilidade.CalculoLambda.lambda_base c)%Q.
Proof.
  intros c.
  destruct (lambda_shrunk_entre_base_e_raw (S := Exemplos.str_exemplo)
              Exemplos.partida_exemplo) as [H _].
  cbv zeta in H. fold c in H.
  destruct H as (_ & Hbaixo & _); [vm_compute; discriminate ..|].
  apply Hbaixo. vm_compute. discriminate.
Defined.

(** ** The calibrator: lazy training, persistence and range *)

Section MaisCalibrador.
Import Probabilidade.
Import CalibradorIsotonico (pontos_x, pontos_y, treinado, _mapa_calibracao).
Local Open Scope Q_scope.

Lemma treinar_treinado (self : CalibradorIsotonico.t) :
  treinado (treinar self) = true.
Proof.
  unfold treinar. destruct (Py.len (pontos_x self) <? 10)%Z; reflexivity.
Qed.

Lemma treinar_idempotente (self : CalibradorIsotonico.t) :
  treinar (treinar self) = treinar self.
Proof.
  unfold treinar.
  destruct (Py.len (pontos_x self) <? 10)%Z eqn:E;
    cbn [pontos_x pontos_y CalibradorIsotonico.mercado]; rewrite E;
    reflexivity.
Qed.

(** X11.  [calibrar] trains at most once: after a call the calibrator is
    marked trained, a further call leaves it as it is, and its answers are
    those of an explicit [treinar]; training twice is training once; and
    [adicionar_ponto] only marks the calibrator untrained, so the next
    [calibrar] answers from a map retrained with the new point. *)
Theorem calibrar_treina_uma_vez (self : CalibradorIsotonico.t) (p q : Q)
    (acertou : bool) :
  treinado (fst (calibrar self p)) = true
  /\ fst (calibrar (fst (calibrar self p)) q) = fst (calibrar self p)
  /\ (treinado self = false ->
      calibrar self q = calibrar (treinar self) q)
  /\ treinar (treinar self) = treinar self
  /\ treinado (adicionar_ponto self p acertou) = false
  /\ calibrar (adicionar_ponto self p acertou) q
     = calibrar (treinar (adicionar_ponto self p acertou)) q.
Proof.
  assert (Hnt : forall s x, treinado s = false ->
                            calibrar s x = calibrar (treinar s) x).
  { intros s x Hs. unfold calibrar. rewrite Hs, treinar_treinado.
    reflexivity. }
  split; [|split; [|split; [|split; [|split]]]].
  - rewrite calibrar_fst. destruct (treinado self) eqn:Et;
      [exact Et | apply treinar_treinado].
  - rewrite !calibrar_fst. destruct (treinado self) eqn:Et.
    + rewrite Et. reflexivity.
    + rewrite treinar_treinado. reflexivity.
  - apply Hnt.
  - apply treinar_idempotente.
  - reflexivity.
  - apply Hnt. reflexivity.
Qed.

(** X12.  Persistence: [salvar] then [carregar] restores a trained
    calibrator exactly, and [carregar] then [salvar] restores the pickle;
    a loaded calibrator is marked trained whatever was saved, so
    [calibrar] never retrains it, and one saved without a map answers
    with the raw probability however many observations it holds. *)
Theorem salvar_carregar_ida_e_volta (self : CalibradorIsotonico.t)
    (dados : string * list Q * list Q * option (gmap Z Q)) (p_raw : Q) :
  (treinado self = true -> carregar (salvar self) = self)
  /\ salvar (carregar dados) = dados
  /\ fst (calibrar (carregar dados) p_raw) = carregar dados
  /\ (_mapa_calibracao self = None ->
      snd (calibrar (carregar (salvar self)) p_raw) = Py.Ret p_raw).
Proof.
  split; [|split; [|split]].
  - intros Ht. destruct self as [m px py t mapa]. simpl in Ht. subst t.
    reflexivity.
  - destruct dados as [[[m px] py] mapa]. reflexivity.
  - rewrite calibrar_fst. destruct dados as [[[m px] py] mapa]. reflexivity.
  - intros Hm. destruct self as [m px py t mapa]. simpl in Hm. subst mapa.
    reflexivity.
Qed.

End MaisCalibrador.

Lemma calibrar_treina_uma_vez_witness :
  Probabilidade.calibrar Exemplos.calibrador_tres_bins 7.0
  = Probabilidade.calibrar
      (Probabilidade.treinar Exemplos.calibrador_tres_bins) 7.0.
Proof.
  destruct (calibrar_treina_uma_vez Exemplos.calibrador_tres_bins 7.0 7.0 true)
    as (_ & _ & H & _).
  apply H. reflexivity.
Defined.

(** Twelve observations saved without ever training: the reloaded
    calibrator answers with the raw probability. *)
Lemma salvar_carregar_ida_e_volta_witness :
  snd (Probabilidade.calibrar
         (Probabilidade.carregar
            (Probabilidade.salvar Exemplos.calibrador_tres_bins)) 7.0)
  = Py.Ret 7.0%Q
  /\ Probabilidade.carregar
       (Probabilidade.salvar
          (Probabilidade.treinar Exemplos.calibrador_tres_pontos))
     = Probabilidade.treinar Exemplos.calibrador_tres_pontos.
Proof.
  split.
  - destruct (salvar_carregar_ida_e_volta Exemplos.calibrador_tres_bins
                (Probabilidade.salvar Exemplos.calibrador_tres_bins) 7.0)
      as (_ & _ & _ & H).
    apply H. reflexivity.
  - destruct (salvar_carregar_ida_e_volta
                (Probabilidade.treinar Exemplos.calibrador_tres_pontos)
                (Probabilidade.salvar Exemplos.calibrador_tres_pontos) 7.0)
      as (H & _).
    apply H. reflexivity.
Defined.

(** ** The trained map and the range of [calibrar] *)

Section MapaTreinado.
Import Probabilidade.
Import CalibradorIsotonico (pontos_x, pontos_y, treinado, _mapa_calibracao).
Local Open Scope Q_scope.

Lemma bin_de_multiplo (x : Q) : (5 | bin_de x)%Z.
Proof. unfold bin_de. exists (Py.int (x / 5)). reflexivity. Qed.

Lemma py_sum_limites (l : list Q) (acc : Q) :
  Forall resultado_01 l ->
  acc <= fold_left Qplus l acc
  /\ fold_left Qplus l acc <= acc + inject_Z (Py.len l).
Proof.
  intros Hl. revert acc. induction Hl as [|y l [Hy0 Hy1] _ IH]; intros acc.
  - simpl. unfold Py.len. simpl. change (inject_Z (Z.of_nat 0)) with 0. split; lra.
  - simpl. destruct (IH (acc + y)) as [H1 H2].
    assert (Hlen : inject_Z (Py.len (y :: l)) == 1 + inject_Z (Py.len l)).
    { unfold Py.len. simpl length. rewrite Nat2Z.inj_succ.
      unfold Z.succ. rewrite inject_Z_plus. change (inject_Z 1) with 1. lra. }
    rewrite Hlen. split; lra.
Qed.

(** The mean hit rate of a non-empty bin, as a percentage. *)
Lemma media_do_bin_limites (valores : list Q) :
  valores <> [] -> Forall resultado_01 valores ->
  0 <= Py.sum valores / inject_Z (Py.len valores) * 100
  /\ Py.sum valores / inject_Z (Py.len valores) * 100 <= 100.
Proof.
  intros Hne Hl. unfold Py.sum.
  destruct (py_sum_limites valores 0 Hl) as [H1 H2].
  assert (Hpos : 0 < inject_Z (Py.len valores)).
  { unfold Py.len. destruct valores; [congruence|].
    simpl length. rewrite <- (Zlt_Qlt 0). lia. }
  set (s := fold_left Qplus valores 0) in *.
  set (n := inject_Z (Py.len valores)) in *.
  assert (Hq : 0 <= s / n /\ s / n <= 1).
  { split.
    - apply Qle_shift_div_l; [exact Hpos | lra].
    - apply Qle_shift_div_r; [exact Hpos | lra]. }
  destruct Hq. split; lra.
Qed.

Lemma agrupar_bins_passo (bins : gmap Z (list Q)) (xy : Q * Q) :
  bins_validos bins -> resultado_01 (snd xy) ->
  bins_validos
    (<[bin_de (fst xy) := default [] (bins !! bin_de (fst xy)) ++ [snd xy]]>
       bins).
Proof.
  intros Hb Hy k l Hk.
  destruct (decide (bin_de (fst xy) = k)) as [<-|Hne].
  - rewrite lookup_insert_eq in Hk. inversion Hk; subst l. clear Hk.
    split; [apply bin_de_multiplo|]. split.
    + destruct (default [] (bins !! bin_de (fst xy))); discriminate.
    + apply Forall_app. split; [|constructor; [exact Hy | constructor]].
      destruct (bins !! bin_de (fst xy)) as [l0|] eqn:E0; simpl.
      * apply (Hb _ _ E0).
      * constructor.
  - rewrite lookup_insert_ne in Hk by exact Hne. apply (Hb _ _ Hk).
Qed.

Lemma agrupar_bins_validos (pares : list (Q * Q)) :
  Forall (fun xy => resultado_01 (snd xy)) pares ->
  bins_validos (agrupar_bins pares)
  /\ (pares <> [] -> agrupar_bins pares <> ∅).
Proof.
  intros Hp. unfold agrupar_bins.
  assert (Hgen : forall bins,
            bins_validos bins ->
            bins_validos
              (fold_left
                 (fun bins xy =>
                    <[bin_de (fst xy)
                      := default [] (bins !! bin_de (fst xy)) ++ [snd xy]]>
                      bins) pares bins)
            /\ (bins <> ∅ \/ pares <> [] ->
                fold_left
                  (fun bins xy =>
                     <[bin_de (fst xy)
                       := default [] (bins !! bin_de (fst xy)) ++ [snd xy]]>
                       bins) pares bins <> ∅)).
  { induction Hp as [|xy pares Hxy _ IH]; intros bins Hb; simpl.
    - split; [exact Hb|]. intros [H | H]; [exact H | congruence].
    - destruct (IH _ (agrupar_bins_passo bins xy Hb Hxy)) as [H1 H2].
      split; [exact H1|]. intros _. apply H2. left.
      apply insert_non_empty. }
  destruct (Hgen ∅) as [H1 H2].
  - intros k l Hk. rewrite lookup_empty in Hk. discriminate.
  - split; [exact H1|]. intros Hne. apply H2. right. exact Hne.
Qed.

Lemma item_limites (mapa : gmap Z Q) (k : Z) :
  mapa_valido mapa -> 0 <= item mapa k /\ item mapa k <= 100.
Proof.
  intros [_ Hv]. unfold item.
  destruct (mapa !! k) as [v|] eqn:E; simpl.
  - apply (Hv _ _ E).
  - split; unfold Qle; simpl; lia.
Qed.

Lemma aplicar_monotonicidade_valido (chaves : list Z) (mapa : gmap Z Q) :
  Forall (fun k => (5 | k)%Z) chaves -> mapa_valido mapa ->
  mapa_valido (aplicar_monotonicidade chaves mapa).
Proof.
  intros Hc. revert mapa.
  induction Hc as [|k_anterior resto Hk Hresto IH]; intros mapa Hm;
    [exact Hm|].
  destruct resto as [|k_atual resto']; [exact Hm|].
  simpl. apply IH.
  destruct (Py.Qlt_bool (item mapa k_atual) (item mapa k_anterior));
    [|exact Hm].
  inversion Hresto as [|? ? Hk2 _]; subst.
  destruct (item_limites mapa k_atual Hm) as [A1 A2].
  destruct (item_limites mapa k_anterior Hm) as [B1 B2].
  destruct Hm as [_ Hv].
  assert (Hmedia : 0 <= (item mapa k_atual + item mapa k_anterior) / 2
                   /\ (item mapa k_atual + item mapa k_anterior) / 2 <= 100).
  { unfold Qdiv. change (/ 2) with (1 # 2). split; lra. }
  split; [apply insert_non_empty|].
  intros k v Hkv.
  destruct (decide (k_anterior = k)) as [<-|N1].
  - rewrite lookup_insert_eq in Hkv. inversion Hkv; subst v.
    split; [exact Hk | exact Hmedia].
  - rewrite lookup_insert_ne in Hkv by exact N1.
    destruct (decide (k_atual = k)) as [<-|N2].
    + rewrite lookup_insert_eq in Hkv. inversion Hkv; subst v.
      split; [exact Hk2 | exact Hmedia].
    + rewrite lookup_insert_ne in Hkv by exact N2. apply (Hv _ _ Hkv).
Qed.

Lemma chaves_ordenadas_In (mapa : gmap Z Q) (k : Z) :
  In k (chaves_ordenadas mapa) <-> is_Some (mapa !! k).
Proof.
  unfold chaves_ordenadas. rewrite sorted_In, in_map_iff. split.
  - intros ([k' v] & <- & Hin). simpl.
    apply list_elem_of_In, elem_of_map_to_list in Hin. eauto.
  - intros [v Hv]. exists (k, v). split; [reflexivity|].
    apply list_elem_of_In, elem_of_map_to_list. exact Hv.
Qed.

Lemma chaves_ordenadas_nao_vazia (mapa : gmap Z Q) :
  mapa <> ∅ -> chaves_ordenadas mapa <> [].
Proof.
  intros Hne Hnil. apply Hne. apply map_eq. intros k.
  rewrite lookup_empty.
  destruct (mapa !! k) as [v|] eqn:E; [|reflexivity].
  assert (Hin : In k (chaves_ordenadas mapa))
    by (apply chaves_ordenadas_In; eauto).
  rewrite Hnil in Hin. destruct Hin.
Qed.

(** Training on at least ten well-formed observations yields a valid
    map. *)
Lemma treinar_mapa_valido (self : CalibradorIsotonico.t) (mapa : gmap Z Q) :
  length (pontos_x self) = length (pontos_y self) ->
  Forall resultado_01 (pontos_y self) ->
  _mapa_calibracao (treinar self) = Some mapa ->
  mapa_valido mapa.
Proof.
  intros Hlen Hy. unfold treinar.
  destruct (Py.len (pontos_x self) <? 10)%Z eqn:E; [discriminate|].
  apply Z.ltb_ge in E. unfold Py.len in E.
  cbn [_mapa_calibracao]. intros H. inversion H; subst mapa; clear H.
  set (pares := Py.sorted par_leb (combine (pontos_x self) (pontos_y self))).
  assert (Hpares : Forall (fun xy : Q * Q => resultado_01 (snd xy)) pares).
  { apply List.Forall_forall. intros [x y] Hin.
    apply sorted_In in Hin. apply in_combine_r in Hin.
    rewrite List.Forall_forall in Hy. apply Hy. exact Hin. }
  assert (Hne : pares <> []).
  { intros Hnil.
    assert (Hl : length pares = length (combine (pontos_x self) (pontos_y self))).
    { symmetry. apply Permutation_length. apply sorted_perm. }
    rewrite Hnil, length_combine in Hl. simpl in Hl. lia. }
  destruct (agrupar_bins_validos pares Hpares) as [Hb Hbne].
  specialize (Hbne Hne).
  set (bins := agrupar_bins pares) in *.
  set (media := fun valores : list Q =>
                  Py.sum valores / inject_Z (Py.len valores) * 100).
  assert (Hm0 : mapa_valido (media <$> bins)).
  { split.
    - intros Hempty. apply Hbne. apply (fmap_empty_inv media). exact Hempty.
    - intros k v Hk. rewrite lookup_fmap in Hk.
      destruct (bins !! k) as [l|] eqn:El; simpl in Hk; [|discriminate].
      inversion Hk; subst v.
      destruct (Hb _ _ El) as (Hdiv & Hlne & Hl01).
      split; [exact Hdiv|]. apply media_do_bin_limites; assumption. }
  apply aplicar_monotonicidade_valido; [|exact Hm0].
  apply List.Forall_forall. intros k Hk.
  apply chaves_ordenadas_In in Hk. destruct Hk as [v Hv].
  destruct Hm0 as [_ Hv0]. apply (Hv0 _ _ Hv).
Qed.

(** What the class keeps true of a calibrator. *)
Lemma construido_invariante (self : CalibradorIsotonico.t) :
  construido self ->
  length (pontos_x self) = length (pontos_y self)
  /\ Forall resultado_01 (pontos_y self)
  /\ (forall mapa, _mapa_calibracao self = Some mapa -> mapa_valido mapa).
Proof.
  assert (Htreinar : forall s,
            length (pontos_x s) = length (pontos_y s)
            /\ Forall resultado_01 (pontos_y s)
            /\ (forall mapa, _mapa_calibracao s = Some mapa -> mapa_valido mapa) ->
            length (pontos_x (treinar s)) = length (pontos_y (treinar s))
            /\ Forall resultado_01 (pontos_y (treinar s))
            /\ (forall mapa, _mapa_calibracao (treinar s) = Some mapa ->
                             mapa_valido mapa)).
  { intros s (H1 & H2 & _).
    assert (Hx : pontos_x (treinar s) = pontos_x s) by apply treinar_pontos.
    assert (Hy : pontos_y (treinar s) = pontos_y s).
    { unfold treinar. destruct (Py.len (pontos_x s) <? 10)%Z; reflexivity. }
    rewrite Hx, Hy. split; [exact H1|]. split; [exact H2|].
    intros mapa Hm. apply (treinar_mapa_valido s mapa H1 H2 Hm). }
  induction 1 as [mercado | self p_raw acertou _ IH | self _ IH
                 | self p_raw _ IH | self _ IH].
  - split; [reflexivity|]. split; [constructor | discriminate].
  - destruct IH as (H1 & H2 & H3). simpl.
    split; [rewrite !length_app; simpl; lia|]. split; [|exact H3].
    apply Forall_app. split; [exact H2|].
    constructor; [|constructor].
    destruct acertou; split; unfold Qle; simpl; lia.
  - apply Htreinar. exact IH.
  - rewrite calibrar_fst. destruct (treinado self);
      [exact IH | apply Htreinar; exact IH].
  - destruct self as [m px py t mapa]. exact IH.
Qed.

Lemma interpolar_limites (chaves : list Z) (mapa : gmap Z Q) (bin_idx : Z)
    (p_raw : Q) :
  mapa_valido mapa -> 0 <= p_raw -> p_raw <= 100 ->
  0 <= interpolar chaves mapa bin_idx p_raw
  /\ interpolar chaves mapa bin_idx p_raw <= 100.
Proof.
  intros Hm Hp0 Hp1.
  induction chaves as [|k resto IH]; [simpl; split; assumption|].
  destruct resto as [|k_prox resto']; [simpl; split; assumption|].
  change (interpolar (k :: k_prox :: resto') mapa bin_idx p_raw)
    with (if (k <=? bin_idx)%Z && (bin_idx <? k_prox)%Z
          then
            (1 - inject_Z (bin_idx - k) / inject_Z (k_prox - k)) * item mapa k
            + inject_Z (bin_idx - k) / inject_Z (k_prox - k)
              * item mapa k_prox
          else interpolar (k_prox :: resto') mapa bin_idx p_raw).
  destruct ((k <=? bin_idx)%Z && (bin_idx <? k_prox)%Z) eqn:E; [|exact IH].
  apply andb_true_iff in E. destruct E as [E1 E2].
  apply Z.leb_le in E1. apply Z.ltb_lt in E2.
  destruct (item_limites mapa k Hm) as [A1 A2].
  destruct (item_limites mapa k_prox Hm) as [B1 B2].
  assert (Hn : 0 <= inject_Z (bin_idx - k)) by (rewrite <- (Zle_Qle 0); lia).
  assert (Hd : 0 < inject_Z (k_prox - k)) by (rewrite <- (Zlt_Qlt 0); lia).
  assert (Hnd : inject_Z (bin_idx - k) <= inject_Z (k_prox - k))
    by (rewrite <- Zle_Qle; lia).
  set (n := inject_Z (bin_idx - k)) in *.
  set (d := inject_Z (k_prox - k)) in *.
  assert (Ht0 : 0 <= n / d) by (apply Qle_shift_div_l; [exact Hd | lra]).
  assert (Ht1 : n / d <= 1) by (apply Qle_shift_div_r; [exact Hd | lra]).
  set (t := n / d) in *.
  split; nra.
Qed.

Lemma calibrar_construido (self : CalibradorIsotonico.t) (p_raw : Q) :
  construido self ->
  exists v, snd (calibrar self p_raw) = Py.Ret v
            /\ (0 <= p_raw -> p_raw <= 100 -> 0 <= v /\ v <= 100).
Proof.
  intros Hc.
  assert (Hinv := construido_invariante _ (con_calibrar self p_raw Hc)).
  destruct Hinv as (_ & _ & Hmapa).
  rewrite calibrar_fst in Hmapa.
  unfold calibrar.
  set (s := if treinado self then self else treinar self) in *.
  destruct (_mapa_calibracao s) as [mapa|] eqn:Em.
  2: { exists p_raw. split; [reflexivity|]. intros; split; assumption. }
  specialize (Hmapa mapa eq_refl).
  destruct (mapa !! bin_de p_raw) as [v|] eqn:Eb.
  { exists v. split; [reflexivity|]. intros _ _.
    destruct Hmapa as [_ Hv]. apply (Hv _ _ Eb). }
  destruct (chaves_ordenadas mapa) as [|primeira resto] eqn:Ech.
  { exfalso. apply (chaves_ordenadas_nao_vazia mapa); [apply Hmapa | exact Ech]. }
  destruct (bin_de p_raw <? primeira)%Z.
  { eexists. split; [reflexivity|]. intros _ _. apply item_limites, Hmapa. }
  destruct (List.last (primeira :: resto) primeira <? bin_de p_raw)%Z.
  { eexists. split; [reflexivity|]. intros _ _. apply item_limites, Hmapa. }
  eexists. split; [reflexivity|]. intros H0 H1.
  apply interpolar_limites; assumption.
Qed.

(** X13.  A calibrator built through the class never makes [calibrar]
    raise, and a raw probability of [[0, 100]] is calibrated to a value of
    [[0, 100]]; the map it holds, if any, is not empty, its keys are
    multiples of 5 and its values lie in [[0, 100]]. *)
Theorem calibrar_retorna_percentagem (self : CalibradorIsotonico.t)
    (p_raw : Q) :
  construido self ->
  (exists v, snd (calibrar self p_raw) = Py.Ret v
             /\ (0 <= p_raw -> p_raw <= 100 -> 0 <= v /\ v <= 100))
  /\ (forall mapa, _mapa_calibracao self = Some mapa -> mapa_valido mapa).
Proof.
  intros Hc. split.
  - apply calibrar_construido. exact Hc.
  - apply (construido_invariante self Hc).
Qed.

End MapaTreinado.

Lemma construido_registrar (obs : list (Q * bool))
    (c : Probabilidade.CalibradorIsotonico.t) :
  Probabilidade.construido c ->
  Probabilidade.construido (Exemplos.registrar obs c).
Proof.
  revert c. induction obs as [|xb obs IH]; intros c Hc; [exact Hc|].
  apply IH. apply Probabilidade.con_adicionar. exact Hc.
Qed.

Lemma calibrar_retorna_percentagem_witness :
  exists v,
    snd (Probabilidade.calibrar Exemplos.calibrador_tres_bins 33.0)
    = Py.Ret v
    /\ (0 <= v)%Q /\ (v <= 100)%Q.
Proof.
  destruct (calibrar_retorna_percentagem Exemplos.calibrador_tres_bins 33.0)
    as [(v & Hv & Hlim) _].
  - apply construido_registrar. apply Probabilidade.con_novo.
  - exists v. split; [exact Hv|].
    apply Hlim; unfold Qle; simpl; lia.
Defined.

(** ** The calibration manager *)

Section MaisGerenciador.
Import Probabilidade.
Import GerenciadorCalibracao (calibradores, pasta, mercados).
Local Open Scope Q_scope.

Lemma calibrar_treina_lazy (self : CalibradorIsotonico.t) (p_raw : Q) :
  CalibradorIsotonico.treinado self = false ->
  calibrar self p_raw = calibrar (treinar self) p_raw.
Proof.
  intros H. unfold calibrar. rewrite H, treinar_treinado. reflexivity.
Qed.

Lemma fold_insert_lookup {A : Type} (f : string -> A) (l : list string)
    (d : gmap string A) (k : string) :
  fold_left (fun d m => <[m := f m]> d) l d !! k
  = if bool_decide (k ∈ l) then Some (f k) else d !! k.
Proof.
  revert d. induction l as [|m l IH]; intros d; [reflexivity|].
  cbn [fold_left]. rewrite IH.
  destruct (decide (m = k)) as [->|N].
  - rewrite lookup_insert_eq.
    rewrite (bool_decide_eq_true_2 (k ∈ k :: l)) by (left).
    destruct (bool_decide (k ∈ l)); reflexivity.
  - rewrite lookup_insert_ne by exact N.
    destruct (bool_decide (k ∈ l)) eqn:E.
    + apply bool_decide_eq_true_1 in E.
      rewrite bool_decide_eq_true_2 by (right; exact E). reflexivity.
    + apply bool_decide_eq_false_1 in E.
      rewrite bool_decide_eq_false_2; [reflexivity|].
      intros H. apply elem_of_cons in H. destruct H as [H|H];
        [exact (N (eq_sym H)) | exact (E H)].
Qed.

Lemma novo_gerenciador_calibradores (mercado : string) :
  calibradores novo_gerenciador !! mercado
  = if bool_decide (mercado ∈ MERCADOS_SUPORTADOS)
    then Some (novo_calibrador mercado) else None.
Proof.
  unfold novo_gerenciador. cbn [calibradores].
  rewrite fold_insert_lookup. rewrite lookup_empty. reflexivity.
Qed.

Lemma novo_gerenciador_construidos :
  calibradores_construidos novo_gerenciador.
Proof.
  intros m c H. rewrite novo_gerenciador_calibradores in H.
  destruct (bool_decide (m ∈ MERCADOS_SUPORTADOS)); [|discriminate].
  inversion H; subst. apply con_novo.
Qed.

(** The points that a run of [adicionar_resultado] leaves in a market. *)
Lemma adicionar_resultados_pontos (resultados : list (string * Q * bool))
    (g : GerenciadorCalibracao.t) (mercado : string)
    (c : CalibradorIsotonico.t) :
  calibradores g !! mercado = Some c ->
  exists c',
    calibradores (adicionar_resultados g resultados) !! mercado = Some c'
    /\ CalibradorIsotonico.pontos_x c'
       = CalibradorIsotonico.pontos_x c
         ++ map (fun r => snd (fst r))
              (List.filter (fun r => bool_decide (fst (fst r) = mercado))
                 resultados)
    /\ CalibradorIsotonico.pontos_y c'
       = CalibradorIsotonico.pontos_y c
         ++ map (fun r : string * Q * bool => if snd r then 1.0 else 0.0)
              (List.filter (fun r => bool_decide (fst (fst r) = mercado))
                 resultados)
    /\ (CalibradorIsotonico.treinado c = false ->
        CalibradorIsotonico.treinado c' = false).
Proof.
  revert g c. induction resultados as [|[[m p] a] rs IH]; intros g c Hc.
  - exists c. simpl. rewrite !app_nil_r. auto.
  - unfold adicionar_resultados. cbn [fold_left].
    fold (adicionar_resultados (adicionar_resultado g m p a) rs).
    cbn [List.filter fst snd].
    destruct (decide (m = mercado)) as [->|N].
    + rewrite bool_decide_eq_true_2 by reflexivity.
      destruct (IH (adicionar_resultado g mercado p a)
                  (adicionar_ponto c p a)) as (c' & Hc' & Hx & Hy & Ht).
      { unfold adicionar_resultado. rewrite Hc. cbn [calibradores].
        apply lookup_insert_eq. }
      exists c'. split; [exact Hc'|].
      rewrite Hx, Hy. cbn [adicionar_ponto CalibradorIsotonico.pontos_x
                           CalibradorIsotonico.pontos_y map fst snd].
      rewrite <- !app_assoc. split; [reflexivity|].
      split; [reflexivity|]. intros _. apply Ht. reflexivity.
    + rewrite bool_decide_eq_false_2 by exact N.
      apply IH. unfold adicionar_resultado.
      destruct (calibradores g !! m) as [cm|]; [|exact Hc].
      cbn [calibradores]. rewrite lookup_insert_ne by exact N. exact Hc.
Qed.

Lemma adicionar_resultados_desconhecido
    (resultados : list (string * Q * bool)) (g : GerenciadorCalibracao.t)
    (mercado : string) :
  calibradores g !! mercado = None ->
  calibradores (adicionar_resultados g resultados) !! mercado = None.
Proof.
  revert g. induction resultados as [|[[m p] a] rs IH]; intros g Hc;
    [exact Hc|].
  unfold adicionar_resultados. cbn [fold_left].
  fold (adicionar_resultados (adicionar_resultado g m p a) rs).
  apply IH. unfold adicionar_resultado.
  destruct (calibradores g !! m) as [cm|] eqn:E; [|exact Hc].
  cbn [calibradores]. rewrite lookup_insert_ne; [exact Hc|].
  intros ->. congruence.
Qed.

(** X18.  Cold start of the manager.  After any run of
    [adicionar_resultado] on a fresh manager, a supported market holds
    exactly the results fed for it, in order, and the results of other
    names are dropped; and while fewer than ten results were fed for a
    market, the manager hands every raw probability of that market back
    unchanged. *)
Theorem gerenciador_partida_a_frio (resultados : list (string * Q * bool))
    (mercado : string) :
  let do_mercado :=
    List.filter (fun r => bool_decide (fst (fst r) = mercado)) resultados in
  let g := adicionar_resultados novo_gerenciador resultados in
  (mercado ∈ MERCADOS_SUPORTADOS ->
   exists c, calibradores g !! mercado = Some c
             /\ CalibradorIsotonico.pontos_x c
                = map (fun r => snd (fst r)) do_mercado
             /\ CalibradorIsotonico.pontos_y c
                = map (fun r : string * Q * bool =>
                         if snd r then 1.0 else 0.0) do_mercado)
  /\ (mercado ∉ MERCADOS_SUPORTADOS -> calibradores g !! mercado = None)
  /\ ((length do_mercado < 10)%nat ->
      forall p_raw, snd (gerenciador_calibrar g mercado p_raw) = Py.Ret p_raw).
Proof.
  intros do_mercado g.
  pose proof (novo_gerenciador_calibradores mercado) as Hn.
  split; [|split].
  - intros Hin. rewrite bool_decide_eq_true_2 in Hn by exact Hin.
    destruct (adicionar_resultados_pontos resultados _ _ _ Hn)
      as (c & Hc & Hx & Hy & _).
    exists c. auto.
  - intros Hnin. rewrite bool_decide_eq_false_2 in Hn by exact Hnin.
    apply adicionar_resultados_desconhecido. exact Hn.
  - intros Hlt p_raw. subst g. unfold gerenciador_calibrar.
    destruct (bool_decide (mercado ∈ MERCADOS_SUPORTADOS)).
    + destruct (adicionar_resultados_pontos resultados _ _ _ Hn)
        as (c & Hc & Hx & _ & Ht).
      rewrite Hc.
      specialize (Ht eq_refl).
      assert (Hm : CalibradorIsotonico._mapa_calibracao (treinar c) = None).
      { apply treinar_poucos_pontos. rewrite Hx. cbn [novo_calibrador
          CalibradorIsotonico.pontos_x app]. rewrite length_map.
        exact Hlt. }
      unfold calibrar. rewrite Ht, Hm. reflexivity.
    + rewrite (adicionar_resultados_desconhecido resultados _ _ Hn).
      reflexivity.
Qed.

(** X19.  The markets of a manager are independent and its key set is
    fixed: feeding a result to, or calibrating, one market leaves the
    calibrator and the answers of every other market as they were, and
    neither operation adds or removes a market; for a name the manager
    does not hold, [calibrar] hands the raw probability back and
    [adicionar_resultado] does nothing. *)
Theorem gerenciador_mercados_independentes (g : GerenciadorCalibracao.t)
    (mercado outro : string) (p_raw : Q) (acertou : bool) :
  let g1 := adicionar_resultado g mercado p_raw acertou in
  let g2 := fst (gerenciador_calibrar g mercado p_raw) in
  (mercado <> outro ->
   calibradores g1 !! outro = calibradores g !! outro
   /\ calibradores g2 !! outro = calibradores g !! outro
   /\ (forall q, gerenciador_calibrar g1 outro q
                 = (let '(g', v) := gerenciador_calibrar g outro q in
                    (adicionar_resultado g' mercado p_raw acertou, v))))
  /\ (forall k, is_Some (calibradores g1 !! k)
                <-> is_Some (calibradores g !! k))
  /\ (forall k, is_Some (calibradores g2 !! k)
                <-> is_Some (calibradores g !! k))
  /\ (calibradores g !! mercado = None ->
      gerenciador_calibrar g mercado p_raw = (g, Py.Ret p_raw) /\ g1 = g).
Proof.
  intros g1 g2. subst g1 g2.
  unfold adicionar_resultado, gerenciador_calibrar.
  split; [|split; [|split]].
  - intros N.
    destruct (calibradores g !! mercado) as [c|] eqn:E.
    + destruct (calibrar c p_raw) as [c' v] eqn:Ec.
      cbn [fst calibradores pasta mercados].
      rewrite !lookup_insert_ne by exact N.
      split; [reflexivity|]. split; [reflexivity|].
      intros q. destruct (calibradores g !! outro) as [co|] eqn:Eo.
      * destruct (calibrar co q) as [co' vo].
        cbn [calibradores pasta mercados].
        rewrite lookup_insert_ne by (intros H; apply N; auto).
        rewrite E. f_equal. f_equal.
        apply insert_insert_ne. intros H; apply N; auto.
      * cbn [calibradores]. rewrite E. reflexivity.
    + cbn [fst]. split; [reflexivity|]. split; [reflexivity|].
      intros q. destruct (calibradores g !! outro) as [co|] eqn:Eo;
        [|rewrite E; reflexivity].
      destruct (calibrar co q) as [co' vo]. cbn [calibradores].
      rewrite lookup_insert_ne by (intros H; subst; congruence).
      rewrite E. reflexivity.
  - intros k. destruct (calibradores g !! mercado) as [c|] eqn:E;
      [|reflexivity].
    cbn [calibradores]. destruct (decide (mercado = k)) as [<-|N].
    + rewrite lookup_insert_eq, E. split; eauto.
    + rewrite lookup_insert_ne by exact N. reflexivity.
  - intros k. destruct (calibradores g !! mercado) as [c|] eqn:E;
      [|reflexivity].
    destruct (calibrar c p_raw) as [c' v].
    cbn [fst calibradores]. destruct (decide (mercado = k)) as [<-|N].
    + rewrite lookup_insert_eq, E. split; eauto.
    + rewrite lookup_insert_ne by exact N. reflexivity.
  - intros ->. split; reflexivity.
Qed.

(** *** The calibration folder *)

Lemma nome_arquivo_injetivo (m m' : string) :
  m ∈ MERCADOS_SUPORTADOS -> m' ∈ MERCADOS_SUPORTADOS ->
  nome_arquivo m = nome_arquivo m' -> m = m'.
Proof.
  unfold MERCADOS_SUPORTADOS. intros H1 H2.
  repeat (apply elem_of_cons in H1; destruct H1 as [->|H1]);
    try (apply elem_of_nil in H1; destruct H1);
    repeat (apply elem_of_cons in H2; destruct H2 as [->|H2]);
    try (apply elem_of_nil in H2; destruct H2);
    intros E; first [reflexivity | vm_compute in E; discriminate E].
Qed.

Lemma salvar_todos_lookup (g : GerenciadorCalibracao.t) (arquivos : Pasta)
    (mercado : string) :
  pasta_definida g = true ->
  (forall m, is_Some (calibradores g !! m) -> m ∈ MERCADOS_SUPORTADOS) ->
  mercado ∈ MERCADOS_SUPORTADOS ->
  salvar_todos g arquivos !! nome_arquivo mercado
  = match calibradores g !! mercado with
    | Some c => Some (salvar c)
    | None => arquivos !! nome_arquivo mercado
    end.
Proof.
  intros Hp Hk Hm. unfold salvar_todos. rewrite Hp.
  revert Hk. generalize (calibradores g). intros d.
  apply (map_fold_weak_ind
           (fun (r : Pasta) (d : gmap string CalibradorIsotonico.t) =>
              (forall m, is_Some (d !! m) -> m ∈ MERCADOS_SUPORTADOS) ->
              r !! nome_arquivo mercado
              = match d !! mercado with
                | Some c => Some (salvar c)
                | None => arquivos !! nome_arquivo mercado
                end)).
  - intros _. rewrite lookup_empty. reflexivity.
  - intros i x m r Hi IH Hk. cbv beta.
    assert (Hk' : forall m0, is_Some (m !! m0) -> m0 ∈ MERCADOS_SUPORTADOS).
    { intros m0 [c Hc]. apply Hk. destruct (decide (i = m0)) as [->|N].
      - rewrite lookup_insert_eq. eauto.
      - rewrite lookup_insert_ne by exact N. eauto. }
    destruct (decide (i = mercado)) as [->|N].
    + rewrite (lookup_insert_eq m). apply lookup_insert_eq.
    + rewrite (lookup_insert_ne m) by exact N.
      transitivity (r !! nome_arquivo mercado); [|apply IH; exact Hk'].
      apply lookup_insert_ne.
      intros E. apply N. apply nome_arquivo_injetivo; [|exact Hm|exact E].
      apply Hk. rewrite lookup_insert_eq. eauto.
Qed.

Lemma carregar_loop_lookup (arquivos : Pasta) (l : list string)
    (d : gmap string CalibradorIsotonico.t) (k : string) :
  fold_left
    (fun d mercado =>
       match arquivos !! nome_arquivo mercado with
       | Some dados => <[mercado := carregar dados]> d
       | None => d
       end) l d !! k
  = if bool_decide (k ∈ l)
    then match arquivos !! nome_arquivo k with
         | Some dados => Some (carregar dados)
         | None => d !! k
         end
    else d !! k.
Proof.
  revert d. induction l as [|m l IH]; intros d; [reflexivity|].
  cbn [fold_left]. rewrite IH.
  destruct (decide (m = k)) as [->|N].
  - rewrite (bool_decide_eq_true_2 (k ∈ k :: l)) by left.
    destruct (arquivos !! nome_arquivo k) as [dados|] eqn:E.
    + rewrite lookup_insert_eq.
      destruct (bool_decide (k ∈ l)); reflexivity.
    + destruct (bool_decide (k ∈ l)); reflexivity.
  - assert (Hd : match arquivos !! nome_arquivo m with
                 | Some dados => <[m := carregar dados]> d
                 | None => d
                 end !! k = d !! k).
    { destruct (arquivos !! nome_arquivo m); [|reflexivity].
      apply lookup_insert_ne. exact N. }
    rewrite Hd.
    destruct (bool_decide (k ∈ l)) eqn:E.
    + apply bool_decide_eq_true_1 in E.
      rewrite bool_decide_eq_true_2 by (right; exact E). reflexivity.
    + apply bool_decide_eq_false_1 in E.
      rewrite bool_decide_eq_false_2; [reflexivity|].
      intros H. apply elem_of_cons in H. destruct H as [H|H];
        [exact (N (eq_sym H)) | exact (E H)].
Qed.

(** X20.  The folder round trip: after [salvar_todos] of a manager with a
    folder, a new manager made on that folder holds, for every supported
    market, the saved calibrator as [carregar] rebuilds it (same market,
    points and map, marked trained), and nothing for any other name; a
    manager without a folder name writes nothing and loads nothing. *)
Theorem salvar_todos_carregar_todos (g : GerenciadorCalibracao.t)
    (arquivos : Pasta) (pasta_nova : string) :
  (forall m, is_Some (calibradores g !! m) <-> m ∈ MERCADOS_SUPORTADOS) ->
  (pasta_definida g = true -> pasta_nova <> EmptyString ->
   forall m,
     calibradores (gerenciador_da_pasta pasta_nova (salvar_todos g arquivos))
       !! m
     = (fun c => carregar (salvar c)) <$> calibradores g !! m)
  /\ (pasta_definida g = false ->
      salvar_todos g arquivos = arquivos /\ carregar_todos g arquivos = g).
Proof.
  intros Hk. split.
  - intros Hp Hn m. unfold gerenciador_da_pasta, carregar_todos.
    assert (Hdef : pasta_definida
                     (GerenciadorCalibracao.make
                        (calibradores novo_gerenciador) (Some pasta_nova)
                        MERCADOS_SUPORTADOS) = true).
    { unfold pasta_definida. cbn [pasta].
      destruct pasta_nova; [congruence | reflexivity]. }
    rewrite Hdef. cbn [calibradores mercados].
    rewrite carregar_loop_lookup, novo_gerenciador_calibradores.
    destruct (bool_decide (m ∈ MERCADOS_SUPORTADOS)) eqn:E.
    + apply bool_decide_eq_true_1 in E.
      rewrite salvar_todos_lookup;
        [|exact Hp | intros m0 H0; apply Hk; exact H0 | exact E].
      destruct (proj2 (Hk m) E) as [c ->]. reflexivity.
    + apply bool_decide_eq_false_1 in E.
      destruct (calibradores g !! m) as [c|] eqn:Ec; [|reflexivity].
      exfalso. apply E. apply Hk. eauto.
  - intros Hp. unfold salvar_todos, carregar_todos. rewrite Hp.
    split; reflexivity.
Qed.

(** X28.  [retreinar_todos] trains every calibrator and nothing else: it
    keeps the markets, doing it twice is doing it once, and after it
    [calibrar] only reads (the manager it leaves is the same manager); for
    a market whose calibrator was not trained, the answers are those the
    manager would have given anyway by training lazily. *)
Theorem retreinar_todos_treina (g : GerenciadorCalibracao.t)
    (mercado : string) (p_raw : Q) :
  let g' := retreinar_todos g in
  calibradores g' !! mercado = treinar <$> calibradores g !! mercado
  /\ retreinar_todos g' = g'
  /\ fst (gerenciador_calibrar g' mercado p_raw) = g'
  /\ (forall c, calibradores g !! mercado = Some c ->
                CalibradorIsotonico.treinado c = false ->
                gerenciador_calibrar g' mercado p_raw
                = (g', snd (gerenciador_calibrar g mercado p_raw)))
  /\ pasta g' = pasta g /\ mercados g' = mercados g.
Proof.
  intros g'. subst g'. unfold retreinar_todos.
  assert (Hidem : forall m : gmap string CalibradorIsotonico.t,
            treinar <$> (treinar <$> m) = treinar <$> m).
  { intros m. rewrite <- map_fmap_compose. apply map_fmap_ext.
    intros k c _. apply treinar_idempotente. }
  assert (Hfst : fst (gerenciador_calibrar
                        (GerenciadorCalibracao.make
                           (treinar <$> calibradores g) (pasta g) (mercados g))
                        mercado p_raw)
                 = GerenciadorCalibracao.make
                     (treinar <$> calibradores g) (pasta g) (mercados g)).
  { unfold gerenciador_calibrar. cbn [calibradores pasta mercados].
    rewrite lookup_fmap.
    destruct (calibradores g !! mercado) as [c|] eqn:E; [|reflexivity].
    cbn [fmap option_fmap option_map].
    pose proof (calibrar_fst (treinar c) p_raw) as Hc.
    rewrite treinar_treinado in Hc.
    destruct (calibrar (treinar c) p_raw) as [c' v]. cbn [fst] in *.
    subst c'. f_equal. apply insert_id. rewrite lookup_fmap, E.
    reflexivity. }
  cbn [calibradores pasta mercados].
  split; [apply lookup_fmap|].
  split; [rewrite Hidem; reflexivity|].
  split; [exact Hfst|].
  split; [|split; reflexivity].
  intros c Hc Ht.
  rewrite (surjective_pairing (gerenciador_calibrar _ mercado p_raw)).
  rewrite Hfst. f_equal.
  unfold gerenciador_calibrar. cbn [calibradores pasta mercados].
  rewrite lookup_fmap, Hc. cbn [fmap option_fmap option_map].
  pose proof (calibrar_treina_lazy c p_raw Ht) as Hlazy.
  rewrite Hlazy.
  destruct (calibrar (treinar c) p_raw) as [c' v]. reflexivity.
Qed.

End MaisGerenciador.

(** ** The seven market probabilities and the full analysis *)

Section MaisMercados.
Context {M : MathModule}.
Import Probabilidade.
Local Open Scope Q_scope.

Lemma gerenciador_calibrar_construidos (g : GerenciadorCalibracao.t)
    (mercado : string) (p_raw : Q) :
  calibradores_construidos g ->
  calibradores_construidos (fst (gerenciador_calibrar g mercado p_raw))
  /\ exists v, snd (gerenciador_calibrar g mercado p_raw) = Py.Ret v
               /\ (0 <= p_raw -> p_raw <= 100 -> 0 <= v /\ v <= 100).
Proof.
  intros Hg. unfold gerenciador_calibrar.
  destruct (GerenciadorCalibracao.calibradores g !! mercado) as [c|] eqn:E.
  - assert (Hc := Hg _ _ E).
    destruct (calibrar_construido c p_raw Hc) as (v & Hv & Hl).
    pose proof (con_calibrar c p_raw Hc) as Hc'.
    destruct (calibrar c p_raw) as [c' res]. cbn [fst snd] in *.
    split; [|exists v; auto].
    intros m' c'' H. cbn [GerenciadorCalibracao.calibradores] in H.
    destruct (decide (mercado = m')) as [<-|N].
    + rewrite lookup_insert_eq in H. inversion H; subst. exact Hc'.
    + rewrite lookup_insert_ne in H by exact N. apply (Hg _ _ H).
  - cbn [fst snd]. split; [exact Hg|].
    exists p_raw. split; [reflexivity|]. intros; split; assumption.
Qed.

(** The raw probability of a market from the cdf at [int(linha)]. *)
Lemma probabilidades_loop_inv (mercados : list (string * string * Q))
    (lambda_shrunk dispersao_r : Q) (qualidade : QualidadeDados.t)
    (intervalo : IntervaloConfianca.t)
    (g g' : option GerenciadorCalibracao.t)
    (acc ps : list ProbabilidadeMercado.t) :
  probabilidades_loop mercados lambda_shrunk dispersao_r qualidade intervalo
    g acc = (g', Py.Ret ps) ->
  exists novas,
    ps = acc ++ novas
    /\ Forall2
         (fun (m : string * string * Q) p =>
            exists cdf p_cal,
              calcular_cdf (Py.int (snd m)) lambda_shrunk dispersao_r true
              = Py.Ret cdf
              /\ p = probabilidade_mercado (fst (fst m)) (snd (fst m)) (snd m)
                       (if bool_decide (snd (fst m) = "over"%string)
                        then (1 - cdf) * 100 else cdf * 100)
                       p_cal qualidade intervalo)
         mercados novas.
Proof.
  revert g acc. induction mercados as [|[[mercado tipo] linha] resto IH];
    intros g acc H.
  - simpl in H. inversion H; subst. exists []. rewrite app_nil_r.
    split; [reflexivity | constructor].
  - cbn [probabilidades_loop] in H.
    destruct (calcular_cdf (Py.int linha) lambda_shrunk dispersao_r true)
      as [cdf|e] eqn:Ecdf; [|discriminate].
    set (p_raw := if bool_decide (tipo = "over"%string)
                  then (1 - cdf) * 100 else cdf * 100) in *.
    destruct (match g with
              | Some g0 =>
                  let '(g1, v) := gerenciador_calibrar g0 mercado p_raw in
                  (Some g1, v)
              | None => (None, Py.Ret p_raw)
              end) as [g1 [p_cal|e]] eqn:Ecal; [|discriminate].
    apply IH in H. destruct H as (novas & -> & HF).
    exists (probabilidade_mercado mercado tipo linha p_raw p_cal qualidade
              intervalo :: novas).
    rewrite <- app_assoc. split; [reflexivity|].
    constructor; [|exact HF].
    exists cdf, p_cal. split; [exact Ecdf | reflexivity].
Qed.

Lemma probabilidades_loop_sem_gerenciador
    (mercados : list (string * string * Q))
    (lambda_shrunk dispersao_r : Q) (qualidade : QualidadeDados.t)
    (intervalo : IntervaloConfianca.t)
    (g' : option GerenciadorCalibracao.t)
    (acc ps : list ProbabilidadeMercado.t) :
  probabilidades_loop mercados lambda_shrunk dispersao_r qualidade intervalo
    None acc = (g', Py.Ret ps) ->
  Forall (fun p => ProbabilidadeMercado.p_calibrado p
                   = ProbabilidadeMercado.p_raw p) acc ->
  g' = None
  /\ Forall (fun p => ProbabilidadeMercado.p_calibrado p
                      = ProbabilidadeMercado.p_raw p) ps.
Proof.
  revert acc. induction mercados as [|[[mercado tipo] linha] resto IH];
    intros acc H Hacc.
  - simpl in H. inversion H; subst. auto.
  - cbn [probabilidades_loop] in H.
    destruct (calcular_cdf (Py.int linha) lambda_shrunk dispersao_r true)
      as [cdf|e]; [|discriminate].
    apply IH in H; [exact H|].
    apply Forall_app. split; [exact Hacc|].
    constructor; [reflexivity | constructor].
Qed.

Lemma probabilidades_loop_calibradas (mercados : list (string * string * Q))
    (lambda_shrunk dispersao_r : Q) (qualidade : QualidadeDados.t)
    (intervalo : IntervaloConfianca.t)
    (g g' : option GerenciadorCalibracao.t)
    (acc ps : list ProbabilidadeMercado.t) :
  0 < dispersao_r ->
  (forall g0, g = Some g0 -> calibradores_construidos g0) ->
  probabilidades_loop mercados lambda_shrunk dispersao_r qualidade intervalo
    g acc = (g', Py.Ret ps) ->
  Forall (fun p => 0 <= ProbabilidadeMercado.p_calibrado p
                   /\ ProbabilidadeMercado.p_calibrado p <= 100) acc ->
  (forall g0', g' = Some g0' -> calibradores_construidos g0')
  /\ Forall (fun p => 0 <= ProbabilidadeMercado.p_calibrado p
                      /\ ProbabilidadeMercado.p_calibrado p <= 100) ps.
Proof.
  intros Hr. revert g acc.
  induction mercados as [|[[mercado tipo] linha] resto IH];
    intros g acc Hg H Hacc.
  - simpl in H. inversion H; subst. auto.
  - cbn [probabilidades_loop] in H.
    destruct (calcular_cdf (Py.int linha) lambda_shrunk dispersao_r true)
      as [cdf|e] eqn:Ecdf; [|discriminate].
    destruct (calcular_cdf_limites _ _ _ _ Hr Ecdf) as [Hc0 Hc1].
    set (p_raw := if bool_decide (tipo = "over"%string)
                  then (1 - cdf) * 100 else cdf * 100) in *.
    assert (Hraw : 0 <= p_raw /\ p_raw <= 100).
    { unfold p_raw. destruct (bool_decide (tipo = "over"%string));
        split; lra. }
    destruct g as [g0|].
    + destruct (gerenciador_calibrar_construidos g0 mercado p_raw
                  (Hg g0 eq_refl)) as (Hg1 & v & Hv & Hlim).
      destruct (gerenciador_calibrar g0 mercado p_raw) as [g1 res].
      cbn [fst snd] in *. subst res.
      apply IH in H; [exact H | |].
      * intros g0' E. inversion E; subst. exact Hg1.
      * apply Forall_app. split; [exact Hacc|].
        constructor; [|constructor].
        apply Hlim; apply Hraw.
    + apply IH in H; [exact H | discriminate |].
      apply Forall_app. split; [exact Hacc|].
      constructor; [exact Hraw | constructor].
Qed.

Lemma probabilidades_loop_retorna (mercados : list (string * string * Q))
    (lambda_shrunk dispersao_r : Q) (qualidade : QualidadeDados.t)
    (intervalo : IntervaloConfianca.t)
    (g : option GerenciadorCalibracao.t)
    (acc : list ProbabilidadeMercado.t) :
  erros_numericos M -> 0 < dispersao_r ->
  (forall g0, g = Some g0 -> calibradores_construidos g0) ->
  exists g' ps,
    probabilidades_loop mercados lambda_shrunk dispersao_r qualidade intervalo
      g acc = (g', Py.Ret ps).
Proof.
  intros HM Hr. revert g acc.
  induction mercados as [|[[mercado tipo] linha] resto IH]; intros g acc Hg.
  - simpl. eauto.
  - cbn [probabilidades_loop].
    destruct (calcular_cdf_retorna (Py.int linha) lambda_shrunk dispersao_r
                HM Hr) as [cdf ->].
    set (p_raw := if bool_decide (tipo = "over"%string)
                  then (1 - cdf) * 100 else cdf * 100).
    destruct g as [g0|].
    + destruct (gerenciador_calibrar_construidos g0 mercado p_raw
                  (Hg g0 eq_refl)) as (Hg1 & v & Hv & _).
      destruct (gerenciador_calibrar g0 mercado p_raw) as [g1 res].
      cbn [fst snd] in *. subst res.
      apply IH. intros g0' E. inversion E; subst. exact Hg1.
    + apply IH. discriminate.
Qed.

Lemma Forall2_In_r {A B : Type} (R : A -> B -> Prop) (l : list A)
    (l' : list B) (b : B) :
  Forall2 R l l' -> In b l' -> exists a, In a l /\ R a b.
Proof.
  induction 1 as [|x y l l' Hxy _ IH]; intros Hin; [destruct Hin|].
  destruct Hin as [<-|Hin].
  - exists x. split; [left; reflexivity | exact Hxy].
  - destruct (IH Hin) as (a & Ha & HR). exists a. split; [right|]; assumption.
Qed.

(** Every entry of the result, traced to its market line. *)
Lemma probabilidades_mercados_entrada (lambda_shrunk dispersao_r : Q)
    (qualidade : QualidadeDados.t) (intervalo : IntervaloConfianca.t)
    (g g' : option GerenciadorCalibracao.t)
    (ps : list ProbabilidadeMercado.t) (p : ProbabilidadeMercado.t) :
  calcular_probabilidades_mercados lambda_shrunk dispersao_r qualidade
    intervalo g = (g', Py.Ret ps) ->
  In p ps ->
  exists mercado tipo linha cdf p_cal,
    In (mercado, tipo, linha) MERCADOS_LINHAS
    /\ calcular_cdf (Py.int linha) lambda_shrunk dispersao_r true = Py.Ret cdf
    /\ p = probabilidade_mercado mercado tipo linha
             (if bool_decide (tipo = "over"%string)
              then (1 - cdf) * 100 else cdf * 100)
             p_cal qualidade intervalo.
Proof.
  intros H Hin. unfold calcular_probabilidades_mercados in H.
  apply probabilidades_loop_inv in H. destruct H as (novas & -> & HF).
  rewrite app_nil_l in Hin.
  destruct (Forall2_In_r _ _ _ _ HF Hin)
    as ([[mercado tipo] linha] & Hm & cdf & p_cal & Hcdf & Hp).
  exists mercado, tipo, linha, cdf, p_cal. auto.
Qed.

Lemma linhas_dos_mercados (mercado tipo : string) (linha : Q) :
  In (mercado, tipo, linha) MERCADOS_LINHAS ->
  (tipo = "over"%string \/ tipo = "under"%string)
  /\ (linha = 2.5 \/ linha = 3.5 \/ linha = 4.5 \/ linha = 5.5)
  /\ (Qle_bool 5.5 linha = true
      <-> mercado = "Over 5.5 Cartões"%string
          \/ mercado = "Under 5.5 Cartões"%string)
  /\ Py.dict_get THRESHOLDS_DESTAQUE mercado
     = Some (if bool_decide (mercado = "Over 4.5 Cartões"%string) then 58
             else if bool_decide (mercado = "Over 5.5 Cartões"%string) then 60
             else 55).
Proof.
  intros Hin. unfold MERCADOS_LINHAS in Hin.
  repeat (destruct Hin as [Hin|Hin];
          [inversion Hin; subst; clear Hin;
           (split; [auto|]);
           (split; [auto 6|]);
           (split; [|reflexivity]);
           (split; [intros H; first [discriminate H | auto]
                   | intros [H|H]; first [discriminate H | reflexivity]])
          |]).
  destruct Hin.
Qed.

Lemma probabilidades_loop_ordem (mercados : list (string * string * Q))
    (lambda_shrunk dispersao_r : Q) (qualidade : QualidadeDados.t)
    (intervalo : IntervaloConfianca.t)
    (novas : list ProbabilidadeMercado.t) :
  Forall2
    (fun (m : string * string * Q) p =>
       exists cdf p_cal,
         calcular_cdf (Py.int (snd m)) lambda_shrunk dispersao_r true
         = Py.Ret cdf
         /\ p = probabilidade_mercado (fst (fst m)) (snd (fst m)) (snd m)
                  (if bool_decide (snd (fst m) = "over"%string)
                   then (1 - cdf) * 100 else cdf * 100)
                  p_cal qualidade intervalo)
    mercados novas ->
  map (fun p => (ProbabilidadeMercado.mercado p, ProbabilidadeMercado.tipo p,
                 ProbabilidadeMercado.linha p)) novas
  = mercados.
Proof.
  induction 1 as [|[[mercado tipo] linha] p ms ps Hp _ IH]; [reflexivity|].
  destruct Hp as (cdf & p_cal & _ & ->). simpl. rewrite IH. reflexivity.
Qed.

Lemma linhas_iguais (l l' : Q) :
  (l = 2.5 \/ l = 3.5 \/ l = 4.5 \/ l = 5.5) ->
  (l' = 2.5 \/ l' = 3.5 \/ l' = 4.5 \/ l' = 5.5) ->
  l == l' -> l = l'.
Proof.
  intros [-> | [-> | [-> | ->]]] [-> | [-> | [-> | ->]]] H;
    first [reflexivity | exfalso; revert H; unfold Qeq; simpl; lia].
Qed.

Lemma linhas_int_cresce (l l' : Q) :
  (l = 2.5 \/ l = 3.5 \/ l = 4.5 \/ l = 5.5) ->
  (l' = 2.5 \/ l' = 3.5 \/ l' = 4.5 \/ l' = 5.5) ->
  l <= l' -> (Py.int l <= Py.int l')%Z.
Proof.
  intros [-> | [-> | [-> | ->]]] [-> | [-> | [-> | ->]]] H;
    first [vm_compute; discriminate
          | exfalso; revert H; unfold Qle; simpl; lia].
Qed.

(** X14.  On the negative-binomial path the result lists the seven
    markets in their fixed order; every raw probability is a percentage;
    the Over and the Under of one line add up to 100; and a higher line
    never has a larger Over nor a smaller Under. *)
Theorem probabilidades_mercados_complementares (lambda_shrunk dispersao_r : Q)
    (qualidade : QualidadeDados.t) (intervalo : IntervaloConfianca.t)
    (g g' : option GerenciadorCalibracao.t)
    (ps : list ProbabilidadeMercado.t) :
  0 < dispersao_r ->
  calcular_probabilidades_mercados lambda_shrunk dispersao_r qualidade
    intervalo g = (g', Py.Ret ps) ->
  map (fun p => (ProbabilidadeMercado.mercado p, ProbabilidadeMercado.tipo p,
                 ProbabilidadeMercado.linha p)) ps
  = MERCADOS_LINHAS
  /\ (forall p, In p ps ->
        0 <= ProbabilidadeMercado.p_raw p
        /\ ProbabilidadeMercado.p_raw p <= 100)
  /\ (forall po pu,
        In po ps -> In pu ps ->
        ProbabilidadeMercado.tipo po = "over"%string ->
        ProbabilidadeMercado.tipo pu = "under"%string ->
        ProbabilidadeMercado.linha po == ProbabilidadeMercado.linha pu ->
        ProbabilidadeMercado.p_raw po + ProbabilidadeMercado.p_raw pu == 100)
  /\ (forall p p',
        In p ps -> In p' ps ->
        ProbabilidadeMercado.tipo p = ProbabilidadeMercado.tipo p' ->
        ProbabilidadeMercado.linha p <= ProbabilidadeMercado.linha p' ->
        (ProbabilidadeMercado.tipo p = "over"%string ->
         ProbabilidadeMercado.p_raw p' <= ProbabilidadeMercado.p_raw p)
        /\ (ProbabilidadeMercado.tipo p = "under"%string ->
            ProbabilidadeMercado.p_raw p <= ProbabilidadeMercado.p_raw p')).
Proof.
  intros Hr H.
  split; [|split; [|split]].
  - unfold calcular_probabilidades_mercados in H.
    apply probabilidades_loop_inv in H. destruct H as (novas & -> & HF).
    rewrite app_nil_l. apply (probabilidades_loop_ordem _ _ _ _ _ _ HF).
  - intros p Hin.
    destruct (probabilidades_mercados_entrada _ _ _ _ _ _ _ _ H Hin)
      as (m & t & l & cdf & pc & _ & Hcdf & ->).
    destruct (calcular_cdf_limites _ _ _ _ Hr Hcdf) as [H0 H1].
    cbn [probabilidade_mercado ProbabilidadeMercado.p_raw].
    destruct (bool_decide (t = "over"%string)); split; lra.
  - intros po pu Hpo Hpu Ho Hu Hl.
    destruct (probabilidades_mercados_entrada _ _ _ _ _ _ _ _ H Hpo)
      as (m & t & l & cdf & pc & Hm & Hcdf & ->).
    destruct (probabilidades_mercados_entrada _ _ _ _ _ _ _ _ H Hpu)
      as (m' & t' & l' & cdf' & pc' & Hm' & Hcdf' & ->).
    cbn [probabilidade_mercado ProbabilidadeMercado.p_raw
         ProbabilidadeMercado.tipo ProbabilidadeMercado.linha] in *.
    subst t t'.
    destruct (linhas_dos_mercados _ _ _ Hm) as (_ & Hl1 & _).
    destruct (linhas_dos_mercados _ _ _ Hm') as (_ & Hl2 & _).
    pose proof (linhas_iguais l l' Hl1 Hl2 Hl) as E. subst l'.
    rewrite Hcdf in Hcdf'. inversion Hcdf'; subst cdf'.
    rewrite bool_decide_eq_true_2 by reflexivity.
    rewrite bool_decide_eq_false_2 by discriminate.
    lra.
  - intros p p' Hp Hp' Ht Hl.
    destruct (probabilidades_mercados_entrada _ _ _ _ _ _ _ _ H Hp)
      as (m & t & l & cdf & pc & Hm & Hcdf & ->).
    destruct (probabilidades_mercados_entrada _ _ _ _ _ _ _ _ H Hp')
      as (m' & t' & l' & cdf' & pc' & Hm' & Hcdf' & ->).
    cbn [probabilidade_mercado ProbabilidadeMercado.p_raw
         ProbabilidadeMercado.tipo ProbabilidadeMercado.linha] in *.
    subst t'.
    destruct (linhas_dos_mercados _ _ _ Hm) as (_ & Hl1 & _).
    destruct (linhas_dos_mercados _ _ _ Hm') as (_ & Hl2 & _).
    pose proof (linhas_int_cresce l l' Hl1 Hl2 Hl) as Hk.
    pose proof (calcular_cdf_cresce _ _ _ _ _ _ Hr Hk Hcdf Hcdf') as Hc.
    split; intros ->.
    + rewrite bool_decide_eq_true_2 by reflexivity. lra.
    + rewrite bool_decide_eq_false_2 by discriminate. lra.
Qed.

(** X15.  The highlight of a market: its threshold is 58 for Over 4.5, 60
    for Over 5.5 and 55 for the others; only the two 5.5 lines (Over and
    Under) can be blocked, by a wide interval or by a quality score below
    60; and a market is a highlight exactly when its calibrated
    probability reaches the threshold and no block applies. *)
Theorem probabilidades_mercados_destaque (lambda_shrunk dispersao_r : Q)
    (qualidade : QualidadeDados.t) (intervalo : IntervaloConfianca.t)
    (g g' : option GerenciadorCalibracao.t)
    (ps : list ProbabilidadeMercado.t) (p : ProbabilidadeMercado.t) :
  calcular_probabilidades_mercados lambda_shrunk dispersao_r qualidade
    intervalo g = (g', Py.Ret ps) ->
  In p ps ->
  let cinco_e_meio :=
    ProbabilidadeMercado.mercado p = "Over 5.5 Cartões"%string
    \/ ProbabilidadeMercado.mercado p = "Under 5.5 Cartões"%string in
  ProbabilidadeMercado.threshold_destaque p
  = (if bool_decide (ProbabilidadeMercado.mercado p
                     = "Over 4.5 Cartões"%string) then 58
     else if bool_decide (ProbabilidadeMercado.mercado p
                          = "Over 5.5 Cartões"%string) then 60
     else 55)
  /\ (ProbabilidadeMercado.bloqueio_variancia p = true
      <-> cinco_e_meio /\ IntervaloConfianca.variancia_alta intervalo = true)
  /\ (ProbabilidadeMercado.bloqueio_qualidade p = true
      <-> cinco_e_meio /\ QualidadeDados.score_total qualidade < 60)
  /\ (ProbabilidadeMercado.eh_destaque p = true
      <-> ProbabilidadeMercado.threshold_destaque p
          <= ProbabilidadeMercado.p_calibrado p
          /\ ProbabilidadeMercado.bloqueio_variancia p = false
          /\ ProbabilidadeMercado.bloqueio_qualidade p = false).
Proof.
  intros H Hin cinco_e_meio. subst cinco_e_meio.
  destruct (probabilidades_mercados_entrada _ _ _ _ _ _ _ _ H Hin)
    as (m & t & l & cdf & pc & Hm & _ & ->).
  destruct (linhas_dos_mercados _ _ _ Hm) as (_ & _ & Hl & Hth).
  unfold probabilidade_mercado.
  cbn [ProbabilidadeMercado.mercado ProbabilidadeMercado.threshold_destaque
       ProbabilidadeMercado.bloqueio_variancia
       ProbabilidadeMercado.bloqueio_qualidade
       ProbabilidadeMercado.eh_destaque ProbabilidadeMercado.p_calibrado].
  rewrite Hth. cbn [default].
  split; [reflexivity|].
  split; [|split].
  - rewrite andb_true_iff, Hl. reflexivity.
  - rewrite andb_true_iff, Hl, Qlt_bool_iff. reflexivity.
  - rewrite !andb_true_iff, !negb_true_iff, Qle_bool_iff. tauto.
Qed.

(** X16.  With the [math] functions raising nothing but their documented
    errors and a positive dispersion, the seven probabilities are always
    returned: without a manager each calibrated value is the raw one, and
    with a manager of class-built calibrators each calibrated value is a
    percentage and the manager stays one of class-built calibrators. *)
Theorem probabilidades_mercados_retorna (lambda_shrunk dispersao_r : Q)
    (qualidade : QualidadeDados.t) (intervalo : IntervaloConfianca.t)
    (g : option GerenciadorCalibracao.t) :
  erros_numericos M -> 0 < dispersao_r ->
  (forall g0, g = Some g0 -> calibradores_construidos g0) ->
  exists g' ps,
    calcular_probabilidades_mercados lambda_shrunk dispersao_r qualidade
      intervalo g = (g', Py.Ret ps)
    /\ length ps = 7%nat
    /\ (g = None ->
        g' = None
        /\ forall p, In p ps ->
             ProbabilidadeMercado.p_calibrado p
             = ProbabilidadeMercado.p_raw p)
    /\ (forall p, In p ps ->
          0 <= ProbabilidadeMercado.p_calibrado p
          /\ ProbabilidadeMercado.p_calibrado p <= 100)
    /\ (forall g0', g' = Some g0' -> calibradores_construidos g0').
Proof.
  intros HM Hr Hg.
  destruct (probabilidades_loop_retorna MERCADOS_LINHAS lambda_shrunk
              dispersao_r qualidade intervalo g [] HM Hr Hg)
    as (g' & ps & H).
  exists g', ps. unfold calcular_probabilidades_mercados.
  split; [exact H|].
  split; [|split; [|split]].
  - apply probabilidades_loop_inv in H. destruct H as (novas & -> & HF).
    rewrite app_nil_l. apply Forall2_length in HF. rewrite <- HF.
    reflexivity.
  - intros ->.
    destruct (probabilidades_loop_sem_gerenciador _ _ _ _ _ _ _ _ H)
      as [Hg' HF]; [constructor|].
    split; [exact Hg'|]. rewrite List.Forall_forall in HF. exact HF.
  - destruct (probabilidades_loop_calibradas _ _ _ _ _ _ _ _ _ Hr Hg H)
      as [_ HF]; [constructor|].
    rewrite List.Forall_forall in HF. exact HF.
  - destruct (probabilidades_loop_calibradas _ _ _ _ _ _ _ _ _ Hr Hg H)
      as [Hg' _]; [constructor|]. exact Hg'.
Qed.

Lemma py_int_nao_negativo (x : Q) : 0 <= x -> (0 <= Py.int x)%Z.
Proof.
  intros H. unfold Py.int. apply Z.quot_pos; [|lia].
  unfold Qle in H. simpl in H. lia.
Qed.

Lemma calcular_percentis_retorna (lambda_ r : Q) :
  erros_numericos M -> 0 < r -> 0 <= lambda_ ->
  exists ic, calcular_percentis lambda_ r true = Py.Ret ic.
Proof.
  intros HM Hr Hl. unfold calcular_percentis.
  assert (Hk : (0 <= Py.int (lambda_ * 3))%Z)
    by (apply py_int_nao_negativo; lra).
  destruct (mapM_retorna (fun k => calcular_cdf k lambda_ r true)
              (Py.range (Py.int (lambda_ * 3) + 10 + 1))) as [vs Hvs].
  { intros k. apply calcular_cdf_retorna; assumption. }
  rewrite Hvs. simpl.
  assert (Hne : vs <> []).
  { intros ->. apply mapM_chaves in Hvs. simpl in Hvs.
    unfold Py.range in Hvs.
    assert (Hlen : length (map Z.of_nat
              (seq 0 (Z.to_nat (Py.int (lambda_ * 3) + 10 + 1)))) = 0%nat)
      by (rewrite <- Hvs; reflexivity).
    rewrite length_map, length_seq in Hlen. lia. }
  destruct (encontrar_percentil_retorna vs 0.10 Hne) as [a10 ->].
  destruct (encontrar_percentil_retorna vs 0.25 Hne) as [a25 ->].
  destruct (encontrar_percentil_retorna vs 0.50 Hne) as [a50 ->].
  destruct (encontrar_percentil_retorna vs 0.75 Hne) as [a75 ->].
  destruct (encontrar_percentil_retorna vs 0.90 Hne) as [a90 ->].
  simpl. eexists. reflexivity.
Qed.

Context {S : StrModule}.

Lemma calcular_lambda_shrunk_limites (partida : DadosPartida.t) :
  2 <= CalculoLambda.lambda_shrunk (calcular_lambda partida)
  /\ CalculoLambda.lambda_shrunk (calcular_lambda partida) <= 10.
Proof.
  destruct (calcular_lambda_shrinkage partida) as [_ ->].
  apply aplicar_shrinkage_limites.
Qed.

(** X17.  With the [math] functions raising nothing but their documented
    errors, the full analysis of any match returns (with no manager, or
    with one of class-built calibrators): it carries the lambda
    calculation of the match and seven probabilities, its highlights are
    the highlighted markets in order, and the tendency is ELEVADA from a
    shrunk lambda of 5.5, BAIXA up to 3.5 and MODERADA in between. *)
Theorem analisar_partida_retorna (partida : DadosPartida.t)
    (g : option GerenciadorCalibracao.t) :
  erros_numericos M ->
  (forall g0, g = Some g0 -> calibradores_construidos g0) ->
  exists g' res,
    analisar_partida partida g = (g', Py.Ret res)
    /\ ResultadoAnalise.calculo res = calcular_lambda partida
    /\ length (ResultadoAnalise.probabilidades res) = 7%nat
    /\ ResultadoAnalise.mercados_destaque res
       = map ProbabilidadeMercado.mercado
           (List.filter ProbabilidadeMercado.eh_destaque
              (ResultadoAnalise.probabilidades res))
    /\ (let lambda_s :=
          CalculoLambda.lambda_shrunk (ResultadoAnalise.calculo res) in
        (5.5 <= lambda_s -> ResultadoAnalise.tendencia res = "ELEVADA"%string)
        /\ (lambda_s <= 3.5 ->
            ResultadoAnalise.tendencia res = "BAIXA"%string)
        /\ (3.5 < lambda_s -> lambda_s < 5.5 ->
            ResultadoAnalise.tendencia res = "MODERADA"%string))
    /\ (forall g0', g' = Some g0' -> calibradores_construidos g0').
Proof.
  intros HM Hg. unfold analisar_partida.
  set (c := calcular_lambda partida).
  pose proof (calcular_lambda_dispersao_positiva partida) as Hr.
  destruct (calcular_lambda_shrunk_limites partida) as [Hl2 Hl10].
  fold c in Hr, Hl2, Hl10.
  destruct (calcular_percentis_retorna (CalculoLambda.lambda_shrunk c)
              (CalculoLambda.dispersao_r c) HM Hr) as [ic ->]; [lra|].
  destruct (probabilidades_loop_retorna MERCADOS_LINHAS
              (CalculoLambda.lambda_shrunk c) (CalculoLambda.dispersao_r c)
              (CalculoLambda.qualidade_dados c) ic g [] HM Hr Hg)
    as (g' & ps & H).
  unfold calcular_probabilidades_mercados. rewrite H.
  destruct (probabilidades_loop_calibradas _ _ _ _ _ _ _ _ _ Hr Hg H)
    as [Hg' _]; [constructor|].
  apply probabilidades_loop_inv in H. destruct H as (novas & -> & HF).
  rewrite app_nil_l. apply Forall2_length in HF.
  destruct (Qle_bool 5.5 (CalculoLambda.lambda_shrunk c)) eqn:E1;
    [|destruct (Qle_bool (CalculoLambda.lambda_shrunk c) 3.5) eqn:E2];
    eexists; eexists; (split; [reflexivity|]);
    cbn [ResultadoAnalise.calculo ResultadoAnalise.probabilidades
         ResultadoAnalise.mercados_destaque ResultadoAnalise.tendencia];
    (split; [reflexivity|]);
    (split; [rewrite <- HF; reflexivity|]);
    (split; [reflexivity|]);
    (split; [|exact Hg']); fold c.
  - apply Qle_bool_iff in E1.
    split; [reflexivity|]. split; intros; exfalso; lra.
  - apply Qle_bool_false_iff in E1. apply Qle_bool_iff in E2.
    split; [intros; exfalso; lra|]. split; [reflexivity|].
    intros; exfalso; lra.
  - apply Qle_bool_false_iff in E1. apply Qle_bool_false_iff in E2.
    split; [intros; exfalso; lra|]. split; [intros; exfalso; lra|].
    reflexivity.
Qed.

End MaisMercados.

Lemma probabilidades_exemplo_retorna :
  exists g' ps,
    Probabilidade.calcular_probabilidades_mercados
      (M := Exemplos.math_exemplo) 5.4 3.0 Exemplos.qualidade_exemplo
      Exemplos.intervalo_exemplo None
    = (g', Py.Ret ps).
Proof.
  apply (probabilidades_loop_retorna (M := Exemplos.math_exemplo)).
  - exact math_exemplo_erros.
  - unfold Qlt; simpl; lia.
  - discriminate.
Qed.

Lemma probabilidades_mercados_complementares_witness :
  exists g' ps,
    Probabilidade.calcular_probabilidades_mercados
      (M := Exemplos.math_exemplo) 5.4 3.0 Exemplos.qualidade_exemplo
      Exemplos.intervalo_exemplo None
    = (g', Py.Ret ps)
    /\ map (fun p => (Probabilidade.ProbabilidadeMercado.mercado p,
                      Probabilidade.ProbabilidadeMercado.tipo p,
                      Probabilidade.ProbabilidadeMercado.linha p)) ps
       = Probabilidade.MERCADOS_LINHAS.
Proof.
  destruct probabilidades_exemplo_retorna as (g' & ps & H).
  exists g', ps. split; [exact H|].
  destruct (probabilidades_mercados_complementares
              (M := Exemplos.math_exemplo) 5.4 3.0 Exemplos.qualidade_exemplo
              Exemplos.intervalo_exemplo None g' ps) as [Hm _].
  - unfold Qlt; simpl; lia.
  - exact H.
  - exact Hm.
Defined.

Lemma probabilidades_mercados_destaque_witness :
  exists g' ps p,
    Probabilidade.calcular_probabilidades_mercados
      (M := Exemplos.math_exemplo) 5.4 3.0 Exemplos.qualidade_exemplo
      Exemplos.intervalo_exemplo None
    = (g', Py.Ret ps)
    /\ In p ps
    /\ (Probabilidade.ProbabilidadeMercado.eh_destaque p = true
        <-> (Probabilidade.ProbabilidadeMercado.threshold_destaque p
             <= Probabilidade.ProbabilidadeMercado.p_calibrado p)%Q
            /\ Probabilidade.ProbabilidadeMercado.bloqueio_variancia p = false
            /\ Probabilidade.ProbabilidadeMercado.bloqueio_qualidade p = false).
Proof.
  destruct probabilidades_exemplo_retorna as (g' & ps & H).
  assert (Hlen : length ps = 7%nat).
  { pose proof H as H'.
    unfold Probabilidade.calcular_probabilidades_mercados in H'.
    apply probabilidades_loop_inv in H'.
    destruct H' as (novas & -> & HF).
    rewrite app_nil_l. apply Forall2_length in HF. rewrite <- HF.
    reflexivity. }
  destruct ps as [|p ps']; [discriminate Hlen|].
  exists g', (p :: ps'), p.
  split; [exact H|]. split; [left; reflexivity|].
  destruct (probabilidades_mercados_destaque
              (M := Exemplos.math_exemplo) 5.4 3.0 Exemplos.qualidade_exemplo
              Exemplos.intervalo_exemplo None g' (p :: ps') p H)
    as (_ & _ & _ & Hd).
  - left; reflexivity.
  - exact Hd.
Defined.

Lemma probabilidades_mercados_retorna_witness :
  exists g' ps,
    Probabilidade.calcular_probabilidades_mercados
      (M := Exemplos.math_exemplo) 5.4 3.0 Exemplos.qualidade_exemplo
      Exemplos.intervalo_exemplo (Some Probabilidade.novo_gerenciador)
    = (g', Py.Ret ps)
    /\ length ps = 7%nat.
Proof.
  destruct (probabilidades_mercados_retorna
              (M := Exemplos.math_exemplo) 5.4 3.0 Exemplos.qualidade_exemplo
              Exemplos.intervalo_exemplo (Some Probabilidade.novo_gerenciador))
    as (g' & ps & H & Hlen & _).
  - exact math_exemplo_erros.
  - unfold Qlt; simpl; lia.
  - intros g0 E. inversion E; subst g0. apply novo_gerenciador_construidos.
  - exists g', ps. split; assumption.
Defined.

Lemma analisar_partida_retorna_witness :
  exists g' res,
    Probabilidade.analisar_partida
      (M := Exemplos.math_exemplo) (S := Exemplos.str_exemplo)
      Exemplos.partida_exemplo None
    = (g', Py.Ret res)
    /\ length (Probabilidade.ResultadoAnalise.probabilidades res) = 7%nat.
Proof.
  destruct (analisar_partida_retorna
              (M := Exemplos.math_exemplo) (S := Exemplos.str_exemplo)
              Exemplos.partida_exemplo None)
    as (g' & res & H & _ & Hlen & _).
  - exact math_exemplo_erros.
  - discriminate.
  - exists g', res. split; assumption.
Defined.

Lemma gerenciador_partida_a_frio_witness :
  snd (Probabilidade.gerenciador_calibrar
         (Probabilidade.adicionar_resultados Probabilidade.novo_gerenciador
            [("Over 3.5 Cartões"%string, 62.0%Q, true)])
         "Over 3.5 Cartões" 62.0)
  = Py.Ret 62.0%Q.
Proof.
  destruct (gerenciador_partida_a_frio
              [("Over 3.5 Cartões"%string, 62.0%Q, true)]
              "Over 3.5 Cartões") as (_ & _ & H).
  apply H. vm_compute. lia.
Defined.

Lemma gerenciador_mercados_independentes_witness :
  Probabilidade.GerenciadorCalibracao.calibradores
    (Probabilidade.adicionar_resultado Probabilidade.novo_gerenciador
       "Over 3.5 Cartões" 62.0 true)
    !! "Over 4.5 Cartões"%string
  = Probabilidade.GerenciadorCalibracao.calibradores
      Probabilidade.novo_gerenciador !! "Over 4.5 Cartões"%string.
Proof.
  destruct (gerenciador_mercados_independentes Probabilidade.novo_gerenciador
              "Over 3.5 Cartões" "Over 4.5 Cartões" 62.0 true) as [H _].
  destruct H as [H _]; [discriminate | exact H].
Defined.

Lemma salvar_todos_carregar_todos_witness :
  Probabilidade.GerenciadorCalibracao.calibradores
    (Probabilidade.gerenciador_da_pasta "calibracao"
       (Probabilidade.salvar_todos
          (Probabilidade.GerenciadorCalibracao.make
             (Probabilidade.GerenciadorCalibracao.calibradores
                Probabilidade.novo_gerenciador)
             (Some "calibracao"%string) Probabilidade.MERCADOS_SUPORTADOS)
          ∅))
    !! "Over 3.5 Cartões"%string
  = (fun c => Probabilidade.carregar (Probabilidade.salvar c))
      <$> Probabilidade.GerenciadorCalibracao.calibradores
            Probabilidade.novo_gerenciador !! "Over 3.5 Cartões"%string.
Proof.
  destruct (salvar_todos_carregar_todos
              (Probabilidade.GerenciadorCalibracao.make
                 (Probabilidade.GerenciadorCalibracao.calibradores
                    Probabilidade.novo_gerenciador)
                 (Some "calibracao"%string) Probabilidade.MERCADOS_SUPORTADOS)
              ∅ "calibracao") as [H _].
  - intros m. cbn [Probabilidade.GerenciadorCalibracao.calibradores].
    rewrite novo_gerenciador_calibradores.
    destruct (bool_decide (m ∈ Probabilidade.MERCADOS_SUPORTADOS)) eqn:E.
    + apply bool_decide_eq_true_1 in E. split; [intros _; exact E | eauto].
    + apply bool_decide_eq_false_1 in E.
      split; [intros [c Hc]; discriminate Hc | intros Hin; destruct (E Hin)].
  - apply H; [reflexivity | discriminate].
Defined.

(** ** Redundancy elimination as a whole *)

Section MaisFiltro.
Import Aprendizado.

Lemma filtrar_loop_cobertura (l acc : list RegraDeOuro.t)
    (r : RegraDeOuro.t) :
  In r l ->
  In r (filtrar_loop l acc)
  \/ exists a, In a (filtrar_loop l acc)
               /\ contido (RegraDeOuro.condicoes r) (RegraDeOuro.condicoes a).
Proof.
  revert acc. induction l as [|x l IH]; intros acc Hin; [destruct Hin|].
  cbn [filtrar_loop]. destruct Hin as [->|Hin]; [|apply IH; exact Hin].
  destruct (filtrar_loop_prefixo l
              (if eh_redundante r acc then acc else acc ++ [r]))
    as [resto ->].
  destruct (eh_redundante r acc) eqn:E.
  - right. apply eh_redundante_iff in E. destruct E as (a & Ha & Hc).
    exists a. split; [apply in_or_app; left; exact Ha | exact Hc].
  - left. apply in_or_app. left. apply in_or_app. right. left. reflexivity.
Qed.

Lemma ForallOrdPairs_snoc {A : Type} (R : A -> A -> Prop) (l : list A)
    (x : A) :
  ForallOrdPairs R l -> Forall (fun a => R a x) l ->
  ForallOrdPairs R (l ++ [x]).
Proof.
  induction 1 as [|a l Ha Hl IH]; intros HF; simpl.
  - constructor; constructor.
  - inversion HF; subst. constructor.
    + apply Forall_app. split; [exact Ha|]. constructor; [assumption|].
      constructor.
    + apply IH. assumption.
Qed.

Lemma filtrar_loop_irredundante (l acc : list RegraDeOuro.t) :
  ForallOrdPairs
    (fun a b => ~ contido (RegraDeOuro.condicoes b) (RegraDeOuro.condicoes a))
    acc ->
  ForallOrdPairs
    (fun a b => ~ contido (RegraDeOuro.condicoes b) (RegraDeOuro.condicoes a))
    (filtrar_loop l acc).
Proof.
  revert acc. induction l as [|x l IH]; intros acc H; cbn [filtrar_loop];
    [exact H|].
  apply IH. destruct (eh_redundante x acc) eqn:E; [exact H|].
  apply ForallOrdPairs_snoc; [exact H|].
  apply List.Forall_forall. intros a Ha Hc.
  assert (Ht : eh_redundante x acc = true)
    by (apply eh_redundante_iff; exists a; auto).
  congruence.
Qed.

Lemma StronglySorted_remover {A : Type} (R : A -> A -> Prop)
    (l1 l2 : list A) (x : A) :
  StronglySorted R (l1 ++ x :: l2) -> StronglySorted R (l1 ++ l2).
Proof.
  induction l1 as [|a l1 IH]; simpl; intros H.
  - inversion H; assumption.
  - inversion H as [|? ? Hs Hf]; subst. constructor; [apply IH; exact Hs|].
    apply Forall_app in Hf. destruct Hf as [Hf1 Hf2].
    inversion Hf2; subst. apply Forall_app. split; assumption.
Qed.

Lemma filtrar_loop_ordenado (R : RegraDeOuro.t -> RegraDeOuro.t -> Prop)
    (l acc : list RegraDeOuro.t) :
  StronglySorted R (acc ++ l) -> StronglySorted R (filtrar_loop l acc).
Proof.
  revert acc. induction l as [|x l IH]; intros acc H; cbn [filtrar_loop].
  - rewrite app_nil_r in H. exact H.
  - apply IH. destruct (eh_redundante x acc).
    + apply (StronglySorted_remover R acc l x H).
    + rewrite <- app_assoc. exact H.
Qed.

(** X21.  What [_filtrar_redundantes] returns, as a whole: only rules of
    the input; every input rule is kept or has its conditions contained in
    those of a kept rule (nothing is lost without a cover); no kept rule
    has its conditions contained in those of a rule kept before it; and
    the kept rules come by descending number of conditions. *)
Theorem filtrar_redundantes_cobertura (regras : list RegraDeOuro.t) :
  (forall r, In r (_filtrar_redundantes regras) -> In r regras)
  /\ (forall r, In r regras ->
        In r (_filtrar_redundantes regras)
        \/ exists a, In a (_filtrar_redundantes regras)
                     /\ contido (RegraDeOuro.condicoes r)
                                (RegraDeOuro.condicoes a))
  /\ ForallOrdPairs
       (fun a b => ~ contido (RegraDeOuro.condicoes b)
                             (RegraDeOuro.condicoes a))
       (_filtrar_redundantes regras)
  /\ StronglySorted
       (fun a b => (Py.len (RegraDeOuro.condicoes b)
                    <= Py.len (RegraDeOuro.condicoes a))%Z)
       (_filtrar_redundantes regras).
Proof.
  split; [|split; [|split]].
  - intros r. apply _filtrar_redundantes_In.
  - intros r Hin. rewrite _filtrar_redundantes_ordenadas.
    apply filtrar_loop_cobertura. apply sorted_In. exact Hin.
  - rewrite _filtrar_redundantes_ordenadas.
    apply filtrar_loop_irredundante. constructor.
  - rewrite _filtrar_redundantes_ordenadas.
    apply filtrar_loop_ordenado. rewrite app_nil_l.
    apply Sorted_StronglySorted; [|apply ordenadas_por_especificidade].
    intros a b c Hab Hbc. lia.
Qed.

End MaisFiltro.

(** ** Grouping with [defaultdict(list)] *)

Section Agrupamento.
Context {K A : Type} `{EqDecision K}.

Lemma dict_get_dd_append (d : list (K * list A)) (k k' : K) (x : A) :
  Py.dict_get (Py.dd_append d k x) k'
  = if decide (k' = k) then Some (default [] (Py.dict_get d k) ++ [x])
    else Py.dict_get d k'.
Proof.
  induction d as [|[k0 l] t IH]; simpl.
  - destruct (decide (k' = k)); reflexivity.
  - destruct (decide (k = k0)) as [->|N]; simpl.
    + destruct (decide (k' = k0)) as [->|N']; reflexivity.
    + destruct (decide (k' = k0)) as [->|N'].
      * destruct (decide (k0 = k)) as [E|_]; [congruence | reflexivity].
      * exact IH.
Qed.

Lemma dd_append_chave_In (d : list (K * list A)) (k k' : K) (x : A) :
  In k' (map fst (Py.dd_append d k x)) -> In k' (map fst d) \/ k' = k.
Proof.
  induction d as [|[k0 l] t IH]; simpl.
  - intros [<-|[]]. right. reflexivity.
  - destruct (decide (k = k0)) as [->|N]; simpl.
    + intros [<-|Hin]; auto.
    + intros [<-|Hin]; [auto|]. destruct (IH Hin); auto.
Qed.

Lemma dd_append_NoDup (d : list (K * list A)) (k : K) (x : A) :
  List.NoDup (map fst d) -> List.NoDup (map fst (Py.dd_append d k x)).
Proof.
  induction d as [|[k0 l] t IH]; simpl; intros Hnd.
  - constructor; [intros [] | constructor].
  - inversion Hnd as [|? ? Hnot Hnd']; subst.
    destruct (decide (k = k0)) as [->|N]; simpl.
    + constructor; assumption.
    + constructor; [|apply IH; exact Hnd'].
      intros Hin. apply dd_append_chave_In in Hin.
      destruct Hin as [Hin|E]; [exact (Hnot Hin) | congruence].
Qed.

Lemma dict_get_de_In {V : Type} (d : list (K * V)) (k : K) (v : V) :
  List.NoDup (map fst d) -> In (k, v) d -> Py.dict_get d k = Some v.
Proof.
  induction d as [|[k0 v0] t IH]; simpl; intros Hnd Hin; [destruct Hin|].
  inversion Hnd as [|? ? Hnot Hnd']; subst.
  destruct Hin as [E|Hin].
  - inversion E; subst. destruct (decide (k = k)); [reflexivity | congruence].
  - destruct (decide (k = k0)) as [->|N]; [|apply IH; assumption].
    exfalso. apply Hnot. apply in_map_iff. exists (k0, v). auto.
Qed.

Context (sel : A -> option K)
        (f : list (K * list A) -> A -> list (K * list A)).
Hypothesis f_sel :
  forall d r, f d r = match sel r with
                      | Some k => Py.dd_append d k r
                      | None => d
                      end.

Lemma agrupado_NoDup (rs : list A) (d : list (K * list A)) :
  List.NoDup (map fst d) -> List.NoDup (map fst (fold_left f rs d)).
Proof.
  revert d. induction rs as [|r rs IH]; intros d Hd; [exact Hd|].
  cbn [fold_left]. apply IH. rewrite f_sel.
  destruct (sel r); [apply dd_append_NoDup|]; exact Hd.
Qed.

Lemma agrupado_lookup (rs : list A) (d : list (K * list A)) (k : K) :
  Py.dict_get (fold_left f rs d) k
  = match Py.dict_get d k,
          List.filter (fun r => bool_decide (sel r = Some k)) rs with
    | Some g, l => Some (g ++ l)
    | None, [] => None
    | None, l => Some l
    end.
Proof.
  revert d. induction rs as [|r rs IH]; intros d.
  - simpl. destruct (Py.dict_get d k); [rewrite app_nil_r|]; reflexivity.
  - cbn [fold_left List.filter]. rewrite IH, f_sel.
    destruct (sel r) as [k0|] eqn:Es.
    + rewrite dict_get_dd_append.
      destruct (decide (k = k0)) as [->|N].
      * rewrite bool_decide_eq_true_2 by reflexivity.
        destruct (Py.dict_get d k0) as [g|]; simpl.
        -- rewrite <- app_assoc. reflexivity.
        -- reflexivity.
      * rewrite bool_decide_eq_false_2 by congruence. reflexivity.
    + rewrite bool_decide_eq_false_2 by discriminate. reflexivity.
Qed.

(** A group of the finished dictionary is the list of the items of its
    key, in their order, and is not empty. *)
Lemma agrupado_grupo (rs : list A) (k : K) (g : list A) :
  In (k, g) (fold_left f rs []) ->
  g = List.filter (fun r => bool_decide (sel r = Some k)) rs /\ g <> [].
Proof.
  intros Hin.
  apply dict_get_de_In in Hin; [|apply agrupado_NoDup; constructor].
  rewrite agrupado_lookup in Hin. simpl in Hin.
  destruct (List.filter (fun r => bool_decide (sel r = Some k)) rs)
    as [|x l]; [discriminate|].
  inversion Hin; subst. split; [reflexivity | discriminate].
Qed.

End Agrupamento.

(** ** What a discovered rule counts *)

Section MaisDescoberta.
Import Aprendizado.
Local Open Scope Q_scope.

Lemma filter_filter_andb {A : Type} (p q : A -> bool) (l : list A) :
  List.filter q (List.filter p l) = List.filter (fun x => p x && q x) l.
Proof.
  induction l as [|x l IH]; [reflexivity|]. simpl.
  destruct (p x); simpl; [destruct (q x)|]; rewrite IH; reflexivity.
Qed.

Lemma por_mercado_grupo (registros : list RegistroAprendizado.t)
    (mercado : string) (regs : list RegistroAprendizado.t) :
  In (mercado, regs)
     (fold_left
        (fun d r =>
           Py.dd_append d
             (ResultadoMercadoAprendizado.mercado
                (RegistroAprendizado.resultado r)) r)
        registros []) ->
  regs
  = List.filter
      (fun r => bool_decide
                  (ResultadoMercadoAprendizado.mercado
                     (RegistroAprendizado.resultado r) = mercado))
      registros
  /\ regs <> [].
Proof.
  intros Hin.
  apply (agrupado_grupo
           (fun r => Some (ResultadoMercadoAprendizado.mercado
                             (RegistroAprendizado.resultado r)))) in Hin;
    [|reflexivity].
  destruct Hin as [-> Hne]. split; [|exact Hne].
  apply filter_ext. intros r. apply bool_decide_ext.
  split; [intros E; inversion E; reflexivity | intros ->; reflexivity].
Qed.

Lemma agrupar_grupo (registros : list RegistroAprendizado.t)
    (fatores : list string) (n_fatores : Z) (chave : list (string * string))
    (grupo : list RegistroAprendizado.t) :
  In (chave, grupo) (agrupar registros fatores n_fatores) ->
  grupo
  = List.filter
      (fun r => bool_decide
                  (extrair_valores (RegistroAprendizado.partida r) fatores
                   = chave))
      registros
  /\ grupo <> [] /\ Py.len chave = n_fatores.
Proof.
  intros Hin. unfold agrupar in Hin.
  apply (agrupado_grupo
           (fun r =>
              let valores :=
                extrair_valores (RegistroAprendizado.partida r) fatores in
              if (Py.len valores =? n_fatores)%Z then Some valores
              else None)) in Hin.
  2: { intros d r. cbv zeta.
       destruct (Py.len (extrair_valores (RegistroAprendizado.partida r)
                           fatores) =? n_fatores)%Z; reflexivity. }
  destruct Hin as [Hg Hne].
  assert (Hlen : Py.len chave = n_fatores).
  { destruct grupo as [|x g]; [congruence|].
    assert (Hx : In x (x :: g)) by (left; reflexivity).
    rewrite Hg in Hx. apply filter_In in Hx. destruct Hx as [_ Hx].
    apply bool_decide_eq_true_1 in Hx. cbv zeta in Hx.
    destruct (Py.len (extrair_valores (RegistroAprendizado.partida x)
                        fatores) =? n_fatores)%Z eqn:E; [|discriminate].
    inversion Hx; subst. apply Z.eqb_eq. exact E. }
  split; [|split; [exact Hne | exact Hlen]].
  rewrite Hg. apply filter_ext. intros r. cbv zeta.
  apply bool_decide_ext.
  destruct (Py.len (extrair_valores (RegistroAprendizado.partida r)
                      fatores) =? n_fatores)%Z eqn:E.
  - split; [intros H; inversion H; reflexivity | intros ->; reflexivity].
  - split; [discriminate|]. intros H. rewrite H in E.
    apply Z.eqb_neq in E. congruence.
Qed.

Lemma analisar_grupo_contagens (mercado : string)
    (chave : list (string * string)) (grupo : list RegistroAprendizado.t)
    (r : RegraDeOuro.t) :
  In r (analisar_grupo mercado chave grupo) ->
  RegraDeOuro.mercado r = mercado
  /\ RegraDeOuro.acertos r
     = Py.len (List.filter
                 (fun x => ResultadoMercadoAprendizado.acertou
                             (RegistroAprendizado.resultado x)) grupo).
Proof.
  unfold analisar_grupo.
  destruct (Py.len grupo <? MIN_AMOSTRAS_REGRA)%Z; [intros []|].
  destruct (Qle_bool THRESHOLD_OURO _); [|intros []].
  destruct (if Qle_bool THRESHOLD_DIAMANTE _ then _ else _) as [nivel cor].
  intros [<-|[]]. split; reflexivity.
Qed.

Lemma dict_set_novo {K V : Type} `{EqDecision K} (d : list (K * V)) (k : K)
    (v : V) :
  ~ In k (map fst d) -> Py.dict_set d k v = d ++ [(k, v)].
Proof.
  induction d as [|[k0 v0] t IH]; simpl; intros Hnot; [reflexivity|].
  destruct (decide (k = k0)) as [->|N]; [exfalso; auto|].
  rewrite IH; [reflexivity|]. intros Hin. apply Hnot. right. exact Hin.
Qed.

Lemma dict_sem_repeticao {K V : Type} `{EqDecision K} (pairs : list (K * V)) :
  List.NoDup (map fst pairs) -> Py.dict pairs = pairs.
Proof.
  unfold Py.dict.
  assert (Hgen : forall d, List.NoDup (map fst (d ++ pairs)) ->
            fold_left (fun d kv => Py.dict_set d (fst kv) (snd kv)) pairs d
            = d ++ pairs).
  { induction pairs as [|[k v] t IH]; intros d Hnd.
    - simpl. rewrite app_nil_r. reflexivity.
    - cbn [fold_left fst snd]. rewrite dict_set_novo.
      + rewrite IH; rewrite <- app_assoc; [reflexivity | exact Hnd].
      + rewrite map_app in Hnd. simpl in Hnd.
        apply NoDup_remove_2 in Hnd. intros Hin. apply Hnd.
        apply in_or_app. left. exact Hin. }
  intros Hnd. apply (Hgen [] Hnd).
Qed.

Lemma combinations_In {A : Type} (l : list A) (n : nat) (c : list A) (x : A) :
  In c (combinations l n) -> In x c -> In x l.
Proof.
  revert n c. induction l as [|y t IH]; intros n c Hc Hx.
  - destruct n; simpl in Hc; [|destruct Hc].
    destruct Hc as [<-|[]]. destruct Hx.
  - destruct n as [|n]; simpl in Hc.
    + destruct Hc as [<-|[]]. destruct Hx.
    + apply in_app_or in Hc. destruct Hc as [Hc|Hc].
      * apply in_map_iff in Hc. destruct Hc as (c' & <- & Hc').
        destruct Hx as [<-|Hx]; [left; reflexivity|].
        right. apply (IH n c' Hc' Hx).
      * right. apply (IH (Datatypes.S n) c Hc Hx).
Qed.

Lemma combinations_NoDup {A : Type} (l : list A) (n : nat) (c : list A) :
  List.NoDup l -> In c (combinations l n) -> List.NoDup c.
Proof.
  revert n c. induction l as [|y t IH]; intros n c Hnd Hc.
  - destruct n; simpl in Hc; [|destruct Hc].
    destruct Hc as [<-|[]]. constructor.
  - inversion Hnd as [|? ? Hnot Hnd']; subst.
    destruct n as [|n]; simpl in Hc.
    + destruct Hc as [<-|[]]. constructor.
    + apply in_app_or in Hc. destruct Hc as [Hc|Hc].
      * apply in_map_iff in Hc. destruct Hc as (c' & <- & Hc').
        constructor; [|apply (IH n c' Hnd' Hc')].
        intros Hin. apply Hnot. apply (combinations_In t n c' y Hc' Hin).
      * apply (IH (Datatypes.S n) c Hnd' Hc).
Qed.

Lemma FATORES_ANALISE_NoDup : List.NoDup FATORES_ANALISE.
Proof.
  apply NoDup_ListNoDup.
  refine (bool_decide_unpack (NoDup FATORES_ANALISE) _).
  vm_compute. exact I.
Qed.

Lemma extrair_valores_completo (partida : DadosPartidaAprendizado.t)
    (fatores : list string) :
  length (extrair_valores partida fatores) = length fatores ->
  map fst (extrair_valores partida fatores) = fatores.
Proof.
  induction fatores as [|f fs IH]; [reflexivity|]. simpl.
  destruct (getattr partida f) as [v|]; [|discriminate].
  destruct (bool_decide (v = EmptyString)
            || bool_decide (v = "Desconhecido"%string)); [discriminate|].
  simpl. intros H. injection H as H. rewrite IH by exact H. reflexivity.
Qed.

(** For a complete key, having the key is satisfying its conditions,
    whatever the probability bucket. *)
Lemma condicoes_satisfeitas_extrair (p0 p : DadosPartidaAprendizado.t)
    (faixa : string) (fatores : list string) :
  length (extrair_valores p0 fatores) = length fatores ->
  bool_decide (extrair_valores p fatores = extrair_valores p0 fatores)
  = condicoes_satisfeitas p faixa (extrair_valores p0 fatores).
Proof.
  induction fatores as [|f fs IH]; [reflexivity|].
  cbn [extrair_valores].
  destruct (getattr p0 f) as [v0|] eqn:E0; [|discriminate].
  destruct (bool_decide (v0 = EmptyString)
            || bool_decide (v0 = "Desconhecido"%string)) eqn:Ev0;
    [discriminate|].
  cbn [length]. intros Hlen. injection Hlen as Hlen.
  specialize (IH Hlen).
  assert (Hf : f <> "faixa_prob"%string).
  { intros ->. rewrite getattr_faixa_prob in E0. discriminate. }
  unfold condicoes_satisfeitas in *. cbn [forallb fst snd].
  rewrite (bool_decide_eq_false_2 (f = "faixa_prob"%string)) by exact Hf.
  rewrite <- IH.
  destruct (getattr p f) as [v|] eqn:E.
  - destruct (decide (v = v0)) as [->|N].
    + rewrite Ev0. rewrite (bool_decide_eq_true_2 (Some v0 = Some v0))
        by reflexivity.
      cbn [andb]. apply bool_decide_ext.
      split; [intros H; inversion H; reflexivity | intros ->; reflexivity].
    + rewrite (bool_decide_eq_false_2 (Some v = Some v0)) by congruence.
      cbn [andb]. apply bool_decide_eq_false_2.
      destruct (bool_decide (v = EmptyString)
                || bool_decide (v = "Desconhecido"%string));
        [discriminate | intros H; inversion H; congruence].
  - rewrite (bool_decide_eq_false_2 (None = Some v0)) by discriminate.
    cbn [andb]. apply bool_decide_eq_false_2. discriminate.
Qed.

(** Where a discovered rule comes from. *)
Lemma descobrir_regras_origem_completa (banco : BancoAprendizado.t)
    (r : RegraDeOuro.t) :
  In r (descobrir_regras banco) ->
  exists r0 mercado regs n fatores chave grupo,
    mesma_regra r r0
    /\ In (mercado, regs)
         (fold_left
            (fun d r =>
               Py.dd_append d
                 (ResultadoMercadoAprendizado.mercado
                    (RegistroAprendizado.resultado r)) r)
            (BancoAprendizado.registros banco) [])
    /\ (mercado ∉ MERCADOS_EXCLUIDOS_REGRAS)
    /\ In n [1; 2; 3]%Z
    /\ In fatores (combinations FATORES_ANALISE (Z.to_nat n))
    /\ In (chave, grupo) (agrupar regs fatores n)
    /\ In r0 (analisar_grupo mercado chave grupo).
Proof.
  unfold descobrir_regras. intros H.
  apply atribuir_ids_In in H. destruct H as (r0 & H & Hsame).
  apply sorted_In in H. apply in_flat_map in H.
  destruct H as ([mercado regs] & Hm & H). unfold regras_do_mercado in H.
  cbn [fst snd] in H.
  destruct (bool_decide (mercado ∈ MERCADOS_EXCLUIDOS_REGRAS)) eqn:Eex;
    [destruct H|].
  apply bool_decide_eq_false_1 in Eex.
  destruct (Py.len regs <? MIN_AMOSTRAS_REGRA)%Z; [destruct H|].
  apply _filtrar_redundantes_In in H. apply in_flat_map in H.
  destruct H as (n & Hn & H). unfold _testar_combinacoes in H.
  apply in_flat_map in H. destruct H as (fatores & Hf & H).
  apply in_flat_map in H. destruct H as ([chave grupo] & Hg & H).
  exists r0, mercado, regs, n, fatores, chave, grupo.
  cbn [fst snd] in H. auto 10.
Qed.

(** The facts about one discovered rule, gathered. *)
Lemma descobrir_regras_anatomia (banco : BancoAprendizado.t)
    (r : RegraDeOuro.t) :
  In r (descobrir_regras banco) ->
  exists n fatores p0,
    In n [1; 2; 3]%Z
    /\ In fatores (combinations FATORES_ANALISE (Z.to_nat n))
    /\ length (extrair_valores p0 fatores) = length fatores
    /\ RegraDeOuro.condicoes r = extrair_valores p0 fatores
    /\ (RegraDeOuro.mercado r ∉ MERCADOS_EXCLUIDOS_REGRAS)
    /\ (let grupo :=
          List.filter
            (fun reg =>
               bool_decide
                 (ResultadoMercadoAprendizado.mercado
                    (RegistroAprendizado.resultado reg)
                  = RegraDeOuro.mercado r)
               && bool_decide
                    (extrair_valores (RegistroAprendizado.partida reg) fatores
                     = extrair_valores p0 fatores))
            (BancoAprendizado.registros banco) in
        grupo <> []
        /\ RegraDeOuro.total_amostras r = Py.len grupo
        /\ RegraDeOuro.acertos r
           = Py.len (List.filter
                       (fun x => ResultadoMercadoAprendizado.acertou
                                   (RegistroAprendizado.resultado x))
                       grupo)).
Proof.
  intros Hin. apply descobrir_regras_origem_completa in Hin.
  destruct Hin as (r0 & mercado & regs & n & fatores & chave & grupo
                   & Hsame & Hm & Hex & Hn & Hf & Hg & Hr0).
  destruct Hsame as (Hmer & Hcond & Htot & Hac & _).
  apply por_mercado_grupo in Hm. destruct Hm as [Hregs _].
  pose proof (agrupar_chaves _ _ _ _ _ Hg) as (reg0 & _ & Hchave).
  apply agrupar_grupo in Hg. destruct Hg as (Hgrupo & Hne & Hlen).
  pose proof (analisar_grupo_In _ _ _ _ Hr0) as (Hc0 & Ht0 & _).
  pose proof (analisar_grupo_contagens _ _ _ _ Hr0) as (Hm0 & Ha0).
  assert (Hcompleto : length (extrair_valores
                                (RegistroAprendizado.partida reg0) fatores)
                      = length fatores).
  { rewrite <- Hchave. apply combinations_length in Hf.
    assert (Hn0 : (0 <= n)%Z) by (simpl in Hn; lia).
    unfold Py.len in Hlen. lia. }
  exists n, fatores, (RegistroAprendizado.partida reg0).
  split; [exact Hn|]. split; [exact Hf|]. split; [exact Hcompleto|].
  split.
  { rewrite Hcond, Hc0, Hchave. apply dict_sem_repeticao.
    rewrite extrair_valores_completo by exact Hcompleto.
    apply (combinations_NoDup _ _ _ FATORES_ANALISE_NoDup Hf). }
  split; [rewrite Hmer, Hm0; exact Hex|].
  cbv zeta. rewrite Hmer, Hm0, <- Hchave.
  rewrite <- filter_filter_andb, <- Hregs, <- Hgrupo.
  split; [exact Hne|]. split; [rewrite Htot; exact Ht0|].
  rewrite Hac. exact Ha0.
Qed.

Lemma regra_descoberta_limites (banco : BancoAprendizado.t)
    (r : RegraDeOuro.t) :
  In r (descobrir_regras banco) -> RegraDeOuro.taxa_acerto r <= 100.
Proof.
  intros Hin. pose proof Hin as Hin'.
  apply descobrir_regras_anatomia in Hin.
  destruct Hin as (n & fatores & p0 & _ & _ & _ & _ & _ & H).
  cbv zeta in H. destruct H as (_ & Htot & Hac).
  apply descobrir_regras_origem in Hin'.
  destruct Hin' as (r0 & mercado & fs & chave & grupo & partida
                    & Hsame & Hr0 & _).
  apply analisar_grupo_In in Hr0.
  destruct Hr0 as (_ & Ht0 & Hmin & Htaxa & _).
  destruct Hsame as (_ & _ & Ht & Ha & Htx & _).
  rewrite Htx, Htaxa, <- Ht, <- Ha.
  assert (Hpos : 0 < inject_Z (RegraDeOuro.total_amostras r)).
  { rewrite <- (Zlt_Qlt 0). rewrite Ht. unfold MIN_AMOSTRAS_REGRA in Hmin.
    lia. }
  assert (Hle : inject_Z (RegraDeOuro.acertos r)
                <= inject_Z (RegraDeOuro.total_amostras r)).
  { rewrite <- Zle_Qle. rewrite Hac, Htot. unfold Py.len.
    apply inj_le.
    generalize (List.filter
                  (fun reg =>
                     bool_decide
                       (ResultadoMercadoAprendizado.mercado
                          (RegistroAprendizado.resultado reg)
                        = RegraDeOuro.mercado r)
                     && bool_decide
                          (extrair_valores (RegistroAprendizado.partida reg)
                             fatores = extrair_valores p0 fatores))
                  (BancoAprendizado.registros banco)).
    intros l. induction l as [|x l IH]; simpl; [lia|].
    destruct (ResultadoMercadoAprendizado.acertou
                (RegistroAprendizado.resultado x)); simpl; lia. }
  assert (Hq : inject_Z (RegraDeOuro.acertos r)
               / inject_Z (RegraDeOuro.total_amostras r) <= 1).
  { apply Qle_shift_div_r; [exact Hpos | lra]. }
  lra.
Qed.

(** X22.  The counts of a discovered rule are those of the stored
    records it fires on: a record belongs to the rule when it is of the
    rule's market and its snapshot satisfies every condition (whatever the
    probability bucket); [total_amostras] is the number of such records,
    which is not zero, and [acertos] the number of them that hit. *)
Theorem regra_descoberta_contagens (banco : BancoAprendizado.t)
    (r : RegraDeOuro.t) (faixa : string) :
  In r (descobrir_regras banco) ->
  let dispara reg :=
    bool_decide (ResultadoMercadoAprendizado.mercado
                   (RegistroAprendizado.resultado reg)
                 = RegraDeOuro.mercado r)
    && condicoes_satisfeitas (RegistroAprendizado.partida reg) faixa
         (RegraDeOuro.condicoes r) in
  RegraDeOuro.total_amostras r
  = Py.len (List.filter dispara (BancoAprendizado.registros banco))
  /\ RegraDeOuro.acertos r
     = Py.len (List.filter
                 (fun reg => dispara reg
                             && ResultadoMercadoAprendizado.acertou
                                  (RegistroAprendizado.resultado reg))
                 (BancoAprendizado.registros banco))
  /\ (0 <= RegraDeOuro.acertos r <= RegraDeOuro.total_amostras r)%Z
  /\ (RegraDeOuro.total_amostras r <= total_registros banco)%Z.
Proof.
  intros Hin dispara.
  apply descobrir_regras_anatomia in Hin.
  destruct Hin as (n & fatores & p0 & _ & _ & Hcompleto & Hcond & _ & H).
  cbv zeta in H. destruct H as (_ & Htot & Hac).
  assert (Hd : forall reg,
            bool_decide
              (ResultadoMercadoAprendizado.mercado
                 (RegistroAprendizado.resultado reg) = RegraDeOuro.mercado r)
            && bool_decide
                 (extrair_valores (RegistroAprendizado.partida reg) fatores
                  = extrair_valores p0 fatores)
            = dispara reg).
  { intros reg. unfold dispara. rewrite Hcond.
    rewrite (condicoes_satisfeitas_extrair p0 _ faixa fatores Hcompleto).
    reflexivity. }
  rewrite (filter_ext _ _ Hd) in Htot, Hac.
  rewrite filter_filter_andb in Hac.
  split; [exact Htot|]. split; [exact Hac|].
  assert (Hle1 : forall (p : RegistroAprendizado.t -> bool) l,
            (length (List.filter p l) <= length l)%nat).
  { intros p l. induction l as [|x l IH]; simpl; [lia|].
    destruct (p x); simpl; lia. }
  split.
  - rewrite Hac, Htot, <- filter_filter_andb. unfold Py.len.
    pose proof (Hle1 (fun x => ResultadoMercadoAprendizado.acertou
                                 (RegistroAprendizado.resultado x))
                  (List.filter dispara (BancoAprendizado.registros banco))).
    lia.
  - rewrite Htot. unfold total_registros, Py.len.
    pose proof (Hle1 dispara (BancoAprendizado.registros banco)). lia.
Qed.

Lemma range2_passo (a : Z) (n : nat) :
  Py.range2 a (a + Z.of_nat (Datatypes.S n))
  = a :: Py.range2 (a + 1) (a + 1 + Z.of_nat n).
Proof.
  unfold Py.range2.
  replace (Z.to_nat (a + Z.of_nat (Datatypes.S n) - a))
    with (Datatypes.S n) by lia.
  replace (Z.to_nat (a + 1 + Z.of_nat n - (a + 1))) with n by lia.
  cbn [seq map]. f_equal; [lia|].
  rewrite <- seq_shift, map_map. apply map_ext. intros i. lia.
Qed.

Lemma atribuir_ids_ids (i : Z) (regras : list RegraDeOuro.t) :
  map RegraDeOuro.id (atribuir_ids i regras)
  = Py.range2 i (i + Py.len regras)
  /\ length (atribuir_ids i regras) = length regras.
Proof.
  revert i. induction regras as [|x l IH]; intros i.
  - split; [|reflexivity]. unfold Py.range2, Py.len. cbn [length].
    replace (Z.to_nat (i + Z.of_nat 0 - i)) with 0%nat by lia. reflexivity.
  - destruct (IH (i + 1)%Z) as [IH1 IH2].
    split; [|simpl; rewrite IH2; reflexivity].
    unfold Py.len. cbn [length]. rewrite range2_passo.
    cbn [atribuir_ids map]. rewrite IH1. reflexivity.
Qed.

Lemma atribuir_ids_ordenadas
    (R : RegraDeOuro.t -> RegraDeOuro.t -> Prop) :
  (forall a b a' b',
     mesma_regra a' a -> mesma_regra b' b -> R a b -> R a' b') ->
  forall (regras : list RegraDeOuro.t) (i : Z),
    Sorted R regras -> Sorted R (atribuir_ids i regras).
Proof.
  intros HR regras. induction regras as [|x l IH]; intros i Hs;
    [constructor|].
  inversion Hs as [|? ? Hs' Hhd]; subst.
  cbn [atribuir_ids]. constructor; [apply IH; exact Hs'|].
  destruct l as [|y l']; cbn [atribuir_ids]; constructor.
  inversion Hhd; subst.
  eapply HR; [| |eassumption]; repeat split; reflexivity.
Qed.

Lemma ordem_final_leb_total (a b : RegraDeOuro.t) :
  ordem_final_leb a b = true \/ ordem_final_leb b a = true.
Proof.
  unfold ordem_final_leb.
  destruct (Qeq_bool (- RegraDeOuro.taxa_acerto a)
                     (- RegraDeOuro.taxa_acerto b)) eqn:E.
  - apply Qeq_bool_iff in E.
    assert (E' : Qeq_bool (- RegraDeOuro.taxa_acerto b)
                          (- RegraDeOuro.taxa_acerto a) = true)
      by (apply Qeq_bool_iff; symmetry; exact E).
    rewrite E'. rewrite !Z.leb_le. lia.
  - assert (E' : Qeq_bool (- RegraDeOuro.taxa_acerto b)
                          (- RegraDeOuro.taxa_acerto a) = false).
    { apply not_true_iff_false. intros H. apply Qeq_bool_iff in H.
      apply not_true_iff_false in E. apply E. apply Qeq_bool_iff.
      symmetry. exact H. }
    rewrite E'. rewrite !Qle_bool_iff.
    destruct (Qlt_le_dec (- RegraDeOuro.taxa_acerto b)
                         (- RegraDeOuro.taxa_acerto a));
      [right; apply Qlt_le_weak; assumption | left; assumption].
Qed.

(** X23.  The list that [descobrir_regras] returns: the ids are
    [1, 2, ..., n] in order; the rules come by descending hit rate and,
    at equal rate, by descending sample count; every description is the
    one [gerar_descricao] makes from the conditions; and discovery reads
    the records only, so [retreinar_regras] stores what it returns, keeps
    the records and finds the same rules when run again. *)
Theorem descobrir_regras_ids_e_ordem (banco : BancoAprendizado.t) :
  let regras := descobrir_regras banco in
  map RegraDeOuro.id regras = Py.range2 1 (1 + Py.len regras)
  /\ Sorted
       (fun a b =>
          RegraDeOuro.taxa_acerto b < RegraDeOuro.taxa_acerto a
          \/ (RegraDeOuro.taxa_acerto b == RegraDeOuro.taxa_acerto a
              /\ (RegraDeOuro.total_amostras b
                  <= RegraDeOuro.total_amostras a)%Z))
       regras
  /\ (forall r, In r regras -> gerar_descricao r = r)
  /\ fst (retreinar_regras banco) = regras
  /\ BancoAprendizado.regras (snd (retreinar_regras banco)) = regras
  /\ BancoAprendizado.registros (snd (retreinar_regras banco))
     = BancoAprendizado.registros banco
  /\ descobrir_regras (snd (retreinar_regras banco)) = regras.
Proof.
  intros regras. subst regras.
  split; [|split; [|split; [|repeat split]]].
  - unfold descobrir_regras.
    destruct (atribuir_ids_ids 1
                (Py.sorted ordem_final_leb
                   (flat_map (fun mr => regras_do_mercado (fst mr) (snd mr))
                      (fold_left
                         (fun d r =>
                            Py.dd_append d
                              (ResultadoMercadoAprendizado.mercado
                                 (RegistroAprendizado.resultado r)) r)
                         (BancoAprendizado.registros banco) []))))
      as [Hids Hlen].
    rewrite Hids. unfold Py.len. rewrite Hlen. reflexivity.
  - unfold descobrir_regras. apply atribuir_ids_ordenadas.
    + intros a b a' b' (_ & _ & Ha & _ & Hta & _) (_ & _ & Hb & _ & Htb & _).
      rewrite Ha, Hb, Hta, Htb. auto.
    + eapply Sorted_ind with (P := fun l => Sorted _ l);
        [constructor | | apply (sorted_ordenada ordem_final_leb
                                  ordem_final_leb_total)].
      intros a l _ IH Hhd. constructor; [exact IH|].
      destruct Hhd as [|b l' Hab]; constructor.
      unfold ordem_final_leb in Hab.
      destruct (Qeq_bool (- RegraDeOuro.taxa_acerto a)
                         (- RegraDeOuro.taxa_acerto b)) eqn:E.
      * apply Qeq_bool_iff in E. apply Z.leb_le in Hab.
        right. split; [lra | lia].
      * apply Qle_bool_iff in Hab.
        assert (Hne : ~ - RegraDeOuro.taxa_acerto a
                        == - RegraDeOuro.taxa_acerto b).
        { intros H. apply Qeq_bool_iff in H. congruence. }
        left. destruct (Qlt_le_dec (RegraDeOuro.taxa_acerto b)
                                   (RegraDeOuro.taxa_acerto a));
          [assumption|].
        exfalso. apply Hne. lra.
  - intros r Hin. unfold descobrir_regras in Hin.
    revert Hin. generalize 1%Z.
    generalize (Py.sorted ordem_final_leb
                  (flat_map (fun mr => regras_do_mercado (fst mr) (snd mr))
                     (fold_left
                        (fun d r =>
                           Py.dd_append d
                             (ResultadoMercadoAprendizado.mercado
                                (RegistroAprendizado.resultado r)) r)
                        (BancoAprendizado.registros banco) []))).
    intros l. induction l as [|x l IH]; intros i Hin; [destruct Hin|].
    cbn [atribuir_ids] in Hin. destruct Hin as [<-|Hin];
      [reflexivity | apply (IH _ Hin)].
Qed.

(** X24.  The shape of a discovered rule: its market is never the
    excluded Under 5.5 and is the market of a stored record; it has one
    to three conditions, on distinct factors of [FATORES_ANALISE] in the
    order of that list; no condition value is empty or Desconhecido; and
    its hit rate is at most 100. *)
Theorem regra_descoberta_forma (banco : BancoAprendizado.t)
    (r : RegraDeOuro.t) :
  In r (descobrir_regras banco) ->
  RegraDeOuro.mercado r <> "Under 5.5 Cartões"%string
  /\ (exists reg, In reg (BancoAprendizado.registros banco)
                  /\ ResultadoMercadoAprendizado.mercado
                       (RegistroAprendizado.resultado reg)
                     = RegraDeOuro.mercado r)
  /\ (exists n, In n [1; 2; 3]%nat
                /\ In (map fst (RegraDeOuro.condicoes r))
                      (combinations FATORES_ANALISE n))
  /\ (1 <= Py.len (RegraDeOuro.condicoes r) <= 3)%Z
  /\ List.NoDup (map fst (RegraDeOuro.condicoes r))
  /\ (forall f v, In (f, v) (RegraDeOuro.condicoes r) ->
                  In f FATORES_ANALISE
                  /\ v <> EmptyString /\ v <> "Desconhecido"%string)
  /\ RegraDeOuro.taxa_acerto r <= 100.
Proof.
  intros Hin.
  pose proof (regra_descoberta_limites banco r Hin) as Htaxa.
  apply descobrir_regras_anatomia in Hin.
  destruct Hin as (n & fatores & p0 & Hn & Hf & Hcompleto & Hcond & Hex & H).
  cbv zeta in H. destruct H as (Hne & _ & _).
  pose proof (extrair_valores_completo p0 fatores Hcompleto) as Hkeys.
  pose proof (combinations_length _ _ _ Hf) as Hlen.
  split; [|split; [|split; [|split; [|split; [|split]]]]].
  - intros E. apply Hex. rewrite E. unfold MERCADOS_EXCLUIDOS_REGRAS.
    apply list_elem_of_singleton. reflexivity.
  - destruct (List.filter _ _) as [|reg g] eqn:Eg in Hne; [congruence|].
    assert (Hreg : In reg (reg :: g)) by (left; reflexivity).
    rewrite <- Eg in Hreg. apply filter_In in Hreg.
    destruct Hreg as [Hreg Hb]. apply andb_true_iff in Hb.
    destruct Hb as [Hb _]. apply bool_decide_eq_true_1 in Hb.
    exists reg. auto.
  - exists (Z.to_nat n). split.
    + simpl in Hn. destruct Hn as [<-|[<-|[<-|[]]]]; simpl; auto.
    + rewrite Hcond, Hkeys. exact Hf.
  - rewrite Hcond. unfold Py.len. rewrite Hcompleto, Hlen.
    simpl in Hn. lia.
  - rewrite Hcond, Hkeys.
    apply (combinations_NoDup _ _ _ FATORES_ANALISE_NoDup Hf).
  - intros f v Hfv. rewrite Hcond in Hfv.
    apply extrair_valores_In in Hfv. destruct Hfv as (Hff & _ & Hv1 & Hv2).
    split; [|split; assumption].
    apply (combinations_In _ _ _ _ Hf Hff).
  - exact Htaxa.
Qed.

End MaisDescoberta.

Lemma filtrar_redundantes_cobertura_witness :
  In Exemplos.regra_A
     (Aprendizado._filtrar_redundantes [Exemplos.regra_A; Exemplos.regra_B])
  \/ exists a,
       In a (Aprendizado._filtrar_redundantes
               [Exemplos.regra_A; Exemplos.regra_B])
       /\ Aprendizado.contido
            (Aprendizado.RegraDeOuro.condicoes Exemplos.regra_A)
            (Aprendizado.RegraDeOuro.condicoes a).
Proof.
  destruct (filtrar_redundantes_cobertura
              [Exemplos.regra_A; Exemplos.regra_B]) as (_ & H & _).
  apply H. left. reflexivity.
Defined.

Lemma regra_descoberta_contagens_witness :
  Aprendizado.RegraDeOuro.total_amostras Exemplos.regra_dez
  = Py.len
      (List.filter
         (fun reg =>
            bool_decide
              (Aprendizado.ResultadoMercadoAprendizado.mercado
                 (Aprendizado.RegistroAprendizado.resultado reg)
               = Aprendizado.RegraDeOuro.mercado Exemplos.regra_dez)
            && Aprendizado.condicoes_satisfeitas
                 (Aprendizado.RegistroAprendizado.partida reg) "60-65"
                 (Aprendizado.RegraDeOuro.condicoes Exemplos.regra_dez))
         (Aprendizado.BancoAprendizado.registros Exemplos.banco_dez)).
Proof.
  destruct (regra_descoberta_contagens Exemplos.banco_dez Exemplos.regra_dez
              "60-65") as [H _].
  - rewrite banco_dez_regra. left. reflexivity.
  - exact H.
Defined.

Lemma descobrir_regras_ids_e_ordem_witness :
  map Aprendizado.RegraDeOuro.id
    (Aprendizado.descobrir_regras Exemplos.banco_dez)
  = Py.range2 1 (1 + Py.len (Aprendizado.descobrir_regras Exemplos.banco_dez)).
Proof.
  destruct (descobrir_regras_ids_e_ordem Exemplos.banco_dez) as [H _].
  exact H.
Defined.

Lemma regra_descoberta_forma_witness :
  Aprendizado.RegraDeOuro.mercado Exemplos.regra_dez
  <> "Under 5.5 Cartões"%string
  /\ (1 <= Py.len (Aprendizado.RegraDeOuro.condicoes Exemplos.regra_dez)
      <= 3)%Z.
Proof.
  destruct (regra_descoberta_forma Exemplos.banco_dez Exemplos.regra_dez)
    as (H1 & _ & _ & H4 & _).
  - rewrite banco_dez_regra. left. reflexivity.
  - split; assumption.
Defined.

(** ** Rule activation, derived factors and the store *)

Section MaisAtivacao.
Import Aprendizado.
Local Open Scope Q_scope.

Lemma Sorted_implica {A : Type} (R R' : A -> A -> Prop) (l : list A) :
  (forall a b, R a b -> R' a b) -> Sorted R l -> Sorted R' l.
Proof.
  intros HR. induction 1 as [|a l _ IH Hhd]; constructor; [exact IH|].
  destruct Hhd; constructor. apply HR. assumption.
Qed.

Lemma condicoes_satisfeitas_iff (partida : DadosPartidaAprendizado.t)
    (faixa : string) (condicoes : list (string * string)) :
  condicoes_satisfeitas partida faixa condicoes = true
  <-> forall f v, In (f, v) condicoes ->
        (if bool_decide (f = "faixa_prob"%string) then Some faixa
         else getattr partida f) = Some v.
Proof.
  unfold condicoes_satisfeitas. rewrite forallb_forall. split.
  - intros H f v Hin. specialize (H (f, v) Hin). cbn [fst snd] in H.
    apply bool_decide_eq_true_1 in H. exact H.
  - intros H [f v] Hin. cbn [fst snd]. apply bool_decide_eq_true_2.
    apply H. exact Hin.
Qed.

Lemma condicoes_sem_faixa (partida : DadosPartidaAprendizado.t)
    (faixa faixa' : string) (condicoes : list (string * string)) :
  (forall f v, In (f, v) condicoes -> f <> "faixa_prob"%string) ->
  condicoes_satisfeitas partida faixa condicoes
  = condicoes_satisfeitas partida faixa' condicoes.
Proof.
  intros H. unfold condicoes_satisfeitas.
  induction condicoes as [|[f v] c IH]; [reflexivity|].
  cbn [forallb fst snd].
  rewrite (bool_decide_eq_false_2 (f = "faixa_prob"%string))
    by (apply (H f v); left; reflexivity).
  rewrite IH; [reflexivity|].
  intros f' v' Hin. apply (H f' v'). right. exact Hin.
Qed.

Lemma descobrir_regras_sem_faixa (banco : BancoAprendizado.t)
    (r : RegraDeOuro.t) (f v : string) :
  In r (descobrir_regras banco) -> In (f, v) (RegraDeOuro.condicoes r) ->
  f <> "faixa_prob"%string.
Proof.
  intros Hin Hfv.
  apply descobrir_regras_anatomia in Hin.
  destruct Hin as (n & fatores & p0 & _ & _ & _ & Hcond & _).
  rewrite Hcond in Hfv. apply extrair_valores_In in Hfv.
  destruct Hfv as (_ & Hget & _). intros ->.
  rewrite getattr_faixa_prob in Hget. discriminate.
Qed.

(** X25.  [verificar_regras] returns exactly the stored rules of the
    market all of whose conditions hold for the match, the condition on
    [faixa_prob] being read against the bucket that a stored result of
    the same calibrated probability carries; it returns them by
    descending hit rate; and on a store just retrained the calibrated
    probability makes no difference, since no discovered rule has a
    condition on it. *)
Theorem verificar_regras_ativadas (banco : BancoAprendizado.t)
    (partida : DadosPartidaAprendizado.t) (mercado : string)
    (p_calibrado : Q) :
  let ativadas := verificar_regras banco partida mercado p_calibrado in
  (forall res r,
     ResultadoMercadoAprendizado.p_calibrado res = p_calibrado ->
     (In r ativadas
      <-> In r (BancoAprendizado.regras banco)
          /\ RegraDeOuro.mercado r = mercado
          /\ forall f v,
               In (f, v) (RegraDeOuro.condicoes r) ->
               (if bool_decide (f = "faixa_prob"%string)
                then Some (ResultadoMercadoAprendizado.faixa_prob
                             (calcular_faixa_prob res))
                else getattr partida f) = Some v))
  /\ Sorted (fun a b => RegraDeOuro.taxa_acerto b <= RegraDeOuro.taxa_acerto a)
       ativadas
  /\ (length ativadas <= length (BancoAprendizado.regras banco))%nat
  /\ (forall banco0 p p',
        verificar_regras (snd (retreinar_regras banco0)) partida mercado p
        = verificar_regras (snd (retreinar_regras banco0)) partida mercado p').
Proof.
  intros ativadas. subst ativadas.
  split; [|split; [|split]].
  - intros res r Hp. unfold verificar_regras. rewrite sorted_In, filter_In.
    rewrite andb_true_iff, condicoes_satisfeitas_iff.
    unfold calcular_faixa_prob.
    cbn [ResultadoMercadoAprendizado.faixa_prob]. rewrite Hp.
    split.
    + intros (H1 & H2 & H3). apply bool_decide_eq_true_1 in H2. auto.
    + intros (H1 & H2 & H3). split; [exact H1|].
      split; [apply bool_decide_eq_true_2; exact H2 | exact H3].
  - unfold verificar_regras.
    apply Sorted_implica
      with (R := fun a b =>
                   Qle_bool (- RegraDeOuro.taxa_acerto a)
                            (- RegraDeOuro.taxa_acerto b) = true).
    + intros a b Hab. apply Qle_bool_iff in Hab. lra.
    + apply sorted_ordenada. intros a b. rewrite !Qle_bool_iff.
      destruct (Qlt_le_dec (- RegraDeOuro.taxa_acerto b)
                           (- RegraDeOuro.taxa_acerto a));
        [right; apply Qlt_le_weak; assumption | left; assumption].
  - unfold verificar_regras.
    rewrite <- (Permutation_length (sorted_perm _ _)).
    generalize (BancoAprendizado.regras banco). intros l.
    induction l as [|x l IH]; simpl; [lia|].
    destruct (_ && _); simpl; lia.
  - intros banco0 p p'. unfold verificar_regras, retreinar_regras.
    cbn [snd BancoAprendizado.regras]. f_equal.
    apply filter_ext_in. intros r Hr. f_equal.
    apply condicoes_sem_faixa. intros f v Hfv.
    apply (descobrir_regras_sem_faixa banco0 r f v Hr Hfv).
Qed.

(** The count that [total_por_mercado] keeps for a market. *)
Lemma dict_get_dd_incrementar (d : list (string * Z)) (k k' : string) :
  Py.dict_get (dd_incrementar d k) k'
  = if decide (k' = k) then Some (default 0 (Py.dict_get d k) + 1)%Z
    else Py.dict_get d k'.
Proof.
  induction d as [|[k0 n] t IH]; simpl.
  - destruct (decide (k' = k)); reflexivity.
  - destruct (decide (k = k0)) as [->|N]; simpl.
    + destruct (decide (k' = k0)) as [->|N']; reflexivity.
    + destruct (decide (k' = k0)) as [->|N'].
      * destruct (decide (k0 = k)) as [E|_]; [congruence | reflexivity].
      * exact IH.
Qed.

Lemma dd_incrementar_soma (d : list (string * Z)) (k : string) :
  fold_right Z.add 0%Z (map snd (dd_incrementar d k))
  = (fold_right Z.add 0%Z (map snd d) + 1)%Z.
Proof.
  induction d as [|[k0 n] t IH]; simpl; [lia|].
  destruct (decide (k = k0)); simpl; [lia | rewrite IH; lia].
Qed.

Lemma dd_incrementar_chave_In (d : list (string * Z)) (k k' : string) :
  In k' (map fst (dd_incrementar d k)) -> In k' (map fst d) \/ k' = k.
Proof.
  induction d as [|[k0 n] t IH]; simpl.
  - intros [<-|[]]. right. reflexivity.
  - destruct (decide (k = k0)) as [->|N]; simpl.
    + intros [<-|Hin]; auto.
    + intros [<-|Hin]; [auto|]. destruct (IH Hin); auto.
Qed.

Lemma dd_incrementar_NoDup (d : list (string * Z)) (k : string) :
  List.NoDup (map fst d) -> List.NoDup (map fst (dd_incrementar d k)).
Proof.
  induction d as [|[k0 n] t IH]; simpl; intros Hnd.
  - constructor; [intros [] | constructor].
  - inversion Hnd as [|? ? Hnot Hnd']; subst.
    destruct (decide (k = k0)) as [->|N]; simpl.
    + constructor; assumption.
    + constructor; [|apply IH; exact Hnd'].
      intros Hin. apply dd_incrementar_chave_In in Hin.
      destruct Hin as [Hin|E]; [exact (Hnot Hin) | congruence].
Qed.

Lemma contagem_lookup (registros : list RegistroAprendizado.t)
    (d : list (string * Z)) (mercado : string) :
  let n :=
    Py.len (List.filter
              (fun r => bool_decide
                          (ResultadoMercadoAprendizado.mercado
                             (RegistroAprendizado.resultado r) = mercado))
              registros) in
  Py.dict_get
    (fold_left
       (fun contagem r =>
          dd_incrementar contagem
            (ResultadoMercadoAprendizado.mercado
               (RegistroAprendizado.resultado r)))
       registros d) mercado
  = match Py.dict_get d mercado with
    | Some n0 => Some (n0 + n)%Z
    | None => if (n =? 0)%Z then None else Some n
    end
  /\ fold_right Z.add 0%Z
       (map snd
          (fold_left
             (fun contagem r =>
                dd_incrementar contagem
                  (ResultadoMercadoAprendizado.mercado
                     (RegistroAprendizado.resultado r)))
             registros d))
     = (fold_right Z.add 0%Z (map snd d) + Py.len registros)%Z
  /\ (List.NoDup (map fst d) ->
      List.NoDup
        (map fst
           (fold_left
              (fun contagem r =>
                 dd_incrementar contagem
                   (ResultadoMercadoAprendizado.mercado
                      (RegistroAprendizado.resultado r)))
              registros d))).
Proof.
  revert d. induction registros as [|r rs IH]; intros d.
  - unfold Py.len. cbn [fold_left List.filter length Z.of_nat].
    split; [|split; [lia | auto]].
    destruct (Py.dict_get d mercado) as [n0|]; [f_equal; lia | reflexivity].
  - cbn [fold_left List.filter].
    destruct (IH (dd_incrementar d
                    (ResultadoMercadoAprendizado.mercado
                       (RegistroAprendizado.resultado r))))
      as (IH1 & IH2 & IH3).
    cbv zeta in IH1. split; [|split].
    + cbv zeta. rewrite IH1, dict_get_dd_incrementar.
      destruct (decide (mercado
                        = ResultadoMercadoAprendizado.mercado
                            (RegistroAprendizado.resultado r))) as [E|N].
      * rewrite <- E.
        rewrite (bool_decide_eq_true_2 (mercado = mercado)) by reflexivity.
        unfold Py.len. cbn [length].
        destruct (Py.dict_get d mercado) as [n0|]; cbv [default from_option id].
        -- f_equal. lia.
        -- destruct (Z.of_nat (Datatypes.S _) =? 0)%Z eqn:E0;
             [apply Z.eqb_eq in E0; lia | f_equal; lia].
      * rewrite bool_decide_eq_false_2 by congruence. reflexivity.
    + rewrite IH2, dd_incrementar_soma. unfold Py.len. cbn [length]. lia.
    + intros Hd. apply IH3. apply dd_incrementar_NoDup. exact Hd.
Qed.

(** X26.  The store's counters: [total_por_mercado] lists each market that
    has a record once, with the number of its records, and has no entry
    for any other market; the counts add up to [total_registros]; and
    [adicionar_registro] appends the record, raising the total by one and
    leaving the rules alone. *)
Theorem total_por_mercado_contagem (banco : BancoAprendizado.t)
    (mercado : string) (registro : RegistroAprendizado.t) :
  let n :=
    Py.len (List.filter
              (fun r => bool_decide
                          (ResultadoMercadoAprendizado.mercado
                             (RegistroAprendizado.resultado r) = mercado))
              (BancoAprendizado.registros banco)) in
  Py.dict_get (total_por_mercado banco) mercado
  = (if (n =? 0)%Z then None else Some n)
  /\ List.NoDup (map fst (total_por_mercado banco))
  /\ fold_right Z.add 0%Z (map snd (total_por_mercado banco))
     = total_registros banco
  /\ total_registros (adicionar_registro banco registro)
     = (total_registros banco + 1)%Z
  /\ total_por_mercado (adicionar_registro banco registro)
     = dd_incrementar (total_por_mercado banco)
         (ResultadoMercadoAprendizado.mercado
            (RegistroAprendizado.resultado registro))
  /\ BancoAprendizado.regras (adicionar_registro banco registro)
     = BancoAprendizado.regras banco.
Proof.
  intros n. subst n. unfold total_por_mercado, total_registros.
  destruct (contagem_lookup (BancoAprendizado.registros banco) [] mercado)
    as (H1 & H2 & H3).
  cbv zeta in H1.
  split; [exact H1|]. split; [apply H3; constructor|].
  split; [rewrite H2; simpl; lia|].
  split; [|split; [|reflexivity]].
  - unfold adicionar_registro, Py.len. cbn [BancoAprendizado.registros].
    rewrite length_app. simpl. lia.
  - unfold adicionar_registro. cbn [BancoAprendizado.registros].
    rewrite fold_left_app. reflexivity.
Qed.

End MaisAtivacao.

Section MaisFatores.
Context {S : StrModule}.
Import Aprendizado.
Local Open Scope Q_scope.

Lemma getattr_fatores (p : DadosPartidaAprendizado.t) :
  getattr p "faixa_lambda" = Some (DadosPartidaAprendizado.faixa_lambda p)
  /\ getattr p "perfil_arbitro"
     = Some (DadosPartidaAprendizado.perfil_arbitro p)
  /\ getattr p "tipo_competicao"
     = Some (DadosPartidaAprendizado.tipo_competicao p)
  /\ getattr p "faixa_qualidade"
     = Some (DadosPartidaAprendizado.faixa_qualidade p)
  /\ getattr p "variancia" = Some (DadosPartidaAprendizado.variancia p)
  /\ getattr p "tendencia_recente"
     = Some (DadosPartidaAprendizado.tendencia_recente p)
  /\ getattr p "regiao_competicao"
     = Some (DadosPartidaAprendizado.regiao_competicao p)
  /\ getattr p "faixa_delta_arbitro"
     = Some (DadosPartidaAprendizado.faixa_delta_arbitro p)
  /\ getattr p "faixa_delta_times"
     = Some (DadosPartidaAprendizado.faixa_delta_times p)
  /\ getattr p "faixa_peso_shrinkage"
     = Some (DadosPartidaAprendizado.faixa_peso_shrinkage p)
  /\ getattr p "faixa_media_arb_5j"
     = Some (DadosPartidaAprendizado.faixa_media_arb_5j p)
  /\ getattr p "faixa_amplitude"
     = Some (DadosPartidaAprendizado.faixa_amplitude p)
  /\ getattr p "completude_dados"
     = Some (DadosPartidaAprendizado.completude_dados p)
  /\ getattr p "faixa_soma_times"
     = Some (DadosPartidaAprendizado.faixa_soma_times p).
Proof. repeat split; vm_compute; reflexivity. Qed.

Local Ltac abrir_fator :=
  cbv beta iota zeta delta
    [calcular_fatores_derivados
     DadosPartidaAprendizado.faixa_lambda
     DadosPartidaAprendizado.tipo_competicao
     DadosPartidaAprendizado.faixa_qualidade
     DadosPartidaAprendizado.variancia
     DadosPartidaAprendizado.tendencia_recente
     DadosPartidaAprendizado.regiao_competicao
     DadosPartidaAprendizado.faixa_delta_arbitro
     DadosPartidaAprendizado.faixa_delta_times
     DadosPartidaAprendizado.faixa_peso_shrinkage
     DadosPartidaAprendizado.faixa_media_arb_5j
     DadosPartidaAprendizado.faixa_amplitude
     DadosPartidaAprendizado.completude_dados
     DadosPartidaAprendizado.faixa_soma_times];
  repeat match goal with
    | |- context [if ?c then _ else _] => destruct c
    end.

(** X27.  [calcular_fatores_derivados] is idempotent and fills every
    derived factor: after it, each analysis factor other than
    [perfil_arbitro] (a raw field), [faixa_prob] (no attribute of the
    snapshot) and [tendencia_recente] has a value that is neither empty
    nor Desconhecido, so only those three can keep a record out of a
    group; [tendencia_recente] is Desconhecido exactly when a referee
    window is missing; and the two readings of the interval width agree
    (a narrow interval is of low variance, a wide one of high). *)
Theorem calcular_fatores_derivados_preenche
    (self : DadosPartidaAprendizado.t) :
  let d := calcular_fatores_derivados self in
  calcular_fatores_derivados d = d
  /\ (forall f, In f FATORES_ANALISE ->
        f <> "perfil_arbitro"%string -> f <> "faixa_prob"%string ->
        f <> "tendencia_recente"%string ->
        exists v, getattr d f = Some v
                  /\ v <> EmptyString /\ v <> "Desconhecido"%string)
  /\ getattr d "perfil_arbitro"
     = Some (DadosPartidaAprendizado.perfil_arbitro self)
  /\ DadosPartidaAprendizado.tendencia_recente d <> EmptyString
  /\ (DadosPartidaAprendizado.tendencia_recente d = "Desconhecido"%string
      <-> DadosPartidaAprendizado.media_arbitro_5j self <= 0
          \/ DadosPartidaAprendizado.media_arbitro_10j self <= 0)
  /\ (DadosPartidaAprendizado.faixa_amplitude d = "Estreita"%string ->
      DadosPartidaAprendizado.variancia d = "Baixa"%string)
  /\ (DadosPartidaAprendizado.faixa_amplitude d = "Larga"%string ->
      DadosPartidaAprendizado.variancia d = "Alta"%string).
Proof.
  intros d.
  destruct (getattr_fatores d)
    as (G1 & G2 & G3 & G4 & G5 & G6 & G7 & G8 & G9 & G10 & G11 & G12
        & G13 & G14).
  split; [reflexivity|].
  split; [|split; [exact G2|split; [|split; [|split]]]].
  - intros f Hin N1 N2 N3. unfold FATORES_ANALISE in Hin. simpl in Hin.
    repeat (destruct Hin as [<-|Hin]; [try congruence|]); [..|destruct Hin].
    + exists (DadosPartidaAprendizado.faixa_lambda d).
      split; [exact G1|]. subst d. abrir_fator; split; discriminate.
    + exists (DadosPartidaAprendizado.tipo_competicao d).
      split; [exact G3|]. subst d. abrir_fator; split; discriminate.
    + exists (DadosPartidaAprendizado.faixa_qualidade d).
      split; [exact G4|]. subst d. abrir_fator; split; discriminate.
    + exists (DadosPartidaAprendizado.variancia d).
      split; [exact G5|]. subst d. abrir_fator; split; discriminate.
    + exists (DadosPartidaAprendizado.regiao_competicao d).
      split; [exact G7|]. subst d. abrir_fator; split; discriminate.
    + exists (DadosPartidaAprendizado.faixa_delta_arbitro d).
      split; [exact G8|]. subst d. abrir_fator; split; discriminate.
    + exists (DadosPartidaAprendizado.faixa_delta_times d).
      split; [exact G9|]. subst d. abrir_fator; split; discriminate.
    + exists (DadosPartidaAprendizado.faixa_peso_shrinkage d).
      split; [exact G10|]. subst d. abrir_fator; split; discriminate.
    + exists (DadosPartidaAprendizado.faixa_media_arb_5j d).
      split; [exact G11|]. subst d. abrir_fator; split; discriminate.
    + exists (DadosPartidaAprendizado.faixa_amplitude d).
      split; [exact G12|]. subst d. abrir_fator; split; discriminate.
    + exists (DadosPartidaAprendizado.completude_dados d).
      split; [exact G13|]. subst d. abrir_fator; split; discriminate.
    + exists (DadosPartidaAprendizado.faixa_soma_times d).
      split; [exact G14|]. subst d. abrir_fator; split; discriminate.
  - subst d. abrir_fator; discriminate.
  - subst d.
    cbv beta iota zeta delta
      [calcular_fatores_derivados DadosPartidaAprendizado.tendencia_recente].
    destruct (Py.Qlt_bool 0 (DadosPartidaAprendizado.media_arbitro_5j self))
      eqn:E5;
      destruct (Py.Qlt_bool 0 (DadosPartidaAprendizado.media_arbitro_10j self))
        eqn:E10; cbn [andb].
    + apply Qlt_bool_iff in E5. apply Qlt_bool_iff in E10.
      split; [|intros [H|H]; exfalso; lra].
      repeat match goal with
        | |- context [if ?c then _ else _] => destruct c
        end; discriminate.
    + apply Qlt_bool_false_iff in E10. split; [auto | reflexivity].
    + apply Qlt_bool_false_iff in E5. split; [auto | reflexivity].
    + apply Qlt_bool_false_iff in E5. split; [auto | reflexivity].
  - subst d.
    cbv beta iota zeta delta
      [calcular_fatores_derivados DadosPartidaAprendizado.faixa_amplitude
       DadosPartidaAprendizado.variancia].
    destruct (DadosPartidaAprendizado.intervalo_amplitude self <=? 4)%Z eqn:E4.
    + intros _. apply Z.leb_le in E4.
      destruct (DadosPartidaAprendizado.intervalo_amplitude self >? 5)%Z eqn:E5;
        [|reflexivity].
      apply Z.gtb_gt in E5. lia.
    + destruct (DadosPartidaAprendizado.intervalo_amplitude self <=? 6)%Z;
        discriminate.
  - subst d.
    cbv beta iota zeta delta
      [calcular_fatores_derivados DadosPartidaAprendizado.faixa_amplitude
       DadosPartidaAprendizado.variancia].
    destruct (DadosPartidaAprendizado.intervalo_amplitude self <=? 4)%Z eqn:E4;
      [discriminate|].
    destruct (DadosPartidaAprendizado.intervalo_amplitude self <=? 6)%Z eqn:E6;
      [discriminate|].
    intros _. apply Z.leb_gt in E6.
    destruct (DadosPartidaAprendizado.intervalo_amplitude self >? 5)%Z eqn:E5;
      [reflexivity|].
    rewrite Z.gtb_ltb in E5. apply Z.ltb_ge in E5. lia.
Qed.

End MaisFatores.

Lemma retreinar_todos_treina_witness :
  Probabilidade.gerenciador_calibrar
    (Probabilidade.retreinar_todos Probabilidade.novo_gerenciador)
    "Over 3.5 Cartões" 62.0
  = (Probabilidade.retreinar_todos Probabilidade.novo_gerenciador,
     snd (Probabilidade.gerenciador_calibrar Probabilidade.novo_gerenciador
            "Over 3.5 Cartões" 62.0)).
Proof.
  destruct (retreinar_todos_treina Probabilidade.novo_gerenciador
              "Over 3.5 Cartões" 62.0) as (_ & _ & _ & H & _).
  apply (H (Probabilidade.novo_calibrador "Over 3.5 Cartões")).
  - rewrite novo_gerenciador_calibradores. reflexivity.
  - reflexivity.
Defined.

Lemma verificar_regras_ativadas_witness :
  In Exemplos.regra_dez
     (Aprendizado.verificar_regras
        (snd (Aprendizado.retreinar_regras Exemplos.banco_dez))
        Exemplos.partida_sintetica "Over 3.5 Cartões" 61.0).
Proof.
  destruct (verificar_regras_ativadas
              (snd (Aprendizado.retreinar_regras Exemplos.banco_dez))
              Exemplos.partida_sintetica "Over 3.5 Cartões" 61.0)
    as [H _].
  apply (H (Aprendizado.ResultadoMercadoAprendizado.make
              "Over 3.5 Cartões" "over" 3.5 62.0 61.0 true true 5
              EmptyString) Exemplos.regra_dez); [reflexivity|].
  split; [|split].
  - unfold Aprendizado.retreinar_regras.
    cbn [snd Aprendizado.BancoAprendizado.regras].
    rewrite banco_dez_regra. left. reflexivity.
  - reflexivity.
  - intros f v [E|[]]. inversion E; subst. reflexivity.
Defined.

Lemma total_por_mercado_contagem_witness :
  Py.dict_get (Aprendizado.total_por_mercado Exemplos.banco_dez)
    "Over 3.5 Cartões"%string
  = Some 10%Z.
Proof.
  destruct (total_por_mercado_contagem Exemplos.banco_dez "Over 3.5 Cartões"
              (Exemplos.registro_sintetico true)) as [H _].
  exact H.
Defined.

Lemma calcular_fatores_derivados_preenche_witness :
  exists v,
    Aprendizado.getattr
      (Aprendizado.calcular_fatores_derivados (S := Exemplos.str_exemplo)
         Exemplos.partida_sintetica)
      "faixa_lambda"
    = Some v
    /\ v <> EmptyString /\ v <> "Desconhecido"%string.
Proof.
  destruct (calcular_fatores_derivados_preenche (S := Exemplos.str_exemplo)
              Exemplos.partida_sintetica) as (_ & H & _).
  apply H.
  - left. reflexivity.
  - discriminate.
  - discriminate.
  - discriminate.
Defined.

(** ** From the analysis to the learning records *)

Section MaisIntegracao.
Context {M : MathModule} {S : StrModule}.
Local Open Scope Q_scope.

Lemma calcular_percentis_inv (lambda_ r : Q) (usar_negbin : bool)
    (ic : Probabilidade.IntervaloConfianca.t) :
  Probabilidade.calcular_percentis lambda_ r usar_negbin = Py.Ret ic ->
  (Probabilidade.IntervaloConfianca.p10 ic
   <= Probabilidade.IntervaloConfianca.p90 ic)%Z
  /\ Probabilidade.IntervaloConfianca.variancia_alta ic
     = (Probabilidade.IntervaloConfianca.p90 ic
        - Probabilidade.IntervaloConfianca.p10 ic >? 6)%Z.
Proof.
  intros H. unfold Probabilidade.calcular_percentis in H.
  apply bind_ret_inv in H. destruct H as (vs & Hvs & H).
  apply bind_ret_inv in H. destruct H as (a10 & H10 & H).
  apply bind_ret_inv in H. destruct H as (a25 & H25 & H).
  apply bind_ret_inv in H. destruct H as (a50 & H50 & H).
  apply bind_ret_inv in H. destruct H as (a75 & H75 & H).
  apply bind_ret_inv in H. destruct H as (a90 & H90 & H).
  inversion H; subst ic; clear H.
  cbn [Probabilidade.IntervaloConfianca.p10
       Probabilidade.IntervaloConfianca.p90
       Probabilidade.IntervaloConfianca.variancia_alta].
  split; [|reflexivity].
  assert (Hs : StronglySorted Z.le (map fst vs)).
  { rewrite (mapM_chaves _ _ _ Hvs). apply range_crescente. }
  apply (encontrar_percentil_mono vs 0.10 0.90); auto.
  unfold Qle; simpl; lia.
Qed.

(** X29.  The snapshot that [criar_dados_partida_aprendizado] makes from
    an interval of [calcular_percentis]: its amplitude is [p90 - p10] and
    is not negative; its [variancia] is Alta exactly above an amplitude of
    5, while the interval's own flag [variancia_alta] asks for more than
    6, so the flag implies Alta but at an amplitude of exactly 6 the two
    disagree; and the snapshot is a fixed point of
    [calcular_fatores_derivados]. *)
Theorem criar_dados_partida_amplitude
    (data time_mandante time_visitante competicao : string)
    (lambda_shrunk qualidade_score media_arbitro_5j media_arbitro_10j : Q)
    (perfil_arbitro modelo : string)
    (delta_arbitro delta_times peso_shrinkage soma_cartoes_times
     completude_arbitro lambda_raw : Q)
    (lambda_ r : Q) (usar_negbin : bool)
    (ic : Probabilidade.IntervaloConfianca.t) :
  Probabilidade.calcular_percentis lambda_ r usar_negbin = Py.Ret ic ->
  let p10 := Probabilidade.IntervaloConfianca.p10 ic in
  let p90 := Probabilidade.IntervaloConfianca.p90 ic in
  let partida :=
    Aprendizado.criar_dados_partida_aprendizado data time_mandante
      time_visitante competicao lambda_shrunk qualidade_score
      media_arbitro_5j media_arbitro_10j p10 p90 perfil_arbitro modelo
      delta_arbitro delta_times peso_shrinkage soma_cartoes_times
      completude_arbitro lambda_raw in
  Aprendizado.DadosPartidaAprendizado.intervalo_amplitude partida
  = (p90 - p10)%Z
  /\ (0 <= Aprendizado.DadosPartidaAprendizado.intervalo_amplitude partida)%Z
  /\ (Aprendizado.DadosPartidaAprendizado.variancia partida = "Alta"%string
      <-> (5 < p90 - p10)%Z)
  /\ (Probabilidade.IntervaloConfianca.variancia_alta ic = true ->
      Aprendizado.DadosPartidaAprendizado.variancia partida = "Alta"%string)
  /\ ((p90 - p10 = 6)%Z ->
      Probabilidade.IntervaloConfianca.variancia_alta ic = false
      /\ Aprendizado.DadosPartidaAprendizado.variancia partida
         = "Alta"%string)
  /\ Aprendizado.calcular_fatores_derivados partida = partida.
Proof.
  intros H p10 p90 partida.
  apply calcular_percentis_inv in H. destruct H as [Hle Hflag].
  fold p10 p90 in Hle, Hflag.
  assert (Hvar : Aprendizado.DadosPartidaAprendizado.variancia partida
                 = if (p90 - p10 >? 5)%Z then "Alta"%string
                   else "Baixa"%string) by reflexivity.
  split; [reflexivity|]. split; [|split; [|split; [|split]]].
  - change (0 <= p90 - p10)%Z. lia.
  - rewrite Hvar. destruct (p90 - p10 >? 5)%Z eqn:E.
    + apply Z.gtb_gt in E. split; [lia | reflexivity].
    + rewrite Z.gtb_ltb in E. apply Z.ltb_ge in E.
      split; [discriminate | lia].
  - rewrite Hflag, Hvar. intros E. apply Z.gtb_gt in E.
    destruct (p90 - p10 >? 5)%Z eqn:E5; [reflexivity|].
    rewrite Z.gtb_ltb in E5. apply Z.ltb_ge in E5. lia.
  - intros E. rewrite Hflag, Hvar, E. split; reflexivity.
  - reflexivity.
Qed.

(** X30.  The probability bucket that
    [criar_resultado_mercado_aprendizado] stores: the seven labels split
    the line at 55, 60, 65, 70, 75 and 80, each bound belonging to the
    bucket above it, so every calibrated probability has exactly one
    label; the eight other fields are stored as given. *)
Theorem faixa_prob_limites (mercado tipo : string)
    (linha p_raw p_calibrado : Q) (eh_destaque acertou : bool)
    (cartoes_reais : Z) :
  let res :=
    Aprendizado.criar_resultado_mercado_aprendizado mercado tipo linha p_raw
      p_calibrado eh_destaque acertou cartoes_reais in
  let faixa := Aprendizado.ResultadoMercadoAprendizado.faixa_prob res in
  (faixa = "<55"%string <-> p_calibrado < 55)
  /\ (faixa = "55-60"%string <-> 55 <= p_calibrado /\ p_calibrado < 60)
  /\ (faixa = "60-65"%string <-> 60 <= p_calibrado /\ p_calibrado < 65)
  /\ (faixa = "65-70"%string <-> 65 <= p_calibrado /\ p_calibrado < 70)
  /\ (faixa = "70-75"%string <-> 70 <= p_calibrado /\ p_calibrado < 75)
  /\ (faixa = "75-80"%string <-> 75 <= p_calibrado /\ p_calibrado < 80)
  /\ (faixa = "80+"%string <-> 80 <= p_calibrado)
  /\ Aprendizado.ResultadoMercadoAprendizado.mercado res = mercado
  /\ Aprendizado.ResultadoMercadoAprendizado.tipo res = tipo
  /\ Aprendizado.ResultadoMercadoAprendizado.linha res = linha
  /\ Aprendizado.ResultadoMercadoAprendizado.p_raw res = p_raw
  /\ Aprendizado.ResultadoMercadoAprendizado.p_calibrado res = p_calibrado
  /\ Aprendizado.ResultadoMercadoAprendizado.eh_destaque res = eh_destaque
  /\ Aprendizado.ResultadoMercadoAprendizado.acertou res = acertou
  /\ Aprendizado.ResultadoMercadoAprendizado.cartoes_reais res
     = cartoes_reais.
Proof.
  intros res faixa. subst faixa res.
  unfold Aprendizado.criar_resultado_mercado_aprendizado,
    Aprendizado.calcular_faixa_prob.
  cbn [Aprendizado.ResultadoMercadoAprendizado.faixa_prob
       Aprendizado.ResultadoMercadoAprendizado.mercado
       Aprendizado.ResultadoMercadoAprendizado.tipo
       Aprendizado.ResultadoMercadoAprendizado.linha
       Aprendizado.ResultadoMercadoAprendizado.p_raw
       Aprendizado.ResultadoMercadoAprendizado.p_calibrado
       Aprendizado.ResultadoMercadoAprendizado.eh_destaque
       Aprendizado.ResultadoMercadoAprendizado.acertou
       Aprendizado.ResultadoMercadoAprendizado.cartoes_reais].
  destruct (Py.Qlt_bool p_calibrado 55) eqn:E55;
    [apply Qlt_bool_iff in E55
    |apply Qlt_bool_false_iff in E55;
     destruct (Py.Qlt_bool p_calibrado 60) eqn:E60;
     [apply Qlt_bool_iff in E60
     |apply Qlt_bool_false_iff in E60;
      destruct (Py.Qlt_bool p_calibrado 65) eqn:E65;
      [apply Qlt_bool_iff in E65
      |apply Qlt_bool_false_iff in E65;
       destruct (Py.Qlt_bool p_calibrado 70) eqn:E70;
       [apply Qlt_bool_iff in E70
       |apply Qlt_bool_false_iff in E70;
        destruct (Py.Qlt_bool p_calibrado 75) eqn:E75;
        [apply Qlt_bool_iff in E75
        |apply Qlt_bool_false_iff in E75;
         destruct (Py.Qlt_bool p_calibrado 80) eqn:E80;
         [apply Qlt_bool_iff in E80
         |apply Qlt_bool_false_iff in E80]]]]]];
    repeat split;
    first [reflexivity
          | intros Habs; discriminate Habs
          | intros; reflexivity
          | intros; lra
          | intros; split; lra
          | intros [? ?]; exfalso; lra
          | intros; exfalso; lra
          | exfalso; congruence].
Qed.

End MaisIntegracao.

Lemma criar_dados_partida_amplitude_witness :
  exists ic,
    Probabilidade.calcular_percentis (M := Exemplos.math_exemplo) 5.4 3.0 true
    = Py.Ret ic
    /\ (Aprendizado.DadosPartidaAprendizado.variancia
          (Aprendizado.criar_dados_partida_aprendizado
             (S := Exemplos.str_exemplo)
             "2025-03-01" "Liverpool" "Everton" "Premier League"
             5.4 80.0 6.2 5.0
             (Probabilidade.IntervaloConfianca.p10 ic)
             (Probabilidade.IntervaloConfianca.p90 ic)
             "Rigoroso" "Negative Binomial" 0.0 0.0 0.5 0.0 0.0 0.0)
        = "Alta"%string
        <-> (5 < Probabilidade.IntervaloConfianca.p90 ic
                 - Probabilidade.IntervaloConfianca.p10 ic)%Z).
Proof.
  destruct (calcular_percentis_retorna (M := Exemplos.math_exemplo)
              5.4 3.0 math_exemplo_erros) as [ic Hic].
  - unfold Qlt; simpl; lia.
  - unfold Qle; simpl; lia.
  - exists ic. split; [exact Hic|].
    destruct (criar_dados_partida_amplitude (M := Exemplos.math_exemplo)
                (S := Exemplos.str_exemplo)
                "2025-03-01" "Liverpool" "Everton" "Premier League"
                5.4 80.0 6.2 5.0 "Rigoroso" "Negative Binomial"
                0.0 0.0 0.5 0.0 0.0 0.0 5.4 3.0 true ic Hic)
      as (_ & _ & H & _).
    exact H.
Defined.

(** ** A corpus whose records share one factor *)

Section UmaChave.
Context {K A : Type} `{EqDecision K}.
Context (sel : A -> option K)
        (f : list (K * list A) -> A -> list (K * list A)).
Hypothesis f_sel :
  forall d r, f d r = match sel r with
                      | Some k => Py.dd_append d k r
                      | None => d
                      end.

Lemma agrupado_uma_chave (rs : list A) (k : K) :
  rs <> [] -> (forall r, In r rs -> sel r = Some k) ->
  fold_left f rs [] = [(k, rs)].
Proof.
  assert (Hgen : forall rs g,
            (forall r, In r rs -> sel r = Some k) ->
            fold_left f rs [(k, g)] = [(k, g ++ rs)]).
  { clear rs. induction rs as [|r rs IH]; intros g Hsel.
    - simpl. rewrite app_nil_r. reflexivity.
    - cbn [fold_left]. rewrite f_sel, (Hsel r) by (left; reflexivity).
      cbn [Py.dd_append]. destruct (decide (k = k)); [|congruence].
      rewrite IH by (intros r' Hr'; apply Hsel; right; exact Hr').
      rewrite <- app_assoc. reflexivity. }
  destruct rs as [|r rs]; [congruence|]. intros _ Hsel.
  cbn [fold_left]. rewrite f_sel, (Hsel r) by (left; reflexivity).
  cbn [Py.dd_append].
  apply (Hgen rs [r]). intros r' Hr'. apply Hsel. right. exact Hr'.
Qed.

Lemma agrupado_vazio (rs : list A) :
  (forall r, In r rs -> sel r = None) -> fold_left f rs [] = [].
Proof.
  induction rs as [|r rs IH]; intros Hsel; [reflexivity|].
  cbn [fold_left]. rewrite f_sel, (Hsel r) by (left; reflexivity).
  apply IH. intros r' Hr'. apply Hsel. right. exact Hr'.
Qed.

End UmaChave.

Section CorpusDeUmFator.
Import Aprendizado.
Local Open Scope Q_scope.

Lemma combinations_um {A : Type} (l : list A) :
  combinations l 1 = map (fun x => [x]) l.
Proof.
  induction l as [|x t IH]; [reflexivity|].
  cbn [combinations map app]. rewrite <- IH.
  destruct t; reflexivity.
Qed.

Lemma flat_map_um {A B : Type} (g : A -> list B) (l : list A) (x : A) :
  List.NoDup l -> In x l -> (forall y, In y l -> y <> x -> g y = []) ->
  flat_map g l = g x.
Proof.
  induction l as [|y l IH]; intros Hnd Hin Hz; [destruct Hin|].
  inversion Hnd as [|? ? Hnot Hnd']; subst. cbn [flat_map].
  destruct Hin as [->|Hin].
  - rewrite flat_map_vazio; [apply app_nil_r|].
    intros z Hz'. apply Hz; [right; exact Hz'|].
    intros ->. exact (Hnot Hz').
  - rewrite (Hz y) by (try (left; reflexivity); intros ->; exact (Hnot Hin)).
    apply IH; [exact Hnd' | exact Hin|].
    intros z Hz' Hne. apply Hz; [right; exact Hz' | exact Hne].
Qed.

Lemma atribuir_ids_de (i : Z) (regras : list RegraDeOuro.t)
    (r0 : RegraDeOuro.t) :
  In r0 regras ->
  exists r, In r (atribuir_ids i regras) /\ mesma_regra r r0.
Proof.
  revert i. induction regras as [|x l IH]; intros i Hin; [destruct Hin|].
  cbn [atribuir_ids]. destruct Hin as [->|Hin].
  - eexists. split; [left; reflexivity|]. repeat split; reflexivity.
  - destruct (IH (i + 1)%Z Hin) as (r & Hr & Hsame).
    exists r. split; [right; exact Hr | exact Hsame].
Qed.

Lemma extrair_valores_um (partida : DadosPartidaAprendizado.t)
    (X A : string) :
  getattr partida X = Some A ->
  A <> EmptyString -> A <> "Desconhecido"%string ->
  extrair_valores partida [X] = [(X, A)].
Proof.
  intros Hg H1 H2. cbn [extrair_valores]. rewrite Hg.
  rewrite (bool_decide_eq_false_2 (A = EmptyString)) by exact H1.
  rewrite (bool_decide_eq_false_2 (A = "Desconhecido"%string)) by exact H2.
  reflexivity.
Qed.

Lemma extrair_valores_par (partida : DadosPartidaAprendizado.t)
    (fatores : list string) (Y B : string) :
  In (Y, B) (extrair_valores partida fatores) ->
  getattr partida Y = Some B
  /\ B <> EmptyString /\ B <> "Desconhecido"%string.
Proof.
  induction fatores as [|f t IH]; cbn [extrair_valores]; [intros []|].
  destruct (getattr partida f) as [v|] eqn:Eg; [|intros []].
  destruct (bool_decide (v = EmptyString)) eqn:E1; [intros []|].
  destruct (bool_decide (v = "Desconhecido"%string)) eqn:E2; [intros []|].
  cbn [orb]. intros [E | Hin]; [|exact (IH Hin)].
  inversion E; subst. split; [exact Eg|].
  split; [apply bool_decide_eq_false_1 in E1 | apply bool_decide_eq_false_1 in E2];
    assumption.
Qed.

Lemma extrair_valores_tem (partida : DadosPartidaAprendizado.t)
    (fatores : list string) (Y : string) :
  length (extrair_valores partida fatores) = length fatores ->
  In Y fatores -> exists B, In (Y, B) (extrair_valores partida fatores).
Proof.
  induction fatores as [|f t IH]; [intros _ []|].
  cbn [extrair_valores].
  destruct (getattr partida f) as [v|]; [|simpl; discriminate].
  destruct (bool_decide (v = EmptyString)
            || bool_decide (v = "Desconhecido"%string));
    [simpl; discriminate|].
  cbn [length]. intros Hlen [-> | Hin].
  - exists v. left. reflexivity.
  - destruct (IH (eq_add_S _ _ Hlen) Hin) as (B & HB).
    exists B. right. exact HB.
Qed.

Lemma extrair_valores_ext (p p' : DadosPartidaAprendizado.t)
    (fatores : list string) :
  (forall f, In f fatores -> getattr p f = getattr p' f) ->
  extrair_valores p fatores = extrair_valores p' fatores.
Proof.
  induction fatores as [|f t IH]; intros H; [reflexivity|].
  cbn [extrair_valores]. rewrite (H f) by (left; reflexivity).
  destruct (getattr p' f) as [v|]; [|reflexivity].
  destruct (bool_decide (v = EmptyString)
            || bool_decide (v = "Desconhecido"%string)); [reflexivity|].
  f_equal. apply IH. intros g Hg. apply H. right. exact Hg.
Qed.

Lemma extrair_valores_todos (p : DadosPartidaAprendizado.t)
    (fatores : list string) :
  (forall f, In f fatores ->
     exists v, getattr p f = Some v
               /\ v <> EmptyString /\ v <> "Desconhecido"%string) ->
  length (extrair_valores p fatores) = length fatores.
Proof.
  induction fatores as [|f t IH]; intros H; [reflexivity|].
  cbn [extrair_valores].
  destruct (H f (or_introl eq_refl)) as (v & Hv & H1 & H2). rewrite Hv.
  rewrite (bool_decide_eq_false_2 (v = EmptyString)) by exact H1.
  rewrite (bool_decide_eq_false_2 (v = "Desconhecido"%string)) by exact H2.
  cbn [orb length]. f_equal. apply IH. intros g Hg. apply H. right. exact Hg.
Qed.

Lemma filter_length_imp {A : Type} (p q : A -> bool) (l : list A) :
  (forall x, In x l -> p x = true -> q x = true) ->
  (length (List.filter p l) <= length (List.filter q l))%nat.
Proof.
  induction l as [|x l IH]; intros H; [simpl; lia|]. cbn [List.filter].
  assert (IH' := IH (fun y Hy => H y (or_intror Hy))).
  destruct (p x) eqn:Ep.
  - rewrite (H x (or_introl eq_refl) Ep). simpl. lia.
  - destruct (q x); simpl; lia.
Qed.

(** The records of a group share the value of each factor of the
    combination. *)
Lemma grupo_partilha (registros : list RegistroAprendizado.t)
    (fatores : list string) (chave : list (string * string))
    (grupo : list RegistroAprendizado.t) (Y : string) :
  In (chave, grupo) (agrupar registros fatores (Py.len fatores)) ->
  In Y fatores ->
  exists B, B <> EmptyString /\ B <> "Desconhecido"%string
            /\ (Py.len grupo <= Py.len (registros_com registros Y B))%Z.
Proof.
  intros Hin HY. apply agrupar_grupo in Hin.
  destruct Hin as (Hg & Hne & Hlen).
  assert (Hex : exists x, In x grupo).
  { destruct grupo as [|x g]; [congruence|]. exists x. left. reflexivity. }
  destruct Hex as (x & Hx). rewrite Hg in Hx. apply filter_In in Hx.
  destruct Hx as (_ & Hx). apply bool_decide_eq_true_1 in Hx.
  assert (Hcomp : length (extrair_valores (RegistroAprendizado.partida x)
                            fatores) = length fatores).
  { rewrite Hx. unfold Py.len in Hlen. lia. }
  destruct (extrair_valores_tem _ _ Y Hcomp HY) as (B & HB).
  destruct (extrair_valores_par _ _ _ _ HB) as (_ & H1 & H2).
  rewrite Hx in HB.
  exists B. split; [exact H1|]. split; [exact H2|].
  rewrite Hg. unfold registros_com, Py.len. apply Nat2Z.inj_le.
  apply filter_length_imp. intros r _ Hr.
  apply bool_decide_eq_true_1 in Hr. apply bool_decide_eq_true_2.
  rewrite <- Hr in HB. apply (extrair_valores_par _ _ _ _ HB).
Qed.

Lemma analisar_grupo_pequeno (mercado : string)
    (chave : list (string * string)) (grupo : list RegistroAprendizado.t) :
  (Py.len grupo < MIN_AMOSTRAS_REGRA)%Z ->
  analisar_grupo mercado chave grupo = [].
Proof.
  intros H. unfold analisar_grupo. apply Z.ltb_lt in H. rewrite H.
  reflexivity.
Qed.

Lemma analisar_grupo_aceita (mercado : string)
    (chave : list (string * string)) (grupo : list RegistroAprendizado.t) :
  (MIN_AMOSTRAS_REGRA <= Py.len grupo)%Z ->
  Qle_bool THRESHOLD_OURO
    (inject_Z
       (Py.len
          (List.filter
             (fun r => ResultadoMercadoAprendizado.acertou
                         (RegistroAprendizado.resultado r)) grupo))
     / inject_Z (Py.len grupo) * 100) = true ->
  exists r, In r (analisar_grupo mercado chave grupo)
            /\ RegraDeOuro.condicoes r = Py.dict chave.
Proof.
  intros Hmin Ht. unfold analisar_grupo.
  rewrite (proj2 (Z.ltb_ge _ _) Hmin). cbv zeta. rewrite Ht.
  destruct (Qle_bool THRESHOLD_DIAMANTE _);
    [|destruct (Qle_bool THRESHOLD_PLATINA _)];
    eexists; (split; [left; reflexivity | reflexivity]).
Qed.

(** Without a second shared factor value, a combination that names
    another factor yields no rule. *)
Lemma sem_partilha_sem_regra (mercado : string)
    (registros : list RegistroAprendizado.t) (X : string)
    (fatores : list string) (Y : string) :
  ~ outro_fator_partilhado registros X ->
  In Y fatores -> In Y FATORES_ANALISE -> Y <> X ->
  flat_map (fun cg => analisar_grupo mercado (fst cg) (snd cg))
    (agrupar registros fatores (Py.len fatores)) = [].
Proof.
  intros Hsem HY HF Hne. apply flat_map_vazio. intros [chave grupo] Hin.
  cbn [fst snd]. apply analisar_grupo_pequeno.
  destruct (grupo_partilha _ _ _ _ Y Hin HY) as (B & H1 & H2 & Hle).
  destruct (Z_lt_le_dec (Py.len grupo) MIN_AMOSTRAS_REGRA) as [Hlt | Hge];
    [exact Hlt|].
  exfalso. apply Hsem. exists Y, B.
  split; [exact HF|]. split; [exact Hne|]. split; [exact H1|].
  split; [exact H2 | lia].
Qed.

(** Records that have no usable value for any other factor share none. *)
Lemma sem_fator_sem_partilha (registros : list RegistroAprendizado.t)
    (X : string) :
  (forall reg f,
     In reg registros -> In f FATORES_ANALISE -> f <> X ->
     extrair_valores (RegistroAprendizado.partida reg) [f] = []) ->
  ~ outro_fator_partilhado registros X.
Proof.
  intros H (Y & B & HF & Hne & H1 & H2 & Hlen).
  destruct (registros_com registros Y B) as [|reg l] eqn:E.
  - unfold Py.len, MIN_AMOSTRAS_REGRA in Hlen. simpl in Hlen. lia.
  - assert (Hin : In reg (registros_com registros Y B))
      by (rewrite E; left; reflexivity).
    unfold registros_com in Hin. apply filter_In in Hin.
    destruct Hin as (Hreg & Hg). apply bool_decide_eq_true_1 in Hg.
    specialize (H reg Y Hreg HF Hne).
    rewrite (extrair_valores_um _ Y B Hg H1 H2) in H. discriminate.
Qed.

Lemma agrupar_tem_grupo (registros : list RegistroAprendizado.t)
    (fatores : list string) (n : Z) (reg : RegistroAprendizado.t) :
  In reg registros ->
  Py.len (extrair_valores (RegistroAprendizado.partida reg) fatores) = n ->
  In (extrair_valores (RegistroAprendizado.partida reg) fatores,
      List.filter
        (fun r => bool_decide
                    (extrair_valores (RegistroAprendizado.partida r) fatores
                     = extrair_valores (RegistroAprendizado.partida reg)
                         fatores))
        registros)
     (agrupar registros fatores n).
Proof.
  intros Hin Hlen. apply dict_get_In. unfold agrupar.
  set (chave := extrair_valores (RegistroAprendizado.partida reg) fatores)
    in *.
  rewrite (agrupado_lookup
             (fun r =>
                let valores :=
                  extrair_valores (RegistroAprendizado.partida r) fatores in
                if (Py.len valores =? n)%Z then Some valores else None)).
  2: { intros d r. cbv zeta.
       destruct (Py.len (extrair_valores (RegistroAprendizado.partida r)
                           fatores) =? n)%Z; reflexivity. }
  cbn [Py.dict_get].
  rewrite (filter_ext _
             (fun r => bool_decide
                         (extrair_valores (RegistroAprendizado.partida r)
                            fatores = chave))).
  2: { intros r. cbv zeta. apply bool_decide_ext.
       destruct (Py.len (extrair_valores (RegistroAprendizado.partida r)
                           fatores) =? n)%Z eqn:En.
       - split; [intros H; inversion H; reflexivity | intros ->; reflexivity].
       - split; [discriminate|]. intros H. rewrite H, Hlen in En.
         rewrite Z.eqb_refl in En. discriminate. }
  destruct (List.filter
              (fun r => bool_decide
                          (extrair_valores (RegistroAprendizado.partida r)
                             fatores = chave)) registros) as [|x l] eqn:Ef;
    [|reflexivity].
  exfalso.
  assert (Hreg : In reg []); [|destruct Hreg].
  rewrite <- Ef. apply filter_In. split; [exact Hin|].
  apply bool_decide_eq_true_2. reflexivity.
Qed.

Lemma combinations_par {A : Type} (l : list A) (x y : A) :
  In x l -> In y l -> x <> y ->
  In [x; y] (combinations l 2) \/ In [y; x] (combinations l 2).
Proof.
  induction l as [|z t IH]; intros Hx Hy Hne; [destruct Hx|].
  change (combinations (z :: t) 2)
    with (map (cons z) (combinations t 1) ++ combinations t 2).
  rewrite combinations_um.
  destruct Hx as [-> | Hx], Hy as [-> | Hy].
  - congruence.
  - left. apply in_or_app. left. apply in_map_iff. exists [y].
    split; [reflexivity|]. apply in_map_iff. exists y. auto.
  - right. apply in_or_app. left. apply in_map_iff. exists [x].
    split; [reflexivity|]. apply in_map_iff. exists x. auto.
  - destruct (IH Hx Hy Hne) as [H | H]; [left | right];
      apply in_or_app; right; exact H.
Qed.

Lemma dict_get_dois {V : Type} (d : list (string * V)) (x y : string)
    (a b : V) :
  Py.dict_get d x = Some a -> Py.dict_get d y = Some b -> x <> y ->
  (2 <= Py.len d)%Z.
Proof.
  intros Hx Hy Hne. destruct d as [|[k v] [|kv t]].
  - discriminate.
  - simpl in Hx, Hy.
    destruct (decide (x = k)), (decide (y = k)); try discriminate.
    congruence.
  - unfold Py.len. simpl length. lia.
Qed.

Lemma StronglySorted_ForallOrdPairs {A : Type} (R : A -> A -> Prop)
    (l : list A) :
  StronglySorted R l -> ForallOrdPairs R l.
Proof. induction 1; constructor; assumption. Qed.

Lemma ForallOrdPairs_and {A : Type} (R S : A -> A -> Prop) (l : list A) :
  ForallOrdPairs R l -> ForallOrdPairs S l ->
  ForallOrdPairs (fun a b => R a b /\ S a b) l.
Proof.
  induction 1 as [|a l Ha Hl IH]; intros HS; [constructor|].
  inversion HS as [|? ? Ha' Hl']; subst.
  constructor; [|apply IH; exact Hl'].
  apply List.Forall_forall. intros b Hb.
  split; [exact (proj1 (List.Forall_forall _ _) Ha b Hb)
         | exact (proj1 (List.Forall_forall _ _) Ha' b Hb)].
Qed.

(** In a group of eight to ten records that misses at most twice, the hit
    rate reaches the rule threshold. *)
Lemma taxa_minima (a n : nat) :
  (8 <= n <= 10)%nat -> (n <= a + 2)%nat -> (a <= n)%nat ->
  Qle_bool THRESHOLD_OURO
    (inject_Z (Z.of_nat a) / inject_Z (Z.of_nat n) * 100) = true.
Proof.
  intros Hn Ha1 Ha2.
  assert (Hn' : (n = 8 \/ n = 9 \/ n = 10)%nat) by lia.
  destruct Hn' as [-> | [-> | ->]].
  - assert (Ha : (a = 6 \/ a = 7 \/ a = 8)%nat) by lia.
    destruct Ha as [-> | [-> | ->]]; vm_compute; reflexivity.
  - assert (Ha : (a = 7 \/ a = 8 \/ a = 9)%nat) by lia.
    destruct Ha as [-> | [-> | ->]]; vm_compute; reflexivity.
  - assert (Ha : (a = 8 \/ a = 9 \/ a = 10)%nat) by lia.
    destruct Ha as [-> | [-> | ->]]; vm_compute; reflexivity.
Qed.

Section Corpus.
Variables (banco : BancoAprendizado.t) (mercado X A : string).
Hypothesis dez : length (BancoAprendizado.registros banco) = 10%nat.
Hypothesis oito :
  length (List.filter
            (fun reg => ResultadoMercadoAprendizado.acertou
                          (RegistroAprendizado.resultado reg))
            (BancoAprendizado.registros banco)) = 8%nat.
Hypothesis partilham :
  forall reg, In reg (BancoAprendizado.registros banco) ->
    ResultadoMercadoAprendizado.mercado (RegistroAprendizado.resultado reg)
    = mercado
    /\ getattr (RegistroAprendizado.partida reg) X = Some A.
Hypothesis nao_excluido : mercado ∉ MERCADOS_EXCLUIDOS_REGRAS.
Hypothesis fator : In X FATORES_ANALISE.
Hypothesis valor : A <> EmptyString /\ A <> "Desconhecido"%string.

Lemma corpus_por_mercado :
  fold_left
    (fun d r =>
       Py.dd_append d
         (ResultadoMercadoAprendizado.mercado
            (RegistroAprendizado.resultado r)) r)
    (BancoAprendizado.registros banco) []
  = [(mercado, BancoAprendizado.registros banco)].
Proof.
  apply (agrupado_uma_chave
           (fun r => Some (ResultadoMercadoAprendizado.mercado
                             (RegistroAprendizado.resultado r)))).
  - reflexivity.
  - intros E. rewrite E in dez. discriminate.
  - intros r Hr. f_equal. apply (partilham r Hr).
Qed.

Lemma corpus_grupo :
  agrupar (BancoAprendizado.registros banco) [X] 1
  = [([(X, A)], BancoAprendizado.registros banco)].
Proof.
  unfold agrupar.
  apply (agrupado_uma_chave
           (fun r =>
              let valores :=
                extrair_valores (RegistroAprendizado.partida r) [X] in
              if (Py.len valores =? 1)%Z then Some valores else None)).
  - intros d r. cbv zeta.
    destruct (Py.len (extrair_valores (RegistroAprendizado.partida r) [X])
              =? 1)%Z; reflexivity.
  - intros E. rewrite E in dez. discriminate.
  - intros r Hr. cbv zeta.
    rewrite (extrair_valores_um _ X A (proj2 (partilham r Hr))
               (proj1 valor) (proj2 valor)).
    reflexivity.
Qed.

Lemma corpus_regra :
  analisar_grupo mercado [(X, A)] (BancoAprendizado.registros banco)
  = [ RegraDeOuro.make 0 mercado [(X, A)] 10 8
        (inject_Z 8 / inject_Z 10 * 100) "Ouro" "#ffd700" EmptyString ].
Proof.
  unfold analisar_grupo, Py.len. rewrite dez, oito.
  change (Z.of_nat 10 <? MIN_AMOSTRAS_REGRA)%Z with false.
  cbv iota zeta.
  change (Z.of_nat 8) with 8%Z. change (Z.of_nat 10) with 10%Z.
  replace (Qle_bool THRESHOLD_OURO (inject_Z 8 / inject_Z 10 * 100))
    with true by (vm_compute; reflexivity).
  replace (Qle_bool THRESHOLD_DIAMANTE (inject_Z 8 / inject_Z 10 * 100))
    with false by (vm_compute; reflexivity).
  replace (Qle_bool THRESHOLD_PLATINA (inject_Z 8 / inject_Z 10 * 100))
    with false by (vm_compute; reflexivity).
  reflexivity.
Qed.

(** The one-factor rule is mined. *)
Lemma corpus_testar_um :
  In (RegraDeOuro.make 0 mercado [(X, A)] 10 8
        (inject_Z 8 / inject_Z 10 * 100) "Ouro" "#ffd700" EmptyString)
     (_testar_combinacoes mercado (BancoAprendizado.registros banco) 1).
Proof.
  unfold _testar_combinacoes. apply in_flat_map. exists [X]. split.
  - change (Z.to_nat 1) with 1%nat. rewrite combinations_um.
    apply in_map_iff. exists X. split; [reflexivity | exact fator].
  - rewrite corpus_grupo. cbn [flat_map fst snd]. rewrite corpus_regra.
    left. reflexivity.
Qed.

Lemma corpus_regras_do_mercado :
  regras_do_mercado mercado (BancoAprendizado.registros banco)
  = _filtrar_redundantes
      (flat_map
         (fun n_fatores =>
            _testar_combinacoes mercado (BancoAprendizado.registros banco)
              n_fatores)
         [1; 2; 3]%Z).
Proof.
  unfold regras_do_mercado.
  rewrite bool_decide_eq_false_2 by exact nao_excluido.
  unfold Py.len. rewrite dez.
  change (Z.of_nat 10 <? MIN_AMOSTRAS_REGRA)%Z with false. reflexivity.
Qed.

(** What discovery returns for the corpus: the accepted rules of its one
    market, in the final order, numbered from 1. *)
Lemma corpus_descobertas :
  descobrir_regras banco
  = atribuir_ids 1
      (Py.sorted ordem_final_leb
         (_filtrar_redundantes
            (flat_map
               (fun n_fatores =>
                  _testar_combinacoes mercado
                    (BancoAprendizado.registros banco) n_fatores)
               [1; 2; 3]%Z))).
Proof.
  unfold descobrir_regras. rewrite corpus_por_mercado.
  cbn [flat_map fst snd]. rewrite app_nil_r, corpus_regras_do_mercado.
  reflexivity.
Qed.

Lemma corpus_minadas_mercado (a : RegraDeOuro.t) :
  In a (flat_map
          (fun n_fatores =>
             _testar_combinacoes mercado (BancoAprendizado.registros banco)
               n_fatores)
          [1; 2; 3]%Z) ->
  RegraDeOuro.mercado a = mercado.
Proof.
  intros Ha. apply in_flat_map in Ha.
  destruct Ha as (n & _ & Ha). unfold _testar_combinacoes in Ha.
  apply in_flat_map in Ha. destruct Ha as (fatores & _ & Ha).
  apply in_flat_map in Ha. destruct Ha as ([chave grupo] & _ & Ha).
  apply (analisar_grupo_contagens _ _ _ _ Ha).
Qed.

(** A group of eight records or more of the corpus passes the hit-rate
    threshold: the corpus misses twice only. *)
Lemma corpus_grupo_aceito (p : RegistroAprendizado.t -> bool) :
  (8 <= length (List.filter p (BancoAprendizado.registros banco)))%nat ->
  Qle_bool THRESHOLD_OURO
    (inject_Z
       (Py.len
          (List.filter
             (fun r => ResultadoMercadoAprendizado.acertou
                         (RegistroAprendizado.resultado r))
             (List.filter p (BancoAprendizado.registros banco))))
     / inject_Z (Py.len (List.filter p (BancoAprendizado.registros banco)))
     * 100) = true.
Proof.
  intros Hmin. unfold Py.len.
  set (ac := fun r => ResultadoMercadoAprendizado.acertou
                        (RegistroAprendizado.resultado r)) in *.
  set (regs := BancoAprendizado.registros banco) in *.
  pose proof (filter_length ac regs) as Htot.
  pose proof (filter_length ac (List.filter p regs)) as Hg.
  pose proof (filter_length_le p regs) as Hle.
  assert (Hmiss : (length (List.filter (fun x => negb (ac x))
                             (List.filter p regs))
                   <= length (List.filter (fun x => negb (ac x)) regs))%nat).
  { rewrite filter_filter_andb. apply filter_length_imp.
    intros x _ Hx. apply andb_true_iff in Hx. apply Hx. }
  apply taxa_minima; lia.
Qed.

(** With a second shared factor value, the two-factor rule of both values
    is mined. *)
Lemma corpus_regra_de_dois (Y B : string) (fatores : list string) :
  In fatores (combinations FATORES_ANALISE 2) ->
  In X fatores -> In Y fatores ->
  (forall f, In f fatores -> f = X \/ f = Y) ->
  B <> EmptyString -> B <> "Desconhecido"%string ->
  (MIN_AMOSTRAS_REGRA
   <= Py.len (registros_com (BancoAprendizado.registros banco) Y B))%Z ->
  exists r2,
    In r2 (_testar_combinacoes mercado (BancoAprendizado.registros banco) 2)
    /\ List.NoDup (map fst (RegraDeOuro.condicoes r2))
    /\ In (X, A) (RegraDeOuro.condicoes r2)
    /\ In (Y, B) (RegraDeOuro.condicoes r2).
Proof.
  intros Hcomb HX HY Hso H1 H2 Hlen.
  set (regs := BancoAprendizado.registros banco) in *.
  destruct (registros_com regs Y B) as [|reg0 l0] eqn:E0.
  { unfold Py.len, MIN_AMOSTRAS_REGRA in Hlen. simpl in Hlen. lia. }
  assert (Hreg0 : In reg0 (registros_com regs Y B))
    by (rewrite E0; left; reflexivity).
  rewrite <- E0 in Hlen. clear E0 l0.
  unfold registros_com in Hreg0. apply filter_In in Hreg0.
  destruct Hreg0 as (Hin0 & Hg0). apply bool_decide_eq_true_1 in Hg0.
  set (chave := extrair_valores (RegistroAprendizado.partida reg0) fatores).
  assert (Hlidos : forall reg, In reg regs ->
            getattr (RegistroAprendizado.partida reg) Y = Some B ->
            forall f, In f fatores ->
              exists v, getattr (RegistroAprendizado.partida reg) f = Some v
                        /\ v <> EmptyString /\ v <> "Desconhecido"%string).
  { intros reg Hreg Hg f Hf. destruct (Hso f Hf) as [-> | ->].
    - exists A. split; [apply (partilham reg Hreg)|]. exact valor.
    - exists B. auto. }
  assert (Hcomp : length chave = length fatores).
  { apply extrair_valores_todos. apply (Hlidos reg0 Hin0 Hg0). }
  assert (Hdois : length fatores = 2%nat)
    by (apply (combinations_length _ _ _ Hcomb)).
  assert (Hnd : List.NoDup (map fst chave)).
  { unfold chave. rewrite extrair_valores_completo by exact Hcomp.
    apply (combinations_NoDup _ _ _ FATORES_ANALISE_NoDup Hcomb). }
  assert (HXA : In (X, A) chave).
  { destruct (extrair_valores_tem _ _ X Hcomp HX) as (v & Hv).
    destruct (extrair_valores_par _ _ _ _ Hv) as (Hgv & _).
    rewrite (proj2 (partilham reg0 Hin0)) in Hgv. inversion Hgv; subst.
    exact Hv. }
  assert (HYB : In (Y, B) chave).
  { destruct (extrair_valores_tem _ _ Y Hcomp HY) as (v & Hv).
    destruct (extrair_valores_par _ _ _ _ Hv) as (Hgv & _).
    rewrite Hg0 in Hgv. inversion Hgv; subst. exact Hv. }
  set (grupo := List.filter
                  (fun r => bool_decide
                              (extrair_valores (RegistroAprendizado.partida r)
                                 fatores = chave)) regs).
  assert (Hgrupo : In (chave, grupo) (agrupar regs fatores 2)).
  { apply agrupar_tem_grupo; [exact Hin0|].
    fold chave. unfold Py.len. rewrite Hcomp, Hdois. reflexivity. }
  assert (Hmin : (8 <= length grupo)%nat).
  { assert (Hle : (length (registros_com regs Y B) <= length grupo)%nat).
    { unfold registros_com, grupo. apply filter_length_imp.
      intros r Hr Hgr. apply bool_decide_eq_true_1 in Hgr.
      apply bool_decide_eq_true_2. unfold chave.
      apply extrair_valores_ext. intros f Hf.
      destruct (Hso f Hf) as [-> | ->].
      - rewrite (proj2 (partilham r Hr)), (proj2 (partilham reg0 Hin0)).
        reflexivity.
      - rewrite Hgr, Hg0. reflexivity. }
    unfold Py.len, MIN_AMOSTRAS_REGRA in Hlen. lia. }
  destruct (analisar_grupo_aceita mercado chave grupo) as (r2 & Hr2 & Hc).
  - unfold Py.len, MIN_AMOSTRAS_REGRA. lia.
  - apply corpus_grupo_aceito. exact Hmin.
  - exists r2. rewrite Hc, (dict_sem_repeticao chave Hnd).
    split; [|split; [exact Hnd | split; [exact HXA | exact HYB]]].
    unfold _testar_combinacoes. apply in_flat_map. exists fatores.
    split; [exact Hcomb|]. apply in_flat_map. exists (chave, grupo).
    split; [exact Hgrupo | exact Hr2].
Qed.

(** With a second shared factor value, an accepted rule holds both
    conditions. *)
Lemma corpus_aceita_de_dois :
  outro_fator_partilhado (BancoAprendizado.registros banco) X ->
  exists a Y B,
    In a (_filtrar_redundantes
            (flat_map
               (fun n_fatores =>
                  _testar_combinacoes mercado
                    (BancoAprendizado.registros banco) n_fatores)
               [1; 2; 3]%Z))
    /\ Y <> X
    /\ Py.dict_get (RegraDeOuro.condicoes a) X = Some A
    /\ Py.dict_get (RegraDeOuro.condicoes a) Y = Some B.
Proof.
  intros (Y & B & HF & Hne & H1 & H2 & Hlen).
  set (minadas := flat_map
                    (fun n_fatores =>
                       _testar_combinacoes mercado
                         (BancoAprendizado.registros banco) n_fatores)
                    [1; 2; 3]%Z).
  assert (Hr2 : exists r2,
            In r2 minadas
            /\ List.NoDup (map fst (RegraDeOuro.condicoes r2))
            /\ In (X, A) (RegraDeOuro.condicoes r2)
            /\ In (Y, B) (RegraDeOuro.condicoes r2)).
  { assert (Hne' : X <> Y) by congruence.
    destruct (combinations_par FATORES_ANALISE X Y fator HF Hne')
      as [Hc | Hc].
    - destruct (corpus_regra_de_dois Y B [X; Y] Hc) as (r2 & Hin & Hrest);
        try assumption.
      + left. reflexivity.
      + right. left. reflexivity.
      + intros f [<- | [<- | []]]; auto.
      + exists r2. split; [|exact Hrest]. unfold minadas.
        apply in_flat_map. exists 2%Z.
        split; [right; left; reflexivity | exact Hin].
    - destruct (corpus_regra_de_dois Y B [Y; X] Hc) as (r2 & Hin & Hrest);
        try assumption.
      + right. left. reflexivity.
      + left. reflexivity.
      + intros f [<- | [<- | []]]; auto.
      + exists r2. split; [|exact Hrest]. unfold minadas.
        apply in_flat_map. exists 2%Z.
        split; [right; left; reflexivity | exact Hin]. }
  destruct Hr2 as (r2 & Hin & Hnd & HXA & HYB).
  assert (Hcob : exists a,
            In a (_filtrar_redundantes minadas)
            /\ contido (RegraDeOuro.condicoes r2) (RegraDeOuro.condicoes a)).
  { rewrite _filtrar_redundantes_ordenadas.
    destruct (filtrar_loop_cobertura
                (Py.sorted
                   (fun a b => (chave_especificidade a
                                <=? chave_especificidade b)%Z) minadas)
                [] r2) as [H | H].
    - apply sorted_In. exact Hin.
    - exists r2. split; [exact H|].
      intros k v Hkv. apply dict_get_de_In; assumption.
    - exact H. }
  destruct Hcob as (a & Ha & Hsub).
  exists a, Y, B. split; [exact Ha|]. split; [exact Hne|].
  split; apply Hsub; assumption.
Qed.

Lemma corpus_aceitas_em_ordem :
  ForallOrdPairs
    (fun a b =>
       ~ contido (RegraDeOuro.condicoes b) (RegraDeOuro.condicoes a)
       /\ (Py.len (RegraDeOuro.condicoes b)
           <= Py.len (RegraDeOuro.condicoes a))%Z)
    (_filtrar_redundantes
       (flat_map
          (fun n_fatores =>
             _testar_combinacoes mercado (BancoAprendizado.registros banco)
               n_fatores)
          [1; 2; 3]%Z)).
Proof.
  rewrite _filtrar_redundantes_ordenadas. apply ForallOrdPairs_and.
  - apply filtrar_loop_irredundante. constructor.
  - apply StronglySorted_ForallOrdPairs. apply filtrar_loop_ordenado.
    rewrite app_nil_l.
    apply Sorted_StronglySorted; [|apply ordenadas_por_especificidade].
    intros a b c Hab Hbc. lia.
Qed.

(** With a second shared factor value, no returned rule is the one-factor
    rule. *)
Lemma corpus_regra_descartada (r : RegraDeOuro.t) :
  outro_fator_partilhado (BancoAprendizado.registros banco) X ->
  In r (descobrir_regras banco) ->
  RegraDeOuro.condicoes r <> [(X, A)].
Proof.
  intros Houtro Hr Hc.
  destruct (corpus_aceita_de_dois Houtro) as (a & Y & B & Ha & Hne & HX & HY).
  rewrite corpus_descobertas in Hr. apply atribuir_ids_In in Hr.
  destruct Hr as (r0 & Hr0 & Hsame). apply sorted_In in Hr0.
  assert (Hc0 : RegraDeOuro.condicoes r0 = [(X, A)]).
  { destruct Hsame as (_ & E & _). rewrite <- E. exact Hc. }
  assert (Hcont : contido (RegraDeOuro.condicoes r0)
                          (RegraDeOuro.condicoes a)).
  { rewrite Hc0. intros k v [E | []]. inversion E; subst. exact HX. }
  assert (Hdois : (2 <= Py.len (RegraDeOuro.condicoes a))%Z).
  { apply (dict_get_dois _ X Y A B HX HY). congruence. }
  destruct (ForallOrdPairs_In corpus_aceitas_em_ordem a r0 Ha Hr0)
    as [E | [(Hn & _) | (_ & Hle)]].
  - subst r0. rewrite Hc0 in Hdois. unfold Py.len in Hdois.
    simpl in Hdois. lia.
  - exact (Hn Hcont).
  - rewrite Hc0 in Hle. unfold Py.len in Hle, Hdois. simpl in Hle. lia.
Qed.

(** ... and a more specific rule that holds the shared condition is
    returned. *)
Lemma corpus_regra_mais_especifica :
  outro_fator_partilhado (BancoAprendizado.registros banco) X ->
  exists r, In r (descobrir_regras banco)
            /\ RegraDeOuro.mercado r = mercado
            /\ In (X, A) (RegraDeOuro.condicoes r)
            /\ (2 <= Py.len (RegraDeOuro.condicoes r))%Z.
Proof.
  intros Houtro.
  destruct (corpus_aceita_de_dois Houtro) as (a & Y & B & Ha & Hne & HX & HY).
  assert (Hin : In a (Py.sorted ordem_final_leb
                        (_filtrar_redundantes
                           (flat_map
                              (fun n_fatores =>
                                 _testar_combinacoes mercado
                                   (BancoAprendizado.registros banco)
                                   n_fatores)
                              [1; 2; 3]%Z))))
    by (apply sorted_In; exact Ha).
  destruct (atribuir_ids_de 1 _ a Hin) as (r & Hr & Hsame).
  exists r. rewrite corpus_descobertas. split; [exact Hr|].
  destruct Hsame as (Hm & Hc & _). rewrite Hm, Hc.
  split; [apply corpus_minadas_mercado;
          apply (_filtrar_redundantes_In _ _ Ha)|].
  split; [apply dict_get_In; exact HX|].
  apply (dict_get_dois _ X Y A B HX HY). congruence.
Qed.

Hypothesis sem_partilha :
  ~ outro_fator_partilhado (BancoAprendizado.registros banco) X.

Lemma corpus_testar_um_exato :
  _testar_combinacoes mercado (BancoAprendizado.registros banco) 1
  = [ RegraDeOuro.make 0 mercado [(X, A)] 10 8
        (inject_Z 8 / inject_Z 10 * 100) "Ouro" "#ffd700" EmptyString ].
Proof.
  unfold _testar_combinacoes. change (Z.to_nat 1) with 1%nat.
  rewrite combinations_um.
  rewrite (flat_map_um _ _ [X]).
  - rewrite corpus_grupo. cbn [flat_map fst snd]. rewrite corpus_regra.
    reflexivity.
  - apply Finite.Injective_map_NoDup; [|apply FATORES_ANALISE_NoDup].
    intros a b E. inversion E. reflexivity.
  - apply in_map_iff. exists X. split; [reflexivity | exact fator].
  - intros y Hy Hne. apply in_map_iff in Hy. destruct Hy as (f & <- & Hf).
    assert (HfX : f <> X) by (intros ->; apply Hne; reflexivity).
    change 1%Z with (Py.len [f]).
    apply (sem_partilha_sem_regra mercado _ X [f] f sem_partilha);
      [left; reflexivity | exact Hf | exact HfX].
Qed.

Lemma corpus_testar_mais (n : nat) :
  (2 <= n)%nat ->
  _testar_combinacoes mercado (BancoAprendizado.registros banco)
    (Z.of_nat n) = [].
Proof.
  intros Hn. unfold _testar_combinacoes. rewrite Nat2Z.id.
  apply flat_map_vazio. intros fatores Hf.
  pose proof (combinations_length _ _ _ Hf) as Hlen.
  pose proof (combinations_NoDup _ _ _ FATORES_ANALISE_NoDup Hf) as Hnd.
  assert (Houtro : exists f, In f fatores /\ f <> X).
  { destruct fatores as [|f1 [|f2 t]]; simpl in Hlen; try lia.
    inversion Hnd as [|? ? Hnot _]; subst.
    destruct (decide (f1 = X)) as [->|N].
    - exists f2. split; [right; left; reflexivity|].
      intros ->. apply Hnot. left. reflexivity.
    - exists f1. split; [left; reflexivity | exact N]. }
  destruct Houtro as (f & Hin & Hne).
  replace (Z.of_nat n) with (Py.len fatores)
    by (unfold Py.len; rewrite Hlen; reflexivity).
  apply (sem_partilha_sem_regra mercado _ X fatores f sem_partilha);
    [exact Hin | | exact Hne].
  apply (combinations_In _ _ _ _ Hf Hin).
Qed.

(** Without a second shared factor value, discovery returns the
    one-factor rule alone. *)
Lemma corpus_regra_unica :
  exists r,
    descobrir_regras banco = [r]
    /\ RegraDeOuro.id r = 1%Z
    /\ mesma_regra r
         (RegraDeOuro.make 0 mercado [(X, A)] 10 8
            (inject_Z 8 / inject_Z 10 * 100) "Ouro" "#ffd700" EmptyString).
Proof.
  rewrite corpus_descobertas.
  cbn [flat_map]. rewrite corpus_testar_um_exato.
  change 2%Z with (Z.of_nat 2). change 3%Z with (Z.of_nat 3).
  rewrite !corpus_testar_mais by lia.
  cbn [app]. eexists. split; [reflexivity|].
  split; [reflexivity|]. repeat split; reflexivity.
Qed.

End Corpus.

End CorpusDeUmFator.

(** ** The discovered rules *)

Section RegrasDescobertas.
Import Aprendizado.
Local Open Scope Q_scope.


End RegrasDescobertas.


